(** * The Alto microcode simulator (palo), its debugger and its UDP transport

    A shallow embedding of [src/simulator/simulator.c], of the breakpoint
    loop of [src/psim.c] and of the framing code of the UDP transport,
    together with the properties of these that the specification states;
    then of the allocation and the ROM loaders of the simulator, of the
    command line and the commands of the debugger and of the ring buffer of
    the UDP receiver, with properties that the code itself shows.

    Conventions.
    - A C unsigned integer of width w is a [Z]; every place where the C code
      truncates is written out with [u8], [u16], [u32], [u64].
    - A C array is a [list Z]; an access outside the array has no defined
      result in C and yields [None] here, so every function that indexes an
      array returns an [option].
    - A C [int] that is only ever tested for truth and assigned a truth
      value is a [bool]. *)

From Stdlib Require Import ZArith Lia Bool List.
From stdpp Require Import base option list.
From stdpp Require Import strings.

Local Open Scope Z_scope.

(** ** Machine integers *)

Definition u8 (x : Z) : Z := x mod 2 ^ 8.
Definition u16 (x : Z) : Z := x mod 2 ^ 16.
Definition u32 (x : Z) : Z := x mod 2 ^ 32.
Definition u64 (x : Z) : Z := x mod 2 ^ 64.

(** [x != 0] of C, for an [int] used as a truth value. *)
Definition truthy (x : Z) : bool := negb (x =? 0).

(** [b ? 1 : 0] *)
Definition b2z (b : bool) : Z := if b then 1 else 0.

(** ** Arrays with checked indices *)

Definition array_get (a : list Z) (i : Z) : option Z :=
  if 0 <=? i then a !! Z.to_nat i else None.

Definition array_set (a : list Z) (i v : Z) : option (list Z) :=
  if (0 <=? i) && (i <? Z.of_nat (length a))
  then Some (<[Z.to_nat i := v]> a) else None.

(** ** What the headers supply

    [microcode/microcode.h] and [simulator/simulator.h] are included by
    [simulator.c] but are not among the sources that are embedded here.
    Their numeric codes, the sizes of the ROMs and of a memory bank, the
    [MICROCODE_NEXT] field extractor and the predecoder are parameters of
    the development; nothing below depends on a particular encoding. *)

(** Modelled from the spec: [enum system_type] is declared in a header
    that is not part of the sources.  [simulator.c] names [ALTO_I] and
    [ALTO_II_3KRAM]; the specification speaks of the Alto I, of the Alto II
    and of its 3K-RAM configuration, so every other Alto II configuration,
    which the simulator treats alike, is [ALTO_II_OTHER]. *)
Inductive system_type : Type :=
  | ALTO_I | ALTO_II_OTHER | ALTO_II_3KRAM.

Definition system_type_eqb (a b : system_type) : bool :=
  match a, b with
  | ALTO_I, ALTO_I | ALTO_II_OTHER, ALTO_II_OTHER
  | ALTO_II_3KRAM, ALTO_II_3KRAM => true
  | _, _ => false
  end.

(** [struct microcode]: the predecoded microinstruction, with the fields
    that [simulator.c] reads. *)
Record microcode : Type := mk_microcode {
  mc_rsel : Z;
  mc_aluf : Z;
  mc_bs : Z;
  mc_f1 : Z;
  mc_f2 : Z;
  mc_load_t : bool;
  mc_load_l : bool;
  mc_load_t_from_alu : bool;
  mc_use_constant : bool;
  mc_bs_use_crom : bool;
  mc_const_addr : Z;
  mc_ram_task : bool;
  mc_task : Z
}.

Class microcode_h : Type := {
  (* tasks *)
  TASK_EMULATOR : Z;
  TASK_DISK_SECTOR : Z;
  TASK_ETHERNET : Z;
  TASK_DISK_WORD : Z;
  (* bus sources *)
  BS_READ_R : Z;
  BS_LOAD_R : Z;
  BS_NONE : Z;
  BS_READ_MD : Z;
  BS_READ_MOUSE : Z;
  BS_READ_DISP : Z;
  BS_RAM_READ_S_LOCATION : Z;
  BS_RAM_LOAD_S_LOCATION : Z;
  BS_ETH_EIDFCT : Z;
  BS_DSK_READ_KSTAT : Z;
  BS_DSK_READ_KDATA : Z;
  (* ALU functions *)
  ALU_BUS : Z;
  ALU_T : Z;
  ALU_BUS_OR_T : Z;
  ALU_BUS_AND_T : Z;
  ALU_BUS_AND_T_WB : Z;
  ALU_BUS_XOR_T : Z;
  ALU_BUS_PLUS_1 : Z;
  ALU_BUS_MINUS_1 : Z;
  ALU_BUS_PLUS_T : Z;
  ALU_BUS_MINUS_T : Z;
  ALU_BUS_MINUS_T_MINUS_1 : Z;
  ALU_BUS_PLUS_T_PLUS_1 : Z;
  ALU_BUS_PLUS_SKIP : Z;
  ALU_BUS_AND_NOT_T : Z;
  (* F1 functions *)
  F1_NONE : Z;
  F1_CONSTANT : Z;
  F1_LLSH1 : Z;
  F1_LRSH1 : Z;
  F1_LLCY8 : Z;
  F1_LOAD_MAR : Z;
  F1_TASK : Z;
  F1_BLOCK : Z;
  F1_SPECIFIC_THRESH : Z;
  F1_RAM_SWMODE : Z;
  F1_RAM_WRTRAM : Z;
  F1_RAM_RDRAM : Z;
  F1_RAM_LOAD_SRB : Z;
  F1_EMU_SWMODE : Z;
  F1_EMU_LOAD_RMR : Z;
  F1_EMU_LOAD_ESRB : Z;
  F1_EMU_RSNF : Z;
  F1_EMU_STARTF : Z;
  F1_ETH_EILFCT : Z;
  F1_ETH_EPFCT : Z;
  (* F2 functions *)
  F2_NONE : Z;
  F2_CONSTANT : Z;
  F2_BUSEQ0 : Z;
  F2_SHLT0 : Z;
  F2_SHEQ0 : Z;
  F2_BUS : Z;
  F2_ALUCY : Z;
  F2_STORE_MD : Z;
  F2_EMU_MAGIC : Z;
  F2_EMU_ACDEST : Z;
  F2_EMU_BUSODD : Z;
  F2_EMU_LOAD_DNS : Z;
  F2_EMU_LOAD_IR : Z;
  F2_EMU_IDISP : Z;
  F2_EMU_ACSOURCE : Z;
  (* sizes *)
  CONSTANT_SIZE : Z;
  MICROCODE_SIZE : Z;
  MEMORY_SIZE : Z;
  (* the NEXT field of a raw microinstruction *)
  MICROCODE_NEXT : Z -> Z;
  (* the predecoder: system type, address, raw microinstruction, task *)
  microcode_predecode : system_type -> Z -> Z -> Z -> microcode
}.

(** Modelled from the spec: [TASK_NUM_TASKS] comes from the missing
    [microcode.h]; the specification fixes sixteen micro-tasks, numbered
    0..15, with sixteen per-task program counters and bank registers. *)
Definition TASK_NUM_TASKS : Z := 16.

(** Constants of [simulator.c]. *)
Definition NUM_R_REGISTERS : Z := 32.
Definition NUM_S_REGISTERS : Z := 8 * 32.
Definition MPC_BANK_MASK : Z := 0xC00.
Definition MPC_ADDR_MASK : Z := 0x3FF.
Definition NUM_MICROCODE_BANKS : Z := 4.
Definition NUM_BANKS : Z := 4.
Definition NUM_BANK_SLOTS : Z := TASK_NUM_TASKS.
Definition MEMORY_TOP : Z := 0xFDFF.
Definition XM_BANK_START : Z := 0xFFE0.

(** ** Peripherals seen by the data path *)

(** [struct mouse] of [simulator/mouse.h]. *)
Record mouse : Type := mk_mouse {
  mouse_buttons : Z;
  mouse_bits : Z
}.

(** Modelled from the spec: [mouse_poll_bits] is declared in [mouse.h] but
    its body is not part of the sources; the specification has the mouse
    bus source return [mouse.bits & 0xFFF0], so polling yields the [bits]
    field and leaves the mouse as it is. *)
Definition mouse_poll_bits (mous : mouse) : Z := mouse_bits mous.

(** The part of [struct ethernet] that the bus reads. *)
Record ethernet : Type := mk_ethernet {
  ether_address : Z
}.

(** ** The simulator state

    [struct simulator] is declared in [simulator.h].  Its fields are those
    that [simulator.c] and [psim.c] use, with the widths the code gives to
    the values it moves through them: 16 bits for the registers, the bus,
    the memory words, the pending mask and [mem_cycle], 32 bits for a
    microinstruction, 8 bits for a task and for an S-register bank.  The
    disk, display and keyboard controllers are left out: no function
    embedded here reads or writes them. *)

#[projections(primitive)]
Record simulator : Type := mk_simulator {
  sim_sys_type : system_type;
  sim_error : bool;
  sim_r : list Z;
  sim_s : list Z;
  sim_consts : list Z;
  sim_microcode : list Z;
  sim_task_mpc : list Z;
  sim_mem : list Z;
  sim_xm_banks : list Z;
  sim_sr_banks : list Z;
  sim_t : Z;
  sim_l : Z;
  sim_m : Z;
  sim_mar : Z;
  sim_ir : Z;
  sim_mir : Z;
  sim_mpc : Z;
  sim_ctask : Z;
  sim_ntask : Z;
  sim_task_switch : bool;
  sim_pending : Z;
  sim_aluC0 : bool;
  sim_skip : bool;
  sim_carry : Z;
  sim_dns : bool;
  sim_rmr : Z;
  sim_mem_cycle : Z;
  sim_mem_task : Z;
  sim_mem_low : Z;
  sim_mem_high : Z;
  sim_mem_extended : bool;
  sim_mem_which : Z;
  sim_cycle : Z;
  sim_next_cycle : Z;
  sim_ether : ethernet;
  sim_mous : mouse
}.

Definition set_error (sim : simulator) (v : bool) : simulator :=
  {| sim_sys_type := sim_sys_type sim; sim_error := v; sim_r := sim_r sim;
     sim_s := sim_s sim; sim_consts := sim_consts sim;
     sim_microcode := sim_microcode sim; sim_task_mpc := sim_task_mpc sim;
     sim_mem := sim_mem sim; sim_xm_banks := sim_xm_banks sim;
     sim_sr_banks := sim_sr_banks sim; sim_t := sim_t sim;
     sim_l := sim_l sim; sim_m := sim_m sim; sim_mar := sim_mar sim;
     sim_ir := sim_ir sim; sim_mir := sim_mir sim; sim_mpc := sim_mpc sim;
     sim_ctask := sim_ctask sim; sim_ntask := sim_ntask sim;
     sim_task_switch := sim_task_switch sim; sim_pending := sim_pending sim;
     sim_aluC0 := sim_aluC0 sim; sim_skip := sim_skip sim;
     sim_carry := sim_carry sim; sim_dns := sim_dns sim;
     sim_rmr := sim_rmr sim; sim_mem_cycle := sim_mem_cycle sim;
     sim_mem_task := sim_mem_task sim; sim_mem_low := sim_mem_low sim;
     sim_mem_high := sim_mem_high sim;
     sim_mem_extended := sim_mem_extended sim;
     sim_mem_which := sim_mem_which sim; sim_cycle := sim_cycle sim;
     sim_next_cycle := sim_next_cycle sim; sim_ether := sim_ether sim;
     sim_mous := sim_mous sim |}.

Definition set_r (sim : simulator) (v : list Z) : simulator :=
  {| sim_sys_type := sim_sys_type sim; sim_error := sim_error sim;
     sim_r := v; sim_s := sim_s sim; sim_consts := sim_consts sim;
     sim_microcode := sim_microcode sim; sim_task_mpc := sim_task_mpc sim;
     sim_mem := sim_mem sim; sim_xm_banks := sim_xm_banks sim;
     sim_sr_banks := sim_sr_banks sim; sim_t := sim_t sim;
     sim_l := sim_l sim; sim_m := sim_m sim; sim_mar := sim_mar sim;
     sim_ir := sim_ir sim; sim_mir := sim_mir sim; sim_mpc := sim_mpc sim;
     sim_ctask := sim_ctask sim; sim_ntask := sim_ntask sim;
     sim_task_switch := sim_task_switch sim; sim_pending := sim_pending sim;
     sim_aluC0 := sim_aluC0 sim; sim_skip := sim_skip sim;
     sim_carry := sim_carry sim; sim_dns := sim_dns sim;
     sim_rmr := sim_rmr sim; sim_mem_cycle := sim_mem_cycle sim;
     sim_mem_task := sim_mem_task sim; sim_mem_low := sim_mem_low sim;
     sim_mem_high := sim_mem_high sim;
     sim_mem_extended := sim_mem_extended sim;
     sim_mem_which := sim_mem_which sim; sim_cycle := sim_cycle sim;
     sim_next_cycle := sim_next_cycle sim; sim_ether := sim_ether sim;
     sim_mous := sim_mous sim |}.

Definition set_s (sim : simulator) (v : list Z) : simulator :=
  {| sim_sys_type := sim_sys_type sim; sim_error := sim_error sim;
     sim_r := sim_r sim; sim_s := v; sim_consts := sim_consts sim;
     sim_microcode := sim_microcode sim; sim_task_mpc := sim_task_mpc sim;
     sim_mem := sim_mem sim; sim_xm_banks := sim_xm_banks sim;
     sim_sr_banks := sim_sr_banks sim; sim_t := sim_t sim;
     sim_l := sim_l sim; sim_m := sim_m sim; sim_mar := sim_mar sim;
     sim_ir := sim_ir sim; sim_mir := sim_mir sim; sim_mpc := sim_mpc sim;
     sim_ctask := sim_ctask sim; sim_ntask := sim_ntask sim;
     sim_task_switch := sim_task_switch sim; sim_pending := sim_pending sim;
     sim_aluC0 := sim_aluC0 sim; sim_skip := sim_skip sim;
     sim_carry := sim_carry sim; sim_dns := sim_dns sim;
     sim_rmr := sim_rmr sim; sim_mem_cycle := sim_mem_cycle sim;
     sim_mem_task := sim_mem_task sim; sim_mem_low := sim_mem_low sim;
     sim_mem_high := sim_mem_high sim;
     sim_mem_extended := sim_mem_extended sim;
     sim_mem_which := sim_mem_which sim; sim_cycle := sim_cycle sim;
     sim_next_cycle := sim_next_cycle sim; sim_ether := sim_ether sim;
     sim_mous := sim_mous sim |}.

Definition set_task_mpc (sim : simulator) (v : list Z) : simulator :=
  {| sim_sys_type := sim_sys_type sim; sim_error := sim_error sim;
     sim_r := sim_r sim; sim_s := sim_s sim; sim_consts := sim_consts sim;
     sim_microcode := sim_microcode sim; sim_task_mpc := v;
     sim_mem := sim_mem sim; sim_xm_banks := sim_xm_banks sim;
     sim_sr_banks := sim_sr_banks sim; sim_t := sim_t sim;
     sim_l := sim_l sim; sim_m := sim_m sim; sim_mar := sim_mar sim;
     sim_ir := sim_ir sim; sim_mir := sim_mir sim; sim_mpc := sim_mpc sim;
     sim_ctask := sim_ctask sim; sim_ntask := sim_ntask sim;
     sim_task_switch := sim_task_switch sim; sim_pending := sim_pending sim;
     sim_aluC0 := sim_aluC0 sim; sim_skip := sim_skip sim;
     sim_carry := sim_carry sim; sim_dns := sim_dns sim;
     sim_rmr := sim_rmr sim; sim_mem_cycle := sim_mem_cycle sim;
     sim_mem_task := sim_mem_task sim; sim_mem_low := sim_mem_low sim;
     sim_mem_high := sim_mem_high sim;
     sim_mem_extended := sim_mem_extended sim;
     sim_mem_which := sim_mem_which sim; sim_cycle := sim_cycle sim;
     sim_next_cycle := sim_next_cycle sim; sim_ether := sim_ether sim;
     sim_mous := sim_mous sim |}.

Definition set_mem (sim : simulator) (v : list Z) : simulator :=
  {| sim_sys_type := sim_sys_type sim; sim_error := sim_error sim;
     sim_r := sim_r sim; sim_s := sim_s sim; sim_consts := sim_consts sim;
     sim_microcode := sim_microcode sim; sim_task_mpc := sim_task_mpc sim;
     sim_mem := v; sim_xm_banks := sim_xm_banks sim;
     sim_sr_banks := sim_sr_banks sim; sim_t := sim_t sim;
     sim_l := sim_l sim; sim_m := sim_m sim; sim_mar := sim_mar sim;
     sim_ir := sim_ir sim; sim_mir := sim_mir sim; sim_mpc := sim_mpc sim;
     sim_ctask := sim_ctask sim; sim_ntask := sim_ntask sim;
     sim_task_switch := sim_task_switch sim; sim_pending := sim_pending sim;
     sim_aluC0 := sim_aluC0 sim; sim_skip := sim_skip sim;
     sim_carry := sim_carry sim; sim_dns := sim_dns sim;
     sim_rmr := sim_rmr sim; sim_mem_cycle := sim_mem_cycle sim;
     sim_mem_task := sim_mem_task sim; sim_mem_low := sim_mem_low sim;
     sim_mem_high := sim_mem_high sim;
     sim_mem_extended := sim_mem_extended sim;
     sim_mem_which := sim_mem_which sim; sim_cycle := sim_cycle sim;
     sim_next_cycle := sim_next_cycle sim; sim_ether := sim_ether sim;
     sim_mous := sim_mous sim |}.

Definition set_xm_banks (sim : simulator) (v : list Z) : simulator :=
  {| sim_sys_type := sim_sys_type sim; sim_error := sim_error sim;
     sim_r := sim_r sim; sim_s := sim_s sim; sim_consts := sim_consts sim;
     sim_microcode := sim_microcode sim; sim_task_mpc := sim_task_mpc sim;
     sim_mem := sim_mem sim; sim_xm_banks := v;
     sim_sr_banks := sim_sr_banks sim; sim_t := sim_t sim;
     sim_l := sim_l sim; sim_m := sim_m sim; sim_mar := sim_mar sim;
     sim_ir := sim_ir sim; sim_mir := sim_mir sim; sim_mpc := sim_mpc sim;
     sim_ctask := sim_ctask sim; sim_ntask := sim_ntask sim;
     sim_task_switch := sim_task_switch sim; sim_pending := sim_pending sim;
     sim_aluC0 := sim_aluC0 sim; sim_skip := sim_skip sim;
     sim_carry := sim_carry sim; sim_dns := sim_dns sim;
     sim_rmr := sim_rmr sim; sim_mem_cycle := sim_mem_cycle sim;
     sim_mem_task := sim_mem_task sim; sim_mem_low := sim_mem_low sim;
     sim_mem_high := sim_mem_high sim;
     sim_mem_extended := sim_mem_extended sim;
     sim_mem_which := sim_mem_which sim; sim_cycle := sim_cycle sim;
     sim_next_cycle := sim_next_cycle sim; sim_ether := sim_ether sim;
     sim_mous := sim_mous sim |}.

Definition set_sr_banks (sim : simulator) (v : list Z) : simulator :=
  {| sim_sys_type := sim_sys_type sim; sim_error := sim_error sim;
     sim_r := sim_r sim; sim_s := sim_s sim; sim_consts := sim_consts sim;
     sim_microcode := sim_microcode sim; sim_task_mpc := sim_task_mpc sim;
     sim_mem := sim_mem sim; sim_xm_banks := sim_xm_banks sim;
     sim_sr_banks := v; sim_t := sim_t sim; sim_l := sim_l sim;
     sim_m := sim_m sim; sim_mar := sim_mar sim; sim_ir := sim_ir sim;
     sim_mir := sim_mir sim; sim_mpc := sim_mpc sim;
     sim_ctask := sim_ctask sim; sim_ntask := sim_ntask sim;
     sim_task_switch := sim_task_switch sim; sim_pending := sim_pending sim;
     sim_aluC0 := sim_aluC0 sim; sim_skip := sim_skip sim;
     sim_carry := sim_carry sim; sim_dns := sim_dns sim;
     sim_rmr := sim_rmr sim; sim_mem_cycle := sim_mem_cycle sim;
     sim_mem_task := sim_mem_task sim; sim_mem_low := sim_mem_low sim;
     sim_mem_high := sim_mem_high sim;
     sim_mem_extended := sim_mem_extended sim;
     sim_mem_which := sim_mem_which sim; sim_cycle := sim_cycle sim;
     sim_next_cycle := sim_next_cycle sim; sim_ether := sim_ether sim;
     sim_mous := sim_mous sim |}.

Definition set_t (sim : simulator) (v : Z) : simulator :=
  {| sim_sys_type := sim_sys_type sim; sim_error := sim_error sim;
     sim_r := sim_r sim; sim_s := sim_s sim; sim_consts := sim_consts sim;
     sim_microcode := sim_microcode sim; sim_task_mpc := sim_task_mpc sim;
     sim_mem := sim_mem sim; sim_xm_banks := sim_xm_banks sim;
     sim_sr_banks := sim_sr_banks sim; sim_t := v; sim_l := sim_l sim;
     sim_m := sim_m sim; sim_mar := sim_mar sim; sim_ir := sim_ir sim;
     sim_mir := sim_mir sim; sim_mpc := sim_mpc sim;
     sim_ctask := sim_ctask sim; sim_ntask := sim_ntask sim;
     sim_task_switch := sim_task_switch sim; sim_pending := sim_pending sim;
     sim_aluC0 := sim_aluC0 sim; sim_skip := sim_skip sim;
     sim_carry := sim_carry sim; sim_dns := sim_dns sim;
     sim_rmr := sim_rmr sim; sim_mem_cycle := sim_mem_cycle sim;
     sim_mem_task := sim_mem_task sim; sim_mem_low := sim_mem_low sim;
     sim_mem_high := sim_mem_high sim;
     sim_mem_extended := sim_mem_extended sim;
     sim_mem_which := sim_mem_which sim; sim_cycle := sim_cycle sim;
     sim_next_cycle := sim_next_cycle sim; sim_ether := sim_ether sim;
     sim_mous := sim_mous sim |}.

Definition set_l (sim : simulator) (v : Z) : simulator :=
  {| sim_sys_type := sim_sys_type sim; sim_error := sim_error sim;
     sim_r := sim_r sim; sim_s := sim_s sim; sim_consts := sim_consts sim;
     sim_microcode := sim_microcode sim; sim_task_mpc := sim_task_mpc sim;
     sim_mem := sim_mem sim; sim_xm_banks := sim_xm_banks sim;
     sim_sr_banks := sim_sr_banks sim; sim_t := sim_t sim; sim_l := v;
     sim_m := sim_m sim; sim_mar := sim_mar sim; sim_ir := sim_ir sim;
     sim_mir := sim_mir sim; sim_mpc := sim_mpc sim;
     sim_ctask := sim_ctask sim; sim_ntask := sim_ntask sim;
     sim_task_switch := sim_task_switch sim; sim_pending := sim_pending sim;
     sim_aluC0 := sim_aluC0 sim; sim_skip := sim_skip sim;
     sim_carry := sim_carry sim; sim_dns := sim_dns sim;
     sim_rmr := sim_rmr sim; sim_mem_cycle := sim_mem_cycle sim;
     sim_mem_task := sim_mem_task sim; sim_mem_low := sim_mem_low sim;
     sim_mem_high := sim_mem_high sim;
     sim_mem_extended := sim_mem_extended sim;
     sim_mem_which := sim_mem_which sim; sim_cycle := sim_cycle sim;
     sim_next_cycle := sim_next_cycle sim; sim_ether := sim_ether sim;
     sim_mous := sim_mous sim |}.

Definition set_m (sim : simulator) (v : Z) : simulator :=
  {| sim_sys_type := sim_sys_type sim; sim_error := sim_error sim;
     sim_r := sim_r sim; sim_s := sim_s sim; sim_consts := sim_consts sim;
     sim_microcode := sim_microcode sim; sim_task_mpc := sim_task_mpc sim;
     sim_mem := sim_mem sim; sim_xm_banks := sim_xm_banks sim;
     sim_sr_banks := sim_sr_banks sim; sim_t := sim_t sim;
     sim_l := sim_l sim; sim_m := v; sim_mar := sim_mar sim;
     sim_ir := sim_ir sim; sim_mir := sim_mir sim; sim_mpc := sim_mpc sim;
     sim_ctask := sim_ctask sim; sim_ntask := sim_ntask sim;
     sim_task_switch := sim_task_switch sim; sim_pending := sim_pending sim;
     sim_aluC0 := sim_aluC0 sim; sim_skip := sim_skip sim;
     sim_carry := sim_carry sim; sim_dns := sim_dns sim;
     sim_rmr := sim_rmr sim; sim_mem_cycle := sim_mem_cycle sim;
     sim_mem_task := sim_mem_task sim; sim_mem_low := sim_mem_low sim;
     sim_mem_high := sim_mem_high sim;
     sim_mem_extended := sim_mem_extended sim;
     sim_mem_which := sim_mem_which sim; sim_cycle := sim_cycle sim;
     sim_next_cycle := sim_next_cycle sim; sim_ether := sim_ether sim;
     sim_mous := sim_mous sim |}.

Definition set_mar (sim : simulator) (v : Z) : simulator :=
  {| sim_sys_type := sim_sys_type sim; sim_error := sim_error sim;
     sim_r := sim_r sim; sim_s := sim_s sim; sim_consts := sim_consts sim;
     sim_microcode := sim_microcode sim; sim_task_mpc := sim_task_mpc sim;
     sim_mem := sim_mem sim; sim_xm_banks := sim_xm_banks sim;
     sim_sr_banks := sim_sr_banks sim; sim_t := sim_t sim;
     sim_l := sim_l sim; sim_m := sim_m sim; sim_mar := v;
     sim_ir := sim_ir sim; sim_mir := sim_mir sim; sim_mpc := sim_mpc sim;
     sim_ctask := sim_ctask sim; sim_ntask := sim_ntask sim;
     sim_task_switch := sim_task_switch sim; sim_pending := sim_pending sim;
     sim_aluC0 := sim_aluC0 sim; sim_skip := sim_skip sim;
     sim_carry := sim_carry sim; sim_dns := sim_dns sim;
     sim_rmr := sim_rmr sim; sim_mem_cycle := sim_mem_cycle sim;
     sim_mem_task := sim_mem_task sim; sim_mem_low := sim_mem_low sim;
     sim_mem_high := sim_mem_high sim;
     sim_mem_extended := sim_mem_extended sim;
     sim_mem_which := sim_mem_which sim; sim_cycle := sim_cycle sim;
     sim_next_cycle := sim_next_cycle sim; sim_ether := sim_ether sim;
     sim_mous := sim_mous sim |}.

Definition set_ir (sim : simulator) (v : Z) : simulator :=
  {| sim_sys_type := sim_sys_type sim; sim_error := sim_error sim;
     sim_r := sim_r sim; sim_s := sim_s sim; sim_consts := sim_consts sim;
     sim_microcode := sim_microcode sim; sim_task_mpc := sim_task_mpc sim;
     sim_mem := sim_mem sim; sim_xm_banks := sim_xm_banks sim;
     sim_sr_banks := sim_sr_banks sim; sim_t := sim_t sim;
     sim_l := sim_l sim; sim_m := sim_m sim; sim_mar := sim_mar sim;
     sim_ir := v; sim_mir := sim_mir sim; sim_mpc := sim_mpc sim;
     sim_ctask := sim_ctask sim; sim_ntask := sim_ntask sim;
     sim_task_switch := sim_task_switch sim; sim_pending := sim_pending sim;
     sim_aluC0 := sim_aluC0 sim; sim_skip := sim_skip sim;
     sim_carry := sim_carry sim; sim_dns := sim_dns sim;
     sim_rmr := sim_rmr sim; sim_mem_cycle := sim_mem_cycle sim;
     sim_mem_task := sim_mem_task sim; sim_mem_low := sim_mem_low sim;
     sim_mem_high := sim_mem_high sim;
     sim_mem_extended := sim_mem_extended sim;
     sim_mem_which := sim_mem_which sim; sim_cycle := sim_cycle sim;
     sim_next_cycle := sim_next_cycle sim; sim_ether := sim_ether sim;
     sim_mous := sim_mous sim |}.

Definition set_mir (sim : simulator) (v : Z) : simulator :=
  {| sim_sys_type := sim_sys_type sim; sim_error := sim_error sim;
     sim_r := sim_r sim; sim_s := sim_s sim; sim_consts := sim_consts sim;
     sim_microcode := sim_microcode sim; sim_task_mpc := sim_task_mpc sim;
     sim_mem := sim_mem sim; sim_xm_banks := sim_xm_banks sim;
     sim_sr_banks := sim_sr_banks sim; sim_t := sim_t sim;
     sim_l := sim_l sim; sim_m := sim_m sim; sim_mar := sim_mar sim;
     sim_ir := sim_ir sim; sim_mir := v; sim_mpc := sim_mpc sim;
     sim_ctask := sim_ctask sim; sim_ntask := sim_ntask sim;
     sim_task_switch := sim_task_switch sim; sim_pending := sim_pending sim;
     sim_aluC0 := sim_aluC0 sim; sim_skip := sim_skip sim;
     sim_carry := sim_carry sim; sim_dns := sim_dns sim;
     sim_rmr := sim_rmr sim; sim_mem_cycle := sim_mem_cycle sim;
     sim_mem_task := sim_mem_task sim; sim_mem_low := sim_mem_low sim;
     sim_mem_high := sim_mem_high sim;
     sim_mem_extended := sim_mem_extended sim;
     sim_mem_which := sim_mem_which sim; sim_cycle := sim_cycle sim;
     sim_next_cycle := sim_next_cycle sim; sim_ether := sim_ether sim;
     sim_mous := sim_mous sim |}.

Definition set_mpc (sim : simulator) (v : Z) : simulator :=
  {| sim_sys_type := sim_sys_type sim; sim_error := sim_error sim;
     sim_r := sim_r sim; sim_s := sim_s sim; sim_consts := sim_consts sim;
     sim_microcode := sim_microcode sim; sim_task_mpc := sim_task_mpc sim;
     sim_mem := sim_mem sim; sim_xm_banks := sim_xm_banks sim;
     sim_sr_banks := sim_sr_banks sim; sim_t := sim_t sim;
     sim_l := sim_l sim; sim_m := sim_m sim; sim_mar := sim_mar sim;
     sim_ir := sim_ir sim; sim_mir := sim_mir sim; sim_mpc := v;
     sim_ctask := sim_ctask sim; sim_ntask := sim_ntask sim;
     sim_task_switch := sim_task_switch sim; sim_pending := sim_pending sim;
     sim_aluC0 := sim_aluC0 sim; sim_skip := sim_skip sim;
     sim_carry := sim_carry sim; sim_dns := sim_dns sim;
     sim_rmr := sim_rmr sim; sim_mem_cycle := sim_mem_cycle sim;
     sim_mem_task := sim_mem_task sim; sim_mem_low := sim_mem_low sim;
     sim_mem_high := sim_mem_high sim;
     sim_mem_extended := sim_mem_extended sim;
     sim_mem_which := sim_mem_which sim; sim_cycle := sim_cycle sim;
     sim_next_cycle := sim_next_cycle sim; sim_ether := sim_ether sim;
     sim_mous := sim_mous sim |}.

Definition set_ctask (sim : simulator) (v : Z) : simulator :=
  {| sim_sys_type := sim_sys_type sim; sim_error := sim_error sim;
     sim_r := sim_r sim; sim_s := sim_s sim; sim_consts := sim_consts sim;
     sim_microcode := sim_microcode sim; sim_task_mpc := sim_task_mpc sim;
     sim_mem := sim_mem sim; sim_xm_banks := sim_xm_banks sim;
     sim_sr_banks := sim_sr_banks sim; sim_t := sim_t sim;
     sim_l := sim_l sim; sim_m := sim_m sim; sim_mar := sim_mar sim;
     sim_ir := sim_ir sim; sim_mir := sim_mir sim; sim_mpc := sim_mpc sim;
     sim_ctask := v; sim_ntask := sim_ntask sim;
     sim_task_switch := sim_task_switch sim; sim_pending := sim_pending sim;
     sim_aluC0 := sim_aluC0 sim; sim_skip := sim_skip sim;
     sim_carry := sim_carry sim; sim_dns := sim_dns sim;
     sim_rmr := sim_rmr sim; sim_mem_cycle := sim_mem_cycle sim;
     sim_mem_task := sim_mem_task sim; sim_mem_low := sim_mem_low sim;
     sim_mem_high := sim_mem_high sim;
     sim_mem_extended := sim_mem_extended sim;
     sim_mem_which := sim_mem_which sim; sim_cycle := sim_cycle sim;
     sim_next_cycle := sim_next_cycle sim; sim_ether := sim_ether sim;
     sim_mous := sim_mous sim |}.

Definition set_ntask (sim : simulator) (v : Z) : simulator :=
  {| sim_sys_type := sim_sys_type sim; sim_error := sim_error sim;
     sim_r := sim_r sim; sim_s := sim_s sim; sim_consts := sim_consts sim;
     sim_microcode := sim_microcode sim; sim_task_mpc := sim_task_mpc sim;
     sim_mem := sim_mem sim; sim_xm_banks := sim_xm_banks sim;
     sim_sr_banks := sim_sr_banks sim; sim_t := sim_t sim;
     sim_l := sim_l sim; sim_m := sim_m sim; sim_mar := sim_mar sim;
     sim_ir := sim_ir sim; sim_mir := sim_mir sim; sim_mpc := sim_mpc sim;
     sim_ctask := sim_ctask sim; sim_ntask := v;
     sim_task_switch := sim_task_switch sim; sim_pending := sim_pending sim;
     sim_aluC0 := sim_aluC0 sim; sim_skip := sim_skip sim;
     sim_carry := sim_carry sim; sim_dns := sim_dns sim;
     sim_rmr := sim_rmr sim; sim_mem_cycle := sim_mem_cycle sim;
     sim_mem_task := sim_mem_task sim; sim_mem_low := sim_mem_low sim;
     sim_mem_high := sim_mem_high sim;
     sim_mem_extended := sim_mem_extended sim;
     sim_mem_which := sim_mem_which sim; sim_cycle := sim_cycle sim;
     sim_next_cycle := sim_next_cycle sim; sim_ether := sim_ether sim;
     sim_mous := sim_mous sim |}.

Definition set_pending (sim : simulator) (v : Z) : simulator :=
  {| sim_sys_type := sim_sys_type sim; sim_error := sim_error sim;
     sim_r := sim_r sim; sim_s := sim_s sim; sim_consts := sim_consts sim;
     sim_microcode := sim_microcode sim; sim_task_mpc := sim_task_mpc sim;
     sim_mem := sim_mem sim; sim_xm_banks := sim_xm_banks sim;
     sim_sr_banks := sim_sr_banks sim; sim_t := sim_t sim;
     sim_l := sim_l sim; sim_m := sim_m sim; sim_mar := sim_mar sim;
     sim_ir := sim_ir sim; sim_mir := sim_mir sim; sim_mpc := sim_mpc sim;
     sim_ctask := sim_ctask sim; sim_ntask := sim_ntask sim;
     sim_task_switch := sim_task_switch sim; sim_pending := v;
     sim_aluC0 := sim_aluC0 sim; sim_skip := sim_skip sim;
     sim_carry := sim_carry sim; sim_dns := sim_dns sim;
     sim_rmr := sim_rmr sim; sim_mem_cycle := sim_mem_cycle sim;
     sim_mem_task := sim_mem_task sim; sim_mem_low := sim_mem_low sim;
     sim_mem_high := sim_mem_high sim;
     sim_mem_extended := sim_mem_extended sim;
     sim_mem_which := sim_mem_which sim; sim_cycle := sim_cycle sim;
     sim_next_cycle := sim_next_cycle sim; sim_ether := sim_ether sim;
     sim_mous := sim_mous sim |}.

Definition set_aluC0 (sim : simulator) (v : bool) : simulator :=
  {| sim_sys_type := sim_sys_type sim; sim_error := sim_error sim;
     sim_r := sim_r sim; sim_s := sim_s sim; sim_consts := sim_consts sim;
     sim_microcode := sim_microcode sim; sim_task_mpc := sim_task_mpc sim;
     sim_mem := sim_mem sim; sim_xm_banks := sim_xm_banks sim;
     sim_sr_banks := sim_sr_banks sim; sim_t := sim_t sim;
     sim_l := sim_l sim; sim_m := sim_m sim; sim_mar := sim_mar sim;
     sim_ir := sim_ir sim; sim_mir := sim_mir sim; sim_mpc := sim_mpc sim;
     sim_ctask := sim_ctask sim; sim_ntask := sim_ntask sim;
     sim_task_switch := sim_task_switch sim; sim_pending := sim_pending sim;
     sim_aluC0 := v; sim_skip := sim_skip sim; sim_carry := sim_carry sim;
     sim_dns := sim_dns sim; sim_rmr := sim_rmr sim;
     sim_mem_cycle := sim_mem_cycle sim; sim_mem_task := sim_mem_task sim;
     sim_mem_low := sim_mem_low sim; sim_mem_high := sim_mem_high sim;
     sim_mem_extended := sim_mem_extended sim;
     sim_mem_which := sim_mem_which sim; sim_cycle := sim_cycle sim;
     sim_next_cycle := sim_next_cycle sim; sim_ether := sim_ether sim;
     sim_mous := sim_mous sim |}.

Definition set_skip (sim : simulator) (v : bool) : simulator :=
  {| sim_sys_type := sim_sys_type sim; sim_error := sim_error sim;
     sim_r := sim_r sim; sim_s := sim_s sim; sim_consts := sim_consts sim;
     sim_microcode := sim_microcode sim; sim_task_mpc := sim_task_mpc sim;
     sim_mem := sim_mem sim; sim_xm_banks := sim_xm_banks sim;
     sim_sr_banks := sim_sr_banks sim; sim_t := sim_t sim;
     sim_l := sim_l sim; sim_m := sim_m sim; sim_mar := sim_mar sim;
     sim_ir := sim_ir sim; sim_mir := sim_mir sim; sim_mpc := sim_mpc sim;
     sim_ctask := sim_ctask sim; sim_ntask := sim_ntask sim;
     sim_task_switch := sim_task_switch sim; sim_pending := sim_pending sim;
     sim_aluC0 := sim_aluC0 sim; sim_skip := v; sim_carry := sim_carry sim;
     sim_dns := sim_dns sim; sim_rmr := sim_rmr sim;
     sim_mem_cycle := sim_mem_cycle sim; sim_mem_task := sim_mem_task sim;
     sim_mem_low := sim_mem_low sim; sim_mem_high := sim_mem_high sim;
     sim_mem_extended := sim_mem_extended sim;
     sim_mem_which := sim_mem_which sim; sim_cycle := sim_cycle sim;
     sim_next_cycle := sim_next_cycle sim; sim_ether := sim_ether sim;
     sim_mous := sim_mous sim |}.

Definition set_rmr (sim : simulator) (v : Z) : simulator :=
  {| sim_sys_type := sim_sys_type sim; sim_error := sim_error sim;
     sim_r := sim_r sim; sim_s := sim_s sim; sim_consts := sim_consts sim;
     sim_microcode := sim_microcode sim; sim_task_mpc := sim_task_mpc sim;
     sim_mem := sim_mem sim; sim_xm_banks := sim_xm_banks sim;
     sim_sr_banks := sim_sr_banks sim; sim_t := sim_t sim;
     sim_l := sim_l sim; sim_m := sim_m sim; sim_mar := sim_mar sim;
     sim_ir := sim_ir sim; sim_mir := sim_mir sim; sim_mpc := sim_mpc sim;
     sim_ctask := sim_ctask sim; sim_ntask := sim_ntask sim;
     sim_task_switch := sim_task_switch sim; sim_pending := sim_pending sim;
     sim_aluC0 := sim_aluC0 sim; sim_skip := sim_skip sim;
     sim_carry := sim_carry sim; sim_dns := sim_dns sim; sim_rmr := v;
     sim_mem_cycle := sim_mem_cycle sim; sim_mem_task := sim_mem_task sim;
     sim_mem_low := sim_mem_low sim; sim_mem_high := sim_mem_high sim;
     sim_mem_extended := sim_mem_extended sim;
     sim_mem_which := sim_mem_which sim; sim_cycle := sim_cycle sim;
     sim_next_cycle := sim_next_cycle sim; sim_ether := sim_ether sim;
     sim_mous := sim_mous sim |}.

Definition set_mem_cycle (sim : simulator) (v : Z) : simulator :=
  {| sim_sys_type := sim_sys_type sim; sim_error := sim_error sim;
     sim_r := sim_r sim; sim_s := sim_s sim; sim_consts := sim_consts sim;
     sim_microcode := sim_microcode sim; sim_task_mpc := sim_task_mpc sim;
     sim_mem := sim_mem sim; sim_xm_banks := sim_xm_banks sim;
     sim_sr_banks := sim_sr_banks sim; sim_t := sim_t sim;
     sim_l := sim_l sim; sim_m := sim_m sim; sim_mar := sim_mar sim;
     sim_ir := sim_ir sim; sim_mir := sim_mir sim; sim_mpc := sim_mpc sim;
     sim_ctask := sim_ctask sim; sim_ntask := sim_ntask sim;
     sim_task_switch := sim_task_switch sim; sim_pending := sim_pending sim;
     sim_aluC0 := sim_aluC0 sim; sim_skip := sim_skip sim;
     sim_carry := sim_carry sim; sim_dns := sim_dns sim;
     sim_rmr := sim_rmr sim; sim_mem_cycle := v;
     sim_mem_task := sim_mem_task sim; sim_mem_low := sim_mem_low sim;
     sim_mem_high := sim_mem_high sim;
     sim_mem_extended := sim_mem_extended sim;
     sim_mem_which := sim_mem_which sim; sim_cycle := sim_cycle sim;
     sim_next_cycle := sim_next_cycle sim; sim_ether := sim_ether sim;
     sim_mous := sim_mous sim |}.

Definition set_mem_task (sim : simulator) (v : Z) : simulator :=
  {| sim_sys_type := sim_sys_type sim; sim_error := sim_error sim;
     sim_r := sim_r sim; sim_s := sim_s sim; sim_consts := sim_consts sim;
     sim_microcode := sim_microcode sim; sim_task_mpc := sim_task_mpc sim;
     sim_mem := sim_mem sim; sim_xm_banks := sim_xm_banks sim;
     sim_sr_banks := sim_sr_banks sim; sim_t := sim_t sim;
     sim_l := sim_l sim; sim_m := sim_m sim; sim_mar := sim_mar sim;
     sim_ir := sim_ir sim; sim_mir := sim_mir sim; sim_mpc := sim_mpc sim;
     sim_ctask := sim_ctask sim; sim_ntask := sim_ntask sim;
     sim_task_switch := sim_task_switch sim; sim_pending := sim_pending sim;
     sim_aluC0 := sim_aluC0 sim; sim_skip := sim_skip sim;
     sim_carry := sim_carry sim; sim_dns := sim_dns sim;
     sim_rmr := sim_rmr sim; sim_mem_cycle := sim_mem_cycle sim;
     sim_mem_task := v; sim_mem_low := sim_mem_low sim;
     sim_mem_high := sim_mem_high sim;
     sim_mem_extended := sim_mem_extended sim;
     sim_mem_which := sim_mem_which sim; sim_cycle := sim_cycle sim;
     sim_next_cycle := sim_next_cycle sim; sim_ether := sim_ether sim;
     sim_mous := sim_mous sim |}.

Definition set_mem_low (sim : simulator) (v : Z) : simulator :=
  {| sim_sys_type := sim_sys_type sim; sim_error := sim_error sim;
     sim_r := sim_r sim; sim_s := sim_s sim; sim_consts := sim_consts sim;
     sim_microcode := sim_microcode sim; sim_task_mpc := sim_task_mpc sim;
     sim_mem := sim_mem sim; sim_xm_banks := sim_xm_banks sim;
     sim_sr_banks := sim_sr_banks sim; sim_t := sim_t sim;
     sim_l := sim_l sim; sim_m := sim_m sim; sim_mar := sim_mar sim;
     sim_ir := sim_ir sim; sim_mir := sim_mir sim; sim_mpc := sim_mpc sim;
     sim_ctask := sim_ctask sim; sim_ntask := sim_ntask sim;
     sim_task_switch := sim_task_switch sim; sim_pending := sim_pending sim;
     sim_aluC0 := sim_aluC0 sim; sim_skip := sim_skip sim;
     sim_carry := sim_carry sim; sim_dns := sim_dns sim;
     sim_rmr := sim_rmr sim; sim_mem_cycle := sim_mem_cycle sim;
     sim_mem_task := sim_mem_task sim; sim_mem_low := v;
     sim_mem_high := sim_mem_high sim;
     sim_mem_extended := sim_mem_extended sim;
     sim_mem_which := sim_mem_which sim; sim_cycle := sim_cycle sim;
     sim_next_cycle := sim_next_cycle sim; sim_ether := sim_ether sim;
     sim_mous := sim_mous sim |}.

Definition set_mem_high (sim : simulator) (v : Z) : simulator :=
  {| sim_sys_type := sim_sys_type sim; sim_error := sim_error sim;
     sim_r := sim_r sim; sim_s := sim_s sim; sim_consts := sim_consts sim;
     sim_microcode := sim_microcode sim; sim_task_mpc := sim_task_mpc sim;
     sim_mem := sim_mem sim; sim_xm_banks := sim_xm_banks sim;
     sim_sr_banks := sim_sr_banks sim; sim_t := sim_t sim;
     sim_l := sim_l sim; sim_m := sim_m sim; sim_mar := sim_mar sim;
     sim_ir := sim_ir sim; sim_mir := sim_mir sim; sim_mpc := sim_mpc sim;
     sim_ctask := sim_ctask sim; sim_ntask := sim_ntask sim;
     sim_task_switch := sim_task_switch sim; sim_pending := sim_pending sim;
     sim_aluC0 := sim_aluC0 sim; sim_skip := sim_skip sim;
     sim_carry := sim_carry sim; sim_dns := sim_dns sim;
     sim_rmr := sim_rmr sim; sim_mem_cycle := sim_mem_cycle sim;
     sim_mem_task := sim_mem_task sim; sim_mem_low := sim_mem_low sim;
     sim_mem_high := v; sim_mem_extended := sim_mem_extended sim;
     sim_mem_which := sim_mem_which sim; sim_cycle := sim_cycle sim;
     sim_next_cycle := sim_next_cycle sim; sim_ether := sim_ether sim;
     sim_mous := sim_mous sim |}.

Definition set_mem_extended (sim : simulator) (v : bool) : simulator :=
  {| sim_sys_type := sim_sys_type sim; sim_error := sim_error sim;
     sim_r := sim_r sim; sim_s := sim_s sim; sim_consts := sim_consts sim;
     sim_microcode := sim_microcode sim; sim_task_mpc := sim_task_mpc sim;
     sim_mem := sim_mem sim; sim_xm_banks := sim_xm_banks sim;
     sim_sr_banks := sim_sr_banks sim; sim_t := sim_t sim;
     sim_l := sim_l sim; sim_m := sim_m sim; sim_mar := sim_mar sim;
     sim_ir := sim_ir sim; sim_mir := sim_mir sim; sim_mpc := sim_mpc sim;
     sim_ctask := sim_ctask sim; sim_ntask := sim_ntask sim;
     sim_task_switch := sim_task_switch sim; sim_pending := sim_pending sim;
     sim_aluC0 := sim_aluC0 sim; sim_skip := sim_skip sim;
     sim_carry := sim_carry sim; sim_dns := sim_dns sim;
     sim_rmr := sim_rmr sim; sim_mem_cycle := sim_mem_cycle sim;
     sim_mem_task := sim_mem_task sim; sim_mem_low := sim_mem_low sim;
     sim_mem_high := sim_mem_high sim; sim_mem_extended := v;
     sim_mem_which := sim_mem_which sim; sim_cycle := sim_cycle sim;
     sim_next_cycle := sim_next_cycle sim; sim_ether := sim_ether sim;
     sim_mous := sim_mous sim |}.

Definition set_mem_which (sim : simulator) (v : Z) : simulator :=
  {| sim_sys_type := sim_sys_type sim; sim_error := sim_error sim;
     sim_r := sim_r sim; sim_s := sim_s sim; sim_consts := sim_consts sim;
     sim_microcode := sim_microcode sim; sim_task_mpc := sim_task_mpc sim;
     sim_mem := sim_mem sim; sim_xm_banks := sim_xm_banks sim;
     sim_sr_banks := sim_sr_banks sim; sim_t := sim_t sim;
     sim_l := sim_l sim; sim_m := sim_m sim; sim_mar := sim_mar sim;
     sim_ir := sim_ir sim; sim_mir := sim_mir sim; sim_mpc := sim_mpc sim;
     sim_ctask := sim_ctask sim; sim_ntask := sim_ntask sim;
     sim_task_switch := sim_task_switch sim; sim_pending := sim_pending sim;
     sim_aluC0 := sim_aluC0 sim; sim_skip := sim_skip sim;
     sim_carry := sim_carry sim; sim_dns := sim_dns sim;
     sim_rmr := sim_rmr sim; sim_mem_cycle := sim_mem_cycle sim;
     sim_mem_task := sim_mem_task sim; sim_mem_low := sim_mem_low sim;
     sim_mem_high := sim_mem_high sim;
     sim_mem_extended := sim_mem_extended sim; sim_mem_which := v;
     sim_cycle := sim_cycle sim; sim_next_cycle := sim_next_cycle sim;
     sim_ether := sim_ether sim; sim_mous := sim_mous sim |}.

Definition set_cycle (sim : simulator) (v : Z) : simulator :=
  {| sim_sys_type := sim_sys_type sim; sim_error := sim_error sim;
     sim_r := sim_r sim; sim_s := sim_s sim; sim_consts := sim_consts sim;
     sim_microcode := sim_microcode sim; sim_task_mpc := sim_task_mpc sim;
     sim_mem := sim_mem sim; sim_xm_banks := sim_xm_banks sim;
     sim_sr_banks := sim_sr_banks sim; sim_t := sim_t sim;
     sim_l := sim_l sim; sim_m := sim_m sim; sim_mar := sim_mar sim;
     sim_ir := sim_ir sim; sim_mir := sim_mir sim; sim_mpc := sim_mpc sim;
     sim_ctask := sim_ctask sim; sim_ntask := sim_ntask sim;
     sim_task_switch := sim_task_switch sim; sim_pending := sim_pending sim;
     sim_aluC0 := sim_aluC0 sim; sim_skip := sim_skip sim;
     sim_carry := sim_carry sim; sim_dns := sim_dns sim;
     sim_rmr := sim_rmr sim; sim_mem_cycle := sim_mem_cycle sim;
     sim_mem_task := sim_mem_task sim; sim_mem_low := sim_mem_low sim;
     sim_mem_high := sim_mem_high sim;
     sim_mem_extended := sim_mem_extended sim;
     sim_mem_which := sim_mem_which sim; sim_cycle := v;
     sim_next_cycle := sim_next_cycle sim; sim_ether := sim_ether sim;
     sim_mous := sim_mous sim |}.

Section Simulator.

Context {hdr : microcode_h}.

(** ** Reset *)

(** Every [memset] and the loop over [task_mpc] run over a whole array, of
    the size with which [simulator_create] allocated it.  The ROMs, the
    system type, [task_switch] and the peripherals are not assigned. *)
Definition simulator_reset (sim : simulator) : simulator :=
  {| sim_sys_type := sim_sys_type sim;
     sim_error := false;
     sim_r := replicate (Z.to_nat NUM_R_REGISTERS) 0;
     sim_s := replicate (Z.to_nat NUM_S_REGISTERS) 0;
     sim_consts := sim_consts sim;
     sim_microcode := sim_microcode sim;
     sim_task_mpc := map Z.of_nat (seq 0 (Z.to_nat TASK_NUM_TASKS));
     sim_mem := replicate (Z.to_nat (NUM_BANKS * MEMORY_SIZE)) 0;
     sim_xm_banks := replicate (Z.to_nat NUM_BANK_SLOTS) 0;
     sim_sr_banks := replicate (Z.to_nat NUM_BANK_SLOTS) 0;
     sim_t := 0;
     sim_l := 0;
     sim_m := 0;
     sim_mar := 0;
     sim_ir := 0;
     sim_mir := 0;
     sim_mpc := 0;
     sim_ctask := 0;
     sim_ntask := 0;
     sim_task_switch := sim_task_switch sim;
     sim_pending := Z.shiftl 1 TASK_EMULATOR;
     sim_aluC0 := false;
     sim_skip := false;
     sim_carry := 0;
     sim_dns := false;
     sim_rmr := 0xFFFF;
     sim_mem_cycle := 0;
     sim_mem_task := TASK_EMULATOR;
     sim_mem_low := 0xFFFF;
     sim_mem_high := 0xFFFF;
     sim_mem_extended := false;
     sim_mem_which := 0;
     sim_cycle := 0;
     sim_next_cycle := 0;
     sim_ether := sim_ether sim;
     sim_mous := sim_mous sim |}.

(** ** Memory and the bank registers *)

(** The range test shared by [simulator_read] and [simulator_write]. *)
Definition is_bank_register (address : Z) : bool :=
  (XM_BANK_START <=? address) && (address <=? XM_BANK_START + NUM_BANK_SLOTS).

Definition bank_number (sim : simulator) (task : Z) (extended_memory : bool)
  : option Z :=
  xm ← array_get (sim_xm_banks sim) task;
  Some (if extended_memory
        then Z.land xm 0x3
        else Z.land (Z.shiftr xm 2) 0x3).

Definition simulator_read (sim : simulator) (address task : Z)
    (extended_memory : bool) : option Z :=
  if is_bank_register address then
    xm ← array_get (sim_xm_banks sim) (address - XM_BANK_START);
    Some (Z.lor 0xFFF0 xm)
  else
    bn ← bank_number sim task extended_memory;
    array_get (sim_mem sim) (bn * MEMORY_SIZE + address).

Definition simulator_write (sim : simulator) (address data task : Z)
    (extended_memory : bool) : option simulator :=
  if is_bank_register address then
    xm' ← array_set (sim_xm_banks sim) (address - XM_BANK_START) data;
    Some (set_xm_banks sim xm')
  else
    bn ← bank_number sim task extended_memory;
    mem' ← array_set (sim_mem sim) (bn * MEMORY_SIZE + address) data;
    Some (set_mem sim mem').

(** ** The data path *)

(** The paired address of a double-word memory access. *)
Definition pair_address (sys_type : system_type) (addr : Z) : Z :=
  if system_type_eqb sys_type ALTO_I then Z.lor 1 addr else Z.lxor 1 addr.

Definition get_modified_rsel (sim : simulator) (mc : microcode) : Z :=
  let rsel := mc_rsel mc in
  if mc_task mc =? TASK_EMULATOR then
    let ir := sim_ir sim in
    if mc_f2 mc =? F2_EMU_ACSOURCE then
      let rsel := u16 (Z.land rsel (Z.lnot 0x3)) in
      u16 (Z.lor rsel (Z.land (Z.lnot (Z.shiftr ir 13)) 0x3))
    else if (mc_f2 mc =? F2_EMU_ACDEST) || (mc_f2 mc =? F2_EMU_LOAD_DNS) then
      let rsel := u16 (Z.land rsel (Z.lnot 0x3)) in
      u16 (Z.lor rsel (Z.land (Z.lnot (Z.shiftr ir 11)) 0x3))
    else rsel
  else rsel.

(** The end of [read_bus]'s [default] case: no source drives the bus. *)
Definition invalid_bus_source (sim : simulator) : Z * simulator :=
  (0, set_error sim true).

(** [read_bus] yields the bus value and the simulator, whose [mem_which]
    and [error] it may have written. *)
Definition read_bus (sim : simulator) (mc : microcode) (modified_rsel : Z)
  : option (Z * simulator) :=
  if mc_use_constant mc then
    c ← array_get (sim_consts sim) (mc_const_addr mc);
    Some (c, sim)
  else
    output ← (if mc_bs_use_crom mc
              then array_get (sim_consts sim) (mc_const_addr mc)
              else Some 0xFFFF);
    if mc_bs mc =? BS_READ_R then
      rv ← array_get (sim_r sim) modified_rsel;
      Some (Z.land output rv, sim)
    else if mc_bs mc =? BS_LOAD_R then
      Some (Z.land output 0, sim)
    else if mc_bs mc =? BS_NONE then
      if (mc_task mc =? TASK_EMULATOR) && (mc_f1 mc =? F1_EMU_RSNF) then
        Some (Z.land output (Z.land (ether_address (sim_ether sim)) 0xFF00),
              sim)
      else Some (output, sim)
    else if mc_bs mc =? BS_READ_MD then
      let output := if truthy (sim_mem_which sim)
                    then sim_mem_high sim else sim_mem_low sim in
      Some (output, set_mem_which sim (Z.lxor 1 (sim_mem_which sim)))
    else if mc_bs mc =? BS_READ_MOUSE then
      Some (Z.land output (Z.land 0xfff0 (mouse_poll_bits (sim_mous sim))),
            sim)
    else if mc_bs mc =? BS_READ_DISP then
      let t := Z.land (sim_ir sim) 0x00FF in
      let t := if truthy (Z.land (sim_ir sim) 0x300)
                  && truthy (Z.land (sim_ir sim) 0x80)
               then Z.lor t 0xFF00 else t in
      Some (Z.land output t, sim)
    else if mc_ram_task mc then
      rb ← array_get (sim_sr_banks sim) (mc_task mc);
      if mc_bs mc =? BS_RAM_READ_S_LOCATION then
        if mc_rsel mc =? 0 then Some (Z.land output (sim_m sim), sim)
        else
          sv ← array_get (sim_s sim) (rb * NUM_R_REGISTERS + mc_rsel mc);
          Some (Z.land output sv, sim)
      else if mc_bs mc =? BS_RAM_LOAD_S_LOCATION then
        Some (Z.land output 0xBEEF, sim)
      else Some (invalid_bus_source sim)
    else if (mc_task mc =? TASK_ETHERNET) && (mc_bs mc =? BS_ETH_EIDFCT) then
      Some (Z.land output 0xFFFF, sim)
    else if (mc_task mc =? TASK_DISK_SECTOR)
            || (mc_task mc =? TASK_DISK_WORD) then
      if mc_bs mc =? BS_DSK_READ_KSTAT then Some (Z.land output 0xFFFF, sim)
      else if mc_bs mc =? BS_DSK_READ_KDATA then
        Some (Z.land output 0xFFFF, sim)
      else Some (invalid_bus_source sim)
    else Some (invalid_bus_source sim).

(** The 32-bit result of the ALU function, [None] for an invalid ALUF. *)
Definition alu_result (sim : simulator) (mc : microcode) (bus : Z)
  : option Z :=
  let a := bus in
  let b := sim_t sim in
  let aluf := mc_aluf mc in
  if aluf =? ALU_BUS then Some a
  else if aluf =? ALU_T then Some b
  else if aluf =? ALU_BUS_OR_T then Some (Z.lor a b)
  else if (aluf =? ALU_BUS_AND_T) || (aluf =? ALU_BUS_AND_T_WB)
  then Some (Z.land a b)
  else if aluf =? ALU_BUS_XOR_T then Some (Z.lxor a b)
  else if aluf =? ALU_BUS_PLUS_1 then Some (u32 (a + 1))
  else if aluf =? ALU_BUS_MINUS_1 then Some (u32 (a + 0xFFFF))
  else if aluf =? ALU_BUS_PLUS_T then Some (u32 (a + b))
  else if aluf =? ALU_BUS_MINUS_T
  then Some (u32 (a + Z.land (Z.lnot b) 0xFFFF + 1))
  else if aluf =? ALU_BUS_MINUS_T_MINUS_1
  then Some (u32 (a + Z.land (Z.lnot b) 0xFFFF))
  else if aluf =? ALU_BUS_PLUS_T_PLUS_1 then Some (u32 (a + b + 1))
  else if aluf =? ALU_BUS_PLUS_SKIP then Some (u32 (a + b2z (sim_skip sim)))
  else if aluf =? ALU_BUS_AND_NOT_T
  then Some (Z.land (Z.land a (Z.lnot b)) 0xFFFF)
  else None.

(** [compute_alu] yields the ALU value, the carry written through [carry]
    and the simulator, whose [error] it may have set. *)
Definition compute_alu (sim : simulator) (mc : microcode) (bus : Z)
  : Z * bool * simulator :=
  match alu_result sim mc bus with
  | Some res => (u16 res, truthy (Z.land res 0x10000), sim)
  | None => (0xDEAD, false, set_error sim true)
  end.

(** [do_shift] yields the shifter output and the value left in
    [*nova_carry], whose value on entry is [nova_carry].  The pointer itself
    is the address of a local of [simulator_step] and is never null, which
    is what the test [(nova_carry) ? 0x8000 : 0] of the right shift sees. *)
Definition do_shift (sim : simulator) (mc : microcode) (nova_carry : Z)
  : Z * Z :=
  let nova_carry_is_not_null := true in
  let has_magic := mc_f2 mc =? F2_EMU_MAGIC in
  if mc_f1 mc =? F1_LLSH1 then
    let res := u16 (Z.shiftl (sim_l sim) 1) in
    if has_magic then
      (u16 (Z.lor res (b2z (truthy (Z.land (sim_t sim) 0x8000)))), nova_carry)
    else if sim_dns sim then
      (u16 (Z.lor res (b2z (truthy nova_carry))),
       b2z (truthy (Z.land (sim_l sim) 0x8000)))
    else (res, nova_carry)
  else if mc_f1 mc =? F1_LRSH1 then
    let res := Z.shiftr (sim_l sim) 1 in
    if has_magic then
      (u16 (Z.lor res (if truthy (Z.land (sim_t sim) 1) then 0x8000 else 0)),
       nova_carry)
    else if sim_dns sim then
      (u16 (Z.lor res (if nova_carry_is_not_null then 0x8000 else 0)),
       Z.land (sim_l sim) 1)
    else (res, nova_carry)
  else if mc_f1 mc =? F1_LLCY8 then
    let res := u16 (Z.shiftl (sim_l sim) 8) in
    (u16 (Z.lor res (Z.shiftr (sim_l sim) 8)), nova_carry)
  else (sim_l sim, nova_carry).

(** [sim->pending & (1 << task)], as a truth value. *)
Definition is_pending (sim : simulator) (task : Z) : bool :=
  truthy (Z.land (sim_pending sim) (Z.shiftl 1 task)).

(** The loop of the [F1_TASK] case: [tmp] runs from [n - 1] down to 0 and
    the first task whose pending bit is set becomes [ntask]. *)
Fixpoint task_scan (sim : simulator) (n : nat) : simulator :=
  match n with
  | O => sim
  | S tmp =>
      if is_pending sim (Z.of_nat tmp)
      then set_ntask sim (Z.of_nat tmp)
      else task_scan sim tmp
  end.

(** [tmp = (bus >> 1) & 0x7], forced to 0 unless the system has 3K RAM. *)
Definition srb_of_bus (sim : simulator) (bus : Z) : Z :=
  let tmp := u8 (Z.land (Z.shiftr bus 1) 0x7) in
  if negb (system_type_eqb (sim_sys_type sim) ALTO_II_3KRAM) then 0 else tmp.

(** The emulator-specific part of [do_f1] (its last [switch]). *)
Definition do_f1_emulator (sim : simulator) (mc : microcode) (bus : Z)
  : option simulator :=
  if mc_task mc =? TASK_EMULATOR then
    if mc_f1 mc =? F1_EMU_SWMODE then Some sim
    else if mc_f1 mc =? F1_EMU_LOAD_RMR then Some (set_rmr sim bus)
    else if mc_f1 mc =? F1_EMU_LOAD_ESRB then
      srb ← array_set (sim_sr_banks sim) (mc_task mc) (srb_of_bus sim bus);
      Some (set_sr_banks sim srb)
    else if mc_f1 mc =? F1_EMU_RSNF then Some sim
    else if mc_f1 mc =? F1_EMU_STARTF then Some sim
    else if F1_SPECIFIC_THRESH <=? mc_f1 mc then Some (set_error sim true)
    else Some sim
  else Some sim.

(** The RAM-task part of [do_f1] followed by the emulator part. *)
Definition do_f1_specific (sim : simulator) (mc : microcode) (bus : Z)
  : option simulator :=
  if mc_ram_task mc then
    if mc_f1 mc =? F1_RAM_SWMODE then
      if negb (mc_task mc =? TASK_EMULATOR) then Some (set_error sim true)
      else do_f1_emulator sim mc bus
    else if mc_f1 mc =? F1_RAM_WRTRAM then do_f1_emulator sim mc bus
    else if mc_f1 mc =? F1_RAM_RDRAM then do_f1_emulator sim mc bus
    else if mc_f1 mc =? F1_RAM_LOAD_SRB then
      if mc_task mc =? TASK_EMULATOR then do_f1_emulator sim mc bus
      else
        srb ← array_set (sim_sr_banks sim) (mc_task mc) (srb_of_bus sim bus);
        do_f1_emulator (set_sr_banks sim srb) mc bus
    else do_f1_emulator sim mc bus
  else do_f1_emulator sim mc bus.

(** The [F1_LOAD_MAR] case of [do_f1]. *)
Definition do_f1_load_mar (sim : simulator) (mc : microcode) (alu : Z)
  : option simulator :=
  let sim := set_mar sim alu in
  let sim := set_mem_cycle sim 0 in
  let sim := set_mem_task sim (mc_task mc) in
  let sim := set_mem_low sim 0xFFFF in
  let sim := set_mem_high sim 0xFFFF in
  let sim := set_mem_extended sim
               (if negb (system_type_eqb (sim_sys_type sim) ALTO_I)
                then mc_f2 mc =? F2_STORE_MD else false) in
  let sim := set_mem_which sim 0 in
  let addr := sim_mar sim in
  lo ← simulator_read sim addr (sim_mem_task sim) (sim_mem_extended sim);
  let sim := set_mem_low sim lo in
  let addr := pair_address (sim_sys_type sim) addr in
  hi ← simulator_read sim addr (sim_mem_task sim) (sim_mem_extended sim);
  Some (set_mem_high sim hi).

Definition do_f1 (sim : simulator) (mc : microcode)
    (bus alu shifter_output : Z) : option simulator :=
  if mc_f1 mc =? F1_NONE then do_f1_specific sim mc bus
  else if (mc_f1 mc =? F1_CONSTANT) || (mc_f1 mc =? F1_LLSH1)
          || (mc_f1 mc =? F1_LRSH1) || (mc_f1 mc =? F1_LLCY8)
  then Some sim
  else if mc_f1 mc =? F1_LOAD_MAR then do_f1_load_mar sim mc alu
  else if mc_f1 mc =? F1_TASK
  then Some (task_scan sim (Z.to_nat TASK_NUM_TASKS))
  else if mc_f1 mc =? F1_BLOCK then
    if mc_task mc =? TASK_EMULATOR then Some (set_error sim true)
    else
      Some (set_pending sim
              (u16 (Z.land (sim_pending sim)
                           (Z.lnot (Z.shiftl 1 (mc_task mc))))))
  else do_f1_specific sim mc bus.

(** The emulator-specific part of [do_f2] (its last [switch]). *)
Definition do_f2_emulator (sim : simulator) (mc : microcode) (bus : Z)
  : Z * simulator :=
  if mc_task mc =? TASK_EMULATOR then
    if (mc_f2 mc =? F2_EMU_MAGIC) || (mc_f2 mc =? F2_EMU_ACDEST) then (0, sim)
    else if mc_f2 mc =? F2_EMU_BUSODD then (Z.land bus 1, sim)
    else if mc_f2 mc =? F2_EMU_LOAD_DNS then (0, sim)
    else if mc_f2 mc =? F2_EMU_LOAD_IR then
      let sim := set_ir sim bus in
      let sim := set_skip sim false in
      let next_extra := Z.land (Z.shiftr bus 8) 0x7 in
      let next_extra := if truthy (Z.land bus 0x8000)
                        then Z.lor next_extra 0x8 else next_extra in
      (next_extra, sim)
    else (0, sim)
  else (0, sim).

(** [do_f2] yields the extra NEXT bits and the simulator. *)
Definition do_f2 (sim : simulator) (mc : microcode)
    (bus alu shifter_output : Z) : option (Z * simulator) :=
  if mc_f2 mc =? F2_NONE then Some (0, sim)
  else if mc_f2 mc =? F2_CONSTANT then Some (0, sim)
  else if mc_f2 mc =? F2_BUSEQ0 then Some (b2z (bus =? 0), sim)
  else if mc_f2 mc =? F2_SHLT0
  then Some (b2z (truthy (Z.land shifter_output 0x8000)), sim)
  else if mc_f2 mc =? F2_SHEQ0 then Some (b2z (shifter_output =? 0), sim)
  else if mc_f2 mc =? F2_BUS then Some (Z.land bus MPC_ADDR_MASK, sim)
  else if mc_f2 mc =? F2_ALUCY then Some (b2z (sim_aluC0 sim), sim)
  else if mc_f2 mc =? F2_STORE_MD then
    if negb (mc_f1 mc =? F1_LOAD_MAR)
       || system_type_eqb (sim_sys_type sim) ALTO_I
    then
      let addr := sim_mar sim in
      let addr := if truthy (sim_mem_which sim)
                  then pair_address (sim_sys_type sim) addr else addr in
      sim ← simulator_write sim addr bus (sim_mem_task sim)
                            (sim_mem_extended sim);
      Some (0, set_mem_which sim (Z.lxor 1 (sim_mem_which sim)))
    else Some (0, sim)
  else Some (do_f2_emulator sim mc bus).

Definition wb_registers (sim : simulator) (mc : microcode)
    (modified_rsel bus alu shifter_output : Z) (alu_carry : bool)
  : option simulator :=
  (* Writes back the R register. *)
  sim ← (if negb (mc_use_constant mc) then
           if mc_bs mc =? BS_LOAD_R then
             r' ← array_set (sim_r sim) modified_rsel shifter_output;
             Some (set_r sim r')
           else if mc_ram_task mc && (mc_bs mc =? BS_RAM_LOAD_S_LOCATION) then
             rb ← array_get (sim_sr_banks sim) (mc_task mc);
             s' ← array_set (sim_s sim) (rb * NUM_R_REGISTERS + mc_rsel mc)
                            (sim_m sim);
             Some (set_s sim s')
           else Some sim
         else Some sim);
  (* Writes back the L, M and ALUC0 registers. *)
  let sim := if mc_load_l mc then
               let sim := set_l sim alu in
               let sim := if mc_task mc =? TASK_EMULATOR
                          then set_m sim alu else sim in
               set_aluC0 sim alu_carry
             else sim in
  (* Writes back the T register. *)
  let sim := if mc_load_t mc then
               if mc_load_t_from_alu mc then set_t sim alu
               else set_t sim bus
             else sim in
  Some sim.

(** The cycle counter is printed with [%lu] and is taken to be 64 bits
    wide. *)
Definition update_program_counters (sim : simulator) (next_extra : Z)
  : option simulator :=
  let ctask := sim_ctask sim in
  mpc ← array_get (sim_task_mpc sim) ctask;
  mcode ← array_get (sim_microcode sim) mpc;
  tm ← array_set (sim_task_mpc sim) ctask
         (u16 (Z.lor (Z.lor (Z.land mpc MPC_BANK_MASK) (MICROCODE_NEXT mcode))
                     next_extra));
  let sim := set_task_mpc sim tm in
  let sim := set_mir sim mcode in
  let sim := set_mpc sim mpc in
  let sim := set_ctask sim (sim_ntask sim) in
  let sim := set_cycle sim (u64 (sim_cycle sim + 1)) in
  let sim := if negb (sim_mem_cycle sim =? 0xFFFF) then
               if 10 <=? sim_mem_cycle sim then set_mem_cycle sim 0xFFFF
               else set_mem_cycle sim (u16 (sim_mem_cycle sim + 1))
             else sim in
  Some sim.

(** ** One cycle *)

Definition simulator_step (sim : simulator) : option simulator :=
  if sim_error sim then Some sim
  else
    let mc := microcode_predecode (sim_sys_type sim) (sim_mpc sim)
                                  (sim_mir sim) (sim_ctask sim) in
    let modified_rsel := get_modified_rsel sim mc in
    '(bus, sim) ← read_bus sim mc modified_rsel;
    if sim_error sim then Some sim
    else
      let '(alu, alu_carry, sim) := compute_alu sim mc bus in
      if sim_error sim then Some sim
      else
        let nova_carry := sim_carry sim in
        let '(shifter_output, nova_carry) := do_shift sim mc nova_carry in
        sim ← do_f1 sim mc bus alu shifter_output;
        if sim_error sim then Some sim
        else
          '(next_extra, sim) ← do_f2 sim mc bus alu shifter_output;
          if sim_error sim then Some sim
          else
            sim ← wb_registers sim mc modified_rsel bus alu shifter_output
                               alu_carry;
            update_program_counters sim next_extra.

(** The state after [n] steps, when each of them is defined. *)
Fixpoint simulator_steps (n : nat) (sim : simulator) : option simulator :=
  match n with
  | O => Some sim
  | S k => sim' ← simulator_step sim; simulator_steps k sim'
  end.

End Simulator.

(** ** The debugger's breakpoints ([psim.c]) *)

(** [struct breakpoint]. *)
Record breakpoint : Type := mk_breakpoint {
  bp_available : bool;
  bp_enable : bool;
  bp_task : Z;
  bp_ntask : Z;
  bp_mpc : Z;
  bp_on_task_switch : bool;
  bp_mir_fmt : Z;
  bp_mir_mask : Z
}.

(** The value of [hit1] at the end of the body of the breakpoint loop of
    [psim_simulate], for an enabled breakpoint. *)
Definition breakpoint_hit1 (bp : breakpoint) (sim : simulator) : bool :=
  let hit1 := true in
  let hit1 := if negb (bp_task bp =? 0xFF) then
                if negb (bp_task bp =? sim_ctask sim) then false else hit1
              else hit1 in
  let hit1 := if negb (bp_ntask bp =? 0xFF) then
                if negb (bp_ntask bp =? sim_ntask sim) then false else hit1
              else hit1 in
  let hit1 := if negb (bp_mpc bp =? 0xFFFF) then
                if negb (bp_mpc bp =? sim_mpc sim) then false else hit1
              else hit1 in
  let hit1 := if bp_on_task_switch bp then
                if negb (sim_task_switch sim) then false else hit1
              else hit1 in
  let hit1 := if negb (bp_mir_mask bp =? 0) then
                if negb (Z.land (sim_mir sim) (bp_mir_mask bp) =? bp_mir_fmt bp)
                then false else hit1
              else hit1 in
  hit1.

(** The first loop of [psim_simulate]: one more than the last slot that is
    in use and enabled.  [num] is the index of the head of [bps]. *)
Fixpoint effective_breakpoints (bps : list breakpoint)
    (num max_breakpoints : nat) : nat :=
  match bps with
  | [] => max_breakpoints
  | bp :: rest =>
      effective_breakpoints rest (S num)
        (if negb (bp_available bp) && bp_enable bp
         then S num else max_breakpoints)
  end.

(** The breakpoint loop: the number of the breakpoint at which the loop
    breaks with [hit = TRUE], or [None] when it runs to [max_breakpoints].
    [num] is the index of the head of [bps]. *)
Fixpoint breakpoint_loop (bps : list breakpoint) (num max_breakpoints : nat)
    (sim : simulator) : option nat :=
  match bps with
  | [] => None
  | bp :: rest =>
      if (num <? max_breakpoints)%nat then
        if negb (bp_enable bp)
        then breakpoint_loop rest (S num) max_breakpoints sim
        else if breakpoint_hit1 bp sim then Some num
        else breakpoint_loop rest (S num) max_breakpoints sim
      else None
  end.

(** How a run of [psim_simulate] ends.  It has no defined behaviour when an
    array index is out of range or the [int] step counter overflows. *)
Inductive run (A : Type) : Type :=
  | Returned (ret : bool) (a : A)   (* the function returned [ret] *)
  | Undefined                       (* no defined behaviour in C *)
  | OutOfFuel.                      (* the loop was cut off by the model *)
Arguments Returned {A} ret a.
Arguments Undefined {A}.
Arguments OutOfFuel {A}.

Section Psim.

Context {hdr : microcode_h}.

(** The user interface is outside this development.  It holds a pointer to
    the simulator, so an update is given the simulator and hands it back;
    [None] is an update that failed. *)
Variable gui : Type.
Variable gui_running : gui -> bool.
Variable gui_update : gui -> simulator -> option (gui * simulator).

(** The fields of [struct psim] that [psim_simulate] uses; [bps] has
    [max_breakpoints] entries. *)
Record psim : Type := mk_psim {
  ps_ui : gui;
  ps_sim : simulator;
  ps_bps : list breakpoint
}.

(** The [while] loop of [psim_simulate]; every iteration uses one unit of
    [fuel]. *)
Fixpoint psim_simulate_loop (fuel : nat) (ps : psim)
    (max_steps step : Z) (max_breakpoints : nat) : run psim :=
  match fuel with
  | O => OutOfFuel
  | S fuel =>
      if negb (gui_running (ps_ui ps)) then Returned true ps
      else if (0 <=? max_steps) && (step =? max_steps) then Returned true ps
      else
        match simulator_step (ps_sim ps) with
        | None => Undefined
        | Some sim =>
            if step =? 2 ^ 31 - 1 then Undefined   (* [step++] overflows *)
            else
              let step := step + 1 in
              let updated :=
                if step mod 100000 =? 0 then gui_update (ps_ui ps) sim
                else Some (ps_ui ps, sim) in
              match updated with
              | None =>
                  Returned false
                    {| ps_ui := ps_ui ps; ps_sim := sim;
                       ps_bps := ps_bps ps |}
              | Some (ui, sim) =>
                  let ps := {| ps_ui := ui; ps_sim := sim;
                               ps_bps := ps_bps ps |} in
                  match breakpoint_loop (ps_bps ps) 0 max_breakpoints
                                        (ps_sim ps) with
                  | Some _ => Returned true ps
                  | None =>
                      psim_simulate_loop fuel ps max_steps step
                        max_breakpoints
                  end
              end
        end
  end.

Definition psim_simulate (fuel : nat) (ps : psim) (max_steps : Z)
  : run psim :=
  psim_simulate_loop fuel ps max_steps 0
    (effective_breakpoints (ps_bps ps) 0 0).

End Psim.

(** ** The UDP transport: framing of a packet *)

Definition UDP_PACKET_SIZE : Z := 1024.

(** The fields of [struct udp_transport] behind the transmit and receive
    buffers; a buffer is an array of bytes. *)
Record udp_transport : Type := mk_udp_transport {
  tx_buf : list Z;
  rx_buf : list Z;
  tx_pos : Z;
  rx_pos : Z;
  rx_len : Z
}.

Definition set_tx (utrp : udp_transport) (buf : list Z) (pos : Z)
  : udp_transport :=
  {| tx_buf := buf; rx_buf := rx_buf utrp; tx_pos := pos;
     rx_pos := rx_pos utrp; rx_len := rx_len utrp |}.

Definition set_rx_pos (utrp : udp_transport) (pos : Z) : udp_transport :=
  {| tx_buf := tx_buf utrp; rx_buf := rx_buf utrp; tx_pos := tx_pos utrp;
     rx_pos := pos; rx_len := rx_len utrp |}.

Definition trp_clear_tx (utrp : udp_transport) : udp_transport :=
  set_tx utrp (tx_buf utrp) 0.

(** [trp_append_tx] yields the returned truth value and the transport. *)
Definition trp_append_tx (utrp : udp_transport) (data : Z)
  : option (bool * udp_transport) :=
  utrp ← (if tx_pos utrp =? 0 then
            buf ← array_set (tx_buf utrp) 0 0;
            buf ← array_set buf 1 0;
            Some (set_tx utrp buf 2)
          else Some utrp);
  if UDP_PACKET_SIZE <=? tx_pos utrp then Some (false, utrp)
  else
    buf ← array_set (tx_buf utrp) (tx_pos utrp) (u8 (Z.shiftr data 8));
    buf ← array_set buf (tx_pos utrp + 1) (u8 data);
    Some (true, set_tx utrp buf (tx_pos utrp + 2)).

(** [trp_send] yields the returned truth value, the datagram handed to
    [sendto] (the first [tx_pos] bytes of the transmit buffer) and the
    transport.  [ret] is the value [sendto] returns. *)
Definition trp_send (utrp : udp_transport) (ret : Z)
  : option (bool * list Z * udp_transport) :=
  let data := u16 (Z.shiftr (tx_pos utrp) 1 - 1) in
  buf ← array_set (tx_buf utrp) 0 (u8 (Z.shiftr data 8));
  buf ← array_set buf 1 (u8 data);
  let utrp := set_tx utrp buf (tx_pos utrp) in
  let datagram := take (Z.to_nat (tx_pos utrp)) (tx_buf utrp) in
  if ret <? 0 then Some (false, datagram, utrp)
  else Some (true, datagram, set_tx utrp (tx_buf utrp) 0).

(** [trp_get_rx_data] yields the returned word and the transport. *)
Definition trp_get_rx_data (utrp : udp_transport)
  : option (Z * udp_transport) :=
  if rx_len utrp <=? rx_pos utrp then Some (0, utrp)
  else
    let utrp := if rx_pos utrp =? 0 then set_rx_pos utrp 2 else utrp in
    hi ← array_get (rx_buf utrp) (rx_pos utrp);
    lo ← array_get (rx_buf utrp) (rx_pos utrp + 1);
    let data := u16 (Z.shiftl hi 8) in
    let data := Z.lor data lo in
    Some (data, set_rx_pos utrp (rx_pos utrp + 2)).

(** Appending the words of [W] one after the other; the truth value tells
    whether every call returned [TRUE]. *)
Fixpoint append_tx_all (utrp : udp_transport) (W : list Z)
  : option (bool * udp_transport) :=
  match W with
  | [] => Some (true, utrp)
  | w :: W' =>
      match trp_append_tx utrp w with
      | Some (true, utrp) => append_tx_all utrp W'
      | Some (false, utrp) => Some (false, utrp)
      | None => None
      end
  end.

(** [n] calls of [trp_get_rx_data], with the words they return. *)
Fixpoint get_rx_data_n (utrp : udp_transport) (n : nat)
  : option (list Z * udp_transport) :=
  match n with
  | O => Some ([], utrp)
  | S k =>
      match trp_get_rx_data utrp with
      | Some (w, utrp) =>
          match get_rx_data_n utrp k with
          | Some (ws, utrp) => Some (w :: ws, utrp)
          | None => None
          end
      | None => None
      end
  end.

(** The datagram that leaves the sender when the words of [W] are appended
    to a cleared transmit buffer and sent. *)
Definition sent_datagram (utrp : udp_transport) (W : list Z) (ret : Z)
  : option (list Z) :=
  match append_tx_all (trp_clear_tx utrp) W with
  | Some (true, utrp) =>
      match trp_send utrp ret with
      | Some (_, datagram, _) => Some datagram
      | None => None
      end
  | _ => None
  end.

(** The wire format of the specification: the word count and then the
    words, each as two bytes, most significant first. *)
Definition be16 (w : Z) : list Z := [u8 (Z.shiftr w 8); u8 w].

Definition wire_frame (W : list Z) : list Z :=
  be16 (Z.of_nat (length W)) ++ flat_map be16 W.

(** ** Well-formedness of the header and of a state *)

Section Wf.

Context {hdr : microcode_h}.

(** What a C compiler enforces on the header for [simulator.c] to compile
    (the labels of one [switch] are pairwise different), what makes
    [TASK_EMULATOR] a task, and what makes a memory bank large enough for
    [base_mem[address]] with a 16-bit [address]. *)
Record header_ok : Prop := {
  emulator_is_task : 0 <= TASK_EMULATOR < TASK_NUM_TASKS;
  bank_holds_every_address : 2 ^ 16 <= MEMORY_SIZE;
  bs_labels :
    NoDup [BS_READ_R; BS_LOAD_R; BS_NONE; BS_READ_MD; BS_READ_MOUSE;
           BS_READ_DISP];
  alu_labels :
    NoDup [ALU_BUS; ALU_T; ALU_BUS_OR_T; ALU_BUS_AND_T; ALU_BUS_AND_T_WB;
           ALU_BUS_XOR_T; ALU_BUS_PLUS_1; ALU_BUS_MINUS_1; ALU_BUS_PLUS_T;
           ALU_BUS_MINUS_T; ALU_BUS_MINUS_T_MINUS_1; ALU_BUS_PLUS_T_PLUS_1;
           ALU_BUS_PLUS_SKIP; ALU_BUS_AND_NOT_T];
  f1_labels :
    NoDup [F1_NONE; F1_CONSTANT; F1_LLSH1; F1_LRSH1; F1_LLCY8; F1_LOAD_MAR;
           F1_TASK; F1_BLOCK];
  f1_ram_labels :
    NoDup [F1_RAM_SWMODE; F1_RAM_WRTRAM; F1_RAM_RDRAM; F1_RAM_LOAD_SRB];
  f1_emu_labels :
    NoDup [F1_EMU_SWMODE; F1_EMU_LOAD_RMR; F1_EMU_LOAD_ESRB; F1_EMU_RSNF;
           F1_EMU_STARTF];
  f2_labels :
    NoDup [F2_NONE; F2_CONSTANT; F2_BUSEQ0; F2_SHLT0; F2_SHEQ0; F2_BUS;
           F2_ALUCY; F2_STORE_MD];
  f2_emu_labels :
    NoDup [F2_EMU_MAGIC; F2_EMU_ACDEST; F2_EMU_BUSODD; F2_EMU_LOAD_DNS;
           F2_EMU_LOAD_IR; F2_EMU_IDISP; F2_EMU_ACSOURCE]
}.

(** The arrays of a simulator have the sizes [simulator_create] allocates,
    and an S-register bank number is one of the eight banks. *)
Record simulator_ok (sim : simulator) : Prop := {
  r_size : Z.of_nat (length (sim_r sim)) = NUM_R_REGISTERS;
  s_size : Z.of_nat (length (sim_s sim)) = NUM_S_REGISTERS;
  consts_size : Z.of_nat (length (sim_consts sim)) = CONSTANT_SIZE;
  microcode_size :
    Z.of_nat (length (sim_microcode sim))
    = NUM_MICROCODE_BANKS * MICROCODE_SIZE;
  task_mpc_size : Z.of_nat (length (sim_task_mpc sim)) = TASK_NUM_TASKS;
  mem_size : Z.of_nat (length (sim_mem sim)) = NUM_BANKS * MEMORY_SIZE;
  xm_banks_size : Z.of_nat (length (sim_xm_banks sim)) = NUM_BANK_SLOTS;
  sr_banks_size : Z.of_nat (length (sim_sr_banks sim)) = NUM_BANK_SLOTS;
  sr_banks_range : Forall (fun rb => 0 <= rb < 8) (sim_sr_banks sim)
}.

(** The fields of a predecoded microinstruction that index an array are in
    the range of that array. *)
Record microcode_ok (mc : microcode) : Prop := {
  rsel_range : 0 <= mc_rsel mc < NUM_R_REGISTERS;
  const_addr_range : 0 <= mc_const_addr mc < CONSTANT_SIZE;
  task_range : 0 <= mc_task mc < TASK_NUM_TASKS
}.

End Wf.

(** ** Auxiliary definitions of the statements *)

(** The byte swap computed in the [F1_LLCY8] case. *)
Definition llcy8 (l : Z) : Z :=
  u16 (Z.lor (u16 (Z.shiftl l 8)) (Z.shiftr l 8)).

Section Auxiliary.

Context {hdr : microcode_h}.

(** The state that [read_bus] leaves when it finds a source for the bus:
    only the READ_MD source, when no constant is used, writes the
    simulator, and it toggles [mem_which]. *)
Definition after_read_bus (sim : simulator) (mc : microcode) : simulator :=
  if negb (mc_use_constant mc) && (mc_bs mc =? BS_READ_MD)
  then set_mem_which sim (Z.lxor 1 (sim_mem_which sim))
  else sim.

End Auxiliary.

(** ** A concrete header

    The encoding of the Alto hardware manual, with the fields of a
    microinstruction in the order the specification lists them (RSEL, ALUF,
    BS, F1, F2, load-T, load-L, NEXT).  It serves to run the definitions on
    concrete inputs. *)

Definition bits (x shift mask : Z) : Z := Z.land (Z.shiftr x shift) mask.

Definition alto_predecode (sys_type : system_type) (address mcode task : Z)
  : microcode :=
  let rsel := bits mcode 27 0x1F in
  let aluf := bits mcode 23 0xF in
  let bs := bits mcode 20 0x7 in
  let f1 := bits mcode 16 0xF in
  let f2 := bits mcode 12 0xF in
  {| mc_rsel := rsel;
     mc_aluf := aluf;
     mc_bs := bs;
     mc_f1 := f1;
     mc_f2 := f2;
     mc_load_t := Z.testbit mcode 11;
     mc_load_l := Z.testbit mcode 10;
     mc_load_t_from_alu :=
       existsb (Z.eqb aluf) [0; 2; 5; 6; 10; 11; 12];
     mc_use_constant := (f1 =? 7) || (f2 =? 7);
     mc_bs_use_crom := 4 <=? bs;
     mc_const_addr := Z.lor (Z.shiftl rsel 3) bs;
     mc_ram_task :=
       system_type_eqb sys_type ALTO_II_3KRAM && (task =? 0);
     mc_task := task |}.

Definition alto_header : microcode_h :=
  {| TASK_EMULATOR := 0; TASK_DISK_SECTOR := 4; TASK_ETHERNET := 7;
     TASK_DISK_WORD := 14;
     BS_READ_R := 0; BS_LOAD_R := 1; BS_NONE := 2; BS_READ_MD := 5;
     BS_READ_MOUSE := 6; BS_READ_DISP := 7;
     BS_RAM_READ_S_LOCATION := 3; BS_RAM_LOAD_S_LOCATION := 4;
     BS_ETH_EIDFCT := 4; BS_DSK_READ_KSTAT := 3; BS_DSK_READ_KDATA := 4;
     ALU_BUS := 0; ALU_T := 1; ALU_BUS_OR_T := 2; ALU_BUS_AND_T := 3;
     ALU_BUS_AND_T_WB := 12; ALU_BUS_XOR_T := 4; ALU_BUS_PLUS_1 := 5;
     ALU_BUS_MINUS_1 := 6; ALU_BUS_PLUS_T := 7; ALU_BUS_MINUS_T := 8;
     ALU_BUS_MINUS_T_MINUS_1 := 9; ALU_BUS_PLUS_T_PLUS_1 := 10;
     ALU_BUS_PLUS_SKIP := 11; ALU_BUS_AND_NOT_T := 13;
     F1_NONE := 0; F1_CONSTANT := 7; F1_LLSH1 := 4; F1_LRSH1 := 5;
     F1_LLCY8 := 6; F1_LOAD_MAR := 1; F1_TASK := 2; F1_BLOCK := 3;
     F1_SPECIFIC_THRESH := 8;
     F1_RAM_SWMODE := 8; F1_RAM_WRTRAM := 9; F1_RAM_RDRAM := 10;
     F1_RAM_LOAD_SRB := 11;
     F1_EMU_SWMODE := 8; F1_EMU_LOAD_RMR := 11; F1_EMU_LOAD_ESRB := 13;
     F1_EMU_RSNF := 14; F1_EMU_STARTF := 15;
     F1_ETH_EILFCT := 11; F1_ETH_EPFCT := 12;
     F2_NONE := 0; F2_CONSTANT := 7; F2_BUSEQ0 := 1; F2_SHLT0 := 2;
     F2_SHEQ0 := 3; F2_BUS := 4; F2_ALUCY := 5; F2_STORE_MD := 6;
     F2_EMU_MAGIC := 9; F2_EMU_ACDEST := 11; F2_EMU_BUSODD := 8;
     F2_EMU_LOAD_DNS := 10; F2_EMU_LOAD_IR := 12; F2_EMU_IDISP := 13;
     F2_EMU_ACSOURCE := 14;
     CONSTANT_SIZE := 256; MICROCODE_SIZE := 1024; MEMORY_SIZE := 65536;
     MICROCODE_NEXT := fun mcode => Z.land mcode 0x3FF;
     microcode_predecode := alto_predecode |}.

(** A simulator as [simulator_create] leaves it, with the ROMs zeroed, on
    an Alto II with 3K RAM, and the same after [simulator_reset]. *)
Definition created_simulator : simulator :=
  {| sim_sys_type := ALTO_II_3KRAM; sim_error := false;
     sim_r := replicate 32 0; sim_s := replicate 256 0;
     sim_consts := replicate 256 0;
     sim_microcode := replicate (Z.to_nat 4096) 0;
     sim_task_mpc := replicate 16 0;
     sim_mem := replicate (Z.to_nat 262144) 0;
     sim_xm_banks := replicate 16 0; sim_sr_banks := replicate 16 0;
     sim_t := 0; sim_l := 0; sim_m := 0; sim_mar := 0; sim_ir := 0;
     sim_mir := 0; sim_mpc := 0; sim_ctask := 0; sim_ntask := 0;
     sim_task_switch := false; sim_pending := 0; sim_aluC0 := false;
     sim_skip := false; sim_carry := 0; sim_dns := false; sim_rmr := 0;
     sim_mem_cycle := 0; sim_mem_task := 0; sim_mem_low := 0;
     sim_mem_high := 0; sim_mem_extended := false; sim_mem_which := 0;
     sim_cycle := 0; sim_next_cycle := 0;
     sim_ether := {| ether_address := 0 |};
     sim_mous := {| mouse_buttons := 0; mouse_bits := 0 |} |}.

Definition reset_simulator : simulator :=
  @simulator_reset alto_header created_simulator.

(** A raw microinstruction of [alto_header] from its fields. *)
Definition alto_mir (rsel aluf bs f1 f2 load_t load_l next : Z) : Z :=
  Z.lor (Z.shiftl rsel 27)
   (Z.lor (Z.shiftl aluf 23)
     (Z.lor (Z.shiftl bs 20)
       (Z.lor (Z.shiftl f1 16)
         (Z.lor (Z.shiftl f2 12)
           (Z.lor (Z.shiftl load_t 11) (Z.lor (Z.shiftl load_l 10) next)))))).

(** ** Test inputs *)

(** Microinstructions of the concrete header used as test inputs. *)
Definition alto_mc (rsel aluf bs f1 f2 : Z) : microcode :=
  alto_predecode ALTO_II_3KRAM 0 (alto_mir rsel aluf bs f1 f2 0 0 0) 0.

(** A state with L = 0, [dns] set and the nova carry clear. *)
Definition nova_shift_input : simulator :=
  {| sim_sys_type := ALTO_II_3KRAM; sim_error := false;
     sim_r := replicate 32 0; sim_s := replicate 256 0;
     sim_consts := replicate 256 0;
     sim_microcode := replicate (Z.to_nat 4096) 0;
     sim_task_mpc := replicate 16 0;
     sim_mem := replicate (Z.to_nat 262144) 0;
     sim_xm_banks := replicate 16 0; sim_sr_banks := replicate 16 0;
     sim_t := 0; sim_l := 0; sim_m := 0; sim_mar := 0; sim_ir := 0;
     sim_mir := 0; sim_mpc := 0; sim_ctask := 0; sim_ntask := 0;
     sim_task_switch := false; sim_pending := 1; sim_aluC0 := false;
     sim_skip := false; sim_carry := 0; sim_dns := true; sim_rmr := 0xFFFF;
     sim_mem_cycle := 0; sim_mem_task := 0; sim_mem_low := 0xFFFF;
     sim_mem_high := 0xFFFF; sim_mem_extended := false; sim_mem_which := 0;
     sim_cycle := 0; sim_next_cycle := 0;
     sim_ether := {| ether_address := 0 |};
     sim_mous := {| mouse_buttons := 0; mouse_bits := 0 |} |}.

(** The reset simulator about to execute F1=BLOCK with BS=READ_MD in the
    emulator task. *)
Definition block_read_md_input : simulator :=
  set_mir reset_simulator (alto_mir 0 0 5 3 0 0 0 0).

(** A table with the stepping slot disabled and two breakpoints on MPC 0,
    examined after the first step from reset. *)
Definition sample_breakpoints : list breakpoint :=
  [ {| bp_available := false; bp_enable := false; bp_task := 0xFF;
       bp_ntask := 0xFF; bp_mpc := 0xFFFF; bp_on_task_switch := false;
       bp_mir_fmt := 0; bp_mir_mask := 0 |};
    {| bp_available := false; bp_enable := true; bp_task := 0xFF;
       bp_ntask := 0xFF; bp_mpc := 0; bp_on_task_switch := false;
       bp_mir_fmt := 0; bp_mir_mask := 0 |};
    {| bp_available := false; bp_enable := true; bp_task := 0;
       bp_ntask := 0xFF; bp_mpc := 0; bp_on_task_switch := false;
       bp_mir_fmt := 0; bp_mir_mask := 0 |} ].

(** A sender and a receiver with 1024-byte buffers; the receiver holds the
    frame of the words 0x1234 and 0x5678 followed by two filler bytes. *)
Definition sample_sender : udp_transport :=
  {| tx_buf := replicate 1024 0; rx_buf := replicate 1024 0;
     tx_pos := 0; rx_pos := 0; rx_len := 0 |}.

Definition sample_receiver : udp_transport :=
  {| tx_buf := replicate 1024 0;
     rx_buf := wire_frame [0x1234; 0x5678] ++ replicate 1018 0;
     tx_pos := 0; rx_pos := 0; rx_len := 8 |}.

(** ** What a cycle leaves alone *)

(** The parts of the machine that no phase of [simulator_step] assigns, and
    the sizes of its arrays. *)
Record keeps_shape (sim sim' : simulator) : Prop := {
  ks_sys_type : sim_sys_type sim' = sim_sys_type sim;
  ks_consts : sim_consts sim' = sim_consts sim;
  ks_microcode : sim_microcode sim' = sim_microcode sim;
  ks_task_switch : sim_task_switch sim' = sim_task_switch sim;
  ks_carry : sim_carry sim' = sim_carry sim;
  ks_dns : sim_dns sim' = sim_dns sim;
  ks_next_cycle : sim_next_cycle sim' = sim_next_cycle sim;
  ks_ether : sim_ether sim' = sim_ether sim;
  ks_mous : sim_mous sim' = sim_mous sim;
  ks_r : length (sim_r sim') = length (sim_r sim);
  ks_s : length (sim_s sim') = length (sim_s sim);
  ks_task_mpc : length (sim_task_mpc sim') = length (sim_task_mpc sim);
  ks_mem : length (sim_mem sim') = length (sim_mem sim);
  ks_xm_banks : length (sim_xm_banks sim') = length (sim_xm_banks sim);
  ks_sr_banks : length (sim_sr_banks sim') = length (sim_sr_banks sim);
  ks_sr_banks_range :
    Forall (fun rb => 0 <= rb < 8) (sim_sr_banks sim) ->
    Forall (fun rb => 0 <= rb < 8) (sim_sr_banks sim')
}.

(** What holds of the task numbers, of the memory cycle counter and of the
    Nova flags after [simulator_reset], and is kept by every cycle. *)
Record stepping_invariant (sim : simulator) : Prop := {
  ctask_range : 0 <= sim_ctask sim < TASK_NUM_TASKS;
  ntask_range : 0 <= sim_ntask sim < TASK_NUM_TASKS;
  mem_cycle_range :
    0 <= sim_mem_cycle sim <= 10 \/ sim_mem_cycle sim = 0xFFFF;
  skip_clear : sim_skip sim = false;
  dns_clear : sim_dns sim = false;
  carry_clear : sim_carry sim = 0
}.

(** What the phases before [update_program_counters] leave alone. *)
Record datapath_frame (sim sim' : simulator) : Prop := {
  df_task_mpc : sim_task_mpc sim' = sim_task_mpc sim;
  df_mir : sim_mir sim' = sim_mir sim;
  df_mpc : sim_mpc sim' = sim_mpc sim;
  df_ctask : sim_ctask sim' = sim_ctask sim;
  df_cycle : sim_cycle sim' = sim_cycle sim
}.

(** ** The arrays of a simulator, allocated and released *)

(** A pointer to an array: [NULL] or the block that [malloc] returned. *)
Inductive pointer : Type :=
  | NULL
  | Block (b : nat).

(** The heap, as the blocks that are allocated. *)
Definition heap : Type := list nat.

(** [malloc] with its result given: a block joins the heap, [NULL] is an
    allocation that failed. *)
Definition malloc (h : heap) (result : pointer) : heap :=
  match result with
  | NULL => h
  | Block b => b :: h
  end.

(** [free]: [None] when the block is not allocated, which has no defined
    behaviour in C. *)
Definition free (h : heap) (p : pointer) : option heap :=
  match p with
  | NULL => Some h
  | Block b =>
      if bool_decide (b ∈ h) then Some (filter (fun x => x <> b) h)
      else None
  end.

(** The array pointers of [struct simulator]. *)
#[projections(primitive)]
Record simulator_arrays : Type := mk_simulator_arrays {
  a_r : pointer;
  a_s : pointer;
  a_consts : pointer;
  a_microcode : pointer;
  a_task_mpc : pointer;
  a_mem : pointer;
  a_xm_banks : pointer;
  a_sr_banks : pointer
}.

(** The release of an array whose pointer is set: [if (p) free(p);]. *)
Definition free_if_set (h : heap) (p : pointer) : option heap :=
  match p with
  | NULL => Some h
  | Block _ => free h p
  end.

(** The array pointers after [simulator_initvar]. *)
Definition simulator_initvar : simulator_arrays :=
  {| a_r := NULL; a_s := NULL; a_consts := NULL; a_microcode := NULL;
     a_task_mpc := NULL; a_mem := NULL; a_xm_banks := NULL;
     a_sr_banks := NULL |}.

(** Assignments to the array pointers. *)
Definition set_a_r (a : simulator_arrays) (p : pointer)
  : simulator_arrays :=
  {| a_r := p; a_s := a_s a; a_consts := a_consts a;
     a_microcode := a_microcode a; a_task_mpc := a_task_mpc a;
     a_mem := a_mem a; a_xm_banks := a_xm_banks a;
     a_sr_banks := a_sr_banks a |}.

Definition set_a_s (a : simulator_arrays) (p : pointer)
  : simulator_arrays :=
  {| a_r := a_r a; a_s := p; a_consts := a_consts a;
     a_microcode := a_microcode a; a_task_mpc := a_task_mpc a;
     a_mem := a_mem a; a_xm_banks := a_xm_banks a;
     a_sr_banks := a_sr_banks a |}.

Definition set_a_consts (a : simulator_arrays) (p : pointer)
  : simulator_arrays :=
  {| a_r := a_r a; a_s := a_s a; a_consts := p;
     a_microcode := a_microcode a; a_task_mpc := a_task_mpc a;
     a_mem := a_mem a; a_xm_banks := a_xm_banks a;
     a_sr_banks := a_sr_banks a |}.

Definition set_a_microcode (a : simulator_arrays) (p : pointer)
  : simulator_arrays :=
  {| a_r := a_r a; a_s := a_s a; a_consts := a_consts a; a_microcode := p;
     a_task_mpc := a_task_mpc a; a_mem := a_mem a;
     a_xm_banks := a_xm_banks a; a_sr_banks := a_sr_banks a |}.

Definition set_a_task_mpc (a : simulator_arrays) (p : pointer)
  : simulator_arrays :=
  {| a_r := a_r a; a_s := a_s a; a_consts := a_consts a;
     a_microcode := a_microcode a; a_task_mpc := p; a_mem := a_mem a;
     a_xm_banks := a_xm_banks a; a_sr_banks := a_sr_banks a |}.

Definition set_a_mem (a : simulator_arrays) (p : pointer)
  : simulator_arrays :=
  {| a_r := a_r a; a_s := a_s a; a_consts := a_consts a;
     a_microcode := a_microcode a; a_task_mpc := a_task_mpc a; a_mem := p;
     a_xm_banks := a_xm_banks a; a_sr_banks := a_sr_banks a |}.

Definition set_a_xm_banks (a : simulator_arrays) (p : pointer)
  : simulator_arrays :=
  {| a_r := a_r a; a_s := a_s a; a_consts := a_consts a;
     a_microcode := a_microcode a; a_task_mpc := a_task_mpc a;
     a_mem := a_mem a; a_xm_banks := p; a_sr_banks := a_sr_banks a |}.

Definition set_a_sr_banks (a : simulator_arrays) (p : pointer)
  : simulator_arrays :=
  {| a_r := a_r a; a_s := a_s a; a_consts := a_consts a;
     a_microcode := a_microcode a; a_task_mpc := a_task_mpc a;
     a_mem := a_mem a; a_xm_banks := a_xm_banks a; a_sr_banks := p |}.

(** [simulator_destroy], on the heap and the array pointers.  The five
    device destructors that it calls first work on structures of their own,
    which are not part of this state.  After the constants are released it
    is the microcode pointer that is cleared. *)
Definition simulator_destroy (h : heap) (a : simulator_arrays)
  : option (heap * simulator_arrays) :=
  h ← free_if_set h (a_r a);
  let a := set_a_r a NULL in
  h ← free_if_set h (a_s a);
  let a := set_a_s a NULL in
  h ← free_if_set h (a_consts a);
  let a := set_a_microcode a NULL in
  h ← free_if_set h (a_microcode a);
  let a := set_a_microcode a NULL in
  h ← free_if_set h (a_task_mpc a);
  let a := set_a_task_mpc a NULL in
  h ← free_if_set h (a_mem a);
  let a := set_a_mem a NULL in
  h ← free_if_set h (a_xm_banks a);
  let a := set_a_xm_banks a NULL in
  h ← free_if_set h (a_sr_banks a);
  let a := set_a_sr_banks a NULL in
  Some (h, a).

Definition is_null (p : pointer) : bool :=
  match p with
  | NULL => true
  | Block _ => false
  end.

(** The results of [disk_create], [display_create], [ethernet_create],
    [keyboard_create] and [mouse_create], which are outside this
    development. *)
Record device_results : Type := mk_device_results {
  disk_created : bool;
  display_created : bool;
  ethernet_created : bool;
  keyboard_created : bool;
  mouse_created : bool
}.

(** [simulator_create], on the heap and the array pointers.  [mallocs]
    holds the results of the eight calls of [malloc].  The result is the
    returned truth value with the heap and the pointers. *)
Definition simulator_create (h : heap) (mallocs : simulator_arrays)
    (devices : device_results) : option (bool * heap * simulator_arrays) :=
  let a := simulator_initvar in
  let h := malloc h (a_r mallocs) in
  let a := set_a_r a (a_r mallocs) in
  let h := malloc h (a_s mallocs) in
  let a := set_a_s a (a_s mallocs) in
  let h := malloc h (a_consts mallocs) in
  let a := set_a_consts a (a_consts mallocs) in
  let h := malloc h (a_microcode mallocs) in
  let a := set_a_microcode a (a_microcode mallocs) in
  let h := malloc h (a_task_mpc mallocs) in
  let a := set_a_task_mpc a (a_task_mpc mallocs) in
  let h := malloc h (a_mem mallocs) in
  let a := set_a_mem a (a_mem mallocs) in
  let h := malloc h (a_xm_banks mallocs) in
  let a := set_a_xm_banks a (a_xm_banks mallocs) in
  let h := malloc h (a_sr_banks mallocs) in
  let a := set_a_sr_banks a (a_sr_banks mallocs) in
  let failed :=
    match simulator_destroy h a with
    | Some (h, a) => Some (false, h, a)
    | None => None
    end in
  if is_null (a_r a) || is_null (a_s a) || is_null (a_consts a)
     || is_null (a_microcode a) || is_null (a_task_mpc a)
     || is_null (a_mem a) || is_null (a_xm_banks a)
     || is_null (a_sr_banks a)
  then failed
  else if negb (disk_created devices) then failed
  else if negb (display_created devices) then failed
  else if negb (ethernet_created devices) then failed
  else if negb (keyboard_created devices) then failed
  else if negb (mouse_created devices) then failed
  else Some (true, h, a).

(** ** Loading the ROMs *)

Definition set_consts (sim : simulator) (v : list Z) : simulator :=
  {| sim_sys_type := sim_sys_type sim; sim_error := sim_error sim;
     sim_r := sim_r sim; sim_s := sim_s sim; sim_consts := v;
     sim_microcode := sim_microcode sim; sim_task_mpc := sim_task_mpc sim;
     sim_mem := sim_mem sim; sim_xm_banks := sim_xm_banks sim;
     sim_sr_banks := sim_sr_banks sim; sim_t := sim_t sim;
     sim_l := sim_l sim; sim_m := sim_m sim; sim_mar := sim_mar sim;
     sim_ir := sim_ir sim; sim_mir := sim_mir sim; sim_mpc := sim_mpc sim;
     sim_ctask := sim_ctask sim; sim_ntask := sim_ntask sim;
     sim_task_switch := sim_task_switch sim; sim_pending := sim_pending sim;
     sim_aluC0 := sim_aluC0 sim; sim_skip := sim_skip sim;
     sim_carry := sim_carry sim; sim_dns := sim_dns sim;
     sim_rmr := sim_rmr sim; sim_mem_cycle := sim_mem_cycle sim;
     sim_mem_task := sim_mem_task sim; sim_mem_low := sim_mem_low sim;
     sim_mem_high := sim_mem_high sim;
     sim_mem_extended := sim_mem_extended sim;
     sim_mem_which := sim_mem_which sim; sim_cycle := sim_cycle sim;
     sim_next_cycle := sim_next_cycle sim; sim_ether := sim_ether sim;
     sim_mous := sim_mous sim |}.

Definition set_microcode (sim : simulator) (v : list Z) : simulator :=
  {| sim_sys_type := sim_sys_type sim; sim_error := sim_error sim;
     sim_r := sim_r sim; sim_s := sim_s sim; sim_consts := sim_consts sim;
     sim_microcode := v; sim_task_mpc := sim_task_mpc sim;
     sim_mem := sim_mem sim; sim_xm_banks := sim_xm_banks sim;
     sim_sr_banks := sim_sr_banks sim; sim_t := sim_t sim;
     sim_l := sim_l sim; sim_m := sim_m sim; sim_mar := sim_mar sim;
     sim_ir := sim_ir sim; sim_mir := sim_mir sim; sim_mpc := sim_mpc sim;
     sim_ctask := sim_ctask sim; sim_ntask := sim_ntask sim;
     sim_task_switch := sim_task_switch sim; sim_pending := sim_pending sim;
     sim_aluC0 := sim_aluC0 sim; sim_skip := sim_skip sim;
     sim_carry := sim_carry sim; sim_dns := sim_dns sim;
     sim_rmr := sim_rmr sim; sim_mem_cycle := sim_mem_cycle sim;
     sim_mem_task := sim_mem_task sim; sim_mem_low := sim_mem_low sim;
     sim_mem_high := sim_mem_high sim;
     sim_mem_extended := sim_mem_extended sim;
     sim_mem_which := sim_mem_which sim; sim_cycle := sim_cycle sim;
     sim_next_cycle := sim_next_cycle sim; sim_ether := sim_ether sim;
     sim_mous := sim_mous sim |}.

(** A ROM file as [fopen] and [fgetc] see it. *)
Inductive rom_file : Type :=
  | NoFilename                   (* [filename] is null *)
  | CannotOpen                   (* [fopen] fails *)
  | Contents (bytes : list Z).   (* the bytes before the end of the file *)

Section Loaders.

Context {hdr : microcode_h}.

(** The loop of [simulator_load_constant_rom]; [fp] is what is left of the
    file and [i] the 16-bit index.  The result tells whether the loop ran
    to its end ([true]) or met the end of the file ([false]), and holds the
    constants and what is left of the file. *)
Fixpoint load_constant_loop (fp : list Z) (i : Z) (consts : list Z)
    {struct fp} : option (bool * list Z * list Z) :=
  if i <? CONSTANT_SIZE then
    match fp with
    | [] => Some (false, consts, [])
    | c :: fp =>
        let val := u16 (Z.land c 0xFF) in
        match fp with
        | [] => Some (false, consts, [])
        | c :: fp =>
            let val := u16 (Z.lor val (Z.shiftl (u16 (Z.land c 0xFF)) 8)) in
            match array_set consts i val with
            | Some consts => load_constant_loop fp (u16 (i + 1)) consts
            | None => None
            end
        end
    end
  else Some (true, consts, fp).

(** [simulator_load_constant_rom] yields the returned truth value and the
    simulator. *)
Definition simulator_load_constant_rom (sim : simulator) (file : rom_file)
  : option (bool * simulator) :=
  match file with
  | NoFilename => Some (true, sim)
  | CannotOpen => Some (false, sim)
  | Contents bytes =>
      match load_constant_loop bytes 0 (sim_consts sim) with
      | Some (true, consts, []) => Some (true, set_consts sim consts)
      | Some (true, consts, _ :: _) => Some (false, set_consts sim consts)
      | Some (false, consts, _) => Some (false, set_consts sim consts)
      | None => None
      end
  end.

(** The loop of [simulator_load_microcode_rom]. *)
Fixpoint load_microcode_loop (fp : list Z) (i offset : Z)
    (microcode : list Z) {struct fp} : option (bool * list Z * list Z) :=
  if i <? MICROCODE_SIZE then
    match fp with
    | [] => Some (false, microcode, [])
    | c :: fp =>
        let val := u32 (Z.land c 0xFF) in
        match fp with
        | [] => Some (false, microcode, [])
        | c :: fp =>
            let val := Z.lor val (u32 (Z.shiftl (u32 (Z.land c 0xFF)) 8)) in
            match fp with
            | [] => Some (false, microcode, [])
            | c :: fp =>
                let val :=
                  Z.lor val (u32 (Z.shiftl (u32 (Z.land c 0xFF)) 16)) in
                match fp with
                | [] => Some (false, microcode, [])
                | c :: fp =>
                    let val :=
                      Z.lor val (u32 (Z.shiftl (u32 (Z.land c 0xFF)) 24)) in
                    match array_set microcode (offset + i) val with
                    | Some microcode =>
                        load_microcode_loop fp (u16 (i + 1)) offset microcode
                    | None => None
                    end
                end
            end
        end
    end
  else Some (true, microcode, fp).

(** [simulator_load_microcode_rom] yields the returned truth value and the
    simulator; [bank] is 8 bits wide. *)
Definition simulator_load_microcode_rom (sim : simulator) (file : rom_file)
    (bank : Z) : option (bool * simulator) :=
  if 2 <=? bank then Some (false, sim)
  else
    let offset := u16 (if truthy bank then MICROCODE_SIZE else 0) in
    match file with
    | NoFilename => Some (true, sim)
    | CannotOpen => Some (false, sim)
    | Contents bytes =>
        match load_microcode_loop bytes 0 offset (sim_microcode sim) with
        | Some (true, microcode, []) =>
            Some (true, set_microcode sim microcode)
        | Some (true, microcode, _ :: _) =>
            Some (false, set_microcode sim microcode)
        | Some (false, microcode, _) =>
            Some (false, set_microcode sim microcode)
        | None => None
        end
    end.

End Loaders.

(** The words of a ROM image: two bytes a word, or four, least significant
    byte first; bytes that do not make up a word are left out. *)
Fixpoint le16_words (bytes : list Z) : list Z :=
  match bytes with
  | b0 :: b1 :: bytes => (b0 + 2 ^ 8 * b1) :: le16_words bytes
  | _ => []
  end.

Fixpoint le32_words (bytes : list Z) : list Z :=
  match bytes with
  | b0 :: b1 :: b2 :: b3 :: bytes =>
      (b0 + 2 ^ 8 * b1 + 2 ^ 16 * b2 + 2 ^ 24 * b3) :: le32_words bytes
  | _ => []
  end.

(** The array [l] with the words [ws] written from index [i] on. *)
Definition overwrite (l : list Z) (i : nat) (ws : list Z) : list Z :=
  take i l ++ ws ++ drop (i + length ws) l.

(** ** The UDP transport: the ring buffer of received packets *)

Definition UDP_RING_BUFFER_SIZE : Z := 8192.

(** [memcpy (&dst[d], &src[s], n)]: [None] when it leaves one of the
    arrays. *)
Definition memcpy (dst : list Z) (d : Z) (src : list Z) (s n : Z)
  : option (list Z) :=
  if (0 <=? d) && (0 <=? s) && (0 <=? n)
     && (d + n <=? Z.of_nat (length dst))
     && (s + n <=? Z.of_nat (length src))
  then Some (take (Z.to_nat d) dst
             ++ take (Z.to_nat n) (drop (Z.to_nat s) src)
             ++ drop (Z.to_nat (d + n)) dst)
  else None.

(** [struct udp_transport] with the fields of the receiving side; the
    positions are taken to be of type [size_t], 64 bits wide, as the local
    variables that they are combined with. *)
Record udp_receiver : Type := mk_udp_receiver {
  rcv_trp : udp_transport;
  ring_buf : list Z;
  pkt_buf : list Z;
  ring_start : Z;
  ring_end : Z;
  rx_enable : bool
}.

Definition set_rcv_trp (utrp : udp_receiver) (trp : udp_transport)
  : udp_receiver :=
  {| rcv_trp := trp; ring_buf := ring_buf utrp; pkt_buf := pkt_buf utrp;
     ring_start := ring_start utrp; ring_end := ring_end utrp;
     rx_enable := rx_enable utrp |}.

Definition set_ring (utrp : udp_receiver) (buf : list Z) (rstart rend : Z)
  : udp_receiver :=
  {| rcv_trp := rcv_trp utrp; ring_buf := buf; pkt_buf := pkt_buf utrp;
     ring_start := rstart; ring_end := rend; rx_enable := rx_enable utrp |}.

Definition set_pkt_buf (utrp : udp_receiver) (buf : list Z) : udp_receiver :=
  {| rcv_trp := rcv_trp utrp; ring_buf := ring_buf utrp; pkt_buf := buf;
     ring_start := ring_start utrp; ring_end := ring_end utrp;
     rx_enable := rx_enable utrp |}.

Definition set_rx (trp : udp_transport) (buf : list Z) (pos len : Z)
  : udp_transport :=
  {| tx_buf := tx_buf trp; rx_buf := buf; tx_pos := tx_pos trp;
     rx_pos := pos; rx_len := len |}.

(** [trp_enable_rx] yields the returned truth value and the transport;
    [locked] tells whether the mutex could be taken. *)
Definition trp_enable_rx (utrp : udp_receiver) (enable : bool)
    (locked : bool) : bool * udp_receiver :=
  if negb locked then (false, utrp)
  else
    let utrp := if negb enable
                then set_ring utrp (ring_buf utrp) 0 0 else utrp in
    (true,
     {| rcv_trp := rcv_trp utrp; ring_buf := ring_buf utrp;
        pkt_buf := pkt_buf utrp; ring_start := ring_start utrp;
        ring_end := ring_end utrp; rx_enable := enable |}).

Definition trp_clear_rx (trp : udp_transport) : udp_transport :=
  set_rx trp (rx_buf trp) 0 0.

(** [trp_receive] yields the returned truth value and the transport; the
    length that it reports through [plen] is [rx_len] afterwards. *)
Definition trp_receive (utrp : udp_receiver) (locked : bool)
  : option (bool * udp_receiver) :=
  if rx_len (rcv_trp utrp) =? 0 then
    if negb locked then Some (false, utrp)
    else if ring_start utrp <? ring_end utrp then
      b0 ← array_get (ring_buf utrp) (ring_start utrp);
      b1 ← array_get (ring_buf utrp) (ring_start utrp + 1);
      let len := b0 in
      let len := u64 (Z.shiftl len 8) in
      let len := Z.lor len b1 in
      let len := u64 (2 * u64 (len + 2)) in
      if ring_end utrp <? u64 (len + ring_start utrp) then Some (false, utrp)
      else
        let pos := 0 in
        wrapped ←
          (if UDP_RING_BUFFER_SIZE <=? u64 (ring_start utrp + len) then
             let pos := u64 (UDP_RING_BUFFER_SIZE - ring_start utrp) in
             rx ← memcpy (rx_buf (rcv_trp utrp)) 0
                           (ring_buf utrp) (ring_start utrp) pos;
             Some (pos, rx, 0, u64 (ring_end utrp - UDP_RING_BUFFER_SIZE))
           else
             Some (pos, rx_buf (rcv_trp utrp), ring_start utrp,
                   ring_end utrp));
        let '(pos, rx, rstart, rend) := wrapped in
        copied ←
          (if pos <? len then
             rx ← memcpy rx pos (ring_buf utrp) rstart (u64 (len - pos));
             Some (rx, u64 (rstart + u64 (len - pos)))
           else Some (rx, rstart));
        let '(rx, rstart) := copied in
        Some (true,
              set_rcv_trp (set_ring utrp (ring_buf utrp) rstart rend)
                (set_rx (rcv_trp utrp) rx 0 len))
    else
      Some (true, set_rcv_trp utrp (set_rx (rcv_trp utrp)
                                      (rx_buf (rcv_trp utrp)) 0 0))
  else Some (true, utrp).

(** What [recvfrom] reports: an error, with [errno] being [EAGAIN] or not,
    or the bytes of a datagram, of which at most [UDP_PACKET_SIZE - 2] are
    stored. *)
Inductive recv_result : Type :=
  | RecvError (eagain : bool)
  | Received (datagram : list Z).

(** How an iteration of the loop of [receive_thread] ends. *)
Inductive thread_step : Type :=
  | Continue (utrp : udp_receiver)            (* the loop goes on *)
  | Stopped (ret : Z) (utrp : udp_receiver).  (* the thread returns [ret] *)

(** One iteration of the loop of [receive_thread].  [locked1] and [locked2]
    tell whether the mutex could be taken, [running] is the flag of the
    internal structure, and [received] what [recvfrom] reports. *)
Definition receive_thread_iteration (utrp : udp_receiver)
    (locked1 running : bool) (received : recv_result) (locked2 : bool)
  : option thread_step :=
  if negb locked1 then Some (Stopped 1 utrp)
  else
    let free_size :=
      u64 (UDP_RING_BUFFER_SIZE - u64 (ring_end utrp - ring_start utrp)) in
    if negb running then Some (Stopped 0 utrp)
    else if free_size <? UDP_PACKET_SIZE then Some (Continue utrp)
    else
      match received with
      | RecvError eagain =>
          if negb eagain then Some (Stopped 1 utrp)
          else Some (Continue utrp)
      | Received datagram =>
          let stored := take (Z.to_nat (UDP_PACKET_SIZE - 2)) datagram in
          let s := Z.of_nat (length stored) in
          pkt ← memcpy (pkt_buf utrp) 0 stored 0 s;
          let utrp := set_pkt_buf utrp pkt in
          if s <=? 0 then Some (Continue utrp)
          else
            let len := s in
            p0 ← array_get (pkt_buf utrp) 0;
            p1 ← array_get (pkt_buf utrp) 1;
            let packet_len := p0 in
            let packet_len := u64 (Z.shiftl packet_len 8) in
            let packet_len := Z.lor packet_len p1 in
            let packet_len := u64 (packet_len * 2) in
            let packet_len := u64 (packet_len + 2) in
            if (len <? packet_len) || negb (packet_len mod 2 =? 0)
            then Some (Stopped 1 utrp)
            else
              let len := if packet_len <? len then packet_len else len in
              let len := u64 (len + 2) in
              if negb locked2 then Some (Stopped 1 utrp)
              else if negb (rx_enable utrp) then Some (Continue utrp)
              else
                let free_size :=
                  u64 (UDP_RING_BUFFER_SIZE
                       - u64 (ring_end utrp - ring_start utrp)) in
                if free_size <? len then Some (Stopped 1 utrp)
                else
                  let pos := 0 in
                  let ring_pos := ring_end utrp in
                  let ring_pos :=
                    if UDP_RING_BUFFER_SIZE <=? ring_pos
                    then u64 (ring_pos - UDP_RING_BUFFER_SIZE)
                    else ring_pos in
                  wrapped ←
                    (if UDP_RING_BUFFER_SIZE <=? u64 (ring_pos + len) then
                       let pos := u64 (UDP_RING_BUFFER_SIZE - ring_pos) in
                       ring ← memcpy (ring_buf utrp) ring_pos
                                       (pkt_buf utrp) 0 pos;
                       Some (pos, ring, u64 (ring_end utrp + pos), 0)
                     else
                       Some (pos, ring_buf utrp, ring_end utrp, ring_pos));
                  let '(pos, ring, rend, ring_pos) := wrapped in
                  copied ←
                    (if pos <? len then
                       ring ← memcpy ring ring_pos (pkt_buf utrp) pos
                                       (u64 (len - pos));
                       Some (ring, u64 (rend + u64 (len - pos)))
                     else Some (ring, rend));
                  let '(ring, rend) := copied in
                  Some (Continue (set_ring utrp ring (ring_start utrp) rend))
      end.

(** The place in the ring of byte [j] of the bytes that start at [p]. *)
Definition ring_index (p j : Z) : Z :=
  if p + j <? UDP_RING_BUFFER_SIZE then p + j
  else p + j - UDP_RING_BUFFER_SIZE.

(** The bytes that wait in the ring, oldest first. *)
Definition ring_bytes (utrp : udp_receiver) : list Z :=
  map (fun k => default 0 (array_get (ring_buf utrp)
                             (ring_index (ring_start utrp) (Z.of_nat k))))
      (seq 0 (Z.to_nat (ring_end utrp - ring_start utrp))).

(** The buffers have the sizes [udp_transport_create] allocates, and the
    ring holds [ring_end - ring_start] bytes from the even position
    [ring_start] on. *)
Record ring_ok (utrp : udp_receiver) : Prop := {
  ring_buf_size : Z.of_nat (length (ring_buf utrp)) = UDP_RING_BUFFER_SIZE;
  pkt_buf_size : Z.of_nat (length (pkt_buf utrp)) = UDP_PACKET_SIZE;
  rx_buf_size : Z.of_nat (length (rx_buf (rcv_trp utrp))) = UDP_PACKET_SIZE;
  ring_start_range : 0 <= ring_start utrp < UDP_RING_BUFFER_SIZE;
  ring_start_even : ring_start utrp mod 2 = 0;
  ring_fill :
    0 <= ring_end utrp - ring_start utrp <= UDP_RING_BUFFER_SIZE
}.

(** A receiver as [udp_transport_create] leaves it, the buffers zeroed. *)
Definition created_receiver : udp_receiver :=
  {| rcv_trp := {| tx_buf := replicate 1024 0; rx_buf := replicate 1024 0;
                   tx_pos := 0; rx_pos := 0; rx_len := 0 |};
     ring_buf := replicate (Z.to_nat 8192) 0; pkt_buf := replicate 1024 0;
     ring_start := 0; ring_end := 0; rx_enable := true |}.

(** The same with the ring positions two bytes before the end of the
    ring, so that the next packet lies across the end. *)
Definition wrapping_receiver : udp_receiver :=
  set_ring created_receiver (ring_buf created_receiver) 8190 8190.

(** ** The commands of the debugger ([psim.c]) *)

Definition set_bp_available (bp : breakpoint) (v : bool) : breakpoint :=
  {| bp_available := v; bp_enable := bp_enable bp; bp_task := bp_task bp;
     bp_ntask := bp_ntask bp; bp_mpc := bp_mpc bp;
     bp_on_task_switch := bp_on_task_switch bp;
     bp_mir_fmt := bp_mir_fmt bp; bp_mir_mask := bp_mir_mask bp |}.

Definition set_bp_enable (bp : breakpoint) (v : bool) : breakpoint :=
  {| bp_available := bp_available bp; bp_enable := v; bp_task := bp_task bp;
     bp_ntask := bp_ntask bp; bp_mpc := bp_mpc bp;
     bp_on_task_switch := bp_on_task_switch bp;
     bp_mir_fmt := bp_mir_fmt bp; bp_mir_mask := bp_mir_mask bp |}.







(** The table of breakpoints when [psim_debug] starts: every slot but the
    first is available; the first is the one the stepping commands use. *)
Definition psim_debug_table (bps : list breakpoint) : list breakpoint :=
  match bps with
  | [] => []
  | bp0 :: rest =>
      set_bp_available bp0 false
      :: map (fun bp => set_bp_available bp true) rest
  end.

(** A slot that is not both in use and enabled. *)
Definition idle (bp : breakpoint) : Prop :=
  negb (bp_available bp) && bp_enable bp = false.

Section Commands.

Context {hdr : microcode_h}.

Variable gui : Type.
Variable gui_running : gui -> bool.
Variable gui_update : gui -> simulator -> option (gui * simulator).

(** [strtoul] is outside this development: for a word and a base it gives
    the number read and tells whether the word was read to its end
    ([end[0] == 0]).  The words of a command are those that
    [psim_get_command] leaves in the command buffer after the command
    itself. *)
Variable strtoul : string -> Z -> Z * bool.

(** [(int)] of an [unsigned long]: the low 32 bits, as a signed number. *)
Definition to_int (v : Z) : Z :=
  let w := u32 v in if w <? 2 ^ 31 then w else w - 2 ^ 32.

Definition with_bp0 (ps : psim gui) (f : breakpoint -> breakpoint)
  : option (psim gui) :=
  match ps_bps gui ps with
  | [] => None
  | bp0 :: rest =>
      Some {| ps_ui := ps_ui gui ps; ps_sim := ps_sim gui ps;
              ps_bps := f bp0 :: rest |}
  end.

(** [psim_cmd_next] with the words after [n]. *)
Definition psim_cmd_next (fuel : nat) (ps : psim gui)
    (args : list string) : run (psim gui) :=
  let parsed :=
    match args with
    | [] => Some 1
    | arg :: _ =>
        let '(v, whole) := strtoul arg 10 in
        let num := to_int v in
        if negb whole || (num <? 0) then None else Some num
    end in
  match parsed with
  | None => Returned true ps
  | Some num =>
      match with_bp0 ps (fun bp => set_bp_enable bp false) with
      | None => Undefined
      | Some ps => psim_simulate gui gui_running gui_update fuel ps num
      end
  end.






End Commands.


(** ** The command line of the debugger ([psim_get_command]) *)

Section GetCommand.

(** [isspace] of the C library. *)
Variable isspace : Z -> bool.

(** The [while] loop of [psim_get_command].  [stdin] is the bytes that
    [fgetc] has still to return, and [EOF] once it is empty; [buf] is
    [ps->cmd_buf], of [ps->cmd_buf_size] bytes.  The loop is left with
    the rest of the stream, the buffer, [i], [len] and [last_is_space]. *)
Fixpoint get_command_loop (stdin buf : list Z) (i len : Z)
    (last_is_space : bool) : option (list Z * list Z * Z * Z * bool) :=
  match stdin with
  | [] => Some ([], buf, i, len, last_is_space)
  | c :: stdin =>
      if c =? 10 then Some (stdin, buf, i, len, last_is_space)
      else
        let store (c : Z) (last_is_space : bool) :=
          if u64 (i + 2) <? Z.of_nat (length buf) then
            match array_set buf i (u8 c) with
            | None => None
            | Some buf =>
                get_command_loop stdin buf (u64 (i + 1)) (u64 (len + 1))
                  last_is_space
            end
          else get_command_loop stdin buf i (u64 (len + 1)) last_is_space
        in
        if isspace c then
          if last_is_space then get_command_loop stdin buf i len true
          else store 0 true
        else store c false
  end.

(** [psim_get_command]: the buffer and the rest of the stream.  What it
    prints is left out. *)
Definition psim_get_command (buf stdin : list Z)
  : option (list Z * list Z) :=
  match get_command_loop stdin buf 0 0 true with
  | None => None
  | Some (stdin, buf, i, len, last_is_space) =>
      if i =? 0 then Some (buf, stdin)
      else
        closed ←
          (if negb last_is_space then
             buf ← array_set buf i 0; Some (buf, u64 (i + 1), u64 (len + 1))
           else Some (buf, i, len));
        let '(buf, i, len) := closed in
        buf ← array_set buf i 0;
        let len := u64 (len + 1) in
        if Z.of_nat (length buf) <=? len then
          buf ← array_set buf 0 0;
          buf ← array_set buf 1 0;
          Some (buf, stdin)
        else Some (buf, stdin)
  end.

(** The line that [psim_get_command] reads, and what follows its end. *)
Fixpoint line_of (stdin : list Z) : list Z :=
  match stdin with
  | [] => []
  | c :: stdin => if c =? 10 then [] else c :: line_of stdin
  end.

Fixpoint after_line (stdin : list Z) : list Z :=
  match stdin with
  | [] => []
  | c :: stdin => if c =? 10 then stdin else after_line stdin
  end.

(** The bytes of a line with every run of spaces replaced by one NUL, and
    without the spaces at its start. *)
Fixpoint squeeze (line : list Z) (last_is_space : bool) : list Z :=
  match line with
  | [] => []
  | c :: line =>
      if isspace c then
        if last_is_space then squeeze line true else 0 :: squeeze line true
      else u8 c :: squeeze line false
  end.

Fixpoint ends_in_space (line : list Z) (last_is_space : bool) : bool :=
  match line with
  | [] => last_is_space
  | c :: line => ends_in_space line (isspace c)
  end.

(** A space that does not end the line, and a word: bytes that are not
    spaces and do not end the line, at least one. *)
Definition blank (c : Z) : Prop := isspace c = true /\ c <> 10.

Definition word (w : list Z) : Prop :=
  w <> [] /\ Forall (fun c => isspace c = false /\ c <> 10 /\ 0 <= c < 256) w.

(** A word of a line with the spaces after it. *)
Definition spaced (item : list Z * list Z) : Prop :=
  word item.1 /\ item.2 <> [] /\ Forall blank item.2.

(** A line with at least one word: spaces, words that are each followed
    by spaces, a last word, spaces. *)
Definition command_line (lead : list Z) (items : list (list Z * list Z))
    (w_last trail : list Z) : list Z :=
  lead ++ concat (map (fun item => item.1 ++ item.2) items)
       ++ w_last ++ trail.

(** Words one after the other, each with a NUL after it, and a NUL at the
    end. *)
Definition command_words (items : list (list Z * list Z))
    (w_last : list Z) : list Z :=
  concat (map (fun item => item.1 ++ [0]) items) ++ w_last ++ [0; 0].

End GetCommand.

(** [isspace] in the C locale: the space and the characters from [\t] to
    [\r]. *)
Definition c_isspace (c : Z) : bool :=
  (c =? 32) || ((9 <=? c) && (c <=? 13)).

(** A buffer of twelve bytes that holds the command [c], and the input
    [ bp  -t<TAB>3 ] followed by a newline and one more byte. *)
Definition sample_cmd_buf : list Z := [99; 0; 0; 7; 7; 7; 7; 7; 7; 7; 7; 7].

Definition sample_stdin : list Z :=
  [32; 98; 112; 32; 32; 45; 116; 9; 51; 32; 10; 99].

(** ** Further test inputs *)

(** The reset simulator with memory primed: 0xAAAA at octal 100, 0x5555 at
    octal 101, and 0x1234 in main memory at the address of the first bank
    register. *)
Definition primed_memory_input : simulator :=
  set_mem reset_simulator
    (<[Z.to_nat 0xFFE0 := 0x1234]>
       (<[65%nat := 0x5555]>
          (<[64%nat := 0xAAAA]> (sim_mem reset_simulator)))).




(** BLOCK in the emulator task after a reset, with the bus reading
    register R0. *)
Definition block_read_r_input : simulator :=
  set_mir reset_simulator (alto_mir 0 0 0 3 0 0 0 0).

(** * Properties *)

(** ** Arrays *)

Lemma array_get_Some (a : list Z) (i : Z) :
  0 <= i < Z.of_nat (length a) -> exists v, array_get a i = Some v.
Proof.
  intros Hi. unfold array_get.
  destruct (Z.leb_spec 0 i) as [_ | ?]; [ | lia ].
  destruct (lookup_lt_is_Some_2 a (Z.to_nat i)) as [v Hv]; [ lia | ].
  exists v. exact Hv.
Qed.

Lemma array_get_None (a : list Z) (i : Z) :
  Z.of_nat (length a) <= i -> array_get a i = None.
Proof.
  intros Hi. unfold array_get.
  destruct (Z.leb_spec 0 i) as [_ | ?]; [ | reflexivity ].
  apply lookup_ge_None_2. lia.
Qed.

Lemma array_set_Some (a : list Z) (i v : Z) :
  0 <= i < Z.of_nat (length a) ->
  array_set a i v = Some (<[Z.to_nat i := v]> a).
Proof.
  intros Hi. unfold array_set.
  destruct (Z.leb_spec 0 i); [ | lia ].
  destruct (Z.ltb_spec i (Z.of_nat (length a))); [ reflexivity | lia ].
Qed.

Lemma array_set_None (a : list Z) (i v : Z) :
  Z.of_nat (length a) <= i -> array_set a i v = None.
Proof.
  intros Hi. unfold array_set.
  destruct (Z.ltb_spec i (Z.of_nat (length a))); [ lia | ].
  rewrite andb_false_r. reflexivity.
Qed.

Lemma array_set_length (a a' : list Z) (i v : Z) :
  array_set a i v = Some a' -> length a' = length a.
Proof.
  unfold array_set. destruct (_ && _); [ | discriminate ].
  intros [= <-]. apply length_insert.
Qed.

(** ** The bank registers (C10) *)

Section BankRegisters.

Context {hdr : microcode_h}.

Lemma is_bank_register_range (address : Z) :
  is_bank_register address = true <-> 0xFFE0 <= address <= 0xFFF0.
Proof.
  unfold is_bank_register, XM_BANK_START, NUM_BANK_SLOTS, TASK_NUM_TASKS.
  rewrite andb_true_iff, Z.leb_le, Z.leb_le. lia.
Qed.

Lemma forced_upper_bits (xm : Z) : Z.land (Z.lor 0xFFF0 xm) 0xFFF0 = 0xFFF0.
Proof.
  apply Z.bits_inj'. intros n _.
  rewrite Z.land_spec, Z.lor_spec.
  destruct (Z.testbit 0xFFF0 n); [ reflexivity | apply andb_false_r ].
Qed.

(** C10.  With the sixteen bank registers that [simulator_create]
    allocates, the range test of [simulator_read] and [simulator_write]
    accepts exactly the seventeen addresses 0xFFE0..0xFFF0; address 0xFFF0
    (= XM_BANK_START + NUM_BANK_SLOTS) selects index 16 of [xm_banks], one
    past its last entry, so that neither the read nor the write is an
    in-range access, for every task and extended-memory flag; and at each
    address 0xFFE0..0xFFEF the read returns the corresponding bank register
    OR-ed with 0xFFF0, a value whose upper twelve bits are all 1. *)
Theorem bank_register_range_one_too_wide
    (sim : simulator) (task data : Z) (extended_memory : bool) :
  Z.of_nat (length (sim_xm_banks sim)) = NUM_BANK_SLOTS ->
  XM_BANK_START + NUM_BANK_SLOTS = 0xFFF0
  /\ (forall address,
        is_bank_register address = true <-> 0xFFE0 <= address <= 0xFFF0)
  /\ is_bank_register 0xFFF0 = true
  /\ 0xFFF0 - XM_BANK_START = Z.of_nat (length (sim_xm_banks sim))
  /\ simulator_read sim 0xFFF0 task extended_memory = None
  /\ simulator_write sim 0xFFF0 data task extended_memory = None
  /\ (forall address, 0xFFE0 <= address <= 0xFFEF ->
        exists xm,
          sim_xm_banks sim !! Z.to_nat (address - XM_BANK_START) = Some xm
          /\ simulator_read sim address task extended_memory
             = Some (Z.lor 0xFFF0 xm)
          /\ Z.land (Z.lor 0xFFF0 xm) 0xFFF0 = 0xFFF0).
Proof.
  intros Hlen.
  assert (Hlen16 : Z.of_nat (length (sim_xm_banks sim)) = 16) by exact Hlen.
  split; [ reflexivity | ].
  split; [ exact is_bank_register_range | ].
  split; [ reflexivity | ].
  split; [ rewrite Hlen16; reflexivity | ].
  split.
  { unfold simulator_read.
    change (is_bank_register 0xFFF0) with true. cbv iota.
    rewrite array_get_None; [ reflexivity | ].
    rewrite Hlen16. unfold XM_BANK_START. lia. }
  split.
  { unfold simulator_write.
    change (is_bank_register 0xFFF0) with true. cbv iota.
    rewrite array_set_None; [ reflexivity | ].
    rewrite Hlen16. unfold XM_BANK_START. lia. }
  intros address Ha.
  destruct (array_get_Some (sim_xm_banks sim) (address - XM_BANK_START))
    as [xm Hxm]; [ rewrite Hlen16; unfold XM_BANK_START; lia | ].
  exists xm. split; [ | split ].
  - unfold array_get in Hxm.
    destruct (Z.leb_spec 0 (address - XM_BANK_START));
      [ exact Hxm | discriminate ].
  - unfold simulator_read.
    replace (is_bank_register address) with true
      by (symmetry; apply is_bank_register_range; lia).
    rewrite Hxm. reflexivity.
  - apply forced_upper_bits.
Qed.

End BankRegisters.

(** The reset simulator, reading every bank register and one past them. *)
Lemma bank_register_range_one_too_wide_witness :
  @simulator_read alto_header reset_simulator 0xFFF0 0 false = None
  /\ @simulator_read alto_header reset_simulator 0xFFEF 0 false = Some 0xFFF0.
Proof.
  destruct (@bank_register_range_one_too_wide alto_header reset_simulator
              0 0 false eq_refl)
    as (_ & _ & _ & _ & Hread & _ & Hin).
  split; [ exact Hread | ].
  destruct (Hin 0xFFEF ltac:(lia)) as (xm & Hxm & Hr & _).
  vm_compute in Hxm. injection Hxm as <-. exact Hr.
Defined.

(** Reduces the projections of updated states. *)
Ltac sim_simpl :=
  cbn [sim_sys_type sim_error sim_r sim_s sim_consts sim_microcode
       sim_task_mpc sim_mem sim_xm_banks sim_sr_banks sim_t sim_l sim_m
       sim_mar sim_ir sim_mir sim_mpc sim_ctask sim_ntask sim_task_switch
       sim_pending sim_aluC0 sim_skip sim_carry sim_dns sim_rmr
       sim_mem_cycle sim_mem_task sim_mem_low sim_mem_high
       sim_mem_extended sim_mem_which sim_cycle sim_next_cycle sim_ether
       sim_mous set_error set_r set_s set_task_mpc set_mem set_xm_banks
       set_sr_banks set_t set_l set_m set_mar set_ir set_mir set_mpc
       set_ctask set_ntask set_pending set_aluC0 set_skip set_rmr
       set_mem_cycle set_mem_task set_mem_low set_mem_high
       set_mem_extended set_mem_which set_cycle].

Tactic Notation "sim_simpl" "in" hyp(H) :=
  cbn [sim_sys_type sim_error sim_r sim_s sim_consts sim_microcode
       sim_task_mpc sim_mem sim_xm_banks sim_sr_banks sim_t sim_l sim_m
       sim_mar sim_ir sim_mir sim_mpc sim_ctask sim_ntask sim_task_switch
       sim_pending sim_aluC0 sim_skip sim_carry sim_dns sim_rmr
       sim_mem_cycle sim_mem_task sim_mem_low sim_mem_high
       sim_mem_extended sim_mem_which sim_cycle sim_next_cycle sim_ether
       sim_mous set_error set_r set_s set_task_mpc set_mem set_xm_banks
       set_sr_banks set_t set_l set_m set_mar set_ir set_mir set_mpc
       set_ctask set_ntask set_pending set_aluC0 set_skip set_rmr
       set_mem_cycle set_mem_task set_mem_low set_mem_high
       set_mem_extended set_mem_which set_cycle] in H.

(** ** Switch labels *)

(** Splits a [NoDup] fact about labels into its disequalities. *)
Ltac split_labels H :=
  let Hd := fresh "Hd" in
  pose proof H as Hd;
  repeat (apply NoDup_cons in Hd as [? Hd]);
  clear Hd;
  repeat match goal with
         | Hn : _ ∉ [] |- _ => clear Hn
         | Hn : _ ∉ _ :: _ |- _ =>
             apply not_elem_of_cons in Hn; destruct Hn as [? Hn]
         end.

(** Decides the tests [a =? b] of the goal that the hypotheses settle, and
    drops the branches that fall away. *)
Ltac settle_eqb :=
  repeat match goal with
         | |- context [Z.eqb ?a ?a] =>
             rewrite (Z.eqb_refl a); cbn [orb andb negb]; cbv iota
         | |- context [Z.eqb ?a ?b] =>
             destruct (Z.eqb_spec a b);
             [ exfalso; congruence | cbn [orb andb negb]; cbv iota ]
         end.

(** ** The sticky error state (C7) *)

Section ErrorState.

Context {hdr : microcode_h}.

(** C7.  In a state whose error flag is set, [simulator_step] returns the
    state as it is, so no number of steps changes any component of it; and
    after [simulator_reset] the error flag is clear. *)
Theorem error_state_is_sticky_until_reset (sim : simulator) :
  sim_error sim = true ->
  simulator_step sim = Some sim
  /\ (forall n, simulator_steps n sim = Some sim)
  /\ sim_error (simulator_reset sim) = false.
Proof.
  intros Herr.
  assert (Hstep : simulator_step sim = Some sim)
    by (unfold simulator_step; rewrite Herr; reflexivity).
  split; [ exact Hstep | split; [ | reflexivity ] ].
  induction n as [ | n IH ]; [ reflexivity | ].
  simpl. rewrite Hstep. exact IH.
Qed.

End ErrorState.

(** The reset simulator with its error flag raised. *)
Lemma error_state_is_sticky_until_reset_witness :
  @simulator_step alto_header (set_error reset_simulator true)
  = Some (set_error reset_simulator true).
Proof.
  exact (proj1 (@error_state_is_sticky_until_reset alto_header
                  (set_error reset_simulator true) eq_refl)).
Defined.

(** ** The shifter (C2, C3) *)

Lemma testbit_u16 (x n : Z) :
  Z.testbit (u16 x) n = (n <? 16) && Z.testbit x n.
Proof. unfold u16. apply Z.testbit_mod_pow2. lia. Qed.

Lemma testbit_above_16 (l n : Z) :
  0 <= l < 2 ^ 16 -> 16 <= n -> Z.testbit l n = false.
Proof.
  intros Hl Hn. rewrite <- (Z.mod_small l (2 ^ 16)) by exact Hl.
  apply Z.mod_pow2_bits_high. lia.
Qed.

Lemma u16_range (x : Z) : 0 <= u16 x < 2 ^ 16.
Proof. unfold u16. apply Z.mod_pos_bound. lia. Qed.

Lemma u16_small (x : Z) : 0 <= x < 2 ^ 16 -> u16 x = x.
Proof. intros Hx. unfold u16. apply Z.mod_small. exact Hx. Qed.

Lemma testbit_llcy8 (l n : Z) :
  0 <= l < 2 ^ 16 -> 0 <= n ->
  Z.testbit (llcy8 l) n
  = if n <? 8 then Z.testbit l (n + 8)
    else if n <? 16 then Z.testbit l (n - 8) else false.
Proof.
  intros Hl Hn. unfold llcy8.
  rewrite testbit_u16, Z.lor_spec, testbit_u16.
  rewrite Z.shiftl_spec, Z.shiftr_spec by lia.
  destruct (Z.ltb_spec n 8).
  - rewrite (Z.testbit_neg_r l (n - 8)) by lia.
    destruct (Z.ltb_spec n 16); [ | lia ].
    reflexivity.
  - rewrite (testbit_above_16 l (n + 8)) by lia.
    destruct (Z.ltb_spec n 16); [ | reflexivity ].
    rewrite orb_false_r. reflexivity.
Qed.

Lemma llcy8_involutive (l : Z) : 0 <= l < 2 ^ 16 -> llcy8 (llcy8 l) = l.
Proof.
  intros Hl. apply Z.bits_inj'. intros n Hn.
  rewrite testbit_llcy8 by (try apply u16_range; lia).
  destruct (Z.ltb_spec n 8).
  - rewrite testbit_llcy8 by lia.
    destruct (Z.ltb_spec (n + 8) 8); [ lia | ].
    destruct (Z.ltb_spec (n + 8) 16); [ | lia ].
    f_equal. lia.
  - destruct (Z.ltb_spec n 16).
    + rewrite testbit_llcy8 by lia.
      destruct (Z.ltb_spec (n - 8) 8); [ | lia ].
      f_equal. lia.
    + symmetry. apply testbit_above_16; lia.
Qed.

Lemma lrsh1_then_llsh1 (l : Z) :
  0 <= l < 2 ^ 16 -> u16 (Z.shiftl (Z.shiftr l 1) 1) = Z.land l 0xFFFE.
Proof.
  intros Hl. apply Z.bits_inj'. intros n Hn.
  rewrite testbit_u16, Z.land_spec, Z.shiftl_spec by lia.
  change 0xFFFE with (Z.shiftl (Z.ones 15) 1).
  rewrite Z.shiftl_spec by lia.
  destruct (Z.eq_dec n 0) as [-> | Hn0].
  - simpl. rewrite andb_false_r. reflexivity.
  - rewrite Z.shiftr_spec by lia.
    replace (n - 1 + 1) with n by lia.
    rewrite Z.testbit_ones by lia.
    destruct (Z.ltb_spec n 16).
    + destruct (Z.leb_spec 0 (n - 1)); [ | lia ].
      destruct (Z.ltb_spec (n - 1) 15); [ | lia ].
      simpl. rewrite andb_true_r. reflexivity.
    + rewrite (testbit_above_16 l n) by lia. reflexivity.
Qed.

Section Shifter.

Context {hdr : microcode_h}.
Hypothesis ok : header_ok.

(** C2, as the code has it.  For a 16-bit L, with [dns] clear and F2 other
    than MAGIC: LLCY8 applied to its own result gives L back, and LLSH1
    applied to the result of LRSH1 gives [L & 0xFFFE]: bit 15 survives, only
    bit 0 is lost.  The nova carry passes through unchanged. *)
Theorem shifter_laws (sim : simulator) (cy8 rsh lsh : microcode) (c : Z) :
  0 <= sim_l sim < 2 ^ 16 ->
  sim_dns sim = false ->
  mc_f1 cy8 = F1_LLCY8 -> mc_f1 rsh = F1_LRSH1 -> mc_f1 lsh = F1_LLSH1 ->
  mc_f2 rsh <> F2_EMU_MAGIC -> mc_f2 lsh <> F2_EMU_MAGIC ->
  do_shift (set_l sim (fst (do_shift sim cy8 c))) cy8
           (snd (do_shift sim cy8 c))
  = (sim_l sim, c)
  /\ do_shift (set_l sim (fst (do_shift sim rsh c))) lsh
              (snd (do_shift sim rsh c))
     = (Z.land (sim_l sim) 0xFFFE, c).
Proof.
  intros Hl Hdns Hcy8 Hrsh Hlsh Hrm Hlm.
  split_labels (f1_labels ok).
  split.
  - unfold do_shift. rewrite Hcy8. settle_eqb. cbn [fst snd sim_l set_l].
    fold (llcy8 (sim_l sim)). fold (llcy8 (llcy8 (sim_l sim))).
    rewrite llcy8_involutive by exact Hl. reflexivity.
  - unfold do_shift. rewrite Hrsh, Hlsh. settle_eqb.
    destruct (Z.eqb_spec (mc_f2 rsh) F2_EMU_MAGIC); [ contradiction | ].
    destruct (Z.eqb_spec (mc_f2 lsh) F2_EMU_MAGIC); [ contradiction | ].
    rewrite Hdns. cbn [fst snd sim_l set_l sim_dns]. rewrite Hdns.
    rewrite lrsh1_then_llsh1 by exact Hl. reflexivity.
Qed.

(** C3, what the code does.  With [dns] set and F2 other than MAGIC, the
    right shift sets bit 15 of its result whatever the incoming nova carry
    is: the test is made on the pointer [nova_carry], not on the carry it
    points to.  The carry left behind is the displaced bit [L & 1]. *)
Theorem lrsh1_nova_ignores_carry (sim : simulator) (mc : microcode) (c : Z) :
  sim_dns sim = true ->
  mc_f1 mc = F1_LRSH1 -> mc_f2 mc <> F2_EMU_MAGIC ->
  fst (do_shift sim mc c) = u16 (Z.lor (Z.shiftr (sim_l sim) 1) 0x8000)
  /\ Z.testbit (fst (do_shift sim mc c)) 15 = true
  /\ snd (do_shift sim mc c) = Z.land (sim_l sim) 1.
Proof.
  intros Hdns Hf1 Hf2.
  split_labels (f1_labels ok).
  unfold do_shift. rewrite Hf1. settle_eqb.
  destruct (Z.eqb_spec (mc_f2 mc) F2_EMU_MAGIC); [ contradiction | ].
  rewrite Hdns. cbn [fst snd].
  split; [ reflexivity | split; [ | reflexivity ] ].
  rewrite testbit_u16, Z.lor_spec.
  change (Z.testbit 32768 15) with true.
  rewrite orb_true_r. reflexivity.
Qed.

End Shifter.

(** The concrete header is well formed, and so is the reset simulator. *)
Lemma alto_header_ok : @header_ok alto_header.
Proof.
  split; simpl; try (unfold TASK_NUM_TASKS; lia);
    repeat (apply NoDup_cons; split;
            [ intros Hin;
              repeat (apply elem_of_cons in Hin as [Hin | Hin];
                      [ discriminate | ]);
              apply elem_of_nil in Hin; exact Hin | ]);
    apply NoDup_nil_2.
Qed.

Lemma reset_simulator_ok : @simulator_ok alto_header reset_simulator.
Proof.
  split; unfold reset_simulator, simulator_reset;
    cbn [sim_r sim_s sim_consts sim_microcode sim_task_mpc sim_mem
         sim_xm_banks sim_sr_banks created_simulator];
    rewrite ?length_replicate, ?length_map, ?length_seq;
    try (rewrite Z2Nat.id; [ | discriminate ]);
    try reflexivity.
  apply Forall_replicate. lia.
Qed.

(** L = 0x8000, right shift then left shift. *)
Lemma shifter_laws_witness :
  @do_shift alto_header
     (set_l (set_l reset_simulator 0x8000)
        (fst (@do_shift alto_header (set_l reset_simulator 0x8000)
                (alto_mc 0 0 0 5 0) 0)))
     (alto_mc 0 0 0 4 0)
     (snd (@do_shift alto_header (set_l reset_simulator 0x8000)
             (alto_mc 0 0 0 5 0) 0))
  = (0x8000, 0).
Proof.
  pose proof (@shifter_laws alto_header alto_header_ok
                (set_l reset_simulator 0x8000)
                (alto_mc 0 0 0 6 0) (alto_mc 0 0 0 5 0) (alto_mc 0 0 0 4 0)
                0 ltac:(cbn [sim_l set_l]; lia)
                eq_refl eq_refl eq_refl eq_refl
                ltac:(discriminate) ltac:(discriminate)) as [_ W].
  exact W.
Defined.

(** C2 as stated fails: for L = 0x8000, with [dns] clear and F2 = NONE, the
    left shift of the right shift is 0x8000, while [L & 0x7FFE] is 0. *)
Lemma shifter_laws_counterexample :
  let sim := set_l reset_simulator 0x8000 in
  let rsh := alto_mc 0 0 0 5 0 in
  let lsh := alto_mc 0 0 0 4 0 in
  sim_dns sim = false
  /\ mc_f1 rsh = @F1_LRSH1 alto_header /\ mc_f1 lsh = @F1_LLSH1 alto_header
  /\ mc_f2 rsh <> @F2_EMU_MAGIC alto_header
  /\ mc_f2 lsh <> @F2_EMU_MAGIC alto_header
  /\ fst (@do_shift alto_header
            (set_l sim (fst (@do_shift alto_header sim rsh 0))) lsh 0)
     = 0x8000
  /\ Z.land (sim_l sim) 0x7FFE = 0
  /\ fst (@do_shift alto_header
            (set_l sim (fst (@do_shift alto_header sim rsh 0))) lsh 0)
     <> Z.land (sim_l sim) 0x7FFE.
Proof.
  cbv zeta.
  repeat split; try reflexivity; vm_compute; discriminate.
Qed.

(** With carry 0 and L = 0 the shifter still answers 0x8000. *)
Lemma lrsh1_nova_ignores_carry_witness :
  sim_carry nova_shift_input = 0
  /\ fst (@do_shift alto_header nova_shift_input (alto_mc 0 0 0 5 0)
            (sim_carry nova_shift_input))
     = 0x8000.
Proof.
  split; [ reflexivity | ].
  exact (proj1 (@lrsh1_nova_ignores_carry alto_header alto_header_ok
                  nova_shift_input (alto_mc 0 0 0 5 0) 0
                  eq_refl eq_refl ltac:(discriminate))).
Defined.

(** ** The task switch (C5) *)

Section TaskSwitch.

Context {hdr : microcode_h}.
Hypothesis ok : header_ok.

(** What the scan from [n - 1] down to 0 leaves: the highest pending task
    below [n] in [ntask], or the state as it is when none is pending. *)
Lemma task_scan_spec (sim : simulator) (n : nat) :
  (exists k : nat,
      (k < n)%nat
      /\ is_pending sim (Z.of_nat k) = true
      /\ (forall j : nat, (k < j < n)%nat -> is_pending sim (Z.of_nat j) = false)
      /\ task_scan sim n = set_ntask sim (Z.of_nat k))
  \/ ((forall j : nat, (j < n)%nat -> is_pending sim (Z.of_nat j) = false)
      /\ task_scan sim n = sim).
Proof.
  induction n as [ | n IH ]; simpl.
  - right. split; [ intros j Hj; lia | reflexivity ].
  - destruct (is_pending sim (Z.of_nat n)) eqn:Hn.
    + left. exists n. repeat split; [ lia | exact Hn | intros j Hj; lia ].
    + destruct IH as [(k & Hk & Hpk & Habove & Hscan) | [Hnone Hscan]].
      * left. exists k. repeat split; [ lia | exact Hpk | | exact Hscan ].
        intros j Hj. destruct (Nat.eq_dec j n) as [-> | Hne];
          [ exact Hn | apply Habove; lia ].
      * right. split; [ | exact Hscan ].
        intros j Hj. destruct (Nat.eq_dec j n) as [-> | Hne];
          [ exact Hn | apply Hnone; lia ].
Qed.

Lemma do_f1_task (sim : simulator) (mc : microcode) (bus alu sh : Z) :
  mc_f1 mc = F1_TASK ->
  do_f1 sim mc bus alu sh = Some (task_scan sim (Z.to_nat TASK_NUM_TASKS)).
Proof.
  intros Hf1. split_labels (f1_labels ok).
  unfold do_f1. rewrite Hf1. settle_eqb. reflexivity.
Qed.

(** C5, as the code has it.  F1=TASK always completes and only writes
    [ntask].  When some task 0..15 is pending, [ntask] becomes the
    highest-numbered pending task: it is pending, no task above it is, and
    it is at least any pending task A.  So when A and B are pending with
    A > B, [ntask] is A provided no task above A is pending.  When no task
    is pending the state is unchanged. *)
Theorem task_switch_selects_highest_pending
    (sim : simulator) (mc : microcode) (bus alu sh : Z) :
  mc_f1 mc = F1_TASK ->
  exists sim',
    do_f1 sim mc bus alu sh = Some sim'
    /\ sim' = set_ntask sim (sim_ntask sim')
    /\ (forall A, 0 <= A < 16 -> is_pending sim A = true ->
          A <= sim_ntask sim' < 16
          /\ is_pending sim (sim_ntask sim') = true
          /\ (forall T, sim_ntask sim' < T < 16 -> is_pending sim T = false))
    /\ (forall A B, 0 <= B -> B < A -> A < 16 ->
          is_pending sim A = true -> is_pending sim B = true ->
          (forall T, A < T < 16 -> is_pending sim T = false) ->
          sim_ntask sim' = A)
    /\ ((forall T, 0 <= T < 16 -> is_pending sim T = false) -> sim' = sim).
Proof.
  intros Hf1. exists (task_scan sim (Z.to_nat TASK_NUM_TASKS)).
  split; [ apply do_f1_task; exact Hf1 | ].
  change (Z.to_nat TASK_NUM_TASKS) with 16%nat.
  assert (Hhigh : forall A, 0 <= A < 16 -> is_pending sim A = true ->
            A <= sim_ntask (task_scan sim 16) < 16
            /\ is_pending sim (sim_ntask (task_scan sim 16)) = true
            /\ (forall T, sim_ntask (task_scan sim 16) < T < 16 ->
                  is_pending sim T = false)).
  { intros A HA HpA.
    destruct (task_scan_spec sim 16)
      as [(k & Hk & Hpk & Habove & Hscan) | [Hnone Hscan]].
    - rewrite Hscan. cbn [sim_ntask set_ntask].
      split; [ | split; [ exact Hpk | ] ].
      + split; [ | lia ].
        destruct (Z.le_gt_cases A (Z.of_nat k)) as [Hle | Hgt];
          [ exact Hle | ].
        specialize (Habove (Z.to_nat A) ltac:(lia)).
        rewrite Z2Nat.id in Habove by lia. congruence.
      + intros T HT. specialize (Habove (Z.to_nat T) ltac:(lia)).
        rewrite Z2Nat.id in Habove by lia. exact Habove.
    - specialize (Hnone (Z.to_nat A) ltac:(lia)).
      rewrite Z2Nat.id in Hnone by lia. congruence. }
  split; [ | split; [ exact Hhigh | split ] ].
  - destruct (task_scan_spec sim 16)
      as [(k & _ & _ & _ & Hscan) | [_ Hscan]]; rewrite Hscan.
    + reflexivity.
    + destruct sim; reflexivity.
  - intros A B HB HAB HA HpA HpB Hnone.
    destruct (Hhigh A ltac:(lia) HpA) as (Hle & Hpn & _).
    destruct (Z.eq_dec (sim_ntask (task_scan sim 16)) A) as [Heq | Hne];
      [ exact Heq | ].
    specialize (Hnone (sim_ntask (task_scan sim 16)) ltac:(lia)).
    congruence.
  - intros Hnone.
    destruct (task_scan_spec sim 16)
      as [(k & Hk & Hpk & _ & _) | [_ Hscan]]; [ | exact Hscan ].
    specialize (Hnone (Z.of_nat k) ltac:(lia)). congruence.
Qed.

End TaskSwitch.

(** Tasks 0 and 7 pending, F1=TASK: the next task is 7. *)
Lemma task_switch_selects_highest_pending_witness :
  exists sim',
    @do_f1 alto_header (set_pending reset_simulator 0x81)
       (alto_mc 0 0 0 2 0) 0 0 0 = Some sim'
    /\ sim_ntask sim' = 7.
Proof.
  destruct (@task_switch_selects_highest_pending alto_header alto_header_ok
              (set_pending reset_simulator 0x81) (alto_mc 0 0 0 2 0) 0 0 0
              eq_refl)
    as (sim' & Hrun & _ & _ & Hpair & _).
  exists sim'. split; [ exact Hrun | ].
  apply (Hpair 7 0); [ lia | lia | lia | reflexivity | reflexivity | ].
  intros T HT.
  assert (HT' : T = 8 \/ T = 9 \/ T = 10 \/ T = 11 \/ T = 12 \/ T = 13
                \/ T = 14 \/ T = 15) by lia.
  repeat (destruct HT' as [-> | HT']; [ reflexivity | ]).
  subst T. reflexivity.
Defined.

(** C5 as stated fails: with tasks 1, 2 and 3 pending, A = 2 and B = 1 are
    both pending and A > B, yet F1=TASK leaves 3 in [ntask]. *)
Lemma task_switch_selects_highest_pending_counterexample :
  let sim := set_pending reset_simulator 14 in
  let mc := alto_mc 0 0 0 2 0 in
  mc_f1 mc = @F1_TASK alto_header
  /\ @is_pending sim 2 = true /\ @is_pending sim 1 = true
  /\ (sim_ntask <$> @do_f1 alto_header sim mc 0 0 0) = Some 3
  /\ (sim_ntask <$> @do_f1 alto_header sim mc 0 0 0) <> Some 2.
Proof.
  cbv zeta. repeat split; try reflexivity. vm_compute. discriminate.
Qed.

(** ** Ranges of bit operations *)

Lemma bits_above_bound (x k : Z) :
  0 <= k -> (forall n, k <= n -> Z.testbit x n = false) ->
  0 <= x < 2 ^ k.
Proof.
  intros Hk Hbits.
  assert (Hx : x mod 2 ^ k = x).
  { apply Z.bits_inj'. intros n Hn. rewrite Z.testbit_mod_pow2 by exact Hk.
    destruct (Z.ltb_spec n k); [ reflexivity | ].
    symmetry. apply Hbits. lia. }
  rewrite <- Hx. apply Z.mod_pos_bound. lia.
Qed.

Lemma testbit_above (x k n : Z) :
  0 <= x < 2 ^ k -> 0 <= k <= n -> Z.testbit x n = false.
Proof.
  intros Hx Hn. rewrite <- (Z.mod_small x (2 ^ k)) by exact Hx.
  apply Z.mod_pow2_bits_high. exact Hn.
Qed.

Lemma land_3_range (x : Z) : 0 <= Z.land x 0x3 < 4.
Proof.
  change 0x3 with (Z.ones 2). rewrite Z.land_ones by lia.
  apply Z.mod_pos_bound. lia.
Qed.

Lemma pair_address_range (sys_type : system_type) (addr : Z) :
  0 <= addr < 2 ^ 16 -> 0 <= pair_address sys_type addr < 2 ^ 16.
Proof.
  intros Ha. apply bits_above_bound; [ lia | ].
  intros n Hn. unfold pair_address.
  destruct (system_type_eqb sys_type ALTO_I);
    rewrite ?Z.lor_spec, ?Z.lxor_spec;
    rewrite (testbit_above addr 16 n) by lia;
    rewrite (testbit_above 1 16 n) by lia; reflexivity.
Qed.

(** ** Loading MAR (C4) *)

Section LoadMar.

Context {hdr : microcode_h}.
Hypothesis ok : header_ok.

(** A read is an in-range access at every 16-bit address but 0xFFF0. *)
Lemma simulator_read_defined
    (sim : simulator) (address task : Z) (extended_memory : bool) :
  Z.of_nat (length (sim_xm_banks sim)) = NUM_BANK_SLOTS ->
  Z.of_nat (length (sim_mem sim)) = NUM_BANKS * MEMORY_SIZE ->
  0 <= task < TASK_NUM_TASKS ->
  0 <= address < 2 ^ 16 -> address <> 0xFFF0 ->
  exists v, simulator_read sim address task extended_memory = Some v.
Proof.
  intros Hxm Hmem Htask Ha Hne.
  pose proof (bank_holds_every_address ok) as Hbank.
  unfold NUM_BANK_SLOTS in Hxm. unfold NUM_BANKS in Hmem.
  unfold simulator_read.
  destruct (is_bank_register address) eqn:Hbr.
  - apply is_bank_register_range in Hbr.
    destruct (array_get_Some (sim_xm_banks sim) (address - XM_BANK_START))
      as [xm Hget];
      [ rewrite Hxm; unfold XM_BANK_START, TASK_NUM_TASKS; lia | ].
    rewrite Hget. eexists. reflexivity.
  - unfold bank_number.
    destruct (array_get_Some (sim_xm_banks sim) task) as [xm Hget];
      [ rewrite Hxm; exact Htask | ].
    rewrite Hget. cbn [mbind option_bind].
    apply array_get_Some. rewrite Hmem.
    destruct extended_memory.
    + pose proof (land_3_range xm). nia.
    + pose proof (land_3_range (Z.shiftr xm 2)). nia.
Qed.

(** A read only looks at the bank registers and at the memory. *)
Lemma simulator_read_frame
    (sim sim' : simulator) (address task : Z) (extended_memory : bool) :
  sim_xm_banks sim' = sim_xm_banks sim -> sim_mem sim' = sim_mem sim ->
  simulator_read sim' address task extended_memory
  = simulator_read sim address task extended_memory.
Proof.
  intros Hxm Hmem. unfold simulator_read, bank_number.
  rewrite Hxm, Hmem. reflexivity.
Qed.

Lemma do_f1_is_load_mar (sim : simulator) (mc : microcode) (bus alu sh : Z) :
  mc_f1 mc = F1_LOAD_MAR ->
  do_f1 sim mc bus alu sh = do_f1_load_mar sim mc alu.
Proof.
  intros Hf1. split_labels (f1_labels ok).
  unfold do_f1. rewrite Hf1. settle_eqb. reflexivity.
Qed.

Lemma load_mar_post (sim sim' : simulator) (mc : microcode) (alu : Z) :
  do_f1_load_mar sim mc alu = Some sim' ->
  sim_mar sim' = alu
  /\ sim_mem_cycle sim' = 0
  /\ sim_mem_which sim' = 0
  /\ sim_mem_task sim' = mc_task mc
  /\ sim_mem_extended sim'
     = (if negb (system_type_eqb (sim_sys_type sim) ALTO_I)
        then mc_f2 mc =? F2_STORE_MD else false)
  /\ simulator_read sim' alu (mc_task mc) (sim_mem_extended sim')
     = Some (sim_mem_low sim')
  /\ simulator_read sim' (pair_address (sim_sys_type sim) alu) (mc_task mc)
       (sim_mem_extended sim')
     = Some (sim_mem_high sim').
Proof.
  unfold do_f1_load_mar. sim_simpl.
  set (ext := if negb (system_type_eqb (sim_sys_type sim) ALTO_I)
              then mc_f2 mc =? F2_STORE_MD else false).
  set (s1 := set_mem_which _ 0).
  intros Hrun.
  destruct (simulator_read s1 alu (mc_task mc) ext) as [lo | ] eqn:Hlo;
    [ | discriminate ].
  cbn [mbind option_bind] in Hrun.
  rewrite (simulator_read_frame s1 (set_mem_low s1 lo)) in Hrun
    by (sim_simpl; reflexivity).
  destruct (simulator_read s1 (pair_address (sim_sys_type sim) alu)
              (mc_task mc) ext) as [hi | ] eqn:Hhi; [ | discriminate ].
  cbn [mbind option_bind] in Hrun. injection Hrun as <-.
  rewrite !(simulator_read_frame s1 (set_mem_high (set_mem_low s1 lo) hi))
    by (sim_simpl; reflexivity).
  assert (Hext : sim_mem_extended (set_mem_high (set_mem_low s1 lo) hi)
                 = ext)
    by (unfold s1; sim_simpl; reflexivity).
  rewrite Hext, Hlo, Hhi.
  repeat (split; [ unfold s1; sim_simpl; reflexivity | ]).
  sim_simpl. reflexivity.
Qed.

Lemma load_mar_defined (sim : simulator) (mc : microcode) (alu : Z) :
  simulator_ok sim -> 0 <= mc_task mc < TASK_NUM_TASKS ->
  0 <= alu < 2 ^ 16 ->
  alu <> 0xFFF0 -> pair_address (sim_sys_type sim) alu <> 0xFFF0 ->
  exists sim', do_f1_load_mar sim mc alu = Some sim'.
Proof.
  intros Hok Htask Halu Hne Hpne.
  unfold do_f1_load_mar. sim_simpl.
  set (ext := if negb (system_type_eqb (sim_sys_type sim) ALTO_I)
              then mc_f2 mc =? F2_STORE_MD else false).
  set (s1 := set_mem_which _ 0).
  destruct (simulator_read_defined s1 alu (mc_task mc) ext)
    as [lo Hlo]; try assumption;
    [ exact (xm_banks_size _ Hok) | exact (mem_size _ Hok) | ].
  destruct (simulator_read_defined s1
              (pair_address (sim_sys_type sim) alu) (mc_task mc) ext)
    as [hi Hhi]; try assumption;
    [ exact (xm_banks_size _ Hok) | exact (mem_size _ Hok)
    | apply pair_address_range; exact Halu | ].
  rewrite Hlo. cbn [mbind option_bind].
  rewrite (simulator_read_frame s1 (set_mem_low s1 lo))
    by (sim_simpl; reflexivity).
  rewrite Hhi. eexists. reflexivity.
Qed.

(** [do_f1_load_mar] writes neither the memory nor the bank registers. *)
Lemma load_mar_memory_unchanged
    (sim sim' : simulator) (mc : microcode) (alu : Z) :
  do_f1_load_mar sim mc alu = Some sim' ->
  sim_mem sim' = sim_mem sim /\ sim_xm_banks sim' = sim_xm_banks sim.
Proof.
  unfold do_f1_load_mar. sim_simpl. intros Hrun.
  destruct (simulator_read _ alu _ _) as [lo | ]; [ | discriminate ].
  cbn [mbind option_bind] in Hrun.
  destruct (simulator_read _ (pair_address _ alu) _ _) as [hi | ];
    [ | discriminate ].
  cbn [mbind option_bind] in Hrun. injection Hrun as <-.
  split; sim_simpl; reflexivity.
Qed.

(** What a read delivers, in terms of the arrays: at the addresses that the
    range test takes for bank registers the register with its upper twelve
    bits set, elsewhere the word of main memory in the bank that the bank
    register of the task selects. *)
Lemma simulator_read_word
    (sim : simulator) (address task v : Z) (extended_memory : bool) :
  simulator_read sim address task extended_memory = Some v ->
  (XM_BANK_START <= address <= XM_BANK_START + NUM_BANK_SLOTS ->
   exists xm,
     sim_xm_banks sim !! Z.to_nat (address - XM_BANK_START) = Some xm
     /\ v = Z.lor 0xFFF0 xm)
  /\ (address < XM_BANK_START \/ XM_BANK_START + NUM_BANK_SLOTS < address ->
      exists xm,
        sim_xm_banks sim !! Z.to_nat task = Some xm
        /\ sim_mem sim
             !! Z.to_nat ((if extended_memory then Z.land xm 0x3
                           else Z.land (Z.shiftr xm 2) 0x3) * MEMORY_SIZE
                          + address)
           = Some v).
Proof.
  unfold simulator_read, bank_number, is_bank_register, array_get.
  intros Hread.
  destruct (Z.leb_spec XM_BANK_START address);
    destruct (Z.leb_spec address (XM_BANK_START + NUM_BANK_SLOTS));
    cbn [andb] in Hread.
  - split; [ intros _ | lia ].
    destruct (0 <=? address - XM_BANK_START); [ | discriminate Hread ].
    destruct (sim_xm_banks sim !! Z.to_nat (address - XM_BANK_START))
      as [xm | ]; [ | discriminate Hread ].
    cbn [mbind option_bind] in Hread. injection Hread as <-.
    exists xm. split; reflexivity.
  - split; [ lia | intros _ ].
    destruct (0 <=? task); [ | discriminate Hread ].
    destruct (sim_xm_banks sim !! Z.to_nat task) as [xm | ];
      [ | discriminate Hread ].
    cbn [mbind option_bind] in Hread.
    destruct (0 <=? _); [ | discriminate Hread ].
    exists xm. split; [ reflexivity | exact Hread ].
  - split; [ lia | intros _ ].
    destruct (0 <=? task); [ | discriminate Hread ].
    destruct (sim_xm_banks sim !! Z.to_nat task) as [xm | ];
      [ | discriminate Hread ].
    cbn [mbind option_bind] in Hread.
    destruct (0 <=? _); [ | discriminate Hread ].
    exists xm. split; [ reflexivity | exact Hread ].
  - split; [ lia | intros _ ].
    destruct (0 <=? task); [ | discriminate Hread ].
    destruct (sim_xm_banks sim !! Z.to_nat task) as [xm | ];
      [ | discriminate Hread ].
    cbn [mbind option_bind] in Hread.
    destruct (0 <=? _); [ | discriminate Hread ].
    exists xm. split; [ reflexivity | exact Hread ].
Qed.

(** C4, as the code has it.  On a well-formed state, for a task 0..15 and
    a 16-bit ALU output such that neither it nor its paired address is
    0xFFF0, the F1 phase of a microinstruction with F1=LOAD_MAR completes,
    and afterwards: MAR is the ALU output; [mem_cycle] and [mem_which] are
    0; [mem_task] is the task of the microinstruction; [mem_extended] holds
    exactly when F2=STORE_MD on a system other than the Alto I; [mem_low]
    is the word at MAR and [mem_high] the word at the paired address,
    [MAR | 1] on the Alto I and [MAR ^ 1] otherwise.  The word at an
    address is read off the arrays as they were before the phase, which
    leaves them as they are: at 0xFFE0..0xFFEF it is the bank register
    [xm_banks[address - 0xFFE0]] with its upper twelve bits set, elsewhere
    the word [mem[bank * MEMORY_SIZE + address]] of the bank that
    [xm_banks[task]] selects, in its bits 0-1 when [mem_extended] holds
    and in its bits 2-3 otherwise. *)
Theorem load_mar_reads_both_words
    (sim : simulator) (mc : microcode) (bus alu sh : Z) :
  simulator_ok sim -> 0 <= mc_task mc < TASK_NUM_TASKS ->
  0 <= alu < 2 ^ 16 ->
  alu <> 0xFFF0 -> pair_address (sim_sys_type sim) alu <> 0xFFF0 ->
  mc_f1 mc = F1_LOAD_MAR ->
  let word (extended : bool) (address v : Z) : Prop :=
    (XM_BANK_START <= address < XM_BANK_START + NUM_BANK_SLOTS ->
     exists xm,
       sim_xm_banks sim !! Z.to_nat (address - XM_BANK_START) = Some xm
       /\ v = Z.lor 0xFFF0 xm)
    /\ (address < XM_BANK_START \/ XM_BANK_START + NUM_BANK_SLOTS < address ->
        exists xm,
          sim_xm_banks sim !! Z.to_nat (mc_task mc) = Some xm
          /\ sim_mem sim
               !! Z.to_nat ((if extended then Z.land xm 0x3
                             else Z.land (Z.shiftr xm 2) 0x3) * MEMORY_SIZE
                            + address)
             = Some v) in
  exists sim',
    do_f1 sim mc bus alu sh = Some sim'
    /\ sim_mar sim' = alu
    /\ sim_mem_cycle sim' = 0
    /\ sim_mem_which sim' = 0
    /\ sim_mem_task sim' = mc_task mc
    /\ (sim_mem_extended sim' = true
        <-> mc_f2 mc = F2_STORE_MD /\ sim_sys_type sim <> ALTO_I)
    /\ word (sim_mem_extended sim') alu (sim_mem_low sim')
    /\ (sim_sys_type sim = ALTO_I ->
        word (sim_mem_extended sim') (Z.lor alu 1) (sim_mem_high sim'))
    /\ (sim_sys_type sim <> ALTO_I ->
        word (sim_mem_extended sim') (Z.lxor alu 1) (sim_mem_high sim'))
    /\ sim_mem sim' = sim_mem sim
    /\ sim_xm_banks sim' = sim_xm_banks sim.
Proof.
  intros Hok Htask Halu Hne Hpne Hf1 word.
  rewrite do_f1_is_load_mar by exact Hf1.
  destruct (load_mar_defined sim mc alu Hok Htask Halu Hne Hpne)
    as [sim' Hrun].
  exists sim'. split; [ exact Hrun | ].
  destruct (load_mar_post _ _ _ _ Hrun)
    as (Hmar & Hcycle & Hwhich & Hmtask & Hext & Hlow & Hhigh).
  destruct (load_mar_memory_unchanged _ _ _ _ Hrun) as [Hmem Hxm].
  rewrite (simulator_read_frame sim sim') in Hlow, Hhigh by assumption.
  assert (Hword : forall address v,
            simulator_read sim address (mc_task mc) (sim_mem_extended sim')
            = Some v ->
            word (sim_mem_extended sim') address v).
  { intros address v Hread.
    destruct (simulator_read_word _ _ _ _ _ Hread) as [Hreg Hmain].
    split; [ intros Ha; apply Hreg; lia | exact Hmain ]. }
  split; [ exact Hmar | ].
  split; [ exact Hcycle | ].
  split; [ exact Hwhich | ].
  split; [ exact Hmtask | ].
  split; [ | split; [ exact (Hword _ _ Hlow) | split; [ | split ] ] ].
  - rewrite Hext.
    destruct (Z.eqb_spec (mc_f2 mc) F2_STORE_MD) as [Hf2 | Hf2];
      destruct (sim_sys_type sim); cbn [system_type_eqb negb];
      split; try discriminate; try reflexivity;
      try (intros _; split; [ exact Hf2 | discriminate ]);
      intros [H1 H2]; contradiction.
  - intros Hsys. apply Hword. rewrite <- Hhigh. unfold pair_address.
    rewrite Hsys, Z.lor_comm. reflexivity.
  - intros Hsys. apply Hword. rewrite <- Hhigh. unfold pair_address.
    rewrite Z.lxor_comm.
    destruct (sim_sys_type sim); [ contradiction | reflexivity .. ].
  - split; assumption.
Qed.

End LoadMar.

Lemma primed_memory_input_ok : @simulator_ok alto_header primed_memory_input.
Proof.
  destruct reset_simulator_ok.
  split; unfold primed_memory_input; cbn [sim_r sim_s sim_consts
    sim_microcode sim_task_mpc sim_mem sim_xm_banks sim_sr_banks set_mem];
    rewrite ?length_insert; assumption.
Qed.

(** F1=LOAD_MAR with the ALU at octal 100, where the memory holds 0xAAAA,
    and 0x5555 at octal 101. *)
Lemma load_mar_reads_both_words_witness :
  exists sim',
    @do_f1 alto_header primed_memory_input (alto_mc 0 0 0 1 0) 0 64 0
    = Some sim'
    /\ sim_mar sim' = 64
    /\ sim_mem_low sim' = 0xAAAA
    /\ sim_mem_high sim' = 0x5555.
Proof.
  destruct (@load_mar_reads_both_words alto_header alto_header_ok
              primed_memory_input (alto_mc 0 0 0 1 0) 0 64 0
              primed_memory_input_ok
              ltac:(split; [ vm_compute; discriminate
                           | vm_compute; reflexivity ])
              ltac:(lia) ltac:(lia) ltac:(vm_compute; discriminate)
              eq_refl)
    as (sim' & Hrun & Hmar & _ & _ & _ & Hext & Hlow & _ & Hhigh & _).
  exists sim'. split; [ exact Hrun | ]. split; [ exact Hmar | ].
  assert (He : sim_mem_extended sim' = false).
  { destruct (sim_mem_extended sim'); [ | reflexivity ].
    destruct Hext as [Hext _]. destruct (Hext eq_refl) as [Hf2 _].
    discriminate Hf2. }
  rewrite He in Hlow, Hhigh.
  destruct Hlow as [_ Hlow]. destruct (Hhigh ltac:(discriminate)) as [_ Hhi].
  destruct (Hlow ltac:(left; vm_compute; reflexivity))
    as (xm & Hxm & Hlo).
  destruct (Hhi ltac:(left; vm_compute; reflexivity))
    as (xm' & Hxm' & Hhi').
  vm_compute in Hxm, Hxm'. injection Hxm as <-. injection Hxm' as <-.
  vm_compute in Hlo, Hhi'.
  split; congruence.
Defined.

(** C4 as stated fails.  At MAR = 0xFFF0, and at 0xFFF1, whose pair it is,
    the read leaves the sixteen bank registers on a well-formed state, so
    that the phase has no defined result; and at the bank register 0xFFE0
    [mem_low] is the register with its upper bits set, 0xFFF0, where main
    memory holds 0x1234 at that address. *)
Lemma load_mar_reads_both_words_counterexample :
  let mc := alto_mc 0 0 0 1 0 in
  @simulator_ok alto_header primed_memory_input
  /\ mc_f1 mc = @F1_LOAD_MAR alto_header
  /\ @do_f1 alto_header primed_memory_input mc 0 0xFFF0 0 = None
  /\ @do_f1 alto_header primed_memory_input mc 0 0xFFF1 0 = None
  /\ sim_mem primed_memory_input !! Z.to_nat 0xFFE0 = Some 0x1234
  /\ (sim_mem_low <$> @do_f1 alto_header primed_memory_input mc 0 0xFFE0 0)
     = Some 0xFFF0
  /\ (sim_mem_low <$> @do_f1 alto_header primed_memory_input mc 0 0xFFE0 0)
     <> Some 0x1234.
Proof.
  cbv zeta. split; [ exact primed_memory_input_ok | ].
  repeat split; try (vm_compute; reflexivity). vm_compute. discriminate.
Qed.

(** ** The emulator task stays pending (C6) *)

(** Case analysis on the tests and on the array accesses of the runs
    [_ = Some _] among the hypotheses. *)
Ltac break_runs :=
  repeat match goal with
         | H : None = Some _ |- _ => discriminate H
         | H : Some (_, _) = Some (?a, ?b) |- _ =>
             is_var a; is_var b; injection H as <- <-
         | H : Some _ = Some ?y |- _ => is_var y; injection H as <-
         | H : context [match ?b with _ => _ end] |- _ =>
             let E := fresh "E" in destruct b eqn:E
         | H : context [mbind _ ?m] |- _ =>
             let E := fresh "E" in
             destruct m eqn:E; cbn [mbind option_bind] in H
         end.

Section Pending.

Context {hdr : microcode_h}.

Lemma read_bus_pending (sim sim' : simulator) (mc : microcode) (r bus : Z) :
  read_bus sim mc r = Some (bus, sim') -> sim_pending sim' = sim_pending sim.
Proof.
  intros Hrun. unfold read_bus, invalid_bus_source in Hrun.
  break_runs; reflexivity.
Qed.

Lemma compute_alu_pending
    (sim sim' : simulator) (mc : microcode) (bus alu : Z) (c : bool) :
  compute_alu sim mc bus = (alu, c, sim') ->
  sim_pending sim' = sim_pending sim.
Proof.
  unfold compute_alu. intros Hrun.
  destruct (alu_result sim mc bus); injection Hrun as <- <- <-; reflexivity.
Qed.

Lemma task_scan_pending (sim : simulator) (n : nat) :
  sim_pending (task_scan sim n) = sim_pending sim.
Proof.
  induction n as [ | n IH ]; simpl; [ reflexivity | ].
  destruct (is_pending sim (Z.of_nat n)); [ reflexivity | exact IH ].
Qed.

Lemma do_f1_emulator_pending
    (sim sim' : simulator) (mc : microcode) (bus : Z) :
  do_f1_emulator sim mc bus = Some sim' ->
  sim_pending sim' = sim_pending sim.
Proof.
  intros Hrun. unfold do_f1_emulator in Hrun.
  break_runs; reflexivity.
Qed.

Lemma do_f1_specific_pending
    (sim sim' : simulator) (mc : microcode) (bus : Z) :
  do_f1_specific sim mc bus = Some sim' ->
  sim_pending sim' = sim_pending sim.
Proof.
  intros Hrun. unfold do_f1_specific in Hrun.
  repeat match type of Hrun with
         | context [mbind _ ?m] =>
             let E := fresh "E" in
             destruct m eqn:E; cbn [mbind option_bind] in Hrun
         | context [if ?b then _ else _] => destruct b
         end;
    try discriminate Hrun;
    try (apply do_f1_emulator_pending in Hrun; exact Hrun);
    injection Hrun as <-; reflexivity.
Qed.

Lemma load_mar_pending (sim sim' : simulator) (mc : microcode) (alu : Z) :
  do_f1_load_mar sim mc alu = Some sim' ->
  sim_pending sim' = sim_pending sim.
Proof.
  intros Hrun. unfold do_f1_load_mar in Hrun.
  cbv zeta in Hrun. break_runs; reflexivity.
Qed.

Lemma testbit_1 (n : Z) : Z.testbit 1 n = (n =? 0).
Proof. destruct n; reflexivity. Qed.

(** [p & (1 << e)] is non-zero exactly when bit [e] of [p] is set. *)
Lemma truthy_land_bit (p e : Z) :
  0 <= e -> truthy (Z.land p (Z.shiftl 1 e)) = Z.testbit p e.
Proof.
  intros He. unfold truthy.
  destruct (Z.testbit p e) eqn:Hbit.
  - destruct (Z.eqb_spec (Z.land p (Z.shiftl 1 e)) 0) as [Hz | ];
      [ | reflexivity ].
    apply (f_equal (fun x => Z.testbit x e)) in Hz.
    rewrite Z.land_spec, Z.shiftl_spec, Hbit, Z.sub_diag, Z.bits_0 in Hz
      by exact He.
    discriminate Hz.
  - destruct (Z.eqb_spec (Z.land p (Z.shiftl 1 e)) 0) as [ | Hnz ];
      [ reflexivity | ].
    exfalso. apply Hnz. apply Z.bits_inj'. intros n Hn.
    rewrite Z.land_spec, Z.shiftl_spec, testbit_1, Z.bits_0 by exact Hn.
    destruct (Z.eqb_spec (n - e) 0) as [Heq | ];
      [ | apply andb_false_r ].
    replace n with e by lia. rewrite Hbit. reflexivity.
Qed.

(** Clearing the pending bit of task [t] leaves the bit of another task
    [e] of the sixteen as it is. *)
Lemma clear_other_pending_bit (sim : simulator) (t e : Z) :
  0 <= e < 16 -> t <> e ->
  is_pending
    (set_pending sim
       (u16 (Z.land (sim_pending sim) (Z.lnot (Z.shiftl 1 t))))) e
  = is_pending sim e.
Proof.
  intros He Hne. unfold is_pending. sim_simpl.
  rewrite !truthy_land_bit by lia.
  rewrite testbit_u16, Z.land_spec, Z.lnot_spec, Z.shiftl_spec by lia.
  rewrite testbit_1.
  destruct (Z.ltb_spec e 16); [ | lia ].
  destruct (Z.eqb_spec (e - t) 0); [ lia | ].
  cbn [negb andb]. apply andb_true_r.
Qed.

Hypothesis ok : header_ok.

Lemma do_f1_emulator_stays_pending
    (sim sim' : simulator) (mc : microcode) (bus alu sh : Z) :
  do_f1 sim mc bus alu sh = Some sim' ->
  is_pending sim TASK_EMULATOR = true ->
  is_pending sim' TASK_EMULATOR = true.
Proof.
  intros Hrun Hp. pose proof (emulator_is_task ok) as He.
  unfold TASK_NUM_TASKS in He.
  assert (Hsame : forall s, sim_pending s = sim_pending sim ->
            is_pending s TASK_EMULATOR = true).
  { intros s Hs. unfold is_pending in *. rewrite Hs. exact Hp. }
  unfold do_f1 in Hrun.
  destruct (mc_f1 mc =? F1_NONE);
    [ apply Hsame, (do_f1_specific_pending _ _ _ _ Hrun) | ].
  destruct (_ || _); [ injection Hrun as <-; exact Hp | ].
  destruct (mc_f1 mc =? F1_LOAD_MAR);
    [ apply Hsame, (load_mar_pending _ _ _ _ Hrun) | ].
  destruct (mc_f1 mc =? F1_TASK);
    [ replace sim' with (task_scan sim (Z.to_nat TASK_NUM_TASKS))
        by congruence;
      apply Hsame, task_scan_pending | ].
  destruct (mc_f1 mc =? F1_BLOCK);
    [ | apply Hsame, (do_f1_specific_pending _ _ _ _ Hrun) ].
  destruct (Z.eqb_spec (mc_task mc) TASK_EMULATOR) as [ | Hne ];
    injection Hrun as <-; [ exact Hp | ].
  rewrite clear_other_pending_bit by (try exact Hne; lia). exact Hp.
Qed.

Lemma simulator_write_pending
    (sim sim' : simulator) (address data task : Z) (ext : bool) :
  simulator_write sim address data task ext = Some sim' ->
  sim_pending sim' = sim_pending sim.
Proof.
  intros Hrun. unfold simulator_write in Hrun.
  break_runs; reflexivity.
Qed.

Lemma do_f2_pending
    (sim sim' : simulator) (mc : microcode) (bus alu sh next_extra : Z) :
  do_f2 sim mc bus alu sh = Some (next_extra, sim') ->
  sim_pending sim' = sim_pending sim.
Proof.
  intros Hrun.
  unfold do_f2, do_f2_emulator in Hrun.
  break_runs; sim_simpl; try reflexivity;
    eapply simulator_write_pending; eassumption.
Qed.

Lemma wb_registers_pending
    (sim sim' : simulator) (mc : microcode) (r bus alu sh : Z) (c : bool) :
  wb_registers sim mc r bus alu sh c = Some sim' ->
  sim_pending sim' = sim_pending sim.
Proof.
  intros Hrun. unfold wb_registers in Hrun.
  break_runs; reflexivity.
Qed.

Lemma update_program_counters_pending
    (sim sim' : simulator) (next_extra : Z) :
  update_program_counters sim next_extra = Some sim' ->
  sim_pending sim' = sim_pending sim.
Proof.
  intros Hrun. unfold update_program_counters in Hrun.
  break_runs. sim_simpl. repeat case_match; reflexivity.
Qed.

Lemma simulator_step_emulator_stays_pending (sim sim' : simulator) :
  simulator_step sim = Some sim' ->
  is_pending sim TASK_EMULATOR = true ->
  is_pending sim' TASK_EMULATOR = true.
Proof.
  intros Hrun Hp.
  assert (Hsame : forall s s', sim_pending s' = sim_pending s ->
            is_pending s TASK_EMULATOR = true ->
            is_pending s' TASK_EMULATOR = true).
  { intros s s' Hs Hps. unfold is_pending in *. rewrite Hs. exact Hps. }
  unfold simulator_step in Hrun.
  destruct (sim_error sim); [ injection Hrun as <-; exact Hp | ].
  destruct (read_bus sim _ _) as [[bus s1] | ] eqn:Hbus;
    [ | discriminate Hrun ].
  cbn [mbind option_bind] in Hrun.
  apply read_bus_pending in Hbus.
  pose proof (Hsame _ _ Hbus Hp) as Hp1.
  destruct (sim_error s1); [ injection Hrun as <-; exact Hp1 | ].
  destruct (compute_alu s1 _ bus) as [[alu c] s2] eqn:Halu.
  apply compute_alu_pending in Halu.
  pose proof (Hsame _ _ Halu Hp1) as Hp2.
  destruct (sim_error s2); [ injection Hrun as <-; exact Hp2 | ].
  destruct (do_shift s2 _ _) as [sh nova].
  destruct (do_f1 s2 _ bus alu sh) as [s3 | ] eqn:Hf1;
    [ | discriminate Hrun ].
  cbn [mbind option_bind] in Hrun.
  pose proof (do_f1_emulator_stays_pending _ _ _ _ _ _ Hf1 Hp2) as Hp3.
  destruct (sim_error s3); [ injection Hrun as <-; exact Hp3 | ].
  destruct (do_f2 s3 _ bus alu sh) as [[next_extra s4] | ] eqn:Hf2;
    [ | discriminate Hrun ].
  cbn [mbind option_bind] in Hrun.
  apply do_f2_pending in Hf2.
  pose proof (Hsame _ _ Hf2 Hp3) as Hp4.
  destruct (sim_error s4); [ injection Hrun as <-; exact Hp4 | ].
  destruct (wb_registers s4 _ _ bus alu sh c) as [s5 | ] eqn:Hwb;
    [ | discriminate Hrun ].
  cbn [mbind option_bind] in Hrun.
  apply wb_registers_pending in Hwb.
  apply update_program_counters_pending in Hrun.
  apply (Hsame s5); [ exact Hrun | ].
  apply (Hsame s4); [ exact Hwb | exact Hp4 ].
Qed.

Lemma reset_emulator_pending (sim : simulator) :
  is_pending (simulator_reset sim) TASK_EMULATOR = true.
Proof.
  pose proof (emulator_is_task ok) as He.
  unfold is_pending. rewrite truthy_land_bit by lia.
  unfold simulator_reset. sim_simpl.
  rewrite Z.shiftl_spec, Z.sub_diag by lia. reflexivity.
Qed.

(** C6.  In every state that [simulator_step] reaches from a reset state
    in any number of steps, [pending & (1 << TASK_EMULATOR)] is
    non-zero. *)
Theorem emulator_task_always_pending (sim0 sim : simulator) (n : nat) :
  simulator_steps n (simulator_reset sim0) = Some sim ->
  Z.land (sim_pending sim) (Z.shiftl 1 TASK_EMULATOR) <> 0.
Proof.
  intros Hrun.
  assert (Hp : is_pending sim TASK_EMULATOR = true).
  { pose proof (reset_emulator_pending sim0) as Hp0.
    revert Hrun Hp0. generalize (simulator_reset sim0) as start.
    induction n as [ | n IH ]; intros start Hrun Hp0.
    - injection Hrun as <-. exact Hp0.
    - simpl in Hrun.
      destruct (simulator_step start) as [next | ] eqn:Hstep;
        [ | discriminate Hrun ].
      cbn [mbind option_bind] in Hrun.
      apply (IH next Hrun).
      exact (simulator_step_emulator_stays_pending _ _ Hstep Hp0). }
  unfold is_pending, truthy in Hp.
  destruct (Z.eqb_spec (Z.land (sim_pending sim) (Z.shiftl 1 TASK_EMULATOR))
              0) as [ | Hnz ]; [ discriminate Hp | exact Hnz ].
Qed.

End Pending.

(** Three cycles of the zeroed microcode after a reset. *)
Lemma emulator_task_always_pending_witness :
  exists sim,
    @simulator_steps alto_header 3 reset_simulator = Some sim
    /\ Z.land (sim_pending sim) (Z.shiftl 1 (@TASK_EMULATOR alto_header))
       <> 0.
Proof.
  destruct (@simulator_steps alto_header 3 reset_simulator)
    as [sim | ] eqn:Hrun.
  - exists sim. split; [ reflexivity | ].
    exact (@emulator_task_always_pending alto_header alto_header_ok
             created_simulator sim 3 Hrun).
  - apply (f_equal (fmap sim_cycle)) in Hrun.
    vm_compute in Hrun. discriminate Hrun.
Defined.

(** ** BLOCK in the emulator task (C1) *)

Section EmulatorBlock.

Context {hdr : microcode_h}.
Hypothesis ok : header_ok.

Lemma testbit_3 (n : Z) : 2 <= n -> Z.testbit 0x3 n = false.
Proof.
  intros Hn. change 0x3 with (Z.ones 2). apply Z.ones_spec_high. lia.
Qed.

(** Replacing the two low bits of a register number keeps it a register
    number. *)
Lemma replace_low_bits_range (rsel x : Z) :
  0 <= rsel < NUM_R_REGISTERS ->
  0 <= u16 (Z.lor (u16 (Z.land rsel (Z.lnot 0x3))) (Z.land x 0x3))
    < NUM_R_REGISTERS.
Proof.
  intros Hr. change NUM_R_REGISTERS with (2 ^ 5) in *.
  apply bits_above_bound; [ lia | ].
  intros n Hn.
  rewrite testbit_u16, Z.lor_spec, testbit_u16, !Z.land_spec.
  rewrite (testbit_above rsel 5 n) by lia.
  rewrite (testbit_3 n) by lia.
  rewrite !andb_false_r. reflexivity.
Qed.

Lemma get_modified_rsel_range (sim : simulator) (mc : microcode) :
  0 <= mc_rsel mc < NUM_R_REGISTERS ->
  0 <= get_modified_rsel sim mc < NUM_R_REGISTERS.
Proof.
  intros Hr. unfold get_modified_rsel.
  repeat case_match; try exact Hr; apply replace_low_bits_range; exact Hr.
Qed.

(** On a well-formed state [read_bus] is defined; it either finds a source
    and leaves [after_read_bus], or finds none, which is not the READ_MD
    case, and raises the error flag. *)
Lemma read_bus_outcome (sim : simulator) (mc : microcode) :
  simulator_ok sim -> microcode_ok mc ->
  exists bus sim1,
    read_bus sim mc (get_modified_rsel sim mc) = Some (bus, sim1)
    /\ (sim1 = after_read_bus sim mc
        \/ (sim1 = set_error sim true /\ after_read_bus sim mc = sim)).
Proof.
  intros Hsim Hmc.
  pose proof (get_modified_rsel_range sim mc (rsel_range _ Hmc)) as Hrsel.
  destruct (array_get_Some (sim_consts sim) (mc_const_addr mc))
    as [cv Hcv];
    [ rewrite (consts_size _ Hsim); exact (const_addr_range _ Hmc) | ].
  destruct (array_get_Some (sim_r sim) (get_modified_rsel sim mc))
    as [rv Hrv]; [ rewrite (r_size _ Hsim); exact Hrsel | ].
  destruct (array_get_Some (sim_sr_banks sim) (mc_task mc))
    as [rb Hrb];
    [ rewrite (sr_banks_size _ Hsim); exact (task_range _ Hmc) | ].
  assert (Hrbr : 0 <= rb < 8).
  { unfold array_get in Hrb. destruct (0 <=? mc_task mc); [ | discriminate ].
    pose proof (sr_banks_range _ Hsim) as Hall.
    rewrite Forall_lookup in Hall. exact (Hall _ _ Hrb). }
  destruct (array_get_Some (sim_s sim) (rb * NUM_R_REGISTERS + mc_rsel mc))
    as [sv Hsv].
  { rewrite (s_size _ Hsim). pose proof (rsel_range _ Hmc) as Hr.
    unfold NUM_S_REGISTERS, NUM_R_REGISTERS in *. lia. }
  split_labels (bs_labels ok).
  unfold read_bus, after_read_bus, invalid_bus_source.
  destruct (mc_use_constant mc).
  { rewrite Hcv. cbn [mbind option_bind negb andb]. eauto. }
  cbn [negb andb].
  assert (Hout : exists output,
            (if mc_bs_use_crom mc
             then array_get (sim_consts sim) (mc_const_addr mc)
             else Some 65535) = Some output).
  { destruct (mc_bs_use_crom mc); eauto. }
  destruct Hout as [output ->]. cbn [mbind option_bind].
  rewrite Hrv, Hrb. cbn [mbind option_bind].
  destruct (Z.eqb_spec (mc_bs mc) BS_READ_MD) as [Hmd | Hmd].
  - rewrite Hmd. settle_eqb. eauto.
  - repeat case_match; try rewrite Hsv; cbn [mbind option_bind]; eauto 6.
Qed.

Lemma compute_alu_outcome (sim : simulator) (mc : microcode) (bus : Z) :
  exists alu c,
    compute_alu sim mc bus = (alu, c, sim)
    \/ compute_alu sim mc bus = (alu, c, set_error sim true).
Proof.
  unfold compute_alu. destruct (alu_result sim mc bus); eauto.
Qed.

Lemma do_f1_emulator_block
    (sim : simulator) (mc : microcode) (bus alu sh : Z) :
  mc_f1 mc = F1_BLOCK -> mc_task mc = TASK_EMULATOR ->
  do_f1 sim mc bus alu sh = Some (set_error sim true).
Proof.
  intros Hf1 Htask. split_labels (f1_labels ok).
  unfold do_f1. rewrite Hf1, Htask. settle_eqb. reflexivity.
Qed.

(** C1, as the code has it.  On a well-formed state that is not in error,
    a step whose microinstruction has F1=BLOCK in the emulator task ends
    with the error flag set.  The bus is read before F1 is looked at: when
    the bus source is READ_MD (and no constant is used) [mem_which] has
    been toggled by then.  Every other component keeps its value, whatever
    the ALUF and F2 fields are. *)
Theorem emulator_block_sets_error (sim : simulator) :
  let mc := microcode_predecode (sim_sys_type sim) (sim_mpc sim)
                                (sim_mir sim) (sim_ctask sim) in
  simulator_ok sim -> microcode_ok mc ->
  sim_error sim = false ->
  mc_f1 mc = F1_BLOCK -> mc_task mc = TASK_EMULATOR ->
  simulator_step sim
  = Some (set_error
            (if negb (mc_use_constant mc) && (mc_bs mc =? BS_READ_MD)
             then set_mem_which sim (Z.lxor 1 (sim_mem_which sim))
             else sim)
            true).
Proof.
  intros mc Hsim Hmc Herr Hf1 Htask.
  fold (after_read_bus sim mc).
  unfold simulator_step. rewrite Herr. fold mc.
  destruct (read_bus_outcome sim mc Hsim Hmc)
    as (bus & sim1 & -> & [-> | [-> Hsame]]); cbn [mbind option_bind].
  - assert (Herr1 : sim_error (after_read_bus sim mc) = false)
      by (unfold after_read_bus; case_match; exact Herr).
    rewrite Herr1.
    destruct (compute_alu_outcome (after_read_bus sim mc) mc bus)
      as (alu & c & [-> | ->]).
    + rewrite Herr1.
      destruct (do_shift (after_read_bus sim mc) mc _) as [sh nova].
      rewrite do_f1_emulator_block by assumption.
      cbn [mbind option_bind]. reflexivity.
    + reflexivity.
  - rewrite Hsame. reflexivity.
Qed.

End EmulatorBlock.

Lemma block_read_md_input_ok : @simulator_ok alto_header block_read_md_input.
Proof. destruct reset_simulator_ok. split; assumption. Qed.

Lemma emulator_block_sets_error_witness :
  @simulator_step alto_header block_read_md_input
  = Some (set_error (set_mem_which block_read_md_input 1) true).
Proof.
  exact (@emulator_block_sets_error alto_header alto_header_ok
           block_read_md_input block_read_md_input_ok
           ltac:(split; split; vm_compute; (discriminate || reflexivity))
           eq_refl eq_refl eq_refl).
Defined.

(** C1 as stated fails: the step sets the error flag, but [mem_which],
    which was 0, is 1 afterwards. *)
Lemma emulator_block_sets_error_counterexample :
  let sim := block_read_md_input in
  let mc := @microcode_predecode alto_header (sim_sys_type sim) (sim_mpc sim)
              (sim_mir sim) (sim_ctask sim) in
  sim_error sim = false
  /\ mc_f1 mc = @F1_BLOCK alto_header
  /\ sim_ctask sim = @TASK_EMULATOR alto_header
  /\ (sim_error <$> @simulator_step alto_header sim) = Some true
  /\ sim_mem_which sim = 0
  /\ (sim_mem_which <$> @simulator_step alto_header sim) = Some 1
  /\ (sim_mem_which <$> @simulator_step alto_header sim)
     <> Some (sim_mem_which sim).
Proof.
  cbv zeta. repeat split; try reflexivity. vm_compute. discriminate.
Qed.

(** ** Breakpoints (C9) *)






Section BreakpointEngine.

Context {hdr : microcode_h}.
Variable gui : Type.
Variable gui_running : gui -> bool.
Variable gui_update : gui -> simulator -> option (gui * simulator).



End BreakpointEngine.

(** ** Framing of a packet (C8) *)

Lemma testbit_u8 (x n : Z) : Z.testbit (u8 x) n = (n <? 8) && Z.testbit x n.
Proof. unfold u8. apply Z.testbit_mod_pow2. lia. Qed.

(** The two bytes of a 16-bit word put together again, as
    [trp_get_rx_data] does. *)
Lemma be16_decode (w : Z) :
  0 <= w < 2 ^ 16 ->
  Z.lor (u16 (Z.shiftl (u8 (Z.shiftr w 8)) 8)) (u8 w) = w.
Proof.
  intros Hw. apply Z.bits_inj'. intros n Hn.
  rewrite Z.lor_spec, testbit_u16, Z.shiftl_spec, !testbit_u8 by exact Hn.
  destruct (Z.ltb_spec n 8).
  - rewrite (Z.testbit_neg_r _ (n - 8)) by lia.
    rewrite !andb_false_r. reflexivity.
  - rewrite Z.shiftr_spec by lia. replace (n - 8 + 8) with n by lia.
    destruct (Z.ltb_spec n 16).
    + destruct (Z.ltb_spec (n - 8) 8); [ | lia ].
      cbn [andb]. apply orb_false_r.
    + rewrite (testbit_above_16 w n) by lia. reflexivity.
Qed.

Lemma length_be16_words (W : list Z) :
  length (flat_map be16 W) = (2 * length W)%nat.
Proof. induction W as [ | w W IH ]; simpl; [ reflexivity | lia ]. Qed.

(** Writing two bytes right after a prefix of the buffer. *)
Lemma insert_two_after (pre tail : list Z) (a b : Z) :
  (2 <= length tail)%nat ->
  <[S (length pre) := b]> (<[length pre := a]> (pre ++ tail))
  = (pre ++ [a; b]) ++ drop 2 tail.
Proof.
  intros Htail.
  destruct tail as [ | t0 [ | t1 tail ] ]; simpl in Htail; try lia.
  rewrite insert_app_r_alt, Nat.sub_diag by lia. cbn [insert list_insert].
  rewrite insert_app_r_alt by lia.
  replace (S (length pre) - length pre)%nat with 1%nat by lia.
  cbn [insert list_insert drop]. rewrite <- app_assoc. reflexivity.
Qed.

(** One append, once the length prefix has been reserved. *)
Lemma trp_append_tx_after (utrp : udp_transport) (pre tail : list Z)
    (data : Z) :
  tx_buf utrp = pre ++ tail ->
  tx_pos utrp = Z.of_nat (length pre) ->
  (2 <= length pre)%nat -> (2 <= length tail)%nat ->
  Z.of_nat (length (pre ++ tail)) = UDP_PACKET_SIZE ->
  trp_append_tx utrp data
  = Some (true, set_tx utrp ((pre ++ be16 data) ++ drop 2 tail)
                  (Z.of_nat (length (pre ++ be16 data)))).
Proof.
  intros Hbuf Hpos Hpre Htail Hsize.
  rewrite length_app in Hsize. unfold UDP_PACKET_SIZE in Hsize.
  unfold trp_append_tx.
  destruct (Z.eqb_spec (tx_pos utrp) 0); [ lia | ].
  cbn [mbind option_bind].
  destruct (Z.leb_spec UDP_PACKET_SIZE (tx_pos utrp));
    [ unfold UDP_PACKET_SIZE in *; lia | ].
  rewrite Hbuf, Hpos.
  rewrite array_set_Some by (rewrite length_app; lia).
  cbn [mbind option_bind].
  rewrite array_set_Some by (rewrite length_insert, length_app; lia).
  cbn [mbind option_bind].
  rewrite Nat2Z.id.
  replace (Z.to_nat (Z.of_nat (length pre) + 1)) with (S (length pre))
    by lia.
  rewrite insert_two_after by exact Htail.
  rewrite length_app. cbn [be16 length].
  do 3 f_equal. lia.
Qed.

(** The first append into a cleared buffer reserves the prefix and then
    goes on as any other append. *)
Lemma trp_append_tx_first (utrp : udp_transport) (b0 b1 : Z)
    (tail : list Z) (data : Z) :
  tx_buf utrp = b0 :: b1 :: tail -> tx_pos utrp = 0 ->
  trp_append_tx utrp data
  = trp_append_tx (set_tx utrp (0 :: 0 :: tail) 2) data.
Proof.
  intros Hbuf Hpos. unfold trp_append_tx.
  cbn [tx_pos tx_buf set_tx]. rewrite Hpos, Hbuf.
  change (0 =? 0) with true. change (2 =? 0) with false. cbv iota.
  rewrite (array_set_Some (b0 :: b1 :: tail) 0 0) by (cbn [length]; lia).
  cbn [mbind option_bind].
  rewrite array_set_Some by (rewrite length_insert; cbn [length]; lia).
  change (Z.to_nat 0) with 0%nat. change (Z.to_nat 1) with 1%nat.
  cbn [mbind option_bind insert list_insert]. reflexivity.
Qed.

Lemma append_tx_all_after (W : list Z) :
  forall (utrp : udp_transport) (pre tail : list Z),
    tx_buf utrp = pre ++ tail ->
    tx_pos utrp = Z.of_nat (length pre) ->
    (2 <= length pre)%nat ->
    (2 * length W <= length tail)%nat ->
    Z.of_nat (length (pre ++ tail)) = UDP_PACKET_SIZE ->
    exists utrp',
      append_tx_all utrp W = Some (true, utrp')
      /\ tx_buf utrp'
         = (pre ++ flat_map be16 W) ++ drop (2 * length W) tail
      /\ tx_pos utrp' = Z.of_nat (length (pre ++ flat_map be16 W)).
Proof.
  induction W as [ | w W IH ]; intros utrp pre tail Hbuf Hpos Hpre Htail Hsize.
  - exists utrp. cbn [append_tx_all flat_map length Nat.mul drop].
    rewrite app_nil_r. auto.
  - cbn [append_tx_all length] in *.
    rewrite (trp_append_tx_after utrp pre tail w Hbuf Hpos Hpre)
      by (try exact Hsize; lia).
    destruct (IH (set_tx utrp ((pre ++ be16 w) ++ drop 2 tail)
                    (Z.of_nat (length (pre ++ be16 w))))
                (pre ++ be16 w) (drop 2 tail))
      as (utrp' & Hrun & Hbuf' & Hpos').
    + reflexivity.
    + reflexivity.
    + rewrite length_app. lia.
    + rewrite length_drop. lia.
    + rewrite !length_app, length_drop in *. cbn [be16 length]. lia.
    + exists utrp'. split; [ exact Hrun | ].
      rewrite Hbuf', Hpos', drop_drop. cbn [flat_map].
      rewrite <- !app_assoc.
      replace (2 + 2 * length W)%nat with (2 * S (length W))%nat by lia.
      auto.
Qed.

(** Sending a buffer that holds the reserved prefix and [n] words. *)
Lemma trp_send_datagram (utrp : udp_transport) (h0 h1 : Z)
    (body rest : list Z) (n : nat) (ret : Z) :
  tx_buf utrp = h0 :: h1 :: body ++ rest ->
  tx_pos utrp = Z.of_nat (2 + length body) ->
  length body = (2 * n)%nat -> Z.of_nat n < 2 ^ 16 ->
  exists ok utrp',
    trp_send utrp ret = Some (ok, be16 (Z.of_nat n) ++ body, utrp').
Proof.
  intros Hbuf Hpos Hbody Hn. unfold trp_send.
  assert (Hdata : u16 (Z.shiftr (tx_pos utrp) 1 - 1) = Z.of_nat n).
  { rewrite Hpos, Hbody, Z.shiftr_div_pow2 by lia.
    replace (Z.of_nat (2 + 2 * n)) with ((Z.of_nat n + 1) * 2 ^ 1) by lia.
    rewrite Z.div_mul by lia.
    replace (Z.of_nat n + 1 - 1) with (Z.of_nat n) by lia.
    apply u16_small. lia. }
  rewrite Hdata, Hbuf.
  rewrite array_set_Some by (cbn [length]; lia).
  cbn [mbind option_bind].
  rewrite array_set_Some by (rewrite length_insert; cbn [length]; lia).
  change (Z.to_nat 0) with 0%nat. change (Z.to_nat 1) with 1%nat.
  cbn [mbind option_bind insert list_insert tx_pos tx_buf set_tx].
  rewrite Hpos, Nat2Z.id. cbn [Nat.add take].
  rewrite take_app_length.
  destruct (ret <? 0); eexists _, _; reflexivity.
Qed.

(** One read, once the length prefix has been skipped. *)
Lemma trp_get_rx_data_after (rx : udp_transport) (pre rest : list Z)
    (w : Z) :
  rx_buf rx = pre ++ be16 w ++ rest ->
  rx_pos rx = Z.of_nat (length pre) -> (2 <= length pre)%nat ->
  rx_pos rx < rx_len rx -> 0 <= w < 2 ^ 16 ->
  trp_get_rx_data rx
  = Some (w, set_rx_pos rx (Z.of_nat (length (pre ++ be16 w)))).
Proof.
  intros Hbuf Hpos Hpre Hlen Hw. unfold trp_get_rx_data.
  destruct (Z.leb_spec (rx_len rx) (rx_pos rx)); [ lia | ].
  destruct (Z.eqb_spec (rx_pos rx) 0); [ lia | ].
  rewrite Hbuf, Hpos. unfold array_get.
  destruct (Z.leb_spec 0 (Z.of_nat (length pre))); [ | lia ].
  destruct (Z.leb_spec 0 (Z.of_nat (length pre) + 1)); [ | lia ].
  rewrite Nat2Z.id.
  replace (Z.to_nat (Z.of_nat (length pre) + 1)) with (S (length pre))
    by lia.
  cbn [be16 app].
  rewrite (list_lookup_middle pre _ _ (length pre) eq_refl).
  cbn [mbind option_bind].
  rewrite lookup_app_r by lia.
  replace (S (length pre) - length pre)%nat with 1%nat by lia.
  cbn [lookup list_lookup mbind option_bind].
  rewrite be16_decode by exact Hw.
  rewrite length_app. cbn [be16 length]. do 3 f_equal. lia.
Qed.

(** The first read of a packet skips the length prefix. *)
Lemma trp_get_rx_data_first (rx : udp_transport) :
  rx_pos rx = 0 -> 2 < rx_len rx ->
  trp_get_rx_data rx = trp_get_rx_data (set_rx_pos rx 2).
Proof.
  intros Hpos Hlen. unfold trp_get_rx_data.
  cbn [rx_pos rx_len rx_buf set_rx_pos]. rewrite Hpos.
  destruct (Z.leb_spec (rx_len rx) 0); [ lia | ].
  destruct (Z.leb_spec (rx_len rx) 2); [ lia | ].
  reflexivity.
Qed.

Lemma get_rx_data_n_after (W : list Z) :
  forall (rx : udp_transport) (pre rest : list Z),
    rx_buf rx = pre ++ flat_map be16 W ++ rest ->
    rx_pos rx = Z.of_nat (length pre) -> (2 <= length pre)%nat ->
    Z.of_nat (length pre + 2 * length W) <= rx_len rx ->
    Forall (fun w => 0 <= w < 2 ^ 16) W ->
    exists rx', get_rx_data_n rx (length W) = Some (W, rx').
Proof.
  induction W as [ | w W IH ]; intros rx pre rest Hbuf Hpos Hpre Hlen Hall.
  - exists rx. reflexivity.
  - apply Forall_cons in Hall as [Hw Hall].
    cbn [flat_map length get_rx_data_n] in *.
    rewrite <- app_assoc in Hbuf.
    rewrite (trp_get_rx_data_after rx pre _ w Hbuf Hpos Hpre)
      by (try exact Hw; lia).
    destruct (IH (set_rx_pos rx (Z.of_nat (length (pre ++ be16 w))))
                (pre ++ be16 w) rest) as [rx' Hrun].
    + cbn [rx_buf set_rx_pos]. rewrite Hbuf, <- app_assoc. reflexivity.
    + reflexivity.
    + rewrite length_app. lia.
    + cbn [rx_len set_rx_pos]. rewrite length_app. cbn [be16 length]. lia.
    + exact Hall.
    + rewrite Hrun. exists rx'. reflexivity.
Qed.

(** C8, as the code has it.  For a non-empty W of at most 510 sixteen-bit
    words: every append into the cleared 1024-byte transmit buffer returns
    TRUE, and the datagram that [trp_send] hands to [sendto] is the word
    count followed by the words, each as two bytes, most significant
    first; a receiver whose receive buffer starts with that datagram, with
    [rx_pos] 0 and [rx_len] at least its length, gets the words of W in
    order from as many calls of [trp_get_rx_data]. *)
Theorem transport_framing_round_trip
    (tx : udp_transport) (W : list Z) (ret : Z) :
  W <> [] -> (length W <= 510)%nat ->
  Forall (fun w => 0 <= w < 2 ^ 16) W ->
  Z.of_nat (length (tx_buf tx)) = UDP_PACKET_SIZE ->
  sent_datagram tx W ret = Some (wire_frame W)
  /\ (forall (rx : udp_transport) (rest : list Z),
        rx_pos rx = 0 ->
        rx_buf rx = wire_frame W ++ rest ->
        Z.of_nat (length (wire_frame W)) <= rx_len rx ->
        exists rx', get_rx_data_n rx (length W) = Some (W, rx')).
Proof.
  intros Hne Hlen Hall Hsize.
  destruct W as [ | w W ]; [ contradiction | ].
  unfold UDP_PACKET_SIZE in Hsize.
  destruct (tx_buf tx) as [ | b0 [ | b1 tail ] ] eqn:Hbuf;
    cbn [length] in Hsize; try lia.
  set (init := set_tx (trp_clear_tx tx) (0 :: 0 :: tail) 2).
  destruct (append_tx_all_after (w :: W) init [0; 0] tail)
    as (tx' & Hrun & Hbuf' & Hpos');
    [ reflexivity | reflexivity | cbn [length]; lia
    | cbn [length] in *; lia
    | unfold UDP_PACKET_SIZE; cbn [length app]; lia | ].
  assert (Hcount : Z.of_nat (length (w :: W)) < 2 ^ 16) by lia.
  split.
  - unfold sent_datagram.
    replace (append_tx_all (trp_clear_tx tx) (w :: W))
      with (append_tx_all init (w :: W)).
    2: { cbn [append_tx_all].
         rewrite (trp_append_tx_first (trp_clear_tx tx) b0 b1 tail w)
           by (try reflexivity; exact Hbuf).
         reflexivity. }
    rewrite Hrun.
    destruct (trp_send_datagram tx' 0 0 (flat_map be16 (w :: W))
                (drop (2 * length (w :: W)) tail) (length (w :: W)) ret)
      as (ok & tx'' & Hsend).
    + rewrite Hbuf'. rewrite <- app_assoc. reflexivity.
    + rewrite Hpos', length_app. reflexivity.
    + apply length_be16_words.
    + exact Hcount.
    + rewrite Hsend. reflexivity.
  - intros rx rest Hpos Hrx Hrxlen.
    unfold wire_frame in Hrx, Hrxlen.
    rewrite length_app, length_be16_words in Hrxlen.
    cbn [be16 length] in Hrxlen.
    destruct (get_rx_data_n_after (w :: W) (set_rx_pos rx 2)
                (be16 (Z.of_nat (length (w :: W)))) rest)
      as [rx' Hrun_rx].
    + cbn [rx_buf set_rx_pos]. rewrite Hrx, <- app_assoc. reflexivity.
    + reflexivity.
    + cbn [be16 length]. lia.
    + cbn [rx_len set_rx_pos be16 length] in *. lia.
    + exact Hall.
    + exists rx'. rewrite <- Hrun_rx. cbn [get_rx_data_n length].
      rewrite trp_get_rx_data_first by (cbn [length] in *; lia).
      reflexivity.
Qed.

Lemma transport_framing_round_trip_witness :
  sent_datagram sample_sender [0x1234; 0x5678] 6
  = Some [0; 2; 0x12; 0x34; 0x56; 0x78]
  /\ exists rx',
       get_rx_data_n sample_receiver 2 = Some ([0x1234; 0x5678], rx').
Proof.
  destruct (transport_framing_round_trip sample_sender [0x1234; 0x5678] 6)
    as [Hsent Hread].
  - discriminate.
  - cbn [length]. lia.
  - repeat (apply Forall_cons; split; [ lia | ]). apply Forall_nil_2.
  - reflexivity.
  - split; [ exact Hsent | ].
    apply (Hread sample_receiver (replicate 1018 0));
      [ reflexivity | reflexivity | vm_compute; discriminate ].
Defined.

(** C8 as stated fails for the empty sequence: nothing is appended, so
    [tx_pos] is still 0 when [trp_send] runs, and the datagram handed to
    [sendto] has no bytes at all, not the two bytes of a zero count. *)
Lemma transport_framing_round_trip_counterexample :
  sent_datagram sample_sender [] 0 = Some []
  /\ wire_frame [] = [0; 0]
  /\ sent_datagram sample_sender [] 0 <> Some (wire_frame []).
Proof.
  repeat split; try reflexivity. vm_compute. discriminate.
Qed.

(** * Further properties of the code *)

(** ** The ALU *)

Lemma lnot_low_16 (t : Z) :
  0 <= t < 2 ^ 16 -> Z.land (Z.lnot t) 0xFFFF = 0xFFFF - t.
Proof.
  intros Ht. change 0xFFFF with (Z.ones 16) at 1.
  rewrite Z.land_ones by lia. unfold Z.lnot.
  symmetry. apply (Z.mod_unique _ _ (-1)); lia.
Qed.

Lemma u32_small (x : Z) : 0 <= x < 2 ^ 32 -> u32 x = x.
Proof. intros Hx. unfold u32. apply Z.mod_small. exact Hx. Qed.

Lemma u16_add_modulus (x : Z) : u16 (x + 2 ^ 16) = u16 x.
Proof.
  unfold u16. replace (x + 2 ^ 16) with (x + 1 * 2 ^ 16) by lia.
  apply Z_mod_plus_full.
Qed.

(** Bit 16 of a 17-bit value, as [compute_alu] tests it. *)
Lemma carry_out (x : Z) :
  0 <= x < 2 ^ 17 -> truthy (Z.land x 0x10000) = (2 ^ 16 <=? x).
Proof.
  intros Hx. change 0x10000 with (Z.shiftl 1 16).
  rewrite truthy_land_bit, Z.testbit_eqb by lia.
  destruct (Z.leb_spec (2 ^ 16) x).
  - replace (x / 2 ^ 16) with 1; [ reflexivity | ].
    apply (Z.div_unique _ _ _ (x - 2 ^ 16)); lia.
  - rewrite Z.div_small by lia. reflexivity.
Qed.

Section Alu.

Context {hdr : microcode_h}.
Hypothesis ok : header_ok.

Lemma alu_plus_t (sim : simulator) (mc : microcode) (bus : Z) :
  mc_aluf mc = ALU_BUS_PLUS_T ->
  alu_result sim mc bus = Some (u32 (bus + sim_t sim)).
Proof.
  intros Hf. split_labels (alu_labels ok).
  unfold alu_result. rewrite Hf. settle_eqb. reflexivity.
Qed.

Lemma alu_minus_t (sim : simulator) (mc : microcode) (bus : Z) :
  mc_aluf mc = ALU_BUS_MINUS_T ->
  alu_result sim mc bus
  = Some (u32 (bus + Z.land (Z.lnot (sim_t sim)) 0xFFFF + 1)).
Proof.
  intros Hf. split_labels (alu_labels ok).
  unfold alu_result. rewrite Hf. settle_eqb. reflexivity.
Qed.

Lemma alu_plus_1 (sim : simulator) (mc : microcode) (bus : Z) :
  mc_aluf mc = ALU_BUS_PLUS_1 -> alu_result sim mc bus = Some (u32 (bus + 1)).
Proof.
  intros Hf. split_labels (alu_labels ok).
  unfold alu_result. rewrite Hf. settle_eqb. reflexivity.
Qed.

Lemma alu_minus_1 (sim : simulator) (mc : microcode) (bus : Z) :
  mc_aluf mc = ALU_BUS_MINUS_1 ->
  alu_result sim mc bus = Some (u32 (bus + 0xFFFF)).
Proof.
  intros Hf. split_labels (alu_labels ok).
  unfold alu_result. rewrite Hf. settle_eqb. reflexivity.
Qed.

Lemma alu_xor (sim : simulator) (mc : microcode) (bus : Z) :
  mc_aluf mc = ALU_BUS_XOR_T ->
  alu_result sim mc bus = Some (Z.lxor bus (sim_t sim)).
Proof.
  intros Hf. split_labels (alu_labels ok).
  unfold alu_result. rewrite Hf. settle_eqb. reflexivity.
Qed.

Lemma alu_and (sim : simulator) (mc : microcode) (bus : Z) :
  mc_aluf mc = ALU_BUS_AND_T ->
  alu_result sim mc bus = Some (Z.land bus (sim_t sim)).
Proof.
  intros Hf. split_labels (alu_labels ok).
  unfold alu_result. rewrite Hf. settle_eqb. reflexivity.
Qed.

Lemma alu_and_not (sim : simulator) (mc : microcode) (bus : Z) :
  mc_aluf mc = ALU_BUS_AND_NOT_T ->
  alu_result sim mc bus
  = Some (Z.land (Z.land bus (Z.lnot (sim_t sim))) 0xFFFF).
Proof.
  intros Hf. split_labels (alu_labels ok).
  unfold alu_result. rewrite Hf. settle_eqb. reflexivity.
Qed.

(** X1. The sum and the difference of 16-bit operands, with the carry that
    [compute_alu] reports: on an addition the carry out of bit 15, on a
    subtraction the absence of a borrow. *)
Theorem alu_sum_difference_carry
    (sim : simulator) (add sub inc dec : microcode) (bus : Z) :
  0 <= bus < 2 ^ 16 -> 0 <= sim_t sim < 2 ^ 16 ->
  mc_aluf add = ALU_BUS_PLUS_T -> mc_aluf sub = ALU_BUS_MINUS_T ->
  mc_aluf inc = ALU_BUS_PLUS_1 -> mc_aluf dec = ALU_BUS_MINUS_1 ->
  compute_alu sim add bus
  = (u16 (bus + sim_t sim), 2 ^ 16 <=? bus + sim_t sim, sim)
  /\ compute_alu sim sub bus
     = (u16 (bus - sim_t sim), sim_t sim <=? bus, sim)
  /\ compute_alu sim inc bus = (u16 (bus + 1), bus =? 0xFFFF, sim)
  /\ compute_alu sim dec bus = (u16 (bus - 1), 1 <=? bus, sim).
Proof.
  intros Hbus Ht Hadd Hsub Hinc Hdec. unfold compute_alu.
  rewrite (alu_plus_t sim add), (alu_minus_t sim sub), (alu_plus_1 sim inc),
    (alu_minus_1 sim dec) by assumption.
  rewrite lnot_low_16 by exact Ht.
  rewrite !u32_small by lia. rewrite !carry_out by lia.
  split; [ reflexivity | split; [ | split ] ].
  - replace (bus + (65535 - sim_t sim) + 1) with (bus - sim_t sim + 2 ^ 16)
      by lia.
    rewrite u16_add_modulus. do 2 f_equal.
    destruct (Z.leb_spec (2 ^ 16) (bus - sim_t sim + 2 ^ 16));
      destruct (Z.leb_spec (sim_t sim) bus); lia || reflexivity.
  - do 2 f_equal.
    destruct (Z.leb_spec (2 ^ 16) (bus + 1));
      destruct (Z.eqb_spec bus 65535); lia || reflexivity.
  - replace (bus + 65535) with (bus - 1 + 2 ^ 16) by lia.
    rewrite u16_add_modulus. do 2 f_equal.
    destruct (Z.leb_spec (2 ^ 16) (bus - 1 + 2 ^ 16));
      destruct (Z.leb_spec 1 bus); lia || reflexivity.
Qed.

(** X2. What the ALU undoes: subtracting T from the sum with T gives the bus
    back, so does a second exclusive or with T, and the parts selected by T
    and by its complement make up the bus. *)
Theorem alu_round_trips
    (sim : simulator) (add sub xor and andnot : microcode) (bus : Z) :
  0 <= bus < 2 ^ 16 -> 0 <= sim_t sim < 2 ^ 16 ->
  mc_aluf add = ALU_BUS_PLUS_T -> mc_aluf sub = ALU_BUS_MINUS_T ->
  mc_aluf xor = ALU_BUS_XOR_T ->
  mc_aluf and = ALU_BUS_AND_T -> mc_aluf andnot = ALU_BUS_AND_NOT_T ->
  let alu mc b := fst (fst (compute_alu sim mc b)) in
  alu sub (alu add bus) = bus
  /\ alu xor (alu xor bus) = bus
  /\ Z.lor (alu and bus) (alu andnot bus) = bus.
Proof.
  intros Hbus Ht Hadd Hsub Hxor Hand Handnot alu. subst alu.
  unfold compute_alu.
  rewrite (alu_plus_t sim add), (alu_minus_t sim sub), !(alu_xor sim xor),
    (alu_and sim and), (alu_and_not sim andnot) by assumption.
  cbn [fst]. rewrite lnot_low_16 by exact Ht.
  assert (Hx : forall x, 0 <= x < 2 ^ 16 ->
                 0 <= Z.lxor x (sim_t sim) < 2 ^ 16).
  { intros x Hx. apply bits_above_bound; [ lia | ]. intros n Hn.
    rewrite Z.lxor_spec, (testbit_above x 16 n),
      (testbit_above (sim_t sim) 16 n) by lia.
    reflexivity. }
  split; [ | split ].
  - pose proof (u16_range (u32 (bus + sim_t sim))) as Hs.
    rewrite (u32_small (bus + sim_t sim)) in * by lia.
    rewrite u32_small by lia.
    replace (u16 (bus + sim_t sim) + (65535 - sim_t sim) + 1)
      with (u16 (bus + sim_t sim) - sim_t sim + 2 ^ 16) by lia.
    rewrite u16_add_modulus. unfold u16 in *.
    rewrite Zminus_mod_idemp_l.
    replace (bus + sim_t sim - sim_t sim) with bus by lia.
    apply Z.mod_small. exact Hbus.
  - rewrite (u16_small (Z.lxor bus _)) by (apply Hx; exact Hbus).
    rewrite Z.lxor_assoc, Z.lxor_nilpotent, Z.lxor_0_r.
    apply u16_small. exact Hbus.
  - apply Z.bits_inj'. intros n Hn.
    rewrite Z.lor_spec, !testbit_u16, !Z.land_spec, Z.lnot_spec by exact Hn.
    change 65535 with (Z.ones 16). rewrite Z.testbit_ones by lia.
    destruct (Z.ltb_spec n 16).
    + destruct (Z.leb_spec 0 n); [ | lia ].
      destruct (Z.testbit bus n), (Z.testbit (sim_t sim) n); reflexivity.
    + rewrite (testbit_above bus 16 n) by lia. reflexivity.
Qed.

End Alu.

(** 0xFFFF + 1 with T = 1: the sum wraps to 0 with a carry. *)
Lemma alu_sum_difference_carry_witness :
  @compute_alu alto_header (set_t reset_simulator 1)
    (alto_mc 0 7 0 0 0) 0xFFFF
  = (u16 (0xFFFF + 1), 2 ^ 16 <=? 0xFFFF + 1, set_t reset_simulator 1).
Proof.
  exact (proj1 (@alu_sum_difference_carry alto_header alto_header_ok
                  (set_t reset_simulator 1)
                  (alto_mc 0 7 0 0 0) (alto_mc 0 8 0 0 0)
                  (alto_mc 0 5 0 0 0) (alto_mc 0 6 0 0 0) 0xFFFF
                  ltac:(lia) ltac:(cbn [sim_t set_t]; lia)
                  eq_refl eq_refl eq_refl eq_refl)).
Defined.

(** 0x1234 + 0xF000 - 0xF000. *)
Lemma alu_round_trips_witness :
  fst (fst (@compute_alu alto_header (set_t reset_simulator 0xF000)
              (alto_mc 0 8 0 0 0)
              (fst (fst (@compute_alu alto_header
                           (set_t reset_simulator 0xF000)
                           (alto_mc 0 7 0 0 0) 0x1234)))))
  = 0x1234.
Proof.
  exact (proj1 (@alu_round_trips alto_header alto_header_ok
                  (set_t reset_simulator 0xF000)
                  (alto_mc 0 7 0 0 0) (alto_mc 0 8 0 0 0)
                  (alto_mc 0 4 0 0 0) (alto_mc 0 3 0 0 0)
                  (alto_mc 0 13 0 0 0) 0x1234
                  ltac:(lia) ltac:(cbn [sim_t set_t]; lia)
                  eq_refl eq_refl eq_refl eq_refl eq_refl)).
Defined.

(** ** Memory and bank registers, written and read back *)

Lemma array_get_insert (a : list Z) (i v : Z) :
  0 <= i < Z.of_nat (length a) ->
  array_get (<[Z.to_nat i := v]> a) i = Some v.
Proof.
  intros Hi. unfold array_get.
  destruct (Z.leb_spec 0 i); [ | lia ].
  apply list_lookup_insert_eq. lia.
Qed.

Lemma array_get_insert_ne (a : list Z) (i j v : Z) :
  0 <= i -> i <> j ->
  array_get (<[Z.to_nat i := v]> a) j = array_get a j.
Proof.
  intros Hi Hne. unfold array_get.
  destruct (Z.leb_spec 0 j); [ | reflexivity ].
  apply list_lookup_insert_ne. lia.
Qed.

Lemma low_nibble_readback (data : Z) :
  0 <= data < 2 ^ 16 -> Z.lor 0xFFF0 data = 0xFFF0 + data mod 16.
Proof.
  intros Hd.
  replace (0xFFF0 + data mod 16) with (Z.lor 0xFFF0 (data mod 2 ^ 4)).
  - apply Z.bits_inj'. intros n Hn.
    rewrite !Z.lor_spec, Z.testbit_mod_pow2 by lia.
    destruct (Z.ltb_spec n 4); [ reflexivity | ].
    cbn [andb]. rewrite orb_false_r.
    destruct (Z.ltb_spec n 16).
    + assert (Hn' : n = 4 \/ n = 5 \/ n = 6 \/ n = 7 \/ n = 8 \/ n = 9
                    \/ n = 10 \/ n = 11 \/ n = 12 \/ n = 13 \/ n = 14
                    \/ n = 15) by lia.
      repeat destruct Hn' as [-> | Hn']; try subst n; reflexivity.
    + rewrite (testbit_above data 16 n), (testbit_above 0xFFF0 16 n) by lia.
      reflexivity.
  - change 0xFFF0 with (Z.shiftl 0xFFF 4).
    rewrite Z.lor_comm, <- Z.add_nocarry_lor.
    + change (2 ^ 4) with 16. lia.
    + apply Z.bits_inj'. intros n Hn.
      rewrite Z.land_spec, Z.testbit_mod_pow2, Z.bits_0 by lia.
      destruct (Z.ltb_spec n 4).
      * rewrite Z.shiftl_spec_low by lia. apply andb_false_r.
      * reflexivity.
Qed.

Lemma bank_index_injective (bn bn' a a' size : Z) :
  2 ^ 16 <= size -> 0 <= a < 2 ^ 16 -> 0 <= a' < 2 ^ 16 ->
  bn * size + a = bn' * size + a' -> bn = bn' /\ a = a'.
Proof.
  intros Hsize Ha Ha' Heq.
  destruct (Z.lt_trichotomy bn bn') as [Hlt | [-> | Hlt]]; [ nia | lia | nia ].
Qed.

Section Memory.

Context {hdr : microcode_h}.
Hypothesis ok : header_ok.

Lemma not_bank_register (address : Z) :
  address < 0xFFE0 -> is_bank_register address = false.
Proof.
  intros Ha. destruct (is_bank_register address) eqn:Hbr; [ | reflexivity ].
  apply is_bank_register_range in Hbr. lia.
Qed.

Lemma bank_number_range (sim : simulator) (task : Z) (ext : bool) (bn : Z) :
  bank_number sim task ext = Some bn -> 0 <= bn <= 3.
Proof.
  unfold bank_number. intros Hbn.
  destruct (array_get (sim_xm_banks sim) task) as [xm | ]; [ | discriminate ].
  cbn [mbind option_bind] in Hbn. injection Hbn as <-.
  destruct ext;
    [ pose proof (land_3_range xm) | pose proof (land_3_range (Z.shiftr xm 2)) ];
    lia.
Qed.

Lemma bank_number_defined (sim : simulator) (task : Z) (ext : bool) :
  Z.of_nat (length (sim_xm_banks sim)) = NUM_BANK_SLOTS ->
  0 <= task < TASK_NUM_TASKS ->
  exists bn, bank_number sim task ext = Some bn.
Proof.
  intros Hxm Htask. unfold bank_number.
  destruct (array_get_Some (sim_xm_banks sim) task) as [xm Hget];
    [ rewrite Hxm; exact Htask | ].
  rewrite Hget. eexists. reflexivity.
Qed.

(** A write to main memory, with the memory it leaves. *)
Lemma simulator_write_memory
    (sim : simulator) (address data task : Z) (ext : bool) :
  simulator_ok sim -> 0 <= task < TASK_NUM_TASKS -> 0 <= address < 0xFFE0 ->
  exists mem',
    simulator_write sim address data task ext = Some (set_mem sim mem')
    /\ length mem' = length (sim_mem sim)
    /\ (forall task' ext',
          bank_number sim task' ext' = bank_number sim task ext ->
          simulator_read (set_mem sim mem') address task' ext' = Some data)
    /\ (forall address' task' ext',
          0 <= address' < 2 ^ 16 ->
          address' <> address
          \/ bank_number sim task' ext' <> bank_number sim task ext ->
          simulator_read (set_mem sim mem') address' task' ext'
          = simulator_read sim address' task' ext').
Proof.
  intros Hsim Htask Ha.
  pose proof (bank_holds_every_address ok) as Hbank.
  pose proof (mem_size sim Hsim) as Hmem. unfold NUM_BANKS in Hmem.
  destruct (bank_number_defined sim task ext (xm_banks_size sim Hsim) Htask)
    as [bn Hbn].
  pose proof (bank_number_range sim task ext bn Hbn) as Hbnr.
  assert (Hidx : 0 <= bn * MEMORY_SIZE + address
                 < Z.of_nat (length (sim_mem sim))) by nia.
  unfold simulator_write. rewrite (not_bank_register address) by lia.
  rewrite Hbn. cbn [mbind option_bind].
  rewrite (array_set_Some _ _ data Hidx). cbn [mbind option_bind].
  eexists. split; [ reflexivity | ].
  split; [ apply length_insert | split ].
  - intros task' ext' Hsame. unfold simulator_read.
    rewrite (not_bank_register address) by lia.
    change (bank_number (set_mem sim _) task' ext')
      with (bank_number sim task' ext').
    rewrite Hsame. cbn [mbind option_bind]. sim_simpl.
    apply array_get_insert. exact Hidx.
  - intros address' task' ext' Ha' Hne. unfold simulator_read.
    destruct (is_bank_register address'); [ reflexivity | ].
    change (bank_number (set_mem sim _) task' ext')
      with (bank_number sim task' ext').
    destruct (bank_number sim task' ext') as [bn' | ] eqn:Hbn';
      [ | reflexivity ].
    cbn [mbind option_bind]. sim_simpl.
    pose proof (bank_number_range sim task' ext' bn' Hbn') as Hbnr'.
    apply array_get_insert_ne; [ lia | ].
    intros Heq.
    destruct (bank_index_injective bn bn' address address' MEMORY_SIZE)
      as [-> ->]; [ lia .. | exact Heq | ].
    destruct Hne as [Hne | Hne]; congruence.
Qed.

Lemma set_mem_ok (sim : simulator) (mem' : list Z) :
  simulator_ok sim -> length mem' = length (sim_mem sim) ->
  simulator_ok (set_mem sim mem').
Proof.
  intros [] Hlen. constructor; sim_simpl; try assumption.
  rewrite Hlen. assumption.
Qed.

(** X3. A word written to main memory is read back by every task whose
    bank register selects the same bank, and no other word of any bank and
    no bank register changes. *)
Theorem memory_write_then_read
    (sim : simulator) (address data task : Z) (ext : bool) :
  simulator_ok sim -> 0 <= task < TASK_NUM_TASKS -> 0 <= address < 0xFFE0 ->
  exists sim',
    simulator_write sim address data task ext = Some sim'
    /\ simulator_ok sim'
    /\ sim_xm_banks sim' = sim_xm_banks sim
    /\ (forall task' ext',
          bank_number sim task' ext' = bank_number sim task ext ->
          simulator_read sim' address task' ext' = Some data)
    /\ (forall address' task' ext',
          0 <= address' < 2 ^ 16 ->
          address' <> address
          \/ bank_number sim task' ext' <> bank_number sim task ext ->
          simulator_read sim' address' task' ext'
          = simulator_read sim address' task' ext').
Proof.
  intros Hsim Htask Ha.
  destruct (simulator_write_memory sim address data task ext Hsim Htask Ha)
    as (mem' & Hwrite & Hlen & Hsame & Hother).
  exists (set_mem sim mem').
  split; [ exact Hwrite | ].
  split; [ exact (set_mem_ok sim mem' Hsim Hlen) | ].
  split; [ reflexivity | ].
  split; [ exact Hsame | exact Hother ].
Qed.

(** X4. A write to the bank register of a task changes no memory word; the
    register reads back as 0xFFF0 plus the low four bits written, and from
    then on the task's normal accesses go to the bank in bits 2-3 of the
    value and its extended accesses to the bank in bits 0-1. *)
Theorem bank_register_write_selects_bank
    (sim : simulator) (task data reader : Z) (rext : bool) :
  simulator_ok sim -> 0 <= task < TASK_NUM_TASKS -> 0 <= data < 2 ^ 16 ->
  exists sim',
    simulator_write sim (XM_BANK_START + task) data reader rext = Some sim'
    /\ simulator_ok sim'
    /\ sim_mem sim' = sim_mem sim
    /\ simulator_read sim' (XM_BANK_START + task) reader rext
       = Some (0xFFF0 + data mod 16)
    /\ (forall address ext, 0 <= address < 0xFFE0 ->
          simulator_read sim' address task ext
          = array_get (sim_mem sim)
              ((if ext then data mod 4 else (data / 4) mod 4) * MEMORY_SIZE
               + address))
    /\ (forall address task' ext,
          task' <> task -> address <> XM_BANK_START + task ->
          simulator_read sim' address task' ext
          = simulator_read sim address task' ext).
Proof.
  intros Hsim Htask Hdata.
  pose proof (xm_banks_size sim Hsim) as Hxm. unfold NUM_BANK_SLOTS in Hxm.
  assert (Hbr : is_bank_register (XM_BANK_START + task) = true).
  { apply is_bank_register_range.
    unfold XM_BANK_START, TASK_NUM_TASKS in *. lia. }
  assert (Hidx : 0 <= XM_BANK_START + task - XM_BANK_START
                 < Z.of_nat (length (sim_xm_banks sim))) by lia.
  unfold simulator_write. rewrite Hbr.
  rewrite (array_set_Some _ _ data Hidx). cbn [mbind option_bind].
  eexists. split; [ reflexivity | ].
  split; [ | split; [ reflexivity | split; [ | split ] ] ].
  - destruct Hsim. constructor; sim_simpl; try assumption.
    rewrite length_insert. assumption.
  - unfold simulator_read. rewrite Hbr. sim_simpl.
    rewrite (array_get_insert _ _ data Hidx). cbn [mbind option_bind].
    rewrite low_nibble_readback by exact Hdata. reflexivity.
  - intros address ext Ha. unfold simulator_read, bank_number.
    rewrite (not_bank_register address) by lia. sim_simpl.
    replace (XM_BANK_START + task - XM_BANK_START) with task in * by lia.
    rewrite (array_get_insert _ _ data Hidx). cbn [mbind option_bind].
    change 3 with (Z.ones 2). rewrite !Z.land_ones, Z.shiftr_div_pow2 by lia.
    reflexivity.
  - intros address task' ext Hne Hna.
    unfold simulator_read, bank_number. sim_simpl.
    replace (XM_BANK_START + task - XM_BANK_START) with task in * by lia.
    rewrite !(array_get_insert_ne _ task) by lia.
    reflexivity.
Qed.

End Memory.

(** Task 0 writes 0xBEEF at address 0x100 of the reset simulator. *)
Lemma memory_write_then_read_witness :
  exists sim',
    @simulator_write alto_header reset_simulator 0x100 0xBEEF 0 false
    = Some sim'
    /\ @simulator_read alto_header sim' 0x100 0 false = Some 0xBEEF.
Proof.
  destruct (@memory_write_then_read alto_header alto_header_ok
              reset_simulator 0x100 0xBEEF 0 false reset_simulator_ok
              ltac:(unfold TASK_NUM_TASKS; lia) ltac:(lia))
    as (sim' & Hwrite & _ & _ & Hread & _).
  exists sim'. split; [ exact Hwrite | ].
  apply Hread. reflexivity.
Defined.

(** Task 0 writes 0x1236 to the bank register of task 5. *)
Lemma bank_register_write_selects_bank_witness :
  exists sim',
    @simulator_write alto_header reset_simulator (XM_BANK_START + 5) 0x1236
      0 false = Some sim'
    /\ @simulator_read alto_header sim' (XM_BANK_START + 5) 0 false
       = Some (0xFFF0 + 0x1236 mod 16).
Proof.
  destruct (@bank_register_write_selects_bank alto_header
              reset_simulator 5 0x1236 0 false reset_simulator_ok
              ltac:(unfold TASK_NUM_TASKS; lia) ltac:(lia))
    as (sim' & Hwrite & _ & _ & Hread & _).
  exists sim'. split; [ exact Hwrite | exact Hread ].
Defined.

(** ** The phases of a cycle *)

Section StepShape.

Context {hdr : microcode_h}.

Variable R : simulator -> simulator -> Prop.
Variable Q : Z -> Prop.

Hypothesis R_refl : forall sim, R sim sim.
Hypothesis R_trans : forall s1 s2 s3, R s1 s2 -> R s2 s3 -> R s1 s3.
Hypothesis R_read_bus :
  forall sim mc r bus sim', read_bus sim mc r = Some (bus, sim') -> R sim sim'.
Hypothesis R_compute_alu :
  forall sim mc bus alu c sim',
    compute_alu sim mc bus = (alu, c, sim') -> R sim sim'.
Hypothesis R_do_f1 :
  forall sim mc bus alu sh sim',
    do_f1 sim mc bus alu sh = Some sim' -> R sim sim'.
Hypothesis R_do_f2 :
  forall sim mc bus alu sh next_extra sim',
    do_f2 sim mc bus alu sh = Some (next_extra, sim') ->
    R sim sim' /\ Q next_extra.
Hypothesis R_wb_registers :
  forall sim mc r bus alu sh c sim',
    wb_registers sim mc r bus alu sh c = Some sim' -> R sim sim'.

(** A cycle is a run of phases that either stops at a state in error or
    ends with [update_program_counters]. *)
Lemma simulator_step_shape (sim sim' : simulator) :
  simulator_step sim = Some sim' ->
  exists s,
    R sim s
    /\ ((sim' = s /\ sim_error s = true)
        \/ exists next_extra,
             Q next_extra
             /\ update_program_counters s next_extra = Some sim').
Proof.
  intros Hrun. unfold simulator_step in Hrun.
  destruct (sim_error sim) eqn:He0.
  { injection Hrun as <-. exists sim. split; [ apply R_refl | left; auto ]. }
  destruct (read_bus sim _ _) as [[bus s1] | ] eqn:Hbus;
    [ | discriminate Hrun ].
  cbn [mbind option_bind] in Hrun.
  apply R_read_bus in Hbus.
  destruct (sim_error s1) eqn:He1.
  { injection Hrun as <-. exists s1. split; [ exact Hbus | left; auto ]. }
  destruct (compute_alu s1 _ bus) as [[alu c] s2] eqn:Halu.
  apply R_compute_alu in Halu.
  pose proof (R_trans _ _ _ Hbus Halu) as H2.
  destruct (sim_error s2) eqn:He2.
  { injection Hrun as <-. exists s2. split; [ exact H2 | left; auto ]. }
  destruct (do_shift s2 _ _) as [sh nova].
  destruct (do_f1 s2 _ bus alu sh) as [s3 | ] eqn:Hf1;
    [ | discriminate Hrun ].
  cbn [mbind option_bind] in Hrun.
  apply R_do_f1 in Hf1.
  pose proof (R_trans _ _ _ H2 Hf1) as H3.
  destruct (sim_error s3) eqn:He3.
  { injection Hrun as <-. exists s3. split; [ exact H3 | left; auto ]. }
  destruct (do_f2 s3 _ bus alu sh) as [[next_extra s4] | ] eqn:Hf2;
    [ | discriminate Hrun ].
  cbn [mbind option_bind] in Hrun.
  apply R_do_f2 in Hf2. destruct Hf2 as [Hf2 Hq].
  pose proof (R_trans _ _ _ H3 Hf2) as H4.
  destruct (sim_error s4) eqn:He4.
  { injection Hrun as <-. exists s4. split; [ exact H4 | left; auto ]. }
  destruct (wb_registers s4 _ _ bus alu sh c) as [s5 | ] eqn:Hwb;
    [ | discriminate Hrun ].
  cbn [mbind option_bind] in Hrun.
  apply R_wb_registers in Hwb.
  exists s5. split; [ exact (R_trans _ _ _ H4 Hwb) | ].
  right. exists next_extra. split; [ exact Hq | exact Hrun ].
Qed.

End StepShape.

(** ** What no cycle changes *)

Lemma keeps_shape_refl (sim : simulator) : keeps_shape sim sim.
Proof. constructor; auto. Qed.

Lemma keeps_shape_trans (s1 s2 s3 : simulator) :
  keeps_shape s1 s2 -> keeps_shape s2 s3 -> keeps_shape s1 s3.
Proof.
  intros [] []. constructor; try congruence. auto.
Qed.

Lemma array_set_Forall (P : Z -> Prop) (a a' : list Z) (i v : Z) :
  array_set a i v = Some a' -> P v -> Forall P a -> Forall P a'.
Proof.
  unfold array_set. destruct (_ && _); [ | discriminate ].
  intros [= <-] Hv Ha. apply Forall_insert; assumption.
Qed.

Lemma srb_of_bus_range (sim : simulator) (bus : Z) :
  0 <= srb_of_bus sim bus < 8.
Proof.
  unfold srb_of_bus.
  destruct (negb _); [ lia | ].
  assert (H : 0 <= Z.land (Z.shiftr bus 1) 7 < 8).
  { change 7 with (Z.ones 3). rewrite Z.land_ones by lia.
    apply Z.mod_pos_bound. lia. }
  unfold u8. rewrite Z.mod_small; lia.
Qed.

(** Closes the fields of [keeps_shape] after a case analysis of a phase. *)
Ltac keeps_shape_fields :=
  constructor; sim_simpl;
  first [ reflexivity
        | eapply array_set_length; eassumption
        | intros ?; assumption
        | intros ?; eapply array_set_Forall;
          [ eassumption | apply srb_of_bus_range | assumption ] ].

Section KeepsShape.

Context {hdr : microcode_h}.

Lemma read_bus_keeps_shape
    (sim : simulator) (mc : microcode) (r bus : Z) (sim' : simulator) :
  read_bus sim mc r = Some (bus, sim') -> keeps_shape sim sim'.
Proof.
  intros Hrun. unfold read_bus, invalid_bus_source in Hrun.
  break_runs; keeps_shape_fields.
Qed.

Lemma compute_alu_keeps_shape
    (sim : simulator) (mc : microcode) (bus alu : Z) (c : bool)
    (sim' : simulator) :
  compute_alu sim mc bus = (alu, c, sim') -> keeps_shape sim sim'.
Proof.
  unfold compute_alu. intros Hrun.
  destruct (alu_result sim mc bus); injection Hrun as <- <- <-;
    keeps_shape_fields.
Qed.

Lemma task_scan_keeps_shape (sim : simulator) (n : nat) :
  keeps_shape sim (task_scan sim n).
Proof.
  induction n as [ | n IH ]; simpl; [ apply keeps_shape_refl | ].
  destruct (is_pending sim (Z.of_nat n)); [ keeps_shape_fields | exact IH ].
Qed.

Lemma do_f1_emulator_keeps_shape
    (sim : simulator) (mc : microcode) (bus : Z) (sim' : simulator) :
  do_f1_emulator sim mc bus = Some sim' -> keeps_shape sim sim'.
Proof.
  intros Hrun. unfold do_f1_emulator in Hrun.
  break_runs; keeps_shape_fields.
Qed.

Lemma do_f1_specific_keeps_shape
    (sim : simulator) (mc : microcode) (bus : Z) (sim' : simulator) :
  do_f1_specific sim mc bus = Some sim' -> keeps_shape sim sim'.
Proof.
  intros Hrun. unfold do_f1_specific in Hrun.
  repeat match type of Hrun with
         | context [mbind _ ?m] =>
             let E := fresh "E" in
             destruct m eqn:E; cbn [mbind option_bind] in Hrun
         | context [if ?b then _ else _] => destruct b
         end;
    try discriminate Hrun;
    try (apply do_f1_emulator_keeps_shape in Hrun);
    try (injection Hrun as <-; keeps_shape_fields);
    try exact Hrun.
  eapply keeps_shape_trans; [ | exact Hrun ]. keeps_shape_fields.
Qed.

Lemma load_mar_keeps_shape
    (sim : simulator) (mc : microcode) (alu : Z) (sim' : simulator) :
  do_f1_load_mar sim mc alu = Some sim' -> keeps_shape sim sim'.
Proof.
  intros Hrun. unfold do_f1_load_mar in Hrun.
  cbv zeta in Hrun. break_runs; keeps_shape_fields.
Qed.

Lemma do_f1_keeps_shape
    (sim : simulator) (mc : microcode) (bus alu sh : Z) (sim' : simulator) :
  do_f1 sim mc bus alu sh = Some sim' -> keeps_shape sim sim'.
Proof.
  intros Hrun. unfold do_f1 in Hrun.
  destruct (mc_f1 mc =? F1_NONE);
    [ exact (do_f1_specific_keeps_shape _ _ _ _ Hrun) | ].
  destruct (_ || _); [ injection Hrun as <-; apply keeps_shape_refl | ].
  destruct (mc_f1 mc =? F1_LOAD_MAR);
    [ exact (load_mar_keeps_shape _ _ _ _ Hrun) | ].
  destruct (mc_f1 mc =? F1_TASK);
    [ replace sim' with (task_scan sim (Z.to_nat TASK_NUM_TASKS))
        by congruence;
      apply task_scan_keeps_shape | ].
  destruct (mc_f1 mc =? F1_BLOCK);
    [ | exact (do_f1_specific_keeps_shape _ _ _ _ Hrun) ].
  destruct (mc_task mc =? TASK_EMULATOR); injection Hrun as <-;
    keeps_shape_fields.
Qed.

Lemma simulator_write_keeps_shape
    (sim : simulator) (address data task : Z) (ext : bool)
    (sim' : simulator) :
  simulator_write sim address data task ext = Some sim' ->
  keeps_shape sim sim'.
Proof.
  intros Hrun. unfold simulator_write in Hrun.
  break_runs; keeps_shape_fields.
Qed.

Lemma do_f2_keeps_shape
    (sim : simulator) (mc : microcode) (bus alu sh next_extra : Z)
    (sim' : simulator) :
  do_f2 sim mc bus alu sh = Some (next_extra, sim') -> keeps_shape sim sim'.
Proof.
  intros Hrun.
  unfold do_f2, do_f2_emulator in Hrun.
  break_runs; try keeps_shape_fields;
    (eapply keeps_shape_trans;
     [ eapply simulator_write_keeps_shape; eassumption
     | keeps_shape_fields ]).
Qed.

Lemma wb_registers_keeps_shape
    (sim : simulator) (mc : microcode) (r bus alu sh : Z) (c : bool)
    (sim' : simulator) :
  wb_registers sim mc r bus alu sh c = Some sim' -> keeps_shape sim sim'.
Proof.
  intros Hrun. unfold wb_registers in Hrun.
  break_runs; keeps_shape_fields.
Qed.

Lemma update_program_counters_keeps_shape
    (sim : simulator) (next_extra : Z) (sim' : simulator) :
  update_program_counters sim next_extra = Some sim' -> keeps_shape sim sim'.
Proof.
  intros Hrun. unfold update_program_counters in Hrun.
  break_runs. repeat case_match; keeps_shape_fields.
Qed.

Lemma simulator_step_keeps_shape (sim sim' : simulator) :
  simulator_step sim = Some sim' -> keeps_shape sim sim'.
Proof.
  intros Hrun.
  destruct (simulator_step_shape keeps_shape (fun _ => True)
              keeps_shape_refl keeps_shape_trans
              read_bus_keeps_shape compute_alu_keeps_shape
              do_f1_keeps_shape
              (fun sim mc bus alu sh ne sim' H =>
                 conj (do_f2_keeps_shape sim mc bus alu sh ne sim' H) I)
              wb_registers_keeps_shape sim sim' Hrun)
    as (s & Hs & [[-> _] | (ne & _ & Hupc)]); [ exact Hs | ].
  exact (keeps_shape_trans _ _ _ Hs
           (update_program_counters_keeps_shape _ _ _ Hupc)).
Qed.

Lemma simulator_steps_keeps_shape (n : nat) (sim sim' : simulator) :
  simulator_steps n sim = Some sim' -> keeps_shape sim sim'.
Proof.
  revert sim. induction n as [ | n IH ]; intros sim Hrun.
  - injection Hrun as <-. apply keeps_shape_refl.
  - simpl in Hrun.
    destruct (simulator_step sim) as [next | ] eqn:Hstep;
      [ | discriminate Hrun ].
    cbn [mbind option_bind] in Hrun.
    exact (keeps_shape_trans _ _ _ (simulator_step_keeps_shape _ _ Hstep)
             (IH next Hrun)).
Qed.

(** X5. No number of cycles changes the system type, the constant ROM, the
    microcode, the Nova carry, the DNS flag, the task-switch flag or the
    next-cycle mark, and a machine with the arrays of [simulator_create]
    keeps them at their sizes. *)
Theorem stepping_keeps_configuration (n : nat) (sim sim' : simulator) :
  simulator_steps n sim = Some sim' ->
  sim_sys_type sim' = sim_sys_type sim
  /\ sim_consts sim' = sim_consts sim
  /\ sim_microcode sim' = sim_microcode sim
  /\ sim_carry sim' = sim_carry sim
  /\ sim_dns sim' = sim_dns sim
  /\ sim_task_switch sim' = sim_task_switch sim
  /\ sim_next_cycle sim' = sim_next_cycle sim
  /\ (simulator_ok sim -> simulator_ok sim').
Proof.
  intros Hrun. destruct (simulator_steps_keeps_shape n sim sim' Hrun).
  repeat (split; [ assumption | ]).
  intros []. constructor; try congruence. auto.
Qed.

End KeepsShape.

(** Three cycles of the zeroed microcode after a reset. *)
Lemma stepping_keeps_configuration_witness :
  exists sim,
    @simulator_steps alto_header 3 reset_simulator = Some sim
    /\ sim_microcode sim = sim_microcode reset_simulator.
Proof.
  destruct (@simulator_steps alto_header 3 reset_simulator)
    as [sim | ] eqn:Hrun.
  - exists sim. split; [ reflexivity | ].
    destruct (@stepping_keeps_configuration alto_header 3 reset_simulator
                sim Hrun) as (_ & _ & Hmicrocode & _).
    exact Hmicrocode.
  - apply (f_equal (fmap sim_cycle)) in Hrun.
    vm_compute in Hrun. discriminate Hrun.
Defined.

(** ** Task numbers, the memory cycle counter and the Nova flags *)

Ltac invariant_fields :=
  let H := fresh "Hinv" in
  intros H; destruct H; constructor; sim_simpl;
  first [ assumption | reflexivity | left; lia | lia ].

Section SteppingInvariant.

Context {hdr : microcode_h}.

Lemma task_scan_invariant (sim : simulator) (n : nat) :
  (n <= 16)%nat ->
  stepping_invariant sim -> stepping_invariant (task_scan sim n).
Proof.
  intros Hn. induction n as [ | n IH ]; simpl; [ auto | ].
  destruct (is_pending sim (Z.of_nat n)); [ | apply IH; lia ].
  intros []. constructor; sim_simpl; try assumption.
  unfold TASK_NUM_TASKS. lia.
Qed.

Lemma read_bus_invariant
    (sim : simulator) (mc : microcode) (r bus : Z) (sim' : simulator) :
  read_bus sim mc r = Some (bus, sim') ->
  stepping_invariant sim -> stepping_invariant sim'.
Proof.
  intros Hrun. unfold read_bus, invalid_bus_source in Hrun.
  break_runs; invariant_fields.
Qed.

Lemma compute_alu_invariant
    (sim : simulator) (mc : microcode) (bus alu : Z) (c : bool)
    (sim' : simulator) :
  compute_alu sim mc bus = (alu, c, sim') ->
  stepping_invariant sim -> stepping_invariant sim'.
Proof.
  unfold compute_alu. intros Hrun.
  destruct (alu_result sim mc bus); injection Hrun as <- <- <-;
    invariant_fields.
Qed.

Lemma do_f1_emulator_invariant
    (sim : simulator) (mc : microcode) (bus : Z) (sim' : simulator) :
  do_f1_emulator sim mc bus = Some sim' ->
  stepping_invariant sim -> stepping_invariant sim'.
Proof.
  intros Hrun. unfold do_f1_emulator in Hrun.
  break_runs; invariant_fields.
Qed.

Lemma do_f1_specific_invariant
    (sim : simulator) (mc : microcode) (bus : Z) (sim' : simulator) :
  do_f1_specific sim mc bus = Some sim' ->
  stepping_invariant sim -> stepping_invariant sim'.
Proof.
  intros Hrun Hinv. unfold do_f1_specific in Hrun.
  repeat match type of Hrun with
         | context [mbind _ ?m] =>
             let E := fresh "E" in
             destruct m eqn:E; cbn [mbind option_bind] in Hrun
         | context [if ?b then _ else _] => destruct b
         end;
    try discriminate Hrun;
    try (apply do_f1_emulator_invariant in Hrun;
         [ exact Hrun | revert Hinv; invariant_fields ]);
    injection Hrun as <-; revert Hinv; invariant_fields.
Qed.

Lemma load_mar_invariant
    (sim : simulator) (mc : microcode) (alu : Z) (sim' : simulator) :
  do_f1_load_mar sim mc alu = Some sim' ->
  stepping_invariant sim -> stepping_invariant sim'.
Proof.
  intros Hrun. unfold do_f1_load_mar in Hrun.
  cbv zeta in Hrun. break_runs; invariant_fields.
Qed.

Lemma do_f1_invariant
    (sim : simulator) (mc : microcode) (bus alu sh : Z) (sim' : simulator) :
  do_f1 sim mc bus alu sh = Some sim' ->
  stepping_invariant sim -> stepping_invariant sim'.
Proof.
  intros Hrun. unfold do_f1 in Hrun.
  destruct (mc_f1 mc =? F1_NONE);
    [ exact (do_f1_specific_invariant _ _ _ _ Hrun) | ].
  destruct (_ || _); [ injection Hrun as <-; auto | ].
  destruct (mc_f1 mc =? F1_LOAD_MAR);
    [ exact (load_mar_invariant _ _ _ _ Hrun) | ].
  destruct (mc_f1 mc =? F1_TASK);
    [ replace sim' with (task_scan sim (Z.to_nat TASK_NUM_TASKS))
        by congruence;
      apply task_scan_invariant; unfold TASK_NUM_TASKS; lia | ].
  destruct (mc_f1 mc =? F1_BLOCK);
    [ | exact (do_f1_specific_invariant _ _ _ _ Hrun) ].
  destruct (mc_task mc =? TASK_EMULATOR); injection Hrun as <-;
    invariant_fields.
Qed.

Lemma simulator_write_invariant
    (sim : simulator) (address data task : Z) (ext : bool)
    (sim' : simulator) :
  simulator_write sim address data task ext = Some sim' ->
  stepping_invariant sim -> stepping_invariant sim'.
Proof.
  intros Hrun. unfold simulator_write in Hrun.
  break_runs; invariant_fields.
Qed.

Lemma do_f2_invariant
    (sim : simulator) (mc : microcode) (bus alu sh next_extra : Z)
    (sim' : simulator) :
  do_f2 sim mc bus alu sh = Some (next_extra, sim') ->
  stepping_invariant sim -> stepping_invariant sim'.
Proof.
  intros Hrun.
  unfold do_f2, do_f2_emulator in Hrun.
  break_runs; try invariant_fields;
    (intros Hinv;
     eapply simulator_write_invariant in Hinv; [ | eassumption ];
     revert Hinv; invariant_fields).
Qed.

Lemma wb_registers_invariant
    (sim : simulator) (mc : microcode) (r bus alu sh : Z) (c : bool)
    (sim' : simulator) :
  wb_registers sim mc r bus alu sh c = Some sim' ->
  stepping_invariant sim -> stepping_invariant sim'.
Proof.
  intros Hrun. unfold wb_registers in Hrun.
  break_runs; invariant_fields.
Qed.

Lemma update_program_counters_invariant
    (sim : simulator) (next_extra : Z) (sim' : simulator) :
  update_program_counters sim next_extra = Some sim' ->
  stepping_invariant sim -> stepping_invariant sim'.
Proof.
  intros Hrun Hinv. unfold update_program_counters in Hrun.
  destruct (array_get (sim_task_mpc sim) (sim_ctask sim)) as [mpc | ];
    [ | discriminate Hrun ].
  cbn [mbind option_bind] in Hrun.
  destruct (array_get (sim_microcode sim) mpc) as [mcode | ];
    [ | discriminate Hrun ].
  cbn [mbind option_bind] in Hrun.
  destruct (array_set _ _ _) as [tm | ]; [ | discriminate Hrun ].
  cbn [mbind option_bind] in Hrun. injection Hrun as <-.
  destruct Hinv as [Hc Hn Hm Hs Hd Hy]. sim_simpl.
  destruct (Z.eqb_spec (sim_mem_cycle sim) 65535) as [Heq | Hne];
    cbn [negb].
  - constructor; sim_simpl; auto.
  - destruct (Z.leb_spec 10 (sim_mem_cycle sim)).
    + constructor; sim_simpl; auto.
    + constructor; sim_simpl; auto.
      left. rewrite u16_small; lia.
Qed.

Lemma simulator_step_invariant (sim sim' : simulator) :
  simulator_step sim = Some sim' ->
  stepping_invariant sim -> stepping_invariant sim'.
Proof.
  intros Hrun.
  destruct (simulator_step_shape
              (fun s s' => stepping_invariant s -> stepping_invariant s')
              (fun _ => True)
              (fun s H => H) (fun s1 s2 s3 H12 H23 H => H23 (H12 H))
              read_bus_invariant compute_alu_invariant do_f1_invariant
              (fun sim mc bus alu sh ne sim' H =>
                 conj (do_f2_invariant sim mc bus alu sh ne sim' H) I)
              wb_registers_invariant sim sim' Hrun)
    as (s & Hs & [[-> _] | (ne & _ & Hupc)]); [ exact Hs | ].
  intros Hinv.
  exact (update_program_counters_invariant _ _ _ Hupc (Hs Hinv)).
Qed.

Lemma reset_invariant (sim : simulator) :
  stepping_invariant (simulator_reset sim).
Proof.
  constructor; unfold simulator_reset; sim_simpl;
    first [ reflexivity | unfold TASK_NUM_TASKS; lia | left; lia ].
Qed.

(** X6. In every state reached from a reset, the current and the next task
    are tasks 0..15, the memory cycle counter is 0..10 or the idle mark
    0xFFFF, and the skip flag, the DNS flag and the Nova carry are still
    clear. *)
Theorem reset_invariants_hold (sim0 sim : simulator) (n : nat) :
  simulator_steps n (simulator_reset sim0) = Some sim ->
  0 <= sim_ctask sim < TASK_NUM_TASKS
  /\ 0 <= sim_ntask sim < TASK_NUM_TASKS
  /\ (0 <= sim_mem_cycle sim <= 10 \/ sim_mem_cycle sim = 0xFFFF)
  /\ sim_skip sim = false /\ sim_dns sim = false /\ sim_carry sim = 0.
Proof.
  intros Hrun.
  assert (Hinv : stepping_invariant sim).
  { pose proof (reset_invariant sim0) as H0.
    revert Hrun H0. generalize (simulator_reset sim0) as start.
    induction n as [ | n IH ]; intros start Hrun H0.
    - injection Hrun as <-. exact H0.
    - simpl in Hrun.
      destruct (simulator_step start) as [next | ] eqn:Hstep;
        [ | discriminate Hrun ].
      cbn [mbind option_bind] in Hrun.
      apply (IH next Hrun).
      exact (simulator_step_invariant _ _ Hstep H0). }
  destruct Hinv. auto 10.
Qed.

End SteppingInvariant.

(** Twelve cycles of the zeroed microcode after a reset: the memory cycle
    counter has run out. *)
Lemma reset_invariants_hold_witness :
  exists sim,
    @simulator_steps alto_header 12 reset_simulator = Some sim
    /\ (0 <= sim_mem_cycle sim <= 10 \/ sim_mem_cycle sim = 0xFFFF).
Proof.
  destruct (@simulator_steps alto_header 12 reset_simulator)
    as [sim | ] eqn:Hrun.
  - exists sim. split; [ reflexivity | ].
    destruct (@reset_invariants_hold alto_header created_simulator sim 12
                Hrun) as (_ & _ & Hcycle & _).
    exact Hcycle.
  - apply (f_equal (fmap sim_cycle)) in Hrun.
    vm_compute in Hrun. discriminate Hrun.
Defined.

(** ** The program counters and the cycle counter *)

Lemma datapath_frame_refl (sim : simulator) : datapath_frame sim sim.
Proof. constructor; reflexivity. Qed.

Lemma datapath_frame_trans (s1 s2 s3 : simulator) :
  datapath_frame s1 s2 -> datapath_frame s2 s3 -> datapath_frame s1 s3.
Proof. intros [] []. constructor; congruence. Qed.

Ltac frame_fields := constructor; sim_simpl; reflexivity.

Lemma land_low_bits_range (x k : Z) :
  0 <= k -> 0 <= Z.land x (Z.ones k) <= Z.ones k.
Proof.
  intros Hk. rewrite Z.land_ones by exact Hk.
  pose proof (Z.mod_pos_bound x (2 ^ k) ltac:(lia)).
  rewrite Z.ones_equiv. lia.
Qed.

Lemma lor_range (x y k : Z) :
  0 <= k -> 0 <= x < 2 ^ k -> 0 <= y < 2 ^ k -> 0 <= Z.lor x y < 2 ^ k.
Proof.
  intros Hk Hx Hy. apply bits_above_bound; [ exact Hk | ].
  intros n Hn.
  rewrite Z.lor_spec, (testbit_above x k n), (testbit_above y k n) by lia.
  reflexivity.
Qed.

Section ProgramCounters.

Context {hdr : microcode_h}.

Lemma read_bus_frame
    (sim : simulator) (mc : microcode) (r bus : Z) (sim' : simulator) :
  read_bus sim mc r = Some (bus, sim') -> datapath_frame sim sim'.
Proof.
  intros Hrun. unfold read_bus, invalid_bus_source in Hrun.
  break_runs; frame_fields.
Qed.

Lemma compute_alu_frame
    (sim : simulator) (mc : microcode) (bus alu : Z) (c : bool)
    (sim' : simulator) :
  compute_alu sim mc bus = (alu, c, sim') -> datapath_frame sim sim'.
Proof.
  unfold compute_alu. intros Hrun.
  destruct (alu_result sim mc bus); injection Hrun as <- <- <-;
    frame_fields.
Qed.

Lemma task_scan_frame (sim : simulator) (n : nat) :
  datapath_frame sim (task_scan sim n).
Proof.
  induction n as [ | n IH ]; simpl; [ apply datapath_frame_refl | ].
  destruct (is_pending sim (Z.of_nat n)); [ frame_fields | exact IH ].
Qed.

Lemma do_f1_emulator_frame
    (sim : simulator) (mc : microcode) (bus : Z) (sim' : simulator) :
  do_f1_emulator sim mc bus = Some sim' -> datapath_frame sim sim'.
Proof.
  intros Hrun. unfold do_f1_emulator in Hrun.
  break_runs; frame_fields.
Qed.

Lemma do_f1_specific_frame
    (sim : simulator) (mc : microcode) (bus : Z) (sim' : simulator) :
  do_f1_specific sim mc bus = Some sim' -> datapath_frame sim sim'.
Proof.
  intros Hrun. unfold do_f1_specific in Hrun.
  repeat match type of Hrun with
         | context [mbind _ ?m] =>
             let E := fresh "E" in
             destruct m eqn:E; cbn [mbind option_bind] in Hrun
         | context [if ?b then _ else _] => destruct b
         end;
    try discriminate Hrun;
    try (apply do_f1_emulator_frame in Hrun);
    try (injection Hrun as <-; frame_fields);
    try exact Hrun.
  eapply datapath_frame_trans; [ | exact Hrun ]. frame_fields.
Qed.

Lemma load_mar_frame
    (sim : simulator) (mc : microcode) (alu : Z) (sim' : simulator) :
  do_f1_load_mar sim mc alu = Some sim' -> datapath_frame sim sim'.
Proof.
  intros Hrun. unfold do_f1_load_mar in Hrun.
  cbv zeta in Hrun. break_runs; frame_fields.
Qed.

Lemma do_f1_frame
    (sim : simulator) (mc : microcode) (bus alu sh : Z) (sim' : simulator) :
  do_f1 sim mc bus alu sh = Some sim' -> datapath_frame sim sim'.
Proof.
  intros Hrun. unfold do_f1 in Hrun.
  destruct (mc_f1 mc =? F1_NONE);
    [ exact (do_f1_specific_frame _ _ _ _ Hrun) | ].
  destruct (_ || _); [ injection Hrun as <-; apply datapath_frame_refl | ].
  destruct (mc_f1 mc =? F1_LOAD_MAR);
    [ exact (load_mar_frame _ _ _ _ Hrun) | ].
  destruct (mc_f1 mc =? F1_TASK);
    [ replace sim' with (task_scan sim (Z.to_nat TASK_NUM_TASKS))
        by congruence;
      apply task_scan_frame | ].
  destruct (mc_f1 mc =? F1_BLOCK);
    [ | exact (do_f1_specific_frame _ _ _ _ Hrun) ].
  destruct (mc_task mc =? TASK_EMULATOR); injection Hrun as <-;
    frame_fields.
Qed.

Lemma simulator_write_frame
    (sim : simulator) (address data task : Z) (ext : bool)
    (sim' : simulator) :
  simulator_write sim address data task ext = Some sim' ->
  datapath_frame sim sim'.
Proof.
  intros Hrun. unfold simulator_write in Hrun.
  break_runs; frame_fields.
Qed.

(** The bits that [do_f2] contributes to the next address fit the ten
    address bits of a bank. *)
Lemma do_f2_next_extra
    (sim : simulator) (mc : microcode) (bus alu sh next_extra : Z)
    (sim' : simulator) :
  do_f2 sim mc bus alu sh = Some (next_extra, sim') ->
  0 <= next_extra <= 0x3FF.
Proof.
  intros Hrun.
  pose proof (land_low_bits_range bus 10 ltac:(lia)) as H10.
  pose proof (land_low_bits_range bus 1 ltac:(lia)) as H1.
  pose proof (land_low_bits_range (Z.shiftr bus 8) 3 ltac:(lia)) as H3.
  change (Z.ones 10) with 1023 in H10. change (Z.ones 1) with 1 in H1.
  change (Z.ones 3) with 7 in H3.
  unfold do_f2, do_f2_emulator, MPC_ADDR_MASK, b2z in Hrun.
  pose proof (lor_range (Z.land (Z.shiftr bus 8) 7) 8 4 ltac:(lia)
                ltac:(lia) ltac:(lia)) as H4.
  change (2 ^ 4) with 16 in H4.
  break_runs; try lia; case_match; lia.
Qed.

Lemma do_f2_frame
    (sim : simulator) (mc : microcode) (bus alu sh next_extra : Z)
    (sim' : simulator) :
  do_f2 sim mc bus alu sh = Some (next_extra, sim') ->
  datapath_frame sim sim' /\ 0 <= next_extra <= 0x3FF.
Proof.
  intros Hrun. split; [ | exact (do_f2_next_extra _ _ _ _ _ _ _ Hrun) ].
  unfold do_f2, do_f2_emulator in Hrun.
  break_runs; try frame_fields;
    (eapply datapath_frame_trans;
     [ eapply simulator_write_frame; eassumption | frame_fields ]).
Qed.

Lemma wb_registers_frame
    (sim : simulator) (mc : microcode) (r bus alu sh : Z) (c : bool)
    (sim' : simulator) :
  wb_registers sim mc r bus alu sh c = Some sim' -> datapath_frame sim sim'.
Proof.
  intros Hrun. unfold wb_registers in Hrun.
  break_runs; frame_fields.
Qed.

(** A cycle, as far as the program counters go: the data path leaves them
    alone, and the cycle either stops in error or ends with
    [update_program_counters] on bits that fit a bank. *)
Lemma simulator_step_counters (sim sim' : simulator) :
  simulator_step sim = Some sim' ->
  exists s,
    datapath_frame sim s
    /\ ((sim' = s /\ sim_error s = true)
        \/ exists next_extra,
             0 <= next_extra <= 0x3FF
             /\ update_program_counters s next_extra = Some sim').
Proof.
  apply (simulator_step_shape datapath_frame
           (fun next_extra => 0 <= next_extra <= 0x3FF)
           datapath_frame_refl datapath_frame_trans
           read_bus_frame compute_alu_frame do_f1_frame do_f2_frame
           wb_registers_frame).
Qed.

Lemma update_program_counters_post
    (sim : simulator) (next_extra : Z) (sim' : simulator) :
  update_program_counters sim next_extra = Some sim' ->
  sim_error sim' = sim_error sim
  /\ sim_cycle sim' = u64 (sim_cycle sim + 1)
  /\ exists mpc mcode,
       array_get (sim_task_mpc sim) (sim_ctask sim) = Some mpc
       /\ array_get (sim_microcode sim) mpc = Some mcode
       /\ sim_mpc sim' = mpc
       /\ sim_mir sim' = mcode
       /\ array_set (sim_task_mpc sim) (sim_ctask sim)
            (u16 (Z.lor (Z.lor (Z.land mpc MPC_BANK_MASK)
                               (MICROCODE_NEXT mcode)) next_extra))
          = Some (sim_task_mpc sim').
Proof.
  intros Hrun. unfold update_program_counters in Hrun.
  destruct (array_get (sim_task_mpc sim) (sim_ctask sim)) as [mpc | ]
    eqn:Hget; [ | discriminate Hrun ].
  cbn [mbind option_bind] in Hrun.
  destruct (array_get (sim_microcode sim) mpc) as [mcode | ] eqn:Hcode;
    [ | discriminate Hrun ].
  cbn [mbind option_bind] in Hrun.
  destruct (array_set _ _ _) as [tm | ] eqn:Hset; [ | discriminate Hrun ].
  cbn [mbind option_bind] in Hrun. injection Hrun as <-.
  sim_simpl.
  repeat case_match; sim_simpl;
    (split; [ reflexivity | split; [ reflexivity | ] ];
     exists mpc, mcode; repeat split; first [ reflexivity | assumption ]).
Qed.

Lemma simulator_step_counts (sim sim' : simulator) :
  simulator_step sim = Some sim' -> sim_error sim' = false ->
  sim_error sim = false /\ sim_cycle sim' = u64 (sim_cycle sim + 1).
Proof.
  intros Hrun Herr. split.
  - destruct (sim_error sim) eqn:He; [ | reflexivity ].
    unfold simulator_step in Hrun. rewrite He in Hrun.
    injection Hrun as <-. congruence.
  - destruct (simulator_step_counters sim sim' Hrun)
      as (s & Hs & [[-> He] | (ne & _ & Hupc)]); [ congruence | ].
    destruct (update_program_counters_post _ _ _ Hupc) as (_ & Hc & _).
    rewrite Hc, (df_cycle _ _ Hs). reflexivity.
Qed.

(** X7. The cycle counter counts the microinstructions that completed:
    when [n] steps end in a state without error, none of them stopped on
    an error and the counter has advanced by [n], modulo 2^64. *)
Theorem cycle_counts_completed_steps (n : nat) (sim sim' : simulator) :
  0 <= sim_cycle sim < 2 ^ 64 ->
  simulator_steps n sim = Some sim' -> sim_error sim' = false ->
  sim_error sim = false
  /\ sim_cycle sim' = u64 (sim_cycle sim + Z.of_nat n).
Proof.
  revert sim. induction n as [ | n IH ]; intros sim Hc Hrun Herr.
  - injection Hrun as <-. split; [ exact Herr | ].
    rewrite Z.add_0_r. unfold u64. symmetry. apply Z.mod_small. exact Hc.
  - simpl in Hrun.
    destruct (simulator_step sim) as [next | ] eqn:Hstep;
      [ | discriminate Hrun ].
    cbn [mbind option_bind] in Hrun.
    assert (Hnext : 0 <= sim_cycle next < 2 ^ 64 -> sim_error next = false
                    /\ sim_cycle sim' = u64 (sim_cycle next + Z.of_nat n))
      by (intros Hcn; exact (IH next Hcn Hrun Herr)).
    destruct (sim_error next) eqn:Hen.
    + (* a step that ends in error is followed by steps that do nothing *)
      assert (Hstuck : forall k, simulator_steps k next = Some next).
      { intros k. induction k as [ | k IHk ]; [ reflexivity | ].
        simpl. unfold simulator_step at 1. rewrite Hen.
        cbn [mbind option_bind]. exact IHk. }
      rewrite Hstuck in Hrun. injection Hrun as <-. congruence.
    + destruct (simulator_step_counts sim next Hstep Hen) as [He Hcycle].
      split; [ exact He | ].
      destruct Hnext as [_ ->].
      * rewrite Hcycle. unfold u64. apply Z.mod_pos_bound. lia.
      * rewrite Hcycle. unfold u64. rewrite Zplus_mod_idemp_l.
        f_equal. lia.
Qed.

(** X8. From a reset, with a NEXT field of ten bits, the program counter
    of every task and the address of every microinstruction fetched stay
    below 0x400: no cycle leaves microcode bank 0. *)
Theorem microcode_fetch_stays_in_bank_0 (sim0 sim : simulator) (n : nat) :
  (forall mcode, 0 <= MICROCODE_NEXT mcode <= 0x3FF) ->
  simulator_steps n (simulator_reset sim0) = Some sim ->
  Forall (fun mpc => 0 <= mpc < 0x400) (sim_task_mpc sim)
  /\ 0 <= sim_mpc sim < 0x400.
Proof.
  intros Hnext Hrun.
  assert (H0 : Forall (fun mpc => 0 <= mpc < 0x400)
                 (sim_task_mpc (simulator_reset sim0))
               /\ 0 <= sim_mpc (simulator_reset sim0) < 0x400).
  { unfold simulator_reset. sim_simpl. split; [ | lia ].
    apply Forall_lookup. intros i x Hx.
    rewrite list_lookup_fmap in Hx.
    destruct (seq 0 (Z.to_nat TASK_NUM_TASKS) !! i) as [k | ] eqn:Hk;
      [ | discriminate Hx ].
    injection Hx as <-. apply lookup_seq in Hk as [-> Hk].
    unfold TASK_NUM_TASKS in Hk. lia. }
  revert Hrun H0. generalize (simulator_reset sim0) as start.
  induction n as [ | n IH ]; intros start Hrun H0.
  { injection Hrun as <-. exact H0. }
  simpl in Hrun.
  destruct (simulator_step start) as [next | ] eqn:Hstep;
    [ | discriminate Hrun ].
  cbn [mbind option_bind] in Hrun.
  apply (IH next Hrun). clear IH Hrun.
  destruct H0 as [Hall Hmpc].
  destruct (simulator_step_counters start next Hstep)
    as (s & Hs & [[-> He] | (ne & Hne & Hupc)]).
  { rewrite (df_task_mpc _ _ Hs), (df_mpc _ _ Hs). auto. }
  destruct (update_program_counters_post _ _ _ Hupc)
    as (_ & _ & mpc & mcode & Hget & _ & Hm & _ & Hset).
  rewrite (df_task_mpc _ _ Hs) in Hget, Hset.
  assert (Hin : 0 <= mpc < 0x400).
  { unfold array_get in Hget. destruct (0 <=? sim_ctask s); [ | discriminate ].
    rewrite Forall_lookup in Hall. exact (Hall _ _ Hget). }
  split; [ | rewrite Hm; exact Hin ].
  apply (array_set_Forall _ _ _ _ _ Hset); [ | exact Hall ].
  assert (Hbank : Z.land mpc MPC_BANK_MASK = 0).
  { apply Z.bits_inj'. intros k Hk.
    rewrite Z.land_spec, Z.bits_0.
    destruct (Z.ltb_spec k 10).
    - unfold MPC_BANK_MASK.
      assert (Hk' : k = 0 \/ k = 1 \/ k = 2 \/ k = 3 \/ k = 4 \/ k = 5
                    \/ k = 6 \/ k = 7 \/ k = 8 \/ k = 9) by lia.
      repeat destruct Hk' as [-> | Hk']; try subst k; apply andb_false_r.
    - rewrite (testbit_above mpc 10 k) by (change (2 ^ 10) with 1024; lia).
      reflexivity. }
  rewrite Hbank, Z.lor_0_l.
  pose proof (Hnext mcode) as Hn.
  assert (Hl : 0 <= Z.lor (MICROCODE_NEXT mcode) ne < 2 ^ 10)
    by (apply lor_range; change (2 ^ 10) with 1024; lia).
  change (2 ^ 10) with 1024 in Hl.
  rewrite u16_small; lia.
Qed.

End ProgramCounters.

(** Five cycles of the zeroed microcode after a reset. *)
Lemma cycle_counts_completed_steps_witness :
  exists sim,
    @simulator_steps alto_header 5 reset_simulator = Some sim
    /\ sim_cycle sim = 5.
Proof.
  destruct (@simulator_steps alto_header 5 reset_simulator)
    as [sim | ] eqn:Hrun.
  - exists sim. split; [ reflexivity | ].
    assert (Herr : sim_error sim = false).
    { pose proof (f_equal (fmap sim_error) Hrun) as He.
      vm_compute in He. injection He as He. symmetry. exact He. }
    destruct (@cycle_counts_completed_steps alto_header 5 reset_simulator
                sim ltac:(cbn; lia) Hrun Herr) as [_ Hcycle].
    exact Hcycle.
  - apply (f_equal (fmap sim_cycle)) in Hrun.
    vm_compute in Hrun. discriminate Hrun.
Defined.

(** Three cycles of the zeroed microcode after a reset. *)
Lemma microcode_fetch_stays_in_bank_0_witness :
  exists sim,
    @simulator_steps alto_header 3 reset_simulator = Some sim
    /\ 0 <= sim_mpc sim < 0x400.
Proof.
  destruct (@simulator_steps alto_header 3 reset_simulator)
    as [sim | ] eqn:Hrun.
  - exists sim. split; [ reflexivity | ].
    assert (Hnext : forall mcode,
              0 <= @MICROCODE_NEXT alto_header mcode <= 0x3FF).
    { intros mcode. cbn [MICROCODE_NEXT alto_header].
      exact (land_low_bits_range mcode 10 ltac:(lia)). }
    destruct (@microcode_fetch_stays_in_bank_0 alto_header
                created_simulator sim 3 Hnext Hrun) as [_ Hmpc].
    exact Hmpc.
  - apply (f_equal (fmap sim_cycle)) in Hrun.
    vm_compute in Hrun. discriminate Hrun.
Defined.

(** ** A microinstruction that raises the error *)

Section FailedStep.

Context {hdr : microcode_h}.
Hypothesis ok : header_ok.

(** [read_bus] either delivers a value, and has toggled the word selector
    exactly on a read of the memory data without a constant, or finds no
    source, which is not that case, and raises the error. *)
Lemma read_bus_result
    (sim : simulator) (mc : microcode) (r bus : Z) (sim' : simulator) :
  read_bus sim mc r = Some (bus, sim') ->
  sim' = after_read_bus sim mc
  \/ (sim' = set_error sim true /\ after_read_bus sim mc = sim).
Proof.
  intros Hrun. split_labels (bs_labels ok).
  unfold read_bus, invalid_bus_source in Hrun. unfold after_read_bus.
  revert Hrun.
  destruct (mc_use_constant mc); cbn [negb andb].
  { intros Hrun. break_runs; auto. }
  destruct (Z.eqb_spec (mc_bs mc) BS_READ_MD) as [Hmd | Hmd].
  - rewrite Hmd. settle_eqb. intros Hrun. break_runs; auto.
  - intros Hrun. break_runs; auto.
Qed.

Lemma do_f1_emulator_error
    (sim : simulator) (mc : microcode) (bus : Z) (sim' : simulator) :
  do_f1_emulator sim mc bus = Some sim' ->
  sim_error sim = false -> sim_error sim' = true ->
  sim' = set_error sim true.
Proof.
  intros Hrun He He'. unfold do_f1_emulator in Hrun.
  break_runs; try reflexivity; sim_simpl in He'; congruence.
Qed.

Lemma do_f1_specific_error
    (sim : simulator) (mc : microcode) (bus : Z) (sim' : simulator) :
  do_f1_specific sim mc bus = Some sim' ->
  sim_error sim = false -> sim_error sim' = true ->
  sim' = set_error sim true.
Proof.
  intros Hrun He He'. unfold do_f1_specific in Hrun.
  destruct (mc_ram_task mc);
    [ | exact (do_f1_emulator_error _ _ _ _ Hrun He He') ].
  destruct (mc_f1 mc =? F1_RAM_SWMODE).
  { destruct (negb _);
      [ injection Hrun as <-; reflexivity
      | exact (do_f1_emulator_error _ _ _ _ Hrun He He') ]. }
  destruct (mc_f1 mc =? F1_RAM_WRTRAM);
    [ exact (do_f1_emulator_error _ _ _ _ Hrun He He') | ].
  destruct (mc_f1 mc =? F1_RAM_RDRAM);
    [ exact (do_f1_emulator_error _ _ _ _ Hrun He He') | ].
  destruct (mc_f1 mc =? F1_RAM_LOAD_SRB);
    [ | exact (do_f1_emulator_error _ _ _ _ Hrun He He') ].
  destruct (mc_task mc =? TASK_EMULATOR) eqn:Hemu;
    [ exact (do_f1_emulator_error _ _ _ _ Hrun He He') | ].
  destruct (array_set _ _ _) as [srb | ]; [ | discriminate Hrun ].
  cbn [mbind option_bind] in Hrun.
  unfold do_f1_emulator in Hrun. rewrite Hemu in Hrun.
  injection Hrun as <-. sim_simpl in He'. congruence.
Qed.

Lemma task_scan_error (sim : simulator) (n : nat) :
  sim_error (task_scan sim n) = sim_error sim.
Proof.
  induction n as [ | n IH ]; simpl; [ reflexivity | ].
  destruct (is_pending sim (Z.of_nat n)); [ reflexivity | exact IH ].
Qed.

Lemma load_mar_error
    (sim : simulator) (mc : microcode) (alu : Z) (sim' : simulator) :
  do_f1_load_mar sim mc alu = Some sim' -> sim_error sim' = sim_error sim.
Proof.
  intros Hrun. unfold do_f1_load_mar in Hrun.
  cbv zeta in Hrun. break_runs; reflexivity.
Qed.

Lemma do_f1_error
    (sim : simulator) (mc : microcode) (bus alu sh : Z) (sim' : simulator) :
  do_f1 sim mc bus alu sh = Some sim' ->
  sim_error sim = false -> sim_error sim' = true ->
  sim' = set_error sim true.
Proof.
  intros Hrun He He'. unfold do_f1 in Hrun.
  destruct (mc_f1 mc =? F1_NONE);
    [ exact (do_f1_specific_error _ _ _ _ Hrun He He') | ].
  destruct (_ || _); [ injection Hrun as <-; congruence | ].
  destruct (mc_f1 mc =? F1_LOAD_MAR);
    [ apply load_mar_error in Hrun; congruence | ].
  destruct (mc_f1 mc =? F1_TASK).
  { replace sim' with (task_scan sim (Z.to_nat TASK_NUM_TASKS)) in He'
      by congruence.
    rewrite task_scan_error in He'. congruence. }
  destruct (mc_f1 mc =? F1_BLOCK);
    [ | exact (do_f1_specific_error _ _ _ _ Hrun He He') ].
  destruct (mc_task mc =? TASK_EMULATOR); injection Hrun as <-;
    [ reflexivity | sim_simpl in He'; congruence ].
Qed.

Lemma simulator_write_error
    (sim : simulator) (address data task : Z) (ext : bool)
    (sim' : simulator) :
  simulator_write sim address data task ext = Some sim' ->
  sim_error sim' = sim_error sim.
Proof.
  intros Hrun. unfold simulator_write in Hrun.
  break_runs; reflexivity.
Qed.

Lemma do_f2_error
    (sim : simulator) (mc : microcode) (bus alu sh next_extra : Z)
    (sim' : simulator) :
  do_f2 sim mc bus alu sh = Some (next_extra, sim') ->
  sim_error sim' = sim_error sim.
Proof.
  intros Hrun.
  unfold do_f2, do_f2_emulator in Hrun.
  break_runs; sim_simpl; try reflexivity;
    eapply simulator_write_error; eassumption.
Qed.

Lemma wb_registers_error
    (sim : simulator) (mc : microcode) (r bus alu sh : Z) (c : bool)
    (sim' : simulator) :
  wb_registers sim mc r bus alu sh c = Some sim' ->
  sim_error sim' = sim_error sim.
Proof.
  intros Hrun. unfold wb_registers in Hrun.
  break_runs; reflexivity.
Qed.

(** X9. A cycle that raises the error has no other effect: the state it
    leaves is the state before it with the error flag set, and with the
    memory-data word selector toggled exactly when the microinstruction
    reads the memory data on the bus without a constant, for the bus is
    read before anything can fail. *)
Theorem failed_step_changes_nothing_else (sim sim' : simulator) :
  simulator_step sim = Some sim' ->
  sim_error sim = false -> sim_error sim' = true ->
  let mc := microcode_predecode (sim_sys_type sim) (sim_mpc sim)
              (sim_mir sim) (sim_ctask sim) in
  sim' = set_error
           (if negb (mc_use_constant mc) && (mc_bs mc =? BS_READ_MD)
            then set_mem_which sim (Z.lxor 1 (sim_mem_which sim))
            else sim)
           true.
Proof.
  intros Hrun He He' mc. fold (after_read_bus sim mc).
  unfold simulator_step in Hrun. rewrite He in Hrun. fold mc in Hrun.
  destruct (read_bus sim mc _) as [[bus s1] | ] eqn:Hbus;
    [ | discriminate Hrun ].
  cbn [mbind option_bind] in Hrun.
  apply read_bus_result in Hbus.
  assert (Hafter : sim_error (after_read_bus sim mc) = false).
  { unfold after_read_bus. destruct (_ && _); sim_simpl; exact He. }
  destruct (sim_error s1) eqn:He1.
  { injection Hrun as <-.
    destruct Hbus as [-> | [-> ->]]; [ congruence | reflexivity ]. }
  destruct Hbus as [-> | [-> _]]; [ | sim_simpl in He1; discriminate He1 ].
  set (s1 := after_read_bus sim mc) in *.
  destruct (compute_alu s1 _ bus) as [[alu c] s2] eqn:Halu.
  assert (H2 : s2 = s1 \/ s2 = set_error s1 true).
  { unfold compute_alu in Halu.
    destruct (alu_result s1 _ bus); injection Halu as <- <- <-; auto. }
  destruct (sim_error s2) eqn:He2.
  { injection Hrun as <-. destruct H2 as [-> | ->];
      [ congruence | reflexivity ]. }
  destruct H2 as [-> | ->]; [ | sim_simpl in He2; discriminate He2 ].
  destruct (do_shift s1 _ _) as [sh nova].
  destruct (do_f1 s1 _ bus alu sh) as [s3 | ] eqn:Hf1;
    [ | discriminate Hrun ].
  cbn [mbind option_bind] in Hrun.
  destruct (sim_error s3) eqn:He3.
  { injection Hrun as <-.
    exact (do_f1_error _ _ _ _ _ _ Hf1 He1 He3). }
  exfalso.
  destruct (do_f2 s3 _ bus alu sh) as [[next_extra s4] | ] eqn:Hf2;
    [ | discriminate Hrun ].
  cbn [mbind option_bind] in Hrun.
  apply do_f2_error in Hf2.
  destruct (sim_error s4) eqn:He4; [ congruence | ].
  destruct (wb_registers s4 _ _ bus alu sh c) as [s5 | ] eqn:Hwb;
    [ | discriminate Hrun ].
  cbn [mbind option_bind] in Hrun.
  apply wb_registers_error in Hwb.
  destruct (update_program_counters_post _ _ _ Hrun) as [Herr _].
  congruence.
Qed.

End FailedStep.

(** BLOCK in the emulator task after a reset: with the bus reading the
    memory data the word selector, which was 0, is 1 afterwards; with the
    bus reading a register it is still 0. *)
Lemma failed_step_changes_nothing_else_witness :
  @simulator_step alto_header block_read_md_input
  = Some (set_error (set_mem_which block_read_md_input 1) true)
  /\ @simulator_step alto_header block_read_r_input
     = Some (set_error block_read_r_input true).
Proof.
  split.
  - destruct (@simulator_step alto_header block_read_md_input)
      as [sim' | ] eqn:Hrun.
    + assert (Herr : sim_error sim' = true).
      { pose proof (f_equal (fmap sim_error) Hrun) as He.
        vm_compute in He. injection He as He. symmetry. exact He. }
      f_equal.
      exact (@failed_step_changes_nothing_else alto_header alto_header_ok
               block_read_md_input sim' Hrun eq_refl Herr).
    + pose proof (f_equal (fmap sim_cycle) Hrun) as Hcycle.
      vm_compute in Hcycle. discriminate Hcycle.
  - destruct (@simulator_step alto_header block_read_r_input)
      as [sim' | ] eqn:Hrun.
    + assert (Herr : sim_error sim' = true).
      { pose proof (f_equal (fmap sim_error) Hrun) as He.
        vm_compute in He. injection He as He. symmetry. exact He. }
      f_equal.
      exact (@failed_step_changes_nothing_else alto_header alto_header_ok
               block_read_r_input sim' Hrun eq_refl Herr).
    + pose proof (f_equal (fmap sim_cycle) Hrun) as Hcycle.
      vm_compute in Hcycle. discriminate Hcycle.
Defined.

(** ** A double word, stored and fetched *)

Lemma pair_address_below (sys_type : system_type) (addr : Z) :
  0 <= addr < 0xFFE0 -> 0 <= pair_address sys_type addr < 0xFFE0.
Proof.
  intros Ha.
  pose proof (pair_address_range sys_type addr ltac:(lia)) as Hr.
  assert (Hhalf : Z.shiftr (pair_address sys_type addr) 1 = Z.shiftr addr 1).
  { apply Z.bits_inj'. intros n Hn. unfold pair_address.
    destruct (system_type_eqb sys_type ALTO_I);
      rewrite !Z.shiftr_spec, ?Z.lor_spec, ?Z.lxor_spec, testbit_1 by lia;
      destruct (Z.eqb_spec (n + 1) 0); try lia; reflexivity. }
  rewrite !Z.shiftr_div_pow2 in Hhalf by lia. change (2 ^ 1) with 2 in Hhalf.
  pose proof (Z.div_mod addr 2 ltac:(lia)).
  pose proof (Z.div_mod (pair_address sys_type addr) 2 ltac:(lia)).
  pose proof (Z.mod_pos_bound addr 2 ltac:(lia)).
  pose proof (Z.mod_pos_bound (pair_address sys_type addr) 2 ltac:(lia)).
  lia.
Qed.

Section DoubleWord.

Context {hdr : microcode_h}.
Hypothesis ok : header_ok.

Lemma do_f2_store_md (sim : simulator) (mc : microcode) (bus alu sh : Z) :
  mc_f2 mc = F2_STORE_MD -> mc_f1 mc <> F1_LOAD_MAR ->
  do_f2 sim mc bus alu sh
  = (s ← simulator_write sim
           (if truthy (sim_mem_which sim)
            then pair_address (sim_sys_type sim) (sim_mar sim)
            else sim_mar sim)
           bus (sim_mem_task sim) (sim_mem_extended sim);
     Some (0, set_mem_which s (Z.lxor 1 (sim_mem_which s)))).
Proof.
  intros Hf2 Hf1. split_labels (f2_labels ok).
  unfold do_f2. rewrite Hf2. settle_eqb.
  destruct (Z.eqb_spec (mc_f1 mc) F1_LOAD_MAR); [ contradiction | ].
  reflexivity.
Qed.

Lemma read_bus_read_md (sim : simulator) (mc : microcode) (r : Z) :
  Z.of_nat (length (sim_consts sim)) = CONSTANT_SIZE ->
  0 <= mc_const_addr mc < CONSTANT_SIZE ->
  mc_use_constant mc = false -> mc_bs mc = BS_READ_MD ->
  read_bus sim mc r
  = Some (if truthy (sim_mem_which sim)
          then sim_mem_high sim else sim_mem_low sim,
          set_mem_which sim (Z.lxor 1 (sim_mem_which sim))).
Proof.
  intros Hsim Hc Hconst Hbs. split_labels (bs_labels ok).
  unfold read_bus. rewrite Hconst, Hbs.
  destruct (array_get_Some (sim_consts sim) (mc_const_addr mc)) as [cv Hcv];
    [ rewrite Hsim; exact Hc | ].
  destruct (mc_bs_use_crom mc); rewrite ?Hcv; cbn [mbind option_bind];
    settle_eqb; reflexivity.
Qed.

Lemma load_mar_memory
    (sim : simulator) (mc : microcode) (alu : Z) (sim' : simulator) :
  do_f1_load_mar sim mc alu = Some sim' ->
  sim_mem sim' = sim_mem sim /\ sim_xm_banks sim' = sim_xm_banks sim
  /\ sim_consts sim' = sim_consts sim.
Proof.
  intros Hrun. unfold do_f1_load_mar in Hrun.
  cbv zeta in Hrun. break_runs; auto.
Qed.

Lemma set_mem_which_ok (sim : simulator) (v : Z) :
  simulator_ok sim -> simulator_ok (set_mem_which sim v).
Proof. intros []. constructor; assumption. Qed.

(** X10. Two words stored with F2=STORE_MD after a LOAD_MAR go to the
    address in MAR and to its pair; when MAR is loaded again with the same
    address by the same task, two bus reads of the memory data deliver the
    second word last, and the first word first unless the pair of the
    address is the address itself (an odd address on the Alto I), in which
    case the second store has overwritten the first. *)
Theorem double_word_store_fetch
    (sim : simulator) (store load fetch : microcode)
    (w1 w2 bus alu sh r : Z) :
  simulator_ok sim ->
  0 <= sim_mem_task sim < TASK_NUM_TASKS -> 0 <= sim_mar sim < 0xFFE0 ->
  sim_mem_which sim = 0 ->
  mc_f2 store = F2_STORE_MD -> mc_f1 store <> F1_LOAD_MAR ->
  mc_f1 load = F1_LOAD_MAR -> mc_task load = sim_mem_task sim ->
  (if negb (system_type_eqb (sim_sys_type sim) ALTO_I)
   then mc_f2 load =? F2_STORE_MD else false) = sim_mem_extended sim ->
  mc_bs fetch = BS_READ_MD -> mc_use_constant fetch = false ->
  0 <= mc_const_addr fetch < CONSTANT_SIZE ->
  exists s1 s2 s3 s4 s5 v1 v2,
    do_f2 sim store w1 alu sh = Some (0, s1)
    /\ do_f2 s1 store w2 alu sh = Some (0, s2)
    /\ do_f1 s2 load bus (sim_mar sim) sh = Some s3
    /\ read_bus s3 fetch r = Some (v1, s4)
    /\ read_bus s4 fetch r = Some (v2, s5)
    /\ v2 = w2
    /\ v1 = (if pair_address (sim_sys_type sim) (sim_mar sim) =? sim_mar sim
             then w2 else w1).
Proof.
  intros Hsim Htask Hmar Hwhich Hst2 Hst1 Hld Hldt Hext Hbs Hconst Hca.
  set (a := sim_mar sim) in *. set (t := sim_mem_task sim) in *.
  set (e := sim_mem_extended sim) in *. set (sys := sim_sys_type sim) in *.
  pose proof (pair_address_below sys a Hmar) as Hpair.
  (* the first store *)
  destruct (simulator_write_memory ok sim a w1 t e Hsim Htask Hmar)
    as (mem1 & Hw1 & Hlen1 & Hsame1 & Hother1).
  pose (s1 := set_mem_which (set_mem sim mem1) 1).
  assert (Hs1 : do_f2 sim store w1 alu sh = Some (0, s1)).
  { rewrite do_f2_store_md by assumption. rewrite Hwhich.
    change (truthy 0) with false. cbv iota. fold a t e. rewrite Hw1.
    cbn [mbind option_bind]. sim_simpl. rewrite Hwhich. reflexivity. }
  assert (Hok1 : simulator_ok s1)
    by (apply set_mem_which_ok, set_mem_ok; assumption).
  (* the second store *)
  destruct (simulator_write_memory ok s1 (pair_address sys a) w2 t e Hok1
              Htask Hpair) as (mem2 & Hw2 & Hlen2 & Hsame2 & Hother2).
  pose (s2 := set_mem_which (set_mem s1 mem2) 0).
  assert (Hs2 : do_f2 s1 store w2 alu sh = Some (0, s2)).
  { rewrite do_f2_store_md by assumption.
    change (sim_mem_which s1) with 1. change (sim_sys_type s1) with sys.
    change (sim_mar s1) with a. change (sim_mem_task s1) with t.
    change (sim_mem_extended s1) with e.
    change (truthy 1) with true. cbv iota. rewrite Hw2.
    cbn [mbind option_bind]. reflexivity. }
  assert (Hok2 : simulator_ok s2)
    by (apply set_mem_which_ok, set_mem_ok; assumption).
  (* the load of MAR *)
  destruct (load_mar_defined ok s2 load a Hok2) as [s3 Hs3].
  { rewrite Hldt. exact Htask. }
  { lia. }
  { lia. }
  { change (sim_sys_type s2) with sys. lia. }
  destruct (load_mar_post _ _ _ _ Hs3)
    as (_ & _ & Hwhich3 & _ & Hext3 & Hlow & Hhigh).
  destruct (load_mar_memory _ _ _ _ Hs3) as (Hmem3 & Hxm3 & Hconsts3).
  change (sim_sys_type s2) with sys in Hext3, Hhigh.
  rewrite Hext, Hldt in *. fold t in Hlow, Hhigh. rewrite Hext3 in Hlow, Hhigh.
  rewrite (simulator_read_frame s2 s3) in Hlow, Hhigh by assumption.
  assert (Hc3 : Z.of_nat (length (sim_consts s3)) = CONSTANT_SIZE)
    by (rewrite Hconsts3; exact (consts_size _ Hsim)).
  (* the two bus reads *)
  pose proof (read_bus_read_md s3 fetch r Hc3 Hca Hconst Hbs) as Hr1.
  rewrite Hwhich3 in Hr1. change (truthy 0) with false in Hr1.
  cbv iota in Hr1.
  pose proof (read_bus_read_md (set_mem_which s3 (Z.lxor 1 0)) fetch r
                Hc3 Hca Hconst Hbs) as Hr2.
  sim_simpl in Hr2. change (truthy (Z.lxor 1 0)) with true in Hr2.
  cbv iota in Hr2.
  exists s1, s2, s3. do 4 eexists.
  split; [ exact Hs1 | ]. split; [ exact Hs2 | ].
  split; [ rewrite do_f1_is_load_mar by assumption; exact Hs3 | ].
  split; [ exact Hr1 | ]. split; [ exact Hr2 | ].
  (* what the memory holds after the two stores *)
  assert (Hread2 : forall address,
            simulator_read s2 address t e
            = simulator_read (set_mem s1 mem2) address t e)
    by (intros address; apply simulator_read_frame; reflexivity).
  rewrite Hread2 in Hlow, Hhigh.
  rewrite (Hsame2 t e eq_refl) in Hhigh.
  split; [ congruence | ].
  destruct (Z.eqb_spec (pair_address sys a) a) as [Heq | Hne].
  - rewrite <- Heq in Hlow at 1. rewrite (Hsame2 t e eq_refl) in Hlow.
    congruence.
  - rewrite (Hother2 a t e) in Hlow by (auto; lia).
    rewrite (simulator_read_frame (set_mem sim mem1) s1) in Hlow
      by reflexivity.
    rewrite (Hsame1 t e eq_refl) in Hlow. congruence.
Qed.

End DoubleWord.

(** The emulator task stores 0x1111 and 0x2222 at addresses 0 and 1 of the
    reset simulator and fetches them again. *)
Lemma double_word_store_fetch_witness :
  exists s3 s4 s5 v1 v2,
    @read_bus alto_header s3 (alto_mc 0 0 5 0 0) 0 = Some (v1, s4)
    /\ @read_bus alto_header s4 (alto_mc 0 0 5 0 0) 0 = Some (v2, s5)
    /\ v1 = 0x1111 /\ v2 = 0x2222.
Proof.
  destruct (@double_word_store_fetch alto_header alto_header_ok
              reset_simulator (alto_mc 0 0 0 0 6) (alto_mc 0 0 0 1 0)
              (alto_mc 0 0 5 0 0) 0x1111 0x2222 0 0 0 0
              reset_simulator_ok
              ltac:(split; [ vm_compute; discriminate
                           | vm_compute; reflexivity ])
              ltac:(split; [ vm_compute; discriminate
                           | vm_compute; reflexivity ])
              eq_refl eq_refl ltac:(vm_compute; discriminate)
              eq_refl eq_refl eq_refl eq_refl eq_refl
              ltac:(split; [ vm_compute; discriminate
                           | vm_compute; reflexivity ]))
    as (s1 & s2 & s3 & s4 & s5 & v1 & v2 & _ & _ & _ & Hr1 & Hr2 & Hv2 & Hv1).
  exists s3, s4, s5, v1, v2.
  split; [ exact Hr1 | ]. split; [ exact Hr2 | ].
  split; [ exact Hv1 | exact Hv2 ].
Defined.

(** ** Releasing the arrays *)

Lemma free_allocated (h : heap) (b : nat) :
  b ∈ h -> free h (Block b) = Some (filter (fun x => x <> b) h).
Proof.
  intros Hb. unfold free. rewrite bool_decide_eq_true_2 by exact Hb.
  reflexivity.
Qed.

Lemma free_released (h : heap) (b : nat) :
  b ∉ h -> free h (Block b) = None.
Proof.
  intros Hb. unfold free. rewrite bool_decide_eq_false_2 by exact Hb.
  reflexivity.
Qed.

(** [simulator_destroy] on a simulator whose eight arrays are allocated:
    seven blocks are released, the block of the microcode is not, and the
    pointer to the constants is left as it was. *)
Lemma simulator_destroy_allocated (h : heap) (r s c m t me xm sr : nat) :
  NoDup [r; s; c; m; t; me; xm; sr] ->
  (forall b, b ∈ [r; s; c; m; t; me; xm; sr] -> b ∈ h) ->
  exists h',
    simulator_destroy h
      {| a_r := Block r; a_s := Block s; a_consts := Block c;
         a_microcode := Block m; a_task_mpc := Block t; a_mem := Block me;
         a_xm_banks := Block xm; a_sr_banks := Block sr |}
    = Some (h',
            {| a_r := NULL; a_s := NULL; a_consts := Block c;
               a_microcode := NULL; a_task_mpc := NULL; a_mem := NULL;
               a_xm_banks := NULL; a_sr_banks := NULL |})
    /\ (forall b, b ∈ h' <-> b ∈ h /\ b ∉ [r; s; c; t; me; xm; sr]).
Proof.
  intros Hnd Hin.
  assert (Hr : r ∈ h) by (apply Hin; repeat constructor).
  assert (Hs : s ∈ h) by (apply Hin; repeat constructor).
  assert (Hc : c ∈ h) by (apply Hin; repeat constructor).
  assert (Ht : t ∈ h) by (apply Hin; repeat constructor).
  assert (Hme : me ∈ h) by (apply Hin; repeat constructor).
  assert (Hxm : xm ∈ h) by (apply Hin; repeat constructor).
  assert (Hsr : sr ∈ h) by (apply Hin; repeat constructor).
  split_labels Hnd.
  unfold simulator_destroy.
  cbn [a_r a_s a_consts a_microcode a_task_mpc a_mem a_xm_banks a_sr_banks
       set_a_r set_a_s set_a_microcode set_a_task_mpc set_a_mem
       set_a_xm_banks set_a_sr_banks free_if_set].
  repeat (rewrite free_allocated
            by (rewrite ?list_elem_of_filter; repeat split; auto);
          cbn [mbind option_bind]).
  eexists. split; [ reflexivity | ].
  intros b. rewrite !list_elem_of_filter, !not_elem_of_cons.
  pose proof (not_elem_of_nil b). tauto.
Qed.

(** X11. When the eight arrays of a simulator are allocated,
    [simulator_destroy] releases seven of them: the microcode stays
    allocated with no pointer left to it, and the pointer to the constants
    still holds the released block, so that a second [simulator_destroy]
    releases that block again. *)
Theorem destroy_leaks_microcode_and_keeps_consts
    (h : heap) (r s c m t me xm sr : nat) :
  NoDup [r; s; c; m; t; me; xm; sr] ->
  (forall b, b ∈ [r; s; c; m; t; me; xm; sr] -> b ∈ h) ->
  exists h' a',
    simulator_destroy h
      {| a_r := Block r; a_s := Block s; a_consts := Block c;
         a_microcode := Block m; a_task_mpc := Block t; a_mem := Block me;
         a_xm_banks := Block xm; a_sr_banks := Block sr |}
    = Some (h', a')
    /\ a_microcode a' = NULL /\ (m ∈ h')
    /\ a_consts a' = Block c /\ (c ∉ h')
    /\ (forall b, b ∈ [r; s; t; me; xm; sr] -> b ∉ h')
    /\ simulator_destroy h' a' = None.
Proof.
  intros Hnd Hin.
  destruct (simulator_destroy_allocated h r s c m t me xm sr Hnd Hin)
    as (h' & Hrun & Hh').
  exists h'. eexists. split; [ exact Hrun | ].
  cbn [a_microcode a_consts].
  assert (Hc : c ∉ h').
  { rewrite Hh', !not_elem_of_cons. intuition congruence. }
  split; [ reflexivity | ]. split.
  { apply Hh'. split; [ apply Hin; repeat constructor | ].
    split_labels Hnd. rewrite !not_elem_of_cons.
    pose proof (not_elem_of_nil m). intuition congruence. }
  split; [ reflexivity | ]. split; [ exact Hc | ]. split.
  { intros b Hb. rewrite Hh', !not_elem_of_cons.
    rewrite !elem_of_cons in Hb. pose proof (not_elem_of_nil b).
    intuition congruence. }
  unfold simulator_destroy.
  cbn [a_r a_s a_consts a_microcode a_task_mpc a_mem a_xm_banks a_sr_banks
       set_a_r set_a_s set_a_microcode set_a_task_mpc set_a_mem
       set_a_xm_banks set_a_sr_banks free_if_set mbind option_bind].
  rewrite free_released by exact Hc. reflexivity.
Qed.

(** X12. When the eight allocations succeed and one of the devices cannot
    be created, [simulator_create] returns [FALSE] after a
    [simulator_destroy] of its own; the [simulator_destroy] that the
    caller then runs releases the constants a second time. *)
Theorem failed_create_leaves_released_consts
    (h : heap) (r s c m t me xm sr : nat) (devices : device_results) :
  NoDup [r; s; c; m; t; me; xm; sr] ->
  disk_created devices && display_created devices
  && ethernet_created devices && keyboard_created devices
  && mouse_created devices = false ->
  exists h' a',
    simulator_create h
      {| a_r := Block r; a_s := Block s; a_consts := Block c;
         a_microcode := Block m; a_task_mpc := Block t; a_mem := Block me;
         a_xm_banks := Block xm; a_sr_banks := Block sr |} devices
    = Some (false, h', a')
    /\ (m ∈ h')
    /\ simulator_destroy h' a' = None.
Proof.
  intros Hnd Hdev.
  set (h1 := sr :: xm :: me :: t :: m :: c :: s :: r :: h).
  assert (Hin : forall b, b ∈ [r; s; c; m; t; me; xm; sr] -> b ∈ h1).
  { intros b Hb. unfold h1. rewrite !elem_of_cons in *.
    pose proof (not_elem_of_nil b). tauto. }
  destruct (simulator_destroy_allocated h1 r s c m t me xm sr Hnd Hin)
    as (h' & Hrun & Hh').
  exists h'. eexists.
  assert (Hcreate :
    simulator_create h
      {| a_r := Block r; a_s := Block s; a_consts := Block c;
         a_microcode := Block m; a_task_mpc := Block t; a_mem := Block me;
         a_xm_banks := Block xm; a_sr_banks := Block sr |} devices
    = Some (false, h',
            {| a_r := NULL; a_s := NULL; a_consts := Block c;
               a_microcode := NULL; a_task_mpc := NULL; a_mem := NULL;
               a_xm_banks := NULL; a_sr_banks := NULL |})).
  { unfold simulator_create, simulator_initvar.
    cbn [a_r a_s a_consts a_microcode a_task_mpc a_mem a_xm_banks
         a_sr_banks set_a_r set_a_s set_a_consts set_a_microcode
         set_a_task_mpc set_a_mem set_a_xm_banks set_a_sr_banks
         malloc is_null orb].
    change (set_a_sr_banks _ (Block sr))
      with {| a_r := Block r; a_s := Block s; a_consts := Block c;
              a_microcode := Block m; a_task_mpc := Block t;
              a_mem := Block me; a_xm_banks := Block xm;
              a_sr_banks := Block sr |}.
    fold h1. rewrite Hrun.
    destruct (disk_created devices), (display_created devices),
      (ethernet_created devices), (keyboard_created devices),
      (mouse_created devices); try discriminate Hdev; reflexivity. }
  split; [ exact Hcreate | ]. split.
  { apply Hh'. split; [ apply Hin; repeat constructor | ].
    split_labels Hnd. rewrite !not_elem_of_cons.
    pose proof (not_elem_of_nil m). intuition congruence. }
  unfold simulator_destroy.
  cbn [a_r a_s a_consts a_microcode a_task_mpc a_mem a_xm_banks a_sr_banks
       set_a_r set_a_s set_a_microcode set_a_task_mpc set_a_mem
       set_a_xm_banks set_a_sr_banks free_if_set mbind option_bind].
  rewrite free_released; [ reflexivity | ].
  rewrite Hh', !not_elem_of_cons. intuition congruence.
Qed.

(** Blocks 1 to 8 on a heap that also holds block 0. *)
Lemma destroy_leaks_microcode_and_keeps_consts_witness :
  exists h' a',
    simulator_destroy [0; 1; 2; 3; 4; 5; 6; 7; 8]%nat
      {| a_r := Block 1; a_s := Block 2; a_consts := Block 3;
         a_microcode := Block 4; a_task_mpc := Block 5; a_mem := Block 6;
         a_xm_banks := Block 7; a_sr_banks := Block 8 |}
    = Some (h', a')
    /\ (4%nat ∈ h') /\ simulator_destroy h' a' = None.
Proof.
  destruct (destroy_leaks_microcode_and_keeps_consts
              [0; 1; 2; 3; 4; 5; 6; 7; 8]%nat 1 2 3 4 5 6 7 8)
    as (h' & a' & Hrun & _ & Hm & _ & _ & _ & Hagain).
  - repeat (apply NoDup_cons; split;
            [ rewrite ?not_elem_of_cons; repeat split;
              first [ discriminate | apply not_elem_of_nil ] | ]).
    apply NoDup_nil. exact I.
  - intros b Hb. rewrite !elem_of_cons in *.
    pose proof (not_elem_of_nil b). tauto.
  - exists h', a'. auto.
Defined.

(** The keyboard cannot be created. *)
Lemma failed_create_leaves_released_consts_witness :
  exists h' a',
    simulator_create [0%nat]
      {| a_r := Block 1; a_s := Block 2; a_consts := Block 3;
         a_microcode := Block 4; a_task_mpc := Block 5; a_mem := Block 6;
         a_xm_banks := Block 7; a_sr_banks := Block 8 |}
      {| disk_created := true; display_created := true;
         ethernet_created := true; keyboard_created := false;
         mouse_created := true |}
    = Some (false, h', a')
    /\ simulator_destroy h' a' = None.
Proof.
  destruct (failed_create_leaves_released_consts [0%nat] 1 2 3 4 5 6 7 8
              {| disk_created := true; display_created := true;
                 ethernet_created := true; keyboard_created := false;
                 mouse_created := true |})
    as (h' & a' & Hrun & _ & Hagain).
  - repeat (apply NoDup_cons; split;
            [ rewrite ?not_elem_of_cons; repeat split;
              first [ discriminate | apply not_elem_of_nil ] | ]).
    apply NoDup_nil. exact I.
  - reflexivity.
  - exists h', a'. auto.
Defined.

(** ** The ROM loaders *)

(** A low part of [k] bits joined to a high part shifted by [k]. *)
Lemma lor_shiftl_add (lo hi k : Z) :
  0 <= k -> 0 <= lo < 2 ^ k -> Z.lor lo (Z.shiftl hi k) = lo + 2 ^ k * hi.
Proof.
  intros Hk Hlo. rewrite Z.shiftl_mul_pow2 by exact Hk.
  rewrite (Z.mul_comm (2 ^ k)). symmetry. apply Z.add_nocarry_lor.
  apply Z.bits_inj'. intros n Hn.
  rewrite Z.land_spec, Z.bits_0.
  destruct (Z.ltb_spec n k).
  - rewrite Z.mul_pow2_bits_low by lia. apply andb_false_r.
  - rewrite (testbit_above lo k n) by lia. reflexivity.
Qed.

Lemma byte_mask (b : Z) : 0 <= b < 256 -> Z.land b 0xFF = b.
Proof.
  intros Hb. change 0xFF with (Z.ones 8). rewrite Z.land_ones by lia.
  apply Z.mod_small. exact Hb.
Qed.

Lemma le16_word (b0 b1 : Z) :
  0 <= b0 < 256 -> 0 <= b1 < 256 ->
  u16 (Z.lor (u16 (Z.land b0 0xFF)) (Z.shiftl (u16 (Z.land b1 0xFF)) 8))
  = b0 + 2 ^ 8 * b1.
Proof.
  intros H0 H1. rewrite !byte_mask by assumption.
  rewrite !(u16_small b0), !(u16_small b1) by lia.
  rewrite lor_shiftl_add by lia. apply u16_small. lia.
Qed.

Lemma le32_word (b0 b1 b2 b3 : Z) :
  0 <= b0 < 256 -> 0 <= b1 < 256 -> 0 <= b2 < 256 -> 0 <= b3 < 256 ->
  Z.lor
    (Z.lor
       (Z.lor (u32 (Z.land b0 0xFF)) (u32 (Z.shiftl (u32 (Z.land b1 0xFF)) 8)))
       (u32 (Z.shiftl (u32 (Z.land b2 0xFF)) 16)))
    (u32 (Z.shiftl (u32 (Z.land b3 0xFF)) 24))
  = b0 + 2 ^ 8 * b1 + 2 ^ 16 * b2 + 2 ^ 24 * b3.
Proof.
  intros H0 H1 H2 H3. rewrite !byte_mask by assumption.
  rewrite (u32_small b0), (u32_small b1), (u32_small b2), (u32_small b3)
    by lia.
  rewrite !Z.shiftl_mul_pow2 by lia.
  rewrite !u32_small by lia.
  rewrite <- !Z.shiftl_mul_pow2 by lia.
  rewrite (lor_shiftl_add b0 b1 8) by lia.
  rewrite (lor_shiftl_add (b0 + 2 ^ 8 * b1) b2 16) by lia.
  rewrite (lor_shiftl_add (b0 + 2 ^ 8 * b1 + 2 ^ 16 * b2) b3 24) by lia.
  reflexivity.
Qed.

Lemma overwrite_nil (l : list Z) (i : nat) : overwrite l i [] = l.
Proof.
  unfold overwrite. cbn [length app]. rewrite Nat.add_0_r. apply take_drop.
Qed.

Lemma overwrite_step (l : list Z) (i : nat) (w : Z) (ws : list Z) :
  (i < length l)%nat ->
  overwrite (<[i:=w]> l) (S i) ws = overwrite l i (w :: ws).
Proof.
  intros Hi. unfold overwrite.
  rewrite (take_S_r _ _ w) by (apply list_lookup_insert_eq; exact Hi).
  rewrite take_insert_ge by lia. rewrite drop_insert_lt by lia.
  rewrite <- app_assoc. cbn [app length].
  replace (i + S (length ws))%nat with (S i + length ws)%nat by lia.
  reflexivity.
Qed.

Lemma overwrite_length (l : list Z) (i : nat) (ws : list Z) :
  (i + length ws <= length l)%nat -> length (overwrite l i ws) = length l.
Proof.
  intros Hi. unfold overwrite.
  rewrite !length_app, length_take, length_drop. lia.
Qed.

Lemma length_le16_words (n : nat) (bytes : list Z) :
  (length bytes <= n)%nat ->
  (2 * length (le16_words bytes) <= length bytes)%nat
  /\ (length bytes < 2 * length (le16_words bytes) + 2)%nat.
Proof.
  revert bytes. induction n as [ | n IH ]; intros bytes Hn.
  - destruct bytes; [ cbn; lia | cbn in Hn; lia ].
  - destruct bytes as [ | b0 [ | b1 rest ] ]; [ cbn; lia | cbn; lia | ].
    cbn [le16_words length] in *. specialize (IH rest ltac:(lia)). lia.
Qed.

Lemma length_le32_words (n : nat) (bytes : list Z) :
  (length bytes <= n)%nat ->
  (4 * length (le32_words bytes) <= length bytes)%nat
  /\ (length bytes < 4 * length (le32_words bytes) + 4)%nat.
Proof.
  revert bytes. induction n as [ | n IH ]; intros bytes Hn.
  - destruct bytes; [ cbn; lia | cbn in Hn; lia ].
  - destruct bytes as [ | b0 [ | b1 [ | b2 [ | b3 rest ] ] ] ];
      try (cbn; lia).
    cbn [le32_words length] in *. specialize (IH rest ltac:(lia)). lia.
Qed.

Section Loaders.

Context {hdr : microcode_h}.

Lemma load_constant_loop_spec (n : nat) :
  forall (bytes : list Z) (i : Z) (consts : list Z),
    (length bytes <= n)%nat ->
    Forall (fun b => 0 <= b < 256) bytes ->
    0 <= i <= CONSTANT_SIZE -> CONSTANT_SIZE <= 0xFFFF ->
    Z.of_nat (length consts) = CONSTANT_SIZE ->
    load_constant_loop bytes i consts
    = Some (2 * (CONSTANT_SIZE - i) <=? Z.of_nat (length bytes),
            overwrite consts (Z.to_nat i)
              (take (Z.to_nat (CONSTANT_SIZE - i)) (le16_words bytes)),
            if 2 * (CONSTANT_SIZE - i) <=? Z.of_nat (length bytes)
            then drop (Z.to_nat (2 * (CONSTANT_SIZE - i))) bytes else []).
Proof.
  induction n as [ | n IH ]; intros bytes i consts Hn Hbytes Hi Hsize Hlen.
  - destruct bytes; [ | cbn in Hn; lia ].
    cbn [load_constant_loop le16_words length take].
    rewrite firstn_nil, overwrite_nil.
    destruct (Z.ltb_spec i CONSTANT_SIZE).
    + destruct (Z.leb_spec (2 * (CONSTANT_SIZE - i)) (Z.of_nat 0));
        [ lia | reflexivity ].
    + destruct (Z.leb_spec (2 * (CONSTANT_SIZE - i)) (Z.of_nat 0));
        [ | lia ].
      rewrite drop_nil. reflexivity.
  - destruct (Z.ltb_spec i CONSTANT_SIZE) as [Hlt | Hge].
    + destruct bytes as [ | b0 [ | b1 rest ] ].
      * cbn [load_constant_loop le16_words length take].
        destruct (Z.ltb_spec i CONSTANT_SIZE); [ | lia ].
        rewrite firstn_nil, overwrite_nil.
        destruct (Z.leb_spec (2 * (CONSTANT_SIZE - i)) (Z.of_nat 0));
          [ lia | reflexivity ].
      * cbn [load_constant_loop le16_words length take].
        destruct (Z.ltb_spec i CONSTANT_SIZE); [ | lia ].
        rewrite firstn_nil, overwrite_nil.
        destruct (Z.leb_spec (2 * (CONSTANT_SIZE - i)) (Z.of_nat 1));
          [ lia | reflexivity ].
      * apply Forall_cons in Hbytes as [H0 Hbytes].
        apply Forall_cons in Hbytes as [H1 Hbytes].
        cbn [load_constant_loop].
        destruct (Z.ltb_spec i CONSTANT_SIZE); [ | lia ].
        rewrite le16_word by assumption.
        rewrite array_set_Some by lia.
        rewrite (u16_small (i + 1)) by lia.
        rewrite (IH rest (i + 1)); try assumption;
          [ | cbn [length] in Hn; lia | lia
            | rewrite length_insert; exact Hlen ].
        cbn [le16_words length].
        replace (Z.to_nat (i + 1)) with (S (Z.to_nat i)) by lia.
        replace (Z.to_nat (CONSTANT_SIZE - i))
          with (S (Z.to_nat (CONSTANT_SIZE - (i + 1)))) by lia.
        rewrite firstn_cons, overwrite_step by lia.
        replace (Z.to_nat (2 * (CONSTANT_SIZE - i)))
          with (S (S (Z.to_nat (2 * (CONSTANT_SIZE - (i + 1)))))) by lia.
        cbn [drop].
        destruct (Z.leb_spec (2 * (CONSTANT_SIZE - (i + 1)))
                    (Z.of_nat (length rest)));
          destruct (Z.leb_spec (2 * (CONSTANT_SIZE - i))
                      (Z.of_nat (S (S (length rest)))));
          try lia; reflexivity.
    + replace i with CONSTANT_SIZE by lia.
      rewrite Z.sub_diag. cbn [Z.mul Z.to_nat take drop].
      rewrite overwrite_nil.
      destruct (Z.leb_spec 0 (Z.of_nat (length bytes))); [ | lia ].
      destruct bytes; cbn [load_constant_loop];
        destruct (Z.ltb_spec CONSTANT_SIZE CONSTANT_SIZE); try lia;
        reflexivity.
Qed.

(** X13. The constant ROM is loaded from pairs of bytes, least significant
    first.  The file is accepted exactly when it holds two bytes for every
    constant; a file of another size is refused only after the words that
    it does hold, up to the size of the ROM, have replaced the constants
    at the start of the ROM. *)
Theorem constant_rom_is_loaded_little_endian
    (sim : simulator) (bytes : list Z) :
  0 <= CONSTANT_SIZE <= 0xFFFF ->
  Z.of_nat (length (sim_consts sim)) = CONSTANT_SIZE ->
  Forall (fun b => 0 <= b < 256) bytes ->
  let ws := take (Z.to_nat CONSTANT_SIZE) (le16_words bytes) in
  simulator_load_constant_rom sim (Contents bytes)
  = Some (Z.of_nat (length bytes) =? 2 * CONSTANT_SIZE,
          set_consts sim (ws ++ drop (length ws) (sim_consts sim)))
  /\ (Z.of_nat (length bytes) = 2 * CONSTANT_SIZE -> ws = le16_words bytes).
Proof.
  intros Hsize Hlen Hbytes ws.
  pose proof (length_le16_words _ bytes (Nat.le_refl _)) as Hwords.
  split.
  - unfold simulator_load_constant_rom.
    rewrite (load_constant_loop_spec (length bytes)) by (auto; lia).
    rewrite Z.sub_0_r. change (Z.to_nat 0) with 0%nat.
    unfold overwrite. cbn [take app Nat.add]. fold ws.
    destruct (Z.leb_spec (2 * CONSTANT_SIZE) (Z.of_nat (length bytes)))
      as [Hle | Hgt].
    + destruct (drop (Z.to_nat (2 * CONSTANT_SIZE)) bytes) as [ | b rest ]
        eqn:Hdrop.
      * apply (f_equal length) in Hdrop. rewrite length_drop in Hdrop.
        cbn [length] in Hdrop.
        destruct (Z.eqb_spec (Z.of_nat (length bytes)) (2 * CONSTANT_SIZE));
          [ reflexivity | lia ].
      * apply (f_equal length) in Hdrop. rewrite length_drop in Hdrop.
        cbn [length] in Hdrop.
        destruct (Z.eqb_spec (Z.of_nat (length bytes)) (2 * CONSTANT_SIZE));
          [ lia | reflexivity ].
    + destruct (Z.eqb_spec (Z.of_nat (length bytes)) (2 * CONSTANT_SIZE));
        [ lia | reflexivity ].
  - intros Hexact. unfold ws. apply take_ge. lia.
Qed.

Lemma load_microcode_loop_spec (n : nat) :
  forall (bytes : list Z) (i offset : Z) (microcode : list Z),
    (length bytes <= n)%nat ->
    Forall (fun b => 0 <= b < 256) bytes ->
    0 <= i <= MICROCODE_SIZE -> MICROCODE_SIZE <= 0xFFFF ->
    0 <= offset ->
    offset + MICROCODE_SIZE <= Z.of_nat (length microcode) ->
    load_microcode_loop bytes i offset microcode
    = Some (4 * (MICROCODE_SIZE - i) <=? Z.of_nat (length bytes),
            overwrite microcode (Z.to_nat (offset + i))
              (take (Z.to_nat (MICROCODE_SIZE - i)) (le32_words bytes)),
            if 4 * (MICROCODE_SIZE - i) <=? Z.of_nat (length bytes)
            then drop (Z.to_nat (4 * (MICROCODE_SIZE - i))) bytes else []).
Proof.
  induction n as [ | n IH ];
    intros bytes i offset microcode Hn Hbytes Hi Hsize Hoff Hlen.
  - destruct bytes; [ | cbn in Hn; lia ].
    cbn [load_microcode_loop le32_words length take].
    rewrite firstn_nil, overwrite_nil.
    destruct (Z.ltb_spec i MICROCODE_SIZE).
    + destruct (Z.leb_spec (4 * (MICROCODE_SIZE - i)) (Z.of_nat 0));
        [ lia | reflexivity ].
    + destruct (Z.leb_spec (4 * (MICROCODE_SIZE - i)) (Z.of_nat 0));
        [ | lia ].
      rewrite drop_nil. reflexivity.
  - destruct (Z.ltb_spec i MICROCODE_SIZE) as [Hlt | Hge].
    + destruct bytes as [ | b0 [ | b1 [ | b2 [ | b3 rest ] ] ] ].
      1-4: cbn [load_microcode_loop le32_words length take];
        destruct (Z.ltb_spec i MICROCODE_SIZE); [ | lia ];
        rewrite firstn_nil, overwrite_nil;
        match goal with
        | |- context [?a <=? ?b] => destruct (Z.leb_spec a b)
        end; [ lia | reflexivity ].
      apply Forall_cons in Hbytes as [H0 Hbytes].
      apply Forall_cons in Hbytes as [H1 Hbytes].
      apply Forall_cons in Hbytes as [H2 Hbytes].
      apply Forall_cons in Hbytes as [H3 Hbytes].
      cbn [load_microcode_loop].
      destruct (Z.ltb_spec i MICROCODE_SIZE); [ | lia ].
      rewrite le32_word by assumption.
      rewrite array_set_Some by lia.
      rewrite (u16_small (i + 1)) by lia.
      rewrite (IH rest (i + 1)); try assumption;
        [ | cbn [length] in Hn; lia | lia
          | rewrite length_insert; exact Hlen ].
      cbn [le32_words length].
      replace (Z.to_nat (offset + (i + 1)))
        with (S (Z.to_nat (offset + i))) by lia.
      replace (Z.to_nat (MICROCODE_SIZE - i))
        with (S (Z.to_nat (MICROCODE_SIZE - (i + 1)))) by lia.
      rewrite firstn_cons, overwrite_step by lia.
      replace (Z.to_nat (4 * (MICROCODE_SIZE - i)))
        with (S (S (S (S (Z.to_nat (4 * (MICROCODE_SIZE - (i + 1))))))))
        by lia.
      cbn [drop].
      destruct (Z.leb_spec (4 * (MICROCODE_SIZE - (i + 1)))
                  (Z.of_nat (length rest)));
        destruct (Z.leb_spec (4 * (MICROCODE_SIZE - i))
                    (Z.of_nat (S (S (S (S (length rest)))))));
        try lia; reflexivity.
    + replace i with MICROCODE_SIZE by lia.
      rewrite Z.sub_diag. cbn [Z.mul Z.to_nat take drop].
      rewrite overwrite_nil.
      destruct (Z.leb_spec 0 (Z.of_nat (length bytes))); [ | lia ].
      destruct bytes; cbn [load_microcode_loop];
        destruct (Z.ltb_spec MICROCODE_SIZE MICROCODE_SIZE); try lia;
        reflexivity.
Qed.

Lemma overwrite_outside (l : list Z) (i : nat) (ws : list Z) (j : nat) :
  (i + length ws <= length l)%nat ->
  (j < i \/ i + length ws <= j)%nat ->
  overwrite l i ws !! j = l !! j.
Proof.
  intros Hi Hj. unfold overwrite. destruct Hj as [Hj | Hj].
  - rewrite lookup_app_l by (rewrite length_take; lia).
    apply lookup_take_lt. exact Hj.
  - rewrite lookup_app_r by (rewrite length_take; lia).
    rewrite length_take.
    rewrite lookup_app_r by lia.
    rewrite lookup_drop. f_equal. lia.
Qed.

(** X14. A microcode image is loaded into bank 0 or 1 from groups of four
    bytes, least significant first, and accepted exactly when it holds
    four bytes for every microinstruction of a bank; no word outside the
    bank changes.  A file of another size is refused only after its words
    have been written, and a bank number of 2 or more is refused whatever
    the file. *)
Theorem microcode_rom_is_loaded_little_endian
    (sim : simulator) (bytes : list Z) (bank : Z) :
  0 <= MICROCODE_SIZE <= 0xFFFF ->
  Z.of_nat (length (sim_microcode sim))
  = NUM_MICROCODE_BANKS * MICROCODE_SIZE ->
  Forall (fun b => 0 <= b < 256) bytes ->
  0 <= bank ->
  let ws := take (Z.to_nat MICROCODE_SIZE) (le32_words bytes) in
  let start := Z.to_nat (bank * MICROCODE_SIZE) in
  (bank < 2 ->
   simulator_load_microcode_rom sim (Contents bytes) bank
   = Some (Z.of_nat (length bytes) =? 4 * MICROCODE_SIZE,
           set_microcode sim (overwrite (sim_microcode sim) start ws))
   /\ (forall j : nat,
         (j < start \/ start + Z.to_nat MICROCODE_SIZE <= j)%nat ->
         overwrite (sim_microcode sim) start ws !! j
         = sim_microcode sim !! j)
   /\ (Z.of_nat (length bytes) = 4 * MICROCODE_SIZE ->
       ws = le32_words bytes))
  /\ (2 <= bank ->
      forall file,
        simulator_load_microcode_rom sim file bank = Some (false, sim)).
Proof.
  intros Hsize Hlen Hbytes Hbank ws start. unfold NUM_MICROCODE_BANKS in Hlen.
  split.
  - intros Hlt.
    assert (Hoffset : u16 (if truthy bank then MICROCODE_SIZE else 0)
                      = bank * MICROCODE_SIZE).
    { assert (Hb : bank = 0 \/ bank = 1) by lia.
      destruct Hb as [-> | ->]; cbn [truthy Z.eqb negb];
        rewrite u16_small; lia. }
    assert (Hws : (length ws <= Z.to_nat MICROCODE_SIZE)%nat).
    { unfold ws. rewrite length_take. lia. }
    split; [ | split ].
    + unfold simulator_load_microcode_rom.
      destruct (Z.leb_spec 2 bank); [ lia | ].
      rewrite Hoffset.
      rewrite (load_microcode_loop_spec (length bytes)) by (auto; nia).
      rewrite Z.sub_0_r, Z.add_0_r. fold ws. fold start.
      destruct (Z.leb_spec (4 * MICROCODE_SIZE) (Z.of_nat (length bytes)))
        as [Hle | Hgt].
      * destruct (drop (Z.to_nat (4 * MICROCODE_SIZE)) bytes)
          as [ | b rest ] eqn:Hdrop;
          apply (f_equal length) in Hdrop; rewrite length_drop in Hdrop;
          cbn [length] in Hdrop;
          destruct (Z.eqb_spec (Z.of_nat (length bytes))
                      (4 * MICROCODE_SIZE)); try lia; reflexivity.
      * destruct (Z.eqb_spec (Z.of_nat (length bytes))
                    (4 * MICROCODE_SIZE)); [ lia | reflexivity ].
    + intros j Hj. apply overwrite_outside; unfold start in *; [ nia | lia ].
    + intros Hexact. unfold ws. apply take_ge.
      pose proof (length_le32_words _ bytes (Nat.le_refl _)). lia.
  - intros Hge file. unfold simulator_load_microcode_rom.
    destruct (Z.leb_spec 2 bank); [ reflexivity | lia ].
Qed.

End Loaders.

(** A constant ROM of 256 words, each 0x0101, and the same file one byte
    short. *)
Lemma constant_rom_is_loaded_little_endian_witness :
  fst <$> @simulator_load_constant_rom alto_header reset_simulator
            (Contents (replicate 512 1)) = Some true
  /\ fst <$> @simulator_load_constant_rom alto_header reset_simulator
               (Contents (replicate 511 1)) = Some false.
Proof.
  split.
  - destruct (@constant_rom_is_loaded_little_endian alto_header
                reset_simulator (replicate 512 1)
                ltac:(cbn; lia) (consts_size _ reset_simulator_ok)
                ltac:(apply Forall_replicate; lia)) as [Hrun _].
    rewrite Hrun. reflexivity.
  - destruct (@constant_rom_is_loaded_little_endian alto_header
                reset_simulator (replicate 511 1)
                ltac:(cbn; lia) (consts_size _ reset_simulator_ok)
                ltac:(apply Forall_replicate; lia)) as [Hrun _].
    rewrite Hrun. reflexivity.
Defined.

(** A microcode image of 1024 words for bank 1. *)
Lemma microcode_rom_is_loaded_little_endian_witness :
  fst <$> @simulator_load_microcode_rom alto_header reset_simulator
            (Contents (replicate 4096 1)) 1 = Some true.
Proof.
  destruct (@microcode_rom_is_loaded_little_endian alto_header
              reset_simulator (replicate 4096 1) 1
              ltac:(cbn; lia) (microcode_size _ reset_simulator_ok)
              ltac:(apply Forall_replicate; lia) ltac:(lia))
    as [Hload _].
  destruct (Hload ltac:(lia)) as [Hrun _].
  rewrite Hrun. reflexivity.
Defined.

(** ** The ring buffer of the UDP transport *)

Lemma u64_small (x : Z) : 0 <= x < 2 ^ 64 -> u64 x = x.
Proof. intros Hx. unfold u64. apply Z.mod_small. exact Hx. Qed.

Lemma memcpy_Some (dst : list Z) (d : Z) (src : list Z) (s n : Z) :
  0 <= d -> 0 <= s -> 0 <= n ->
  d + n <= Z.of_nat (length dst) -> s + n <= Z.of_nat (length src) ->
  exists r,
    memcpy dst d src s n = Some r
    /\ length r = length dst
    /\ (forall i, 0 <= i ->
          array_get r i
          = if (d <=? i) && (i <? d + n)
            then array_get src (s + (i - d)) else array_get dst i).
Proof.
  intros Hd Hs Hn Hdst Hsrc. unfold memcpy.
  destruct (Z.leb_spec 0 d); [ | lia ].
  destruct (Z.leb_spec 0 s); [ | lia ].
  destruct (Z.leb_spec 0 n); [ | lia ].
  destruct (Z.leb_spec (d + n) (Z.of_nat (length dst))); [ | lia ].
  destruct (Z.leb_spec (s + n) (Z.of_nat (length src))); [ | lia ].
  cbn [andb]. eexists. split; [ reflexivity | ].
  assert (Hlt : length (take (Z.to_nat d) dst) = Z.to_nat d)
    by (rewrite length_take; lia).
  assert (Hln : length (take (Z.to_nat n) (drop (Z.to_nat s) src))
                = Z.to_nat n)
    by (rewrite length_take, length_drop; lia).
  split.
  - rewrite !length_app, Hlt, Hln, length_drop. lia.
  - intros i Hi. unfold array_get.
    destruct (Z.leb_spec 0 i); [ | lia ].
    destruct (Z.leb_spec d i); cbn [andb].
    + destruct (Z.ltb_spec i (d + n)).
      * destruct (Z.leb_spec 0 (s + (i - d))); [ | lia ].
        rewrite lookup_app_r by lia. rewrite Hlt.
        rewrite lookup_app_l by lia.
        rewrite lookup_take_lt by lia. rewrite lookup_drop.
        f_equal. lia.
      * rewrite lookup_app_r by lia. rewrite Hlt.
        rewrite lookup_app_r by lia. rewrite Hln.
        rewrite lookup_drop. f_equal. lia.
    + rewrite lookup_app_l by lia.
      apply lookup_take_lt. lia.
Qed.

Lemma length_ring_bytes (u : udp_receiver) :
  length (ring_bytes u) = Z.to_nat (ring_end u - ring_start u).
Proof. unfold ring_bytes. rewrite length_map, length_seq. reflexivity. Qed.

Lemma ring_bytes_lookup (u : udp_receiver) (k : nat) :
  (k < Z.to_nat (ring_end u - ring_start u))%nat ->
  ring_bytes u !! k
  = Some (default 0 (array_get (ring_buf u)
                       (ring_index (ring_start u) (Z.of_nat k)))).
Proof.
  intros Hk. unfold ring_bytes.
  rewrite list_lookup_fmap, lookup_seq_lt by exact Hk. reflexivity.
Qed.

(** Two lists of bytes are equal when they have the same length and the
    same entries. *)
Lemma list_eq_get (l1 l2 : list Z) :
  length l1 = length l2 ->
  (forall k : nat, (k < length l1)%nat -> l1 !! k = l2 !! k) ->
  l1 = l2.
Proof.
  intros Hlen Hget. apply list_eq. intros k.
  destruct (Nat.lt_ge_cases k (length l1)) as [Hk | Hk];
    [ apply Hget; exact Hk | ].
  rewrite (proj2 (lookup_ge_None l1 k)) by exact Hk.
  symmetry. apply lookup_ge_None. lia.
Qed.

Lemma array_get_nat (l : list Z) (k : nat) :
  array_get l (Z.of_nat k) = l !! k.
Proof.
  unfold array_get. destruct (Z.leb_spec 0 (Z.of_nat k)); [ | lia ].
  rewrite Nat2Z.id. reflexivity.
Qed.

(** The count that the first two bytes of a packet hold. *)
Lemma packet_count (b0 b1 : Z) :
  0 <= b0 < 256 -> 0 <= b1 < 256 ->
  Z.lor (u64 (Z.shiftl b0 8)) b1 = 2 ^ 8 * b0 + b1.
Proof.
  intros H0 H1. rewrite Z.shiftl_mul_pow2 by lia.
  rewrite u64_small by lia. rewrite <- Z.shiftl_mul_pow2 by lia.
  rewrite Z.lor_comm, lor_shiftl_add by lia. lia.
Qed.

Lemma receive_thread_enqueues
    (u : udp_receiver) (b0 b1 : Z) (body : list Z) :
  ring_ok u -> rx_enable u = true ->
  UDP_PACKET_SIZE
  <= UDP_RING_BUFFER_SIZE - (ring_end u - ring_start u) ->
  0 <= b0 < 256 -> 0 <= b1 < 256 ->
  2 * (2 ^ 8 * b0 + b1) + 2
  <= Z.of_nat (length (take (Z.to_nat (UDP_PACKET_SIZE - 2))
                            (b0 :: b1 :: body))) ->
  exists u1,
    receive_thread_iteration u true true (Received (b0 :: b1 :: body)) true
    = Some (Continue u1)
    /\ ring_ok u1 /\ rcv_trp u1 = rcv_trp u /\ rx_enable u1 = true
    /\ ring_start u1 = ring_start u
    /\ ring_end u1 = ring_end u + (2 * (2 ^ 8 * b0 + b1) + 4)
    /\ take (Z.to_nat (2 * (2 ^ 8 * b0 + b1) + 2)) (pkt_buf u1)
       = take (Z.to_nat (2 * (2 ^ 8 * b0 + b1) + 2)) (b0 :: b1 :: body)
    /\ ring_bytes u1
       = ring_bytes u
         ++ take (Z.to_nat (2 * (2 ^ 8 * b0 + b1) + 4)) (pkt_buf u1).
Proof.
  intros Hok Hen Hfree H0 H1 Hlen.
  destruct Hok as [Hring Hpkt Hrx Hrs Heven Hfill].
  unfold UDP_RING_BUFFER_SIZE, UDP_PACKET_SIZE in *.
  set (n := 2 ^ 8 * b0 + b1) in *.
  set (stored := take (Z.to_nat (1024 - 2)) (b0 :: b1 :: body)) in *.
  set (rs := ring_start u) in *. set (re := ring_end u) in *.
  assert (Hs : Z.of_nat (length stored) <= 1022).
  { unfold stored. rewrite length_take. lia. }
  assert (Hsd : (length stored <= length (b0 :: b1 :: body))%nat).
  { unfold stored. rewrite length_take. lia. }
  assert (Hn : 0 <= n) by (unfold n; lia).
  (* the datagram in the packet buffer *)
  destruct (memcpy_Some (pkt_buf u) 0 stored 0 (Z.of_nat (length stored)))
    as (pk & Hpk & Hpklen & Hpkget); try lia.
  assert (Hpk0 : array_get pk 0 = Some b0).
  { rewrite Hpkget by lia.
    destruct (Z.ltb_spec 0 (0 + Z.of_nat (length stored))); [ | lia ].
    reflexivity. }
  assert (Hpk1 : array_get pk 1 = Some b1).
  { rewrite Hpkget by lia.
    destruct (Z.ltb_spec 1 (0 + Z.of_nat (length stored))); [ | lia ].
    reflexivity. }
  (* the place where the packet goes *)
  set (rp := if 8192 <=? re then re - 8192 else re).
  assert (Hrp : 0 <= rp < 8192 /\ (rp = re \/ rp = re - 8192)).
  { unfold rp. destruct (Z.leb_spec 8192 re); lia. }
  set (len := 2 * n + 4).
  assert (Hlen' : 4 <= len <= 1024) by (unfold len; lia).
  (* the ring after the copy *)
  assert (Hcopy : exists ring2,
    length ring2 = length (ring_buf u)
    /\ (wrapped ←
          (if 8192 <=? u64 (rp + len) then
             let pos := u64 (8192 - rp) in
             ring ← memcpy (ring_buf u) rp pk 0 pos;
             Some (pos, ring, u64 (re + pos), 0)
           else Some (0, ring_buf u, re, rp));
        let '(pos, ring, rend, ring_pos) := wrapped in
        copied ←
          (if pos <? len then
             ring ← memcpy ring ring_pos pk pos (u64 (len - pos));
             Some (ring, u64 (rend + u64 (len - pos)))
           else Some (ring, rend));
        let '(ring, rend) := copied in
        Some (Continue (set_ring (set_pkt_buf u pk) ring rs rend)))
       = Some (Continue (set_ring (set_pkt_buf u pk) ring2 rs (re + len)))
    /\ (forall j, 0 <= j < len ->
          array_get ring2 (ring_index rp j) = array_get pk j)
    /\ (forall i, 0 <= i < 8192 ->
          (forall j, 0 <= j < len -> i <> ring_index rp j) ->
          array_get ring2 i = array_get (ring_buf u) i)).
  { rewrite (u64_small (rp + len)) by lia.
    destruct (Z.leb_spec 8192 (rp + len)) as [Hwrap | Hflat].
    - (* the packet reaches the end of the ring *)
      cbv zeta. rewrite (u64_small (8192 - rp)) by lia.
      destruct (memcpy_Some (ring_buf u) rp pk 0 (8192 - rp))
        as (ring1 & Hring1 & Hlen1 & Hget1); try lia.
      rewrite Hring1. cbn [mbind option_bind].
      rewrite (u64_small (re + (8192 - rp))) by lia.
      destruct (Z.ltb_spec (8192 - rp) len) as [Hmore | Hdone].
      + rewrite (u64_small (len - (8192 - rp))) by lia.
        destruct (memcpy_Some ring1 0 pk (8192 - rp) (len - (8192 - rp)))
          as (ring2 & Hring2 & Hlen2 & Hget2); try lia.
        rewrite Hring2. cbn [mbind option_bind].
        rewrite (u64_small (re + (8192 - rp) + (len - (8192 - rp)))) by lia.
        exists ring2. split; [ congruence | ].
        split; [ do 3 f_equal; lia | ].
        split.
        * intros j Hj. unfold ring_index, UDP_RING_BUFFER_SIZE.
          destruct (Z.ltb_spec (rp + j) 8192).
          -- rewrite Hget2, Hget1 by lia.
             destruct (Z.leb_spec 0 (rp + j)); [ | lia ].
             destruct (Z.ltb_spec (rp + j) (0 + (len - (8192 - rp))));
               [ lia | ].
             cbn [andb].
             destruct (Z.leb_spec rp (rp + j)); [ | lia ].
             destruct (Z.ltb_spec (rp + j) (rp + (8192 - rp))); [ | lia ].
             cbn [andb]. f_equal. lia.
          -- rewrite Hget2 by lia.
             destruct (Z.leb_spec 0 (rp + j - 8192)); [ | lia ].
             destruct (Z.ltb_spec (rp + j - 8192)
                         (0 + (len - (8192 - rp)))); [ | lia ].
             cbn [andb]. f_equal. lia.
        * intros i Hi Hout. rewrite Hget2, Hget1 by lia.
          destruct (Z.leb_spec 0 i); [ | lia ].
          destruct (Z.ltb_spec i (0 + (len - (8192 - rp)))) as [Hin | _].
          { exfalso. apply (Hout (i + 8192 - rp)); [ lia | ].
            unfold ring_index, UDP_RING_BUFFER_SIZE.
            destruct (Z.ltb_spec (rp + (i + 8192 - rp)) 8192); lia. }
          cbn [andb].
          destruct (Z.leb_spec rp i) as [Hin | _]; [ | reflexivity ].
          destruct (Z.ltb_spec i (rp + (8192 - rp))); [ | lia ].
          exfalso. apply (Hout (i - rp)); [ lia | ].
          unfold ring_index, UDP_RING_BUFFER_SIZE.
          destruct (Z.ltb_spec (rp + (i - rp)) 8192); lia.
      + exists ring1. split; [ congruence | ].
        split; [ replace (re + (8192 - rp)) with (re + len) by lia;
                 reflexivity | ].
        split.
        * intros j Hj. unfold ring_index, UDP_RING_BUFFER_SIZE.
          destruct (Z.ltb_spec (rp + j) 8192); [ | lia ].
          rewrite Hget1 by lia.
          destruct (Z.leb_spec rp (rp + j)); [ | lia ].
          destruct (Z.ltb_spec (rp + j) (rp + (8192 - rp))); [ | lia ].
          cbn [andb]. f_equal. lia.
        * intros i Hi Hout. rewrite Hget1 by lia.
          destruct (Z.leb_spec rp i) as [Hin | _]; [ | reflexivity ].
          destruct (Z.ltb_spec i (rp + (8192 - rp))); [ | lia ].
          exfalso. apply (Hout (i - rp)); [ lia | ].
          unfold ring_index, UDP_RING_BUFFER_SIZE.
          destruct (Z.ltb_spec (rp + (i - rp)) 8192); lia.
    - (* the packet fits before the end of the ring *)
      cbn [mbind option_bind].
      destruct (Z.ltb_spec 0 len); [ | lia ].
      rewrite Z.sub_0_r, (u64_small len) by lia.
      destruct (memcpy_Some (ring_buf u) rp pk 0 len)
        as (ring2 & Hring2 & Hlen2 & Hget2); try lia.
      rewrite Hring2. cbn [mbind option_bind].
      rewrite (u64_small (re + len)) by lia.
      exists ring2. split; [ exact Hlen2 | ].
      split; [ reflexivity | ].
      split.
      + intros j Hj. unfold ring_index, UDP_RING_BUFFER_SIZE.
        destruct (Z.ltb_spec (rp + j) 8192); [ | lia ].
        rewrite Hget2 by lia.
        destruct (Z.leb_spec rp (rp + j)); [ | lia ].
        destruct (Z.ltb_spec (rp + j) (rp + len)); [ | lia ].
        cbn [andb]. f_equal. lia.
      + intros i Hi Hout. rewrite Hget2 by lia.
        destruct (Z.leb_spec rp i) as [Hin | _]; [ | reflexivity ].
        destruct (Z.ltb_spec i (rp + len)); [ | reflexivity ].
        exfalso. apply (Hout (i - rp)); [ lia | ].
        unfold ring_index, UDP_RING_BUFFER_SIZE.
        destruct (Z.ltb_spec (rp + (i - rp)) 8192); lia. }
  destruct Hcopy as (ring2 & Hlen2 & Hrun2 & Hnew & Hold).
  exists (set_ring (set_pkt_buf u pk) ring2 rs (re + len)).
  split.
  { unfold receive_thread_iteration, UDP_RING_BUFFER_SIZE, UDP_PACKET_SIZE.
    cbn [negb]. fold rs re. fold stored.
    rewrite (u64_small (re - rs)), (u64_small (8192 - (re - rs))) by lia.
    destruct (Z.ltb_spec (8192 - (re - rs)) 1024); [ lia | ].
    rewrite Hpk. cbn [mbind option_bind].
    destruct (Z.leb_spec (Z.of_nat (length stored)) 0); [ lia | ].
    cbn [pkt_buf set_pkt_buf]. rewrite Hpk0, Hpk1.
    cbn [mbind option_bind].
    rewrite packet_count by assumption. fold n.
    rewrite (u64_small (n * 2)), (u64_small (n * 2 + 2)) by lia.
    destruct (Z.ltb_spec (Z.of_nat (length stored)) (n * 2 + 2)); [ lia | ].
    replace (n * 2 + 2) with (2 * (n + 1)) by lia.
    rewrite Z.mul_comm, Z_mod_mult. cbn [Z.eqb negb orb].
    cbn [rx_enable set_pkt_buf ring_end ring_start ring_buf]. rewrite Hen.
    cbn [negb]. fold rs re.
    rewrite (u64_small (re - rs)), (u64_small (8192 - (re - rs))) by lia.
    assert (Hlen2' :
      u64 ((if (n + 1) * 2 <? Z.of_nat (length stored)
            then (n + 1) * 2 else Z.of_nat (length stored)) + 2) = len).
    { destruct (Z.ltb_spec ((n + 1) * 2) (Z.of_nat (length stored)));
        rewrite u64_small; unfold len; lia. }
    rewrite Hlen2'.
    destruct (Z.ltb_spec (8192 - (re - rs)) len); [ lia | ].
    replace (if 8192 <=? re then u64 (re - 8192) else re) with rp
      by (unfold rp; destruct (Z.leb_spec 8192 re);
          [ rewrite u64_small by lia | ]; reflexivity).
    exact Hrun2. }
  cbn [rcv_trp set_ring set_pkt_buf rx_enable ring_start ring_end pkt_buf
       ring_buf].
  split.
  { constructor;
      cbn [rcv_trp set_ring set_pkt_buf rx_enable ring_start ring_end
           pkt_buf ring_buf];
      unfold UDP_RING_BUFFER_SIZE, UDP_PACKET_SIZE; fold rs re;
      first [ assumption | lia | rewrite Hlen2; exact Hring
            | rewrite Hpklen; exact Hpkt ]. }
  split; [ reflexivity | ]. split; [ exact Hen | ].
  split; [ reflexivity | ]. split; [ reflexivity | ].
  split.
  { apply list_eq_get; [ rewrite !length_take; lia | ].
    intros k Hk. rewrite length_take in Hk.
    rewrite !lookup_take_lt by lia.
    rewrite <- (array_get_nat pk), Hpkget by lia.
    destruct (Z.ltb_spec (Z.of_nat k) (0 + Z.of_nat (length stored)));
      [ | lia ].
    destruct (Z.leb_spec 0 (Z.of_nat k)); [ | lia ].
    cbn [andb]. rewrite Z.add_0_l, Z.sub_0_r, array_get_nat.
    unfold stored. apply lookup_take_lt. lia. }
  fold len.
  apply list_eq_get.
  { rewrite length_app, !length_ring_bytes, length_take.
    cbn [ring_start ring_end set_ring]. fold rs re. lia. }
  intros k Hk. rewrite length_ring_bytes in Hk.
  cbn [ring_start ring_end set_ring] in Hk. fold rs re in Hk.
  rewrite ring_bytes_lookup
    by (cbn [ring_start ring_end set_ring]; fold rs re; lia).
  cbn [ring_start ring_buf set_ring]. fold rs.
  destruct (Nat.lt_ge_cases k (Z.to_nat (re - rs))) as [Hold_k | Hnew_k].
  - rewrite lookup_app_l by (rewrite length_ring_bytes; fold rs re; lia).
    rewrite ring_bytes_lookup by (fold rs re; lia). fold rs.
    rewrite Hold; [ reflexivity | | ].
    + unfold ring_index, UDP_RING_BUFFER_SIZE.
      destruct (Z.ltb_spec (rs + Z.of_nat k) 8192); lia.
    + intros j Hj. unfold ring_index, UDP_RING_BUFFER_SIZE.
      destruct (Z.ltb_spec (rs + Z.of_nat k) 8192);
        destruct (Z.ltb_spec (rp + j) 8192); lia.
  - rewrite lookup_app_r by (rewrite length_ring_bytes; fold rs re; lia).
    rewrite length_ring_bytes. fold rs re.
    rewrite lookup_take_lt by lia.
    replace (ring_index rs (Z.of_nat k))
      with (ring_index rp (Z.of_nat k - (re - rs))).
    2: { unfold ring_index, UDP_RING_BUFFER_SIZE.
         destruct (Z.ltb_spec (rs + Z.of_nat k) 8192);
           destruct (Z.ltb_spec (rp + (Z.of_nat k - (re - rs))) 8192);
           lia. }
    rewrite Hnew by lia.
    replace (Z.of_nat k - (re - rs))
      with (Z.of_nat (k - Z.to_nat (re - rs))) by lia.
    rewrite array_get_nat.
    destruct (pk !! (k - Z.to_nat (re - rs))%nat) as [v | ] eqn:Hv;
      [ reflexivity | ].
    apply lookup_ge_None in Hv. lia.
Qed.

Lemma array_get_default (l : list Z) (i v : Z) :
  0 <= i < Z.of_nat (length l) ->
  default 0 (array_get l i) = v -> array_get l i = Some v.
Proof.
  intros Hi Hv. destruct (array_get_Some l i Hi) as [x Hx].
  rewrite Hx in *. cbn in Hv. congruence.
Qed.

Lemma trp_receive_dequeues
    (u : udp_receiver) (b0 b1 : Z) (tail : list Z) :
  ring_ok u -> rx_len (rcv_trp u) = 0 ->
  ring_bytes u = b0 :: b1 :: tail ->
  0 <= b0 < 256 -> 0 <= b1 < 256 ->
  2 * (2 ^ 8 * b0 + b1 + 2) <= Z.of_nat (length (ring_bytes u)) ->
  2 * (2 ^ 8 * b0 + b1 + 2) <= UDP_PACKET_SIZE ->
  exists u2,
    trp_receive u true = Some (true, u2)
    /\ ring_ok u2 /\ rx_enable u2 = rx_enable u
    /\ rx_pos (rcv_trp u2) = 0
    /\ rx_len (rcv_trp u2) = 2 * (2 ^ 8 * b0 + b1 + 2)
    /\ rx_buf (rcv_trp u2)
       = take (Z.to_nat (2 * (2 ^ 8 * b0 + b1 + 2))) (ring_bytes u)
         ++ drop (Z.to_nat (2 * (2 ^ 8 * b0 + b1 + 2)))
              (rx_buf (rcv_trp u))
    /\ ring_bytes u2
       = drop (Z.to_nat (2 * (2 ^ 8 * b0 + b1 + 2))) (ring_bytes u).
Proof.
  intros Hok Hrxlen Hbytes H0 H1 Hfits Hsmall.
  destruct Hok as [Hring Hpkt Hrx Hrs Heven Hfill].
  unfold UDP_RING_BUFFER_SIZE, UDP_PACKET_SIZE in *.
  set (len := 2 * (2 ^ 8 * b0 + b1 + 2)) in *.
  set (rs := ring_start u) in *. set (re := ring_end u) in *.
  rewrite length_ring_bytes in Hfits. fold rs re in Hfits.
  assert (Hlen : 4 <= len) by (unfold len; lia).
  assert (Hrs1 : rs + 1 < 8192).
  { revert Heven Hrs. clear. intros. Z.div_mod_to_equations. lia. }
  assert (Hb0 : array_get (ring_buf u) rs = Some b0).
  { apply array_get_default; [ lia | ].
    pose proof (ring_bytes_lookup u 0 ltac:(fold rs re; lia)) as Hl.
    rewrite Hbytes in Hl. cbn [lookup list_lookup] in Hl.
    fold rs in Hl. unfold ring_index, UDP_RING_BUFFER_SIZE in Hl.
    destruct (Z.ltb_spec (rs + Z.of_nat 0) 8192); [ | lia ].
    replace (rs + Z.of_nat 0) with rs in Hl by lia. congruence. }
  assert (Hb1 : array_get (ring_buf u) (rs + 1) = Some b1).
  { apply array_get_default; [ lia | ].
    pose proof (ring_bytes_lookup u 1 ltac:(fold rs re; lia)) as Hl.
    rewrite Hbytes in Hl. cbn [lookup list_lookup] in Hl.
    fold rs in Hl. unfold ring_index, UDP_RING_BUFFER_SIZE in Hl.
    destruct (Z.ltb_spec (rs + Z.of_nat 1) 8192); [ | lia ].
    replace (rs + Z.of_nat 1) with (rs + 1) in Hl by lia. congruence. }
  (* the receive buffer and the ring positions after the copy *)
  assert (Hcopy : exists rx2 rs2 re2,
    length rx2 = length (rx_buf (rcv_trp u))
    /\ (wrapped ←
          (if 8192 <=? u64 (rs + len) then
             let pos := u64 (8192 - rs) in
             rx ← memcpy (rx_buf (rcv_trp u)) 0 (ring_buf u) rs pos;
             Some (pos, rx, 0, u64 (re - 8192))
           else Some (0, rx_buf (rcv_trp u), rs, re));
        let '(pos, rx, rstart, rend) := wrapped in
        copied ←
          (if pos <? len then
             rx ← memcpy rx pos (ring_buf u) rstart (u64 (len - pos));
             Some (rx, u64 (rstart + u64 (len - pos)))
           else Some (rx, rstart));
        let '(rx, rstart) := copied in
        Some (true,
              set_rcv_trp (set_ring u (ring_buf u) rstart rend)
                (set_rx (rcv_trp u) rx 0 len)))
       = Some (true,
               set_rcv_trp (set_ring u (ring_buf u) rs2 re2)
                 (set_rx (rcv_trp u) rx2 0 len))
    /\ rs2 = ring_index rs len
    /\ re2 - rs2 = re - rs - len
    /\ (forall j, 0 <= j ->
          array_get rx2 j
          = if j <? len then array_get (ring_buf u) (ring_index rs j)
            else array_get (rx_buf (rcv_trp u)) j)).
  { rewrite (u64_small (rs + len)) by lia.
    unfold ring_index, UDP_RING_BUFFER_SIZE.
    destruct (Z.leb_spec 8192 (rs + len)) as [Hwrap | Hflat].
    - cbv zeta. rewrite (u64_small (8192 - rs)), (u64_small (re - 8192))
        by lia.
      destruct (memcpy_Some (rx_buf (rcv_trp u)) 0 (ring_buf u) rs
                  (8192 - rs))
        as (rx1 & Hrx1 & Hlen1 & Hget1); try lia.
      rewrite Hrx1. cbn [mbind option_bind].
      destruct (Z.ltb_spec (8192 - rs) len) as [Hmore | Hdone].
      + rewrite (u64_small (len - (8192 - rs))) by lia.
        destruct (memcpy_Some rx1 (8192 - rs) (ring_buf u) 0
                    (len - (8192 - rs)))
          as (rx2 & Hrx2 & Hlen2 & Hget2); try lia.
        rewrite Hrx2. cbn [mbind option_bind].
        rewrite (u64_small (0 + (len - (8192 - rs)))) by lia.
        exists rx2, (0 + (len - (8192 - rs))), (re - 8192).
        split; [ congruence | ]. split; [ reflexivity | ].
        destruct (Z.ltb_spec (rs + len) 8192); [ lia | ].
        split; [ lia | ]. split; [ lia | ].
        intros j Hj. rewrite Hget2, Hget1 by lia.
        destruct (Z.leb_spec (8192 - rs) j); cbn [andb].
        * destruct (Z.ltb_spec j (8192 - rs + (len - (8192 - rs))));
            destruct (Z.ltb_spec j len); try lia.
          -- destruct (Z.ltb_spec (rs + j) 8192); [ lia | ].
             f_equal. lia.
          -- destruct (Z.leb_spec 0 j); [ | lia ].
             destruct (Z.ltb_spec j (0 + (8192 - rs))); [ lia | ].
             reflexivity.
        * destruct (Z.leb_spec 0 j); [ | lia ].
          destruct (Z.ltb_spec j (0 + (8192 - rs))); [ | lia ].
          destruct (Z.ltb_spec j len); [ | lia ].
          destruct (Z.ltb_spec (rs + j) 8192); [ | lia ].
          cbn [andb]. f_equal. lia.
      + exists rx1, 0, (re - 8192).
        split; [ exact Hlen1 | ]. split; [ reflexivity | ].
        destruct (Z.ltb_spec (rs + len) 8192); [ lia | ].
        split; [ lia | ]. split; [ lia | ].
        intros j Hj. rewrite Hget1 by lia.
        destruct (Z.leb_spec 0 j); [ | lia ].
        destruct (Z.ltb_spec j (0 + (8192 - rs)));
          destruct (Z.ltb_spec j len); try lia; cbn [andb];
          [ | reflexivity ].
        destruct (Z.ltb_spec (rs + j) 8192); [ | lia ].
        f_equal. lia.
    - cbn [mbind option_bind].
      destruct (Z.ltb_spec 0 len); [ | lia ].
      rewrite Z.sub_0_r, (u64_small len) by lia.
      destruct (memcpy_Some (rx_buf (rcv_trp u)) 0 (ring_buf u) rs len)
        as (rx2 & Hrx2 & Hlen2 & Hget2); try lia.
      rewrite Hrx2. cbn [mbind option_bind].
      rewrite (u64_small (rs + len)) by lia.
      exists rx2, (rs + len), re.
      split; [ exact Hlen2 | ]. split; [ reflexivity | ].
      destruct (Z.ltb_spec (rs + len) 8192); [ | lia ].
      split; [ reflexivity | ]. split; [ lia | ].
      intros j Hj. rewrite Hget2 by lia.
      destruct (Z.leb_spec 0 j); [ | lia ].
      destruct (Z.ltb_spec j (0 + len)); destruct (Z.ltb_spec j len);
        try lia; cbn [andb]; [ | reflexivity ].
      destruct (Z.ltb_spec (rs + j) 8192); [ | lia ].
      f_equal. lia. }
  destruct Hcopy as (rx2 & rs2 & re2 & Hlen2 & Hrun2 & Hrs2 & Hre2 & Hget2).
  exists (set_rcv_trp (set_ring u (ring_buf u) rs2 re2)
            (set_rx (rcv_trp u) rx2 0 len)).
  split.
  { unfold trp_receive, UDP_RING_BUFFER_SIZE. rewrite Hrxlen.
    cbn [Z.eqb negb]. fold rs re.
    destruct (Z.ltb_spec rs re); [ | lia ].
    rewrite Hb0, Hb1. cbn [mbind option_bind].
    rewrite packet_count by assumption.
    rewrite (u64_small (2 ^ 8 * b0 + b1 + 2)) by lia.
    fold len. rewrite (u64_small len), (u64_small (len + rs)) by lia.
    destruct (Z.ltb_spec re (len + rs)); [ lia | ].
    exact Hrun2. }
  unfold ring_index, UDP_RING_BUFFER_SIZE in Hrs2.
  cbn [rcv_trp set_rcv_trp set_ring set_rx rx_enable rx_pos rx_len rx_buf].
  split.
  { constructor;
      cbn [rcv_trp set_rcv_trp set_ring set_rx rx_buf ring_buf pkt_buf
           ring_start ring_end];
      unfold UDP_RING_BUFFER_SIZE, UDP_PACKET_SIZE;
      try assumption.
    - rewrite Hlen2. exact Hrx.
    - destruct (Z.ltb_spec (rs + len) 8192); lia.
    - revert Heven Hrs2. unfold len. clear.
      destruct (Z.ltb_spec (rs + 2 * (2 ^ 8 * b0 + b1 + 2)) 8192);
        intros; subst rs2; Z.div_mod_to_equations; lia.
    - lia. }
  split; [ reflexivity | ]. split; [ reflexivity | ].
  split; [ reflexivity | ].
  split.
  { apply list_eq_get.
    { rewrite length_app, length_take, length_drop, length_ring_bytes.
      fold rs re. lia. }
    intros k Hk.
    rewrite <- (array_get_nat rx2), Hget2 by lia.
    destruct (Z.ltb_spec (Z.of_nat k) len).
    - rewrite lookup_app_l
        by (rewrite length_take, length_ring_bytes; fold rs re; lia).
      rewrite lookup_take_lt by lia.
      rewrite ring_bytes_lookup by (fold rs re; lia). fold rs.
      apply array_get_default; [ | reflexivity ].
      unfold ring_index, UDP_RING_BUFFER_SIZE.
      destruct (Z.ltb_spec (rs + Z.of_nat k) 8192); lia.
    - rewrite lookup_app_r
        by (rewrite length_take, length_ring_bytes; fold rs re; lia).
      rewrite length_take, length_ring_bytes. fold rs re.
      rewrite lookup_drop, array_get_nat. f_equal. lia. }
  apply list_eq_get.
  { rewrite length_drop, !length_ring_bytes.
    cbn [ring_start ring_end set_rcv_trp set_ring]. fold rs re. lia. }
  intros k Hk. rewrite length_ring_bytes in Hk.
  cbn [ring_start ring_end set_rcv_trp set_ring] in Hk.
  rewrite ring_bytes_lookup
    by (cbn [ring_start ring_end set_rcv_trp set_ring]; lia).
  cbn [ring_start ring_buf set_rcv_trp set_ring].
  rewrite lookup_drop.
  rewrite ring_bytes_lookup by (fold rs re; lia). fold rs.
  do 3 f_equal. unfold ring_index, UDP_RING_BUFFER_SIZE.
  destruct (Z.ltb_spec (rs + len) 8192);
    destruct (Z.ltb_spec (rs2 + Z.of_nat k) 8192);
    destruct (Z.ltb_spec (rs + Z.of_nat (Z.to_nat len + k)) 8192); lia.
Qed.

(** The datagram that leaves the sender for a sequence of words. *)
Lemma sent_datagram_frame (tx : udp_transport) (W : list Z) (ret : Z) :
  W <> [] -> (length W <= 511)%nat ->
  Z.of_nat (length (tx_buf tx)) = UDP_PACKET_SIZE ->
  sent_datagram tx W ret = Some (wire_frame W)
  /\ exists tx',
       append_tx_all (trp_clear_tx tx) W = Some (true, tx')
       /\ tx_pos tx' = Z.of_nat (length (wire_frame W)).
Proof.
  intros Hne Hlen Hsize.
  destruct W as [ | w W ]; [ contradiction | ].
  unfold UDP_PACKET_SIZE in Hsize.
  destruct (tx_buf tx) as [ | b0 [ | b1 tail ] ] eqn:Hbuf;
    cbn [length] in Hsize; try lia.
  set (init := set_tx (trp_clear_tx tx) (0 :: 0 :: tail) 2).
  destruct (append_tx_all_after (w :: W) init [0; 0] tail)
    as (tx' & Hrun & Hbuf' & Hpos');
    [ reflexivity | reflexivity | cbn [length]; lia
    | cbn [length] in *; lia
    | unfold UDP_PACKET_SIZE; cbn [length app]; lia | ].
  assert (Hcount : Z.of_nat (length (w :: W)) < 2 ^ 16) by lia.
  assert (Hinit : append_tx_all (trp_clear_tx tx) (w :: W)
                  = append_tx_all init (w :: W)).
  { cbn [append_tx_all].
    rewrite (trp_append_tx_first (trp_clear_tx tx) b0 b1 tail w)
      by (try reflexivity; exact Hbuf).
    reflexivity. }
  split.
  - unfold sent_datagram. rewrite Hinit, Hrun.
    destruct (trp_send_datagram tx' 0 0 (flat_map be16 (w :: W))
                (drop (2 * length (w :: W)) tail) (length (w :: W)) ret)
      as (ok & tx'' & Hsend).
    + rewrite Hbuf'. rewrite <- app_assoc. reflexivity.
    + rewrite Hpos', length_app. reflexivity.
    + apply length_be16_words.
    + exact Hcount.
    + rewrite Hsend. reflexivity.
  - exists tx'. split; [ rewrite Hinit; exact Hrun | ].
    rewrite Hpos'. unfold wire_frame. rewrite !length_app. reflexivity.
Qed.

(** The two bytes of a count. *)
Lemma be16_bytes (n : Z) :
  0 <= n < 2 ^ 16 ->
  0 <= u8 (Z.shiftr n 8) < 256 /\ 0 <= u8 n < 256
  /\ 2 ^ 8 * u8 (Z.shiftr n 8) + u8 n = n.
Proof.
  intros Hn. unfold u8. rewrite Z.shiftr_div_pow2 by lia.
  change (2 ^ 8) with 256. change (2 ^ 16) with 65536 in Hn.
  pose proof (Z.mod_pos_bound (n / 256) 256 ltac:(lia)).
  pose proof (Z.mod_pos_bound n 256 ltac:(lia)).
  repeat split; try lia.
  rewrite (Z.mod_small (n / 256)).
  - pose proof (Z.div_mod n 256 ltac:(lia)). lia.
  - split; [ apply Z.div_pos; lia | ].
    apply Z.div_lt_upper_bound; lia.
Qed.

Lemma length_wire_frame (W : list Z) :
  length (wire_frame W) = (2 + 2 * length W)%nat.
Proof.
  unfold wire_frame. rewrite length_app, length_be16_words. reflexivity.
Qed.

(** The words of a frame at the start of the receive buffer. *)
Lemma get_rx_data_frame (rx : udp_transport) (W rest : list Z) :
  W <> [] -> Forall (fun w => 0 <= w < 2 ^ 16) W ->
  rx_pos rx = 0 -> rx_buf rx = wire_frame W ++ rest ->
  Z.of_nat (length (wire_frame W)) <= rx_len rx ->
  exists rx', get_rx_data_n rx (length W) = Some (W, rx').
Proof.
  intros Hne Hall Hpos Hrx Hrxlen.
  destruct W as [ | w W ]; [ contradiction | ].
  unfold wire_frame in Hrx, Hrxlen.
  rewrite length_app, length_be16_words in Hrxlen.
  cbn [be16 length] in Hrxlen.
  destruct (get_rx_data_n_after (w :: W) (set_rx_pos rx 2)
              (be16 (Z.of_nat (length (w :: W)))) rest)
    as [rx' Hrun_rx].
  + cbn [rx_buf set_rx_pos]. rewrite Hrx, <- app_assoc. reflexivity.
  + reflexivity.
  + cbn [be16 length]. lia.
  + cbn [rx_len set_rx_pos be16 length] in *. lia.
  + exact Hall.
  + exists rx'. rewrite <- Hrun_rx. cbn [get_rx_data_n length].
    rewrite trp_get_rx_data_first by (cbn [length] in *; lia).
    reflexivity.
Qed.

(** X15. From the sender to the words handed out: a sequence of 1 to 510
    words that is appended and sent, taken from the socket by the receive
    thread while the ring is empty and RX is enabled, and fetched with
    [trp_receive], is handed out word by word by [trp_get_rx_data],
    wherever in the ring the packet lies, also across its end.  The length
    that is reported counts two bytes more than the datagram, and the ring
    is empty again. *)
Theorem sent_words_are_received
    (tx : udp_transport) (u : udp_receiver) (W : list Z) (ret : Z) :
  W <> [] -> (length W <= 510)%nat ->
  Forall (fun w => 0 <= w < 2 ^ 16) W ->
  Z.of_nat (length (tx_buf tx)) = UDP_PACKET_SIZE ->
  ring_ok u -> rx_enable u = true -> ring_end u = ring_start u ->
  rx_len (rcv_trp u) = 0 ->
  exists datagram u1 u2 trp',
    sent_datagram tx W ret = Some datagram
    /\ receive_thread_iteration u true true (Received datagram) true
       = Some (Continue u1)
    /\ trp_receive u1 true = Some (true, u2)
    /\ rx_len (rcv_trp u2) = Z.of_nat (length datagram) + 2
    /\ get_rx_data_n (rcv_trp u2) (length W) = Some (W, trp')
    /\ ring_end u2 = ring_start u2.
Proof.
  intros Hne Hlen Hall Hsize Hok Hen Hempty Hrxlen.
  destruct (sent_datagram_frame tx W ret Hne ltac:(lia) Hsize)
    as [Hsent _].
  exists (wire_frame W).
  pose proof (length_wire_frame W) as Hframe.
  destruct (be16_bytes (Z.of_nat (length W)) ltac:(lia))
    as (Hb0 & Hb1 & Hcount).
  set (b0 := u8 (Z.shiftr (Z.of_nat (length W)) 8)) in *.
  set (b1 := u8 (Z.of_nat (length W))) in *.
  assert (Hwire : wire_frame W = b0 :: b1 :: flat_map be16 W)
    by reflexivity.
  assert (Htake : take (Z.to_nat (UDP_PACKET_SIZE - 2)) (wire_frame W)
                  = wire_frame W).
  { apply take_ge. rewrite Hframe. unfold UDP_PACKET_SIZE. lia. }
  destruct (receive_thread_enqueues u b0 b1 (flat_map be16 W) Hok Hen)
    as (u1 & Hrun1 & Hok1 & Htrp1 & Hen1 & Hrs1 & Hre1 & Hpk1 & Hbytes1);
    try assumption.
  { rewrite Hempty. unfold UDP_PACKET_SIZE, UDP_RING_BUFFER_SIZE. lia. }
  { rewrite <- Hwire, Htake, Hframe, Hcount. lia. }
  rewrite Hcount in *. rewrite <- Hwire in *.
  assert (Hnil : ring_bytes u = []).
  { apply length_zero_iff_nil. rewrite length_ring_bytes, Hempty. lia. }
  rewrite Hnil in Hbytes1. cbn [app] in Hbytes1.
  assert (Hpklen : Z.of_nat (length (pkt_buf u1)) = UDP_PACKET_SIZE)
    by (destruct Hok1; assumption).
  unfold UDP_PACKET_SIZE in Hpklen.
  (* the packet in the ring: the frame and two more bytes *)
  assert (Hpacket : ring_bytes u1
                    = wire_frame W
                      ++ take 2 (drop (length (wire_frame W)) (pkt_buf u1))).
  { rewrite Hbytes1.
    rewrite <- (take_drop (length (wire_frame W)) (pkt_buf u1)) at 1.
    rewrite take_app_ge by (rewrite length_take; lia).
    rewrite length_take.
    replace (take (length (wire_frame W)) (pkt_buf u1))
      with (wire_frame W).
    2: { replace (length (wire_frame W))
           with (Z.to_nat (2 * Z.of_nat (length W) + 2)) by lia.
         rewrite Hpk1. symmetry. apply take_ge. lia. }
    f_equal. f_equal. lia. }
  destruct (trp_receive_dequeues u1 b0 b1
              (flat_map be16 W
               ++ take 2 (drop (length (wire_frame W)) (pkt_buf u1))) Hok1)
    as (u2 & Hrun2 & Hok2 & Hen2 & Hpos2 & Hlen2 & Hrx2 & Hbytes2);
    try assumption.
  { rewrite Htrp1. exact Hrxlen. }
  { rewrite length_ring_bytes, Hre1, Hrs1, Hempty, Hcount. lia. }
  { rewrite Hcount. unfold UDP_PACKET_SIZE. lia. }
  rewrite Hcount in *.
  assert (Hlen1 : length (ring_bytes u1) = (length (wire_frame W) + 2)%nat).
  { rewrite length_ring_bytes, Hre1, Hrs1, Hempty. lia. }
  destruct (get_rx_data_frame (rcv_trp u2) W
              (take 2 (drop (length (wire_frame W)) (pkt_buf u1))
               ++ drop (Z.to_nat (2 * (Z.of_nat (length W) + 2)))
                    (rx_buf (rcv_trp u1)))) as [trp' Hwords];
    try assumption.
  { rewrite Hrx2, take_ge by lia. rewrite Hpacket, <- app_assoc.
    reflexivity. }
  { rewrite Hlen2. lia. }
  exists u1, u2, trp'.
  split; [ exact Hsent | ]. split; [ exact Hrun1 | ].
  split; [ exact Hrun2 | ]. split; [ rewrite Hlen2; lia | ].
  split; [ exact Hwords | ].
  apply (f_equal length) in Hbytes2.
  rewrite length_drop, !length_ring_bytes in Hbytes2.
  destruct Hok2 as [_ _ _ _ _ Hfill2]. lia.
Qed.

(** The packet that the receive thread puts in the ring for a datagram:
    its first [2 n + 2] bytes and two bytes more of the packet buffer. *)
Lemma packet_shape (pk : list Z) (d0 d1 : Z) (body : list Z) (n : Z) :
  0 <= n ->
  take (Z.to_nat (2 * n + 2)) pk
  = take (Z.to_nat (2 * n + 2)) (d0 :: d1 :: body) ->
  take (Z.to_nat (2 * n + 4)) pk
  = d0 :: d1 :: (take (Z.to_nat (2 * n)) body
                 ++ take 2 (drop (Z.to_nat (2 * n + 2)) pk)).
Proof.
  intros Hn Htake.
  replace (Z.to_nat (2 * n + 4)) with (Z.to_nat (2 * n + 2) + 2)%nat by lia.
  rewrite <- take_take_drop, Htake.
  replace (Z.to_nat (2 * n + 2)) with (S (S (Z.to_nat (2 * n)))) by lia.
  reflexivity.
Qed.

Lemma clear_rx_ring_ok (u : udp_receiver) :
  ring_ok u -> ring_ok (set_rcv_trp u (trp_clear_rx (rcv_trp u))).
Proof. intros []. constructor; assumption. Qed.

(** X16. The ring is a queue: of two datagrams taken from the socket, the
    first [trp_receive] delivers the first and, once the receive buffer is
    cleared, the second [trp_receive] delivers the second, after which the
    ring is empty; until the receive buffer is cleared [trp_receive] keeps
    the packet that it has delivered. *)
Theorem ring_delivers_in_arrival_order
    (u : udp_receiver) (a0 a1 b0 b1 : Z) (bodyA bodyB : list Z) :
  ring_ok u -> rx_enable u = true -> ring_end u = ring_start u ->
  rx_len (rcv_trp u) = 0 ->
  0 <= a0 < 256 -> 0 <= a1 < 256 -> 0 <= b0 < 256 -> 0 <= b1 < 256 ->
  2 * (2 ^ 8 * a0 + a1) + 2
  <= Z.of_nat (length (take (Z.to_nat (UDP_PACKET_SIZE - 2))
                            (a0 :: a1 :: bodyA))) ->
  2 * (2 ^ 8 * b0 + b1) + 2
  <= Z.of_nat (length (take (Z.to_nat (UDP_PACKET_SIZE - 2))
                            (b0 :: b1 :: bodyB))) ->
  exists u1 u2 u3 u4,
    receive_thread_iteration u true true (Received (a0 :: a1 :: bodyA)) true
    = Some (Continue u1)
    /\ receive_thread_iteration u1 true true (Received (b0 :: b1 :: bodyB))
         true
       = Some (Continue u2)
    /\ trp_receive u2 true = Some (true, u3)
    /\ rx_len (rcv_trp u3) = 2 * (2 ^ 8 * a0 + a1) + 4
    /\ take (Z.to_nat (2 * (2 ^ 8 * a0 + a1) + 2)) (rx_buf (rcv_trp u3))
       = take (Z.to_nat (2 * (2 ^ 8 * a0 + a1) + 2)) (a0 :: a1 :: bodyA)
    /\ trp_receive u3 true = Some (true, u3)
    /\ trp_receive (set_rcv_trp u3 (trp_clear_rx (rcv_trp u3))) true
       = Some (true, u4)
    /\ rx_len (rcv_trp u4) = 2 * (2 ^ 8 * b0 + b1) + 4
    /\ take (Z.to_nat (2 * (2 ^ 8 * b0 + b1) + 2)) (rx_buf (rcv_trp u4))
       = take (Z.to_nat (2 * (2 ^ 8 * b0 + b1) + 2)) (b0 :: b1 :: bodyB)
    /\ ring_end u4 = ring_start u4.
Proof.
  intros Hok Hen Hempty Hrxlen Ha0 Ha1 Hb0 Hb1 HlenA HlenB.
  set (nA := 2 ^ 8 * a0 + a1) in *. set (nB := 2 ^ 8 * b0 + b1) in *.
  assert (HnA : 0 <= nA) by (unfold nA; lia).
  assert (HnB : 0 <= nB) by (unfold nB; lia).
  assert (HsA : 2 * nA + 2 <= 1022).
  { rewrite length_take in HlenA. unfold UDP_PACKET_SIZE in HlenA. lia. }
  assert (HsB : 2 * nB + 2 <= 1022).
  { rewrite length_take in HlenB. unfold UDP_PACKET_SIZE in HlenB. lia. }
  assert (HbA : (Z.to_nat (2 * nA) <= length bodyA)%nat).
  { rewrite length_take in HlenA. cbn [length] in HlenA. lia. }
  assert (HbB : (Z.to_nat (2 * nB) <= length bodyB)%nat).
  { rewrite length_take in HlenB. cbn [length] in HlenB. lia. }
  assert (Hnil : ring_bytes u = []).
  { apply length_zero_iff_nil. rewrite length_ring_bytes, Hempty. lia. }
  (* the two datagrams join the ring *)
  destruct (receive_thread_enqueues u a0 a1 bodyA Hok Hen)
    as (u1 & Hrun1 & Hok1 & Htrp1 & Hen1 & Hrs1 & Hre1 & Hpk1 & Hbytes1);
    try assumption.
  { rewrite Hempty. unfold UDP_PACKET_SIZE, UDP_RING_BUFFER_SIZE. lia. }
  fold nA in Hre1, Hpk1, Hbytes1.
  rewrite Hnil in Hbytes1. cbn [app] in Hbytes1.
  rewrite (packet_shape _ a0 a1 bodyA nA HnA Hpk1) in Hbytes1.
  destruct (receive_thread_enqueues u1 b0 b1 bodyB Hok1 Hen1)
    as (u2 & Hrun2 & Hok2 & Htrp2 & Hen2 & Hrs2 & Hre2 & Hpk2 & Hbytes2);
    try assumption.
  { rewrite Hre1, Hrs1, Hempty.
    unfold UDP_PACKET_SIZE, UDP_RING_BUFFER_SIZE. lia. }
  fold nB in Hre2, Hpk2, Hbytes2.
  rewrite (packet_shape _ b0 b1 bodyB nB HnB Hpk2) in Hbytes2.
  set (fillA := take 2 (drop (Z.to_nat (2 * nA + 2)) (pkt_buf u1))) in *.
  set (fillB := take 2 (drop (Z.to_nat (2 * nB + 2)) (pkt_buf u2))) in *.
  set (packetB := b0 :: b1 :: take (Z.to_nat (2 * nB)) bodyB ++ fillB) in *.
  assert (HlA : length (ring_bytes u1) = Z.to_nat (2 * nA + 4)).
  { rewrite length_ring_bytes, Hre1, Hrs1, Hempty. lia. }
  assert (HlB : length (ring_bytes u2)
                = (Z.to_nat (2 * nA + 4) + Z.to_nat (2 * nB + 4))%nat).
  { rewrite length_ring_bytes, Hre2, Hrs2, Hre1, Hrs1, Hempty. lia. }
  assert (HlpB : length packetB = Z.to_nat (2 * nB + 4)).
  { apply (f_equal length) in Hbytes2.
    rewrite length_app, HlA, HlB in Hbytes2. lia. }
  rewrite Hbytes1 in Hbytes2. cbn [app] in Hbytes2.
  (* the first packet is delivered *)
  destruct (trp_receive_dequeues u2 a0 a1 _ Hok2 ltac:(congruence) Hbytes2)
    as (u3 & Hrun3 & Hok3 & Hen3 & Hpos3 & Hlen3 & Hrx3 & Hbytes3);
    try assumption.
  { fold nA. rewrite HlB. lia. }
  { fold nA. unfold UDP_PACKET_SIZE. lia. }
  fold nA in Hlen3, Hrx3, Hbytes3.
  replace (2 * (nA + 2)) with (2 * nA + 4) in * by lia.
  assert (Hsplit : ring_bytes u2 = ring_bytes u1 ++ packetB).
  { rewrite Hbytes2, Hbytes1. reflexivity. }
  rewrite Hsplit in Hrx3, Hbytes3.
  rewrite take_app_length' in Hrx3 by (symmetry; exact HlA).
  rewrite drop_app_length' in Hbytes3 by (symmetry; exact HlA).
  (* the receive buffer is cleared and the second packet delivered *)
  pose proof (clear_rx_ring_ok u3 Hok3) as Hok3'.
  destruct (trp_receive_dequeues
              (set_rcv_trp u3 (trp_clear_rx (rcv_trp u3))) b0 b1
              (take (Z.to_nat (2 * nB)) bodyB ++ fillB) Hok3' eq_refl)
    as (u4 & Hrun4 & Hok4 & Hen4 & Hpos4 & Hlen4 & Hrx4 & Hbytes4);
    try assumption.
  { fold nB. change (ring_bytes (set_rcv_trp u3 _)) with (ring_bytes u3).
    rewrite Hbytes3, HlpB. lia. }
  { fold nB. unfold UDP_PACKET_SIZE. lia. }
  fold nB in Hlen4, Hrx4, Hbytes4.
  replace (2 * (nB + 2)) with (2 * nB + 4) in * by lia.
  change (ring_bytes (set_rcv_trp u3 _)) with (ring_bytes u3)
    in Hrx4, Hbytes4.
  rewrite Hbytes3 in Hrx4, Hbytes4.
  rewrite take_ge in Hrx4 by lia. rewrite drop_ge in Hbytes4 by lia.
  exists u1, u2, u3, u4.
  split; [ exact Hrun1 | ]. split; [ exact Hrun2 | ].
  split; [ exact Hrun3 | ]. split; [ exact Hlen3 | ].
  split.
  { rewrite Hrx3, Hbytes1.
    rewrite take_app_le by (cbn [length]; rewrite length_app, length_take; lia).
    replace (Z.to_nat (2 * nA + 2)) with (S (S (Z.to_nat (2 * nA)))) by lia.
    cbn [take]. do 2 f_equal.
    rewrite take_app_le by (rewrite length_take; lia).
    apply take_idemp. }
  split.
  { unfold trp_receive. rewrite Hlen3.
    destruct (Z.eqb_spec (2 * nA + 4) 0); [ lia | reflexivity ]. }
  split; [ exact Hrun4 | ]. split; [ exact Hlen4 | ].
  split.
  { rewrite Hrx4. unfold packetB.
    rewrite take_app_le by (cbn [length]; rewrite length_app, length_take; lia).
    replace (Z.to_nat (2 * nB + 2)) with (S (S (Z.to_nat (2 * nB)))) by lia.
    cbn [take]. do 2 f_equal.
    rewrite take_app_le by (rewrite length_take; lia).
    apply take_idemp. }
  apply (f_equal length) in Hbytes4.
  rewrite length_ring_bytes in Hbytes4. cbn [length] in Hbytes4.
  destruct Hok4 as [_ _ _ _ _ Hfill4]. lia.
Qed.

(** The ways in which an iteration of the receive thread ends before it
    writes to the ring: on a datagram that holds less than its count
    announces, on a mutex that cannot be taken, and while RX is disabled. *)
Lemma receive_thread_early_exits
    (u : udp_receiver) (d0 d1 : Z) (body : list Z) (locked2 : bool) :
  ring_ok u ->
  UDP_PACKET_SIZE
  <= UDP_RING_BUFFER_SIZE - (ring_end u - ring_start u) ->
  0 <= d0 < 256 -> 0 <= d1 < 256 ->
  exists pk,
    length pk = length (pkt_buf u)
    /\ (Z.of_nat (length (take (Z.to_nat (UDP_PACKET_SIZE - 2))
                               (d0 :: d1 :: body)))
        < 2 * (2 ^ 8 * d0 + d1) + 2 ->
        receive_thread_iteration u true true (Received (d0 :: d1 :: body))
          locked2
        = Some (Stopped 1 (set_pkt_buf u pk)))
    /\ (2 * (2 ^ 8 * d0 + d1) + 2
        <= Z.of_nat (length (take (Z.to_nat (UDP_PACKET_SIZE - 2))
                                  (d0 :: d1 :: body))) ->
        (locked2 = false ->
         receive_thread_iteration u true true (Received (d0 :: d1 :: body))
           locked2
         = Some (Stopped 1 (set_pkt_buf u pk)))
        /\ (locked2 = true -> rx_enable u = false ->
            receive_thread_iteration u true true
              (Received (d0 :: d1 :: body)) locked2
            = Some (Continue (set_pkt_buf u pk)))).
Proof.
  intros Hok Hfree H0 H1.
  destruct Hok as [Hring Hpkt Hrx Hrs Heven Hfill].
  unfold UDP_RING_BUFFER_SIZE, UDP_PACKET_SIZE in *.
  set (n := 2 ^ 8 * d0 + d1) in *.
  set (stored := take (Z.to_nat (1024 - 2)) (d0 :: d1 :: body)) in *.
  set (rs := ring_start u) in *. set (re := ring_end u) in *.
  assert (Hs : 2 <= Z.of_nat (length stored) <= 1022).
  { unfold stored. rewrite length_take. cbn [length]. lia. }
  assert (Hn : 0 <= n) by (unfold n; lia).
  destruct (memcpy_Some (pkt_buf u) 0 stored 0 (Z.of_nat (length stored)))
    as (pk & Hpk & Hpklen & Hpkget); try lia.
  assert (Hpk0 : array_get pk 0 = Some d0).
  { rewrite Hpkget by lia.
    destruct (Z.ltb_spec 0 (0 + Z.of_nat (length stored))); [ | lia ].
    reflexivity. }
  assert (Hpk1 : array_get pk 1 = Some d1).
  { rewrite Hpkget by lia.
    destruct (Z.ltb_spec 1 (0 + Z.of_nat (length stored))); [ | lia ].
    reflexivity. }
  assert (Hrun : receive_thread_iteration u true true
                   (Received (d0 :: d1 :: body)) locked2
                 = if Z.of_nat (length stored) <? 2 * n + 2
                   then Some (Stopped 1 (set_pkt_buf u pk))
                   else if negb locked2
                   then Some (Stopped 1 (set_pkt_buf u pk))
                   else if negb (rx_enable u)
                   then Some (Continue (set_pkt_buf u pk))
                   else receive_thread_iteration u true true
                          (Received (d0 :: d1 :: body)) locked2).
  { destruct (Z.ltb_spec (Z.of_nat (length stored)) (2 * n + 2)) as [Hb | Hg];
      [ | destruct locked2; cbn [negb];
          [ destruct (rx_enable u) eqn:Hen; cbn [negb];
            [ reflexivity | ] | ] ];
      unfold receive_thread_iteration, UDP_RING_BUFFER_SIZE,
        UDP_PACKET_SIZE;
      cbn [negb]; fold rs re; fold stored;
      rewrite (u64_small (re - rs)), (u64_small (8192 - (re - rs))) by lia;
      (destruct (Z.ltb_spec (8192 - (re - rs)) 1024); [ lia | ]);
      rewrite Hpk; cbn [mbind option_bind];
      (destruct (Z.leb_spec (Z.of_nat (length stored)) 0); [ lia | ]);
      cbn [pkt_buf set_pkt_buf]; rewrite Hpk0, Hpk1;
      cbn [mbind option_bind];
      rewrite packet_count by assumption; fold n;
      rewrite (u64_small (n * 2)), (u64_small (n * 2 + 2)) by lia;
      (destruct (Z.ltb_spec (Z.of_nat (length stored)) (n * 2 + 2));
       try lia); cbn [orb]; try reflexivity;
      replace (n * 2 + 2) with (2 * (n + 1)) by lia;
      rewrite Z.mul_comm, Z_mod_mult; cbn [Z.eqb negb];
      cbn [rx_enable set_pkt_buf]; rewrite ?Hen; reflexivity. }
  exists pk. split; [ exact Hpklen | ]. split.
  - intros Hshort. rewrite Hrun.
    destruct (Z.ltb_spec (Z.of_nat (length stored)) (2 * n + 2));
      [ reflexivity | lia ].
  - intros Hfits. split.
    + intros ->. rewrite Hrun.
      destruct (Z.ltb_spec (Z.of_nat (length stored)) (2 * n + 2));
        [ lia | reflexivity ].
    + intros -> Hen. rewrite Hrun, Hen.
      destruct (Z.ltb_spec (Z.of_nat (length stored)) (2 * n + 2));
        [ lia | reflexivity ].
Qed.

(** X17. A datagram that holds less than its count announces ends the
    receive thread with the value 1 and leaves the ring as it was.  The
    datagram of 511 words, which the sender accepts and sends, is such a
    datagram: the receiver takes 1022 of its 1024 bytes from the socket. *)
Theorem short_datagram_stops_receive_thread
    (u : udp_receiver) (locked2 : bool) :
  ring_ok u ->
  UDP_PACKET_SIZE
  <= UDP_RING_BUFFER_SIZE - (ring_end u - ring_start u) ->
  (forall (d0 d1 : Z) (body : list Z),
      0 <= d0 < 256 -> 0 <= d1 < 256 ->
      Z.of_nat (length (take (Z.to_nat (UDP_PACKET_SIZE - 2))
                             (d0 :: d1 :: body)))
      < 2 * (2 ^ 8 * d0 + d1) + 2 ->
      exists u',
        receive_thread_iteration u true true (Received (d0 :: d1 :: body))
          locked2
        = Some (Stopped 1 u')
        /\ ring_bytes u' = ring_bytes u)
  /\ (forall (tx : udp_transport) (W : list Z) (ret : Z),
        length W = 511%nat ->
        Z.of_nat (length (tx_buf tx)) = UDP_PACKET_SIZE ->
        exists datagram u',
          sent_datagram tx W ret = Some datagram
          /\ Z.of_nat (length datagram) = UDP_PACKET_SIZE
          /\ receive_thread_iteration u true true (Received datagram)
               locked2
             = Some (Stopped 1 u')).
Proof.
  intros Hok Hfree. split.
  - intros d0 d1 body H0 H1 Hshort.
    destruct (receive_thread_early_exits u d0 d1 body locked2 Hok Hfree
                H0 H1) as (pk & _ & Hstop & _).
    exists (set_pkt_buf u pk). split; [ exact (Hstop Hshort) | reflexivity ].
  - intros tx W ret Hlen Hsize.
    assert (Hne : W <> []) by (intros ->; discriminate Hlen).
    destruct (sent_datagram_frame tx W ret Hne ltac:(lia) Hsize)
      as [Hsent _].
    pose proof (length_wire_frame W) as Hframe.
    destruct (be16_bytes (Z.of_nat (length W)) ltac:(lia))
      as (Hb0 & Hb1 & Hcount).
    destruct (receive_thread_early_exits u _ _ (flat_map be16 W) locked2
                Hok Hfree Hb0 Hb1) as (pk & _ & Hstop & _).
    exists (wire_frame W), (set_pkt_buf u pk).
    split; [ exact Hsent | ].
    split; [ rewrite Hframe, Hlen; reflexivity | ].
    apply Hstop. rewrite Hcount.
    change (u8 (Z.shiftr (Z.of_nat (length W)) 8)
            :: u8 (Z.of_nat (length W)) :: flat_map be16 W)
      with (wire_frame W).
    rewrite length_take, Hframe, Hlen. unfold UDP_PACKET_SIZE. lia.
Qed.

(** X18. While RX is disabled a datagram taken from the socket is dropped:
    the ring and the receive buffer stay as they are.  Disabling RX empties
    the ring, so that the next [trp_receive] reports no data; enabling it
    keeps what waits in the ring. *)
Theorem disabled_rx_drops_and_flushes (u : udp_receiver) :
  ring_ok u ->
  (forall (d0 d1 : Z) (body : list Z),
      UDP_PACKET_SIZE
      <= UDP_RING_BUFFER_SIZE - (ring_end u - ring_start u) ->
      0 <= d0 < 256 -> 0 <= d1 < 256 ->
      2 * (2 ^ 8 * d0 + d1) + 2
      <= Z.of_nat (length (take (Z.to_nat (UDP_PACKET_SIZE - 2))
                                (d0 :: d1 :: body))) ->
      rx_enable u = false ->
      exists u',
        receive_thread_iteration u true true (Received (d0 :: d1 :: body))
          true
        = Some (Continue u')
        /\ ring_bytes u' = ring_bytes u /\ rcv_trp u' = rcv_trp u
        /\ rx_enable u' = false)
  /\ (exists u',
        trp_enable_rx u false true = (true, u')
        /\ ring_bytes u' = [] /\ rx_enable u' = false
        /\ (rx_len (rcv_trp u) = 0 ->
            exists u'',
              trp_receive u' true = Some (true, u'')
              /\ rx_len (rcv_trp u'') = 0))
  /\ (exists u',
        trp_enable_rx u true true = (true, u')
        /\ ring_bytes u' = ring_bytes u /\ rx_enable u' = true).
Proof.
  intros Hok. split; [ | split ].
  - intros d0 d1 body Hfree H0 H1 Hfits Hen.
    destruct (receive_thread_early_exits u d0 d1 body true Hok Hfree H0 H1)
      as (pk & _ & _ & Hdrop).
    destruct (Hdrop Hfits) as [_ Hcont].
    exists (set_pkt_buf u pk).
    split; [ exact (Hcont eq_refl Hen) | ].
    split; [ reflexivity | ]. split; [ reflexivity | exact Hen ].
  - eexists. split; [ reflexivity | ].
    split; [ reflexivity | ]. split; [ reflexivity | ].
    intros Hrxlen. eexists. unfold trp_receive.
    cbn [rcv_trp set_ring ring_start ring_end negb]. rewrite Hrxlen.
    cbn [Z.eqb Z.ltb Z.compare]. split; reflexivity.
  - eexists. split; [ reflexivity | ].
    split; reflexivity.
Qed.

Lemma created_receiver_ok : ring_ok created_receiver.
Proof.
  constructor; cbn [created_receiver ring_buf pkt_buf rx_buf rcv_trp
                    ring_start ring_end];
    rewrite ?length_replicate;
    unfold UDP_RING_BUFFER_SIZE, UDP_PACKET_SIZE; first [ reflexivity | lia ].
Qed.

Lemma wrapping_receiver_ok : ring_ok wrapping_receiver.
Proof.
  constructor; cbn [wrapping_receiver set_ring created_receiver ring_buf
                    pkt_buf rx_buf rcv_trp ring_start ring_end];
    rewrite ?length_replicate;
    unfold UDP_RING_BUFFER_SIZE, UDP_PACKET_SIZE; first [ reflexivity | lia ].
Qed.

(** The words 0x1234 and 0x5678, with the packet across the end of the
    ring. *)
Lemma sent_words_are_received_witness :
  exists datagram u1 u2 trp',
    sent_datagram sample_sender [0x1234; 0x5678] 6 = Some datagram
    /\ receive_thread_iteration wrapping_receiver true true
         (Received datagram) true = Some (Continue u1)
    /\ trp_receive u1 true = Some (true, u2)
    /\ get_rx_data_n (rcv_trp u2) 2 = Some ([0x1234; 0x5678], trp').
Proof.
  destruct (sent_words_are_received sample_sender wrapping_receiver
              [0x1234; 0x5678] 6)
    as (datagram & u1 & u2 & trp' & Hsent & Hrun1 & Hrun2 & _ & Hwords & _).
  - discriminate.
  - cbn [length]. lia.
  - repeat (apply Forall_cons; split; [ lia | ]). apply Forall_nil_2.
  - reflexivity.
  - exact wrapping_receiver_ok.
  - reflexivity.
  - reflexivity.
  - reflexivity.
  - exists datagram, u1, u2, trp'. auto.
Defined.

(** The packets of the word 1 and of the words 2 and 3. *)
Lemma ring_delivers_in_arrival_order_witness :
  exists u1 u2 u3 u4,
    receive_thread_iteration wrapping_receiver true true
      (Received [0; 1; 0; 1]) true = Some (Continue u1)
    /\ receive_thread_iteration u1 true true
         (Received [0; 2; 0; 2; 0; 3]) true = Some (Continue u2)
    /\ trp_receive u2 true = Some (true, u3)
    /\ take 4 (rx_buf (rcv_trp u3)) = [0; 1; 0; 1]
    /\ trp_receive (set_rcv_trp u3 (trp_clear_rx (rcv_trp u3))) true
       = Some (true, u4)
    /\ take 6 (rx_buf (rcv_trp u4)) = [0; 2; 0; 2; 0; 3].
Proof.
  destruct (ring_delivers_in_arrival_order wrapping_receiver 0 1 0 2
              [0; 1] [0; 2; 0; 3] wrapping_receiver_ok eq_refl eq_refl
              eq_refl ltac:(lia) ltac:(lia) ltac:(lia) ltac:(lia)
              ltac:(vm_compute; discriminate)
              ltac:(vm_compute; discriminate))
    as (u1 & u2 & u3 & u4 & Hrun1 & Hrun2 & Hrun3 & _ & HrxA & _ & Hrun4
        & _ & HrxB & _).
  exists u1, u2, u3, u4.
  split; [ exact Hrun1 | ]. split; [ exact Hrun2 | ].
  split; [ exact Hrun3 | ]. split; [ exact HrxA | ].
  split; [ exact Hrun4 | exact HrxB ].
Defined.

(** A datagram of four bytes whose count announces five words. *)
Lemma short_datagram_stops_receive_thread_witness :
  exists u',
    receive_thread_iteration created_receiver true true
      (Received [0; 5; 0; 0]) true = Some (Stopped 1 u').
Proof.
  destruct (short_datagram_stops_receive_thread created_receiver true
              created_receiver_ok ltac:(vm_compute; discriminate))
    as [Hshort _].
  destruct (Hshort 0 5 [0; 0] ltac:(lia) ltac:(lia)
              ltac:(vm_compute; reflexivity))
    as (u' & Hrun & _).
  exists u'. exact Hrun.
Defined.

(** RX is disabled on the receiver, and the packet of the word 1 arrives. *)
Lemma disabled_rx_drops_and_flushes_witness :
  exists u',
    receive_thread_iteration (snd (trp_enable_rx created_receiver false true))
      true true (Received [0; 1; 0; 1]) true = Some (Continue u')
    /\ ring_bytes u' = [].
Proof.
  assert (Hok : ring_ok (snd (trp_enable_rx created_receiver false true))).
  { destruct created_receiver_ok. constructor; assumption. }
  destruct (disabled_rx_drops_and_flushes _ Hok) as [Hdrop _].
  destruct (Hdrop 0 1 [0; 1] ltac:(vm_compute; discriminate) ltac:(lia)
              ltac:(lia) ltac:(vm_compute; discriminate) eq_refl)
    as (u' & Hrun & Hbytes & _).
  exists u'. split; [ exact Hrun | exact Hbytes ].
Defined.

(** ** The stepping commands of the debugger *)

Lemma effective_breakpoints_idle
    (bps : list breakpoint) (num max_breakpoints : nat) :
  Forall idle bps ->
  effective_breakpoints bps num max_breakpoints = max_breakpoints.
Proof.
  intros Hall. revert num.
  induction Hall as [ | bp rest Hbp _ IH ]; intros num; simpl;
    [ reflexivity | ].
  unfold idle in Hbp. rewrite Hbp. apply IH.
Qed.

Lemma breakpoint_loop_beyond
    (bps : list breakpoint) (num max_breakpoints : nat) (sim : simulator) :
  (max_breakpoints <= num)%nat ->
  breakpoint_loop bps num max_breakpoints sim = None.
Proof.
  intros Hle. destruct bps as [ | bp rest ]; simpl; [ reflexivity | ].
  destruct (Nat.ltb_spec num max_breakpoints); [ lia | reflexivity ].
Qed.

Section Stepping.

Context {hdr : microcode_h}.

Variable gui : Type.
Variable gui_running : gui -> bool.
Variable gui_update : gui -> simulator -> option (gui * simulator).
Variable strtoul : string -> Z -> Z * bool.

Lemma psim_simulate_loop_steps (n : nat) :
  forall (fuel : nat) (ui : gui) (sim sim' : simulator)
         (bps : list breakpoint) (step : Z),
    gui_running ui = true ->
    0 <= step -> step + Z.of_nat n < 100000 -> (n < fuel)%nat ->
    simulator_steps n sim = Some sim' ->
    psim_simulate_loop gui gui_running gui_update fuel
      {| ps_ui := ui; ps_sim := sim; ps_bps := bps |}
      (step + Z.of_nat n) step 0
    = Returned true {| ps_ui := ui; ps_sim := sim'; ps_bps := bps |}.
Proof.
  induction n as [ | n IH ];
    intros fuel ui sim sim' bps step Hrun Hstep Hmax Hfuel Hsteps.
  - destruct fuel as [ | fuel ]; [ lia | ].
    injection Hsteps as <-.
    cbn [psim_simulate_loop ps_ui ps_sim ps_bps]. rewrite Hrun.
    cbn [negb]. rewrite Z.add_0_r.
    destruct (Z.leb_spec 0 step); [ | lia ].
    rewrite Z.eqb_refl. reflexivity.
  - destruct fuel as [ | fuel ]; [ lia | ].
    simpl in Hsteps.
    destruct (simulator_step sim) as [s1 | ] eqn:Hs1;
      [ | discriminate Hsteps ].
    cbn [mbind option_bind] in Hsteps.
    cbn [psim_simulate_loop ps_ui ps_sim ps_bps]. rewrite Hrun, Hs1.
    cbn [negb].
    destruct (Z.leb_spec 0 (step + Z.of_nat (S n))); [ | lia ].
    destruct (Z.eqb_spec step (step + Z.of_nat (S n))); [ lia | ].
    cbn [andb].
    destruct (Z.eqb_spec step (2 ^ 31 - 1)); [ lia | ].
    rewrite (Z.mod_small (step + 1)) by lia.
    destruct (Z.eqb_spec (step + 1) 0); [ lia | ].
    rewrite breakpoint_loop_beyond by lia.
    replace (step + Z.of_nat (S n)) with (step + 1 + Z.of_nat n) by lia.
    apply IH; try assumption; lia.
Qed.

(** X19. The command [n k] runs exactly [k] cycles, for [k] below 100000,
    when the user interface keeps running, no breakpoint is both in use
    and enabled and the cycles are defined; without a number it runs one
    cycle.  The breakpoint of the stepping commands is disabled first. *)
Theorem next_runs_the_given_number_of_steps
    (fuel : nat) (ui : gui) (sim sim' : simulator) (bp0 : breakpoint)
    (rest : list breakpoint) (args : list string) (k : nat) :
  gui_running ui = true -> Forall idle rest ->
  match args with
  | [] => k = 1%nat
  | arg :: _ => strtoul arg 10 = (Z.of_nat k, true)
  end ->
  Z.of_nat k < 100000 -> (k < fuel)%nat ->
  simulator_steps k sim = Some sim' ->
  psim_cmd_next gui gui_running gui_update strtoul fuel
    {| ps_ui := ui; ps_sim := sim; ps_bps := bp0 :: rest |} args
  = Returned true
      {| ps_ui := ui; ps_sim := sim';
         ps_bps := set_bp_enable bp0 false :: rest |}.
Proof.
  intros Hrun Hidle Hargs Hk Hfuel Hsteps.
  assert (Hsim :
    psim_simulate gui gui_running gui_update fuel
      {| ps_ui := ui; ps_sim := sim;
         ps_bps := set_bp_enable bp0 false :: rest |} (Z.of_nat k)
    = Returned true
        {| ps_ui := ui; ps_sim := sim';
           ps_bps := set_bp_enable bp0 false :: rest |}).
  { unfold psim_simulate. cbn [ps_bps effective_breakpoints].
    cbn [set_bp_enable bp_enable bp_available andb].
    rewrite andb_false_r, effective_breakpoints_idle by exact Hidle.
    apply (psim_simulate_loop_steps k fuel ui sim sim' _ 0);
      try assumption; lia. }
  unfold psim_cmd_next, with_bp0. cbn [ps_bps ps_ui ps_sim].
  destruct args as [ | arg args ].
  - subst k. exact Hsim.
  - rewrite Hargs. unfold to_int.
    rewrite u32_small by lia.
    destruct (Z.ltb_spec (Z.of_nat k) (2 ^ 31)); [ | lia ].
    destruct (Z.ltb_spec (Z.of_nat k) 0); [ lia | ].
    cbn [negb orb]. exact Hsim.
Qed.






End Stepping.

Lemma next_runs_the_given_number_of_steps_witness :
  exists sim,
    @simulator_steps alto_header 3 reset_simulator = Some sim
    /\ @psim_cmd_next alto_header unit (fun _ => true)
         (fun ui sim => Some (ui, sim)) (fun _ _ => (3, true)) 4
         {| ps_ui := tt; ps_sim := reset_simulator;
            ps_bps :=
              {| bp_available := false; bp_enable := true; bp_task := 7;
                 bp_ntask := 255; bp_mpc := 65535;
                 bp_on_task_switch := true;
                 bp_mir_fmt := 0; bp_mir_mask := 0 |}
              :: drop 1 (psim_debug_table sample_breakpoints) |}
         ["3"%string]
       = Returned true
           {| ps_ui := tt; ps_sim := sim;
              ps_bps :=
                set_bp_enable
                  {| bp_available := false; bp_enable := true; bp_task := 7;
                     bp_ntask := 255; bp_mpc := 65535;
                     bp_on_task_switch := true;
                     bp_mir_fmt := 0; bp_mir_mask := 0 |} false
                :: drop 1 (psim_debug_table sample_breakpoints) |}.
Proof.
  destruct (@simulator_steps alto_header 3 reset_simulator)
    as [sim | ] eqn:Hrun.
  - exists sim. split; [ reflexivity | ].
    apply (@next_runs_the_given_number_of_steps alto_header unit
             (fun _ => true) (fun ui sim => Some (ui, sim))
             (fun _ _ => (3, true)) 4 tt reset_simulator sim _ _
             ["3"%string] 3%nat).
    + reflexivity.
    + repeat constructor.
    + reflexivity.
    + reflexivity.
    + lia.
    + exact Hrun.
  - pose proof (f_equal (fmap sim_cycle) Hrun) as Hcycle.
    vm_compute in Hcycle. discriminate Hcycle.
Defined.



(** ** Adding breakpoints *)


Section AddBreakpoint.

Variable strtoul : string -> Z -> Z * bool.





End AddBreakpoint.

(** ** The command line of the debugger *)

Lemma u64_u64_add (a b : Z) : u64 (u64 a + b) = u64 (a + b).
Proof. unfold u64. apply Zplus_mod_idemp_l. Qed.

Lemma u64_range (a : Z) : 0 <= u64 a < 2 ^ 64.
Proof. unfold u64. apply Z.mod_pos_bound. lia. Qed.

Section GetCommand.

Variable isspace : Z -> bool.

(** The loop stores the squeezed line as far as it leaves two bytes of the
    buffer free, and counts all of it. *)
Lemma get_command_loop_spec (stdin : list Z) :
  forall (buf : list Z) (i len : Z) (last_is_space : bool),
    Z.of_nat (length buf) < 2 ^ 64 ->
    i = 0 \/ 0 <= i /\ i + 2 <= Z.of_nat (length buf) ->
    0 <= len < 2 ^ 64 ->
    let sq := squeeze isspace (line_of stdin) last_is_space in
    let stored := take (Z.to_nat (Z.of_nat (length buf) - 2 - i)) sq in
    get_command_loop isspace stdin buf i len last_is_space
    = Some (after_line stdin, overwrite buf (Z.to_nat i) stored,
            i + Z.of_nat (length stored),
            u64 (len + Z.of_nat (length sq)),
            ends_in_space isspace (line_of stdin) last_is_space).
Proof.
  induction stdin as [ | c stdin IH ]; intros buf i len last Hsize Hi Hlen.
  - cbn. rewrite take_nil, overwrite_nil. cbn. rewrite !Z.add_0_r.
    unfold u64. rewrite Z.mod_small by lia. reflexivity.
  - cbn [get_command_loop line_of after_line].
    destruct (Z.eqb_spec c 10) as [ -> | Hc ].
    { cbn. rewrite take_nil, overwrite_nil. cbn. rewrite !Z.add_0_r.
      unfold u64. rewrite Z.mod_small by lia. reflexivity. }
    assert (Hstore : forall (v : Z) (last' : bool),
      let sq := v :: squeeze isspace (line_of stdin) last' in
      let stored := take (Z.to_nat (Z.of_nat (length buf) - 2 - i)) sq in
      (if u64 (i + 2) <? Z.of_nat (length buf) then
         match array_set buf i v with
         | None => None
         | Some buf =>
             get_command_loop isspace stdin buf (u64 (i + 1))
               (u64 (len + 1)) last'
         end
       else get_command_loop isspace stdin buf i (u64 (len + 1)) last')
      = Some (after_line stdin, overwrite buf (Z.to_nat i) stored,
              i + Z.of_nat (length stored),
              u64 (len + Z.of_nat (length sq)),
              ends_in_space isspace (line_of stdin) last')).
    { intros v last' sq stored. subst sq stored.
      assert (Hcount : forall n : nat,
                u64 (u64 (len + 1) + Z.of_nat n)
                = u64 (len + Z.of_nat (S n))).
      { intros n. rewrite u64_u64_add. f_equal. lia. }
      assert (Hu : u64 (i + 2) = i + 2)
        by (unfold u64; apply Z.mod_small; lia).
      rewrite Hu. cbn [length].
      destruct (Z.ltb_spec (i + 2) (Z.of_nat (length buf)))
        as [Hroom | Hfull].
      - assert (Hi0 : 0 <= i) by lia.
        unfold array_set.
        destruct (Z.leb_spec 0 i); [ | lia ].
        destruct (Z.ltb_spec i (Z.of_nat (length buf))); [ | lia ].
        cbn [andb].
        assert (Hu1 : u64 (i + 1) = i + 1)
          by (unfold u64; apply Z.mod_small; lia).
        rewrite Hu1.
        rewrite IH
          by (rewrite ?length_insert;
              first [ exact Hsize | apply u64_range | right; lia ]).
        rewrite length_insert, Hcount.
        replace (Z.to_nat (Z.of_nat (length buf) - 2 - i))
          with (S (Z.to_nat (Z.of_nat (length buf) - 2 - (i + 1))))
          by lia.
        cbn [take length].
        replace (Z.to_nat (i + 1)) with (S (Z.to_nat i)) by lia.
        rewrite overwrite_step by lia.
        match goal with
        | |- Some (_, _, ?a, _, _) = Some (_, _, ?b, _, _) =>
            replace a with b by lia
        end.
        reflexivity.
      - rewrite IH by first [ assumption | apply u64_range ].
        rewrite Hcount.
        replace (Z.to_nat (Z.of_nat (length buf) - 2 - i)) with 0%nat
          by lia.
        rewrite !take_0. reflexivity. }
    cbn [squeeze ends_in_space].
    destruct (isspace c) eqn:Hsp.
    + destruct last.
      * apply IH; assumption.
      * change (u8 0) with 0 in Hstore. exact (Hstore 0 true).
    + exact (Hstore (u8 c) false).
Qed.

Lemma overwrite_snoc (l : list Z) (ws : list Z) (v : Z) :
  (length ws < length l)%nat ->
  <[length ws := v]> (overwrite l 0 ws) = overwrite l 0 (ws ++ [v]).
Proof.
  intros Hlt. unfold overwrite. rewrite !take_0. cbn [app Nat.add].
  rewrite insert_app_r_alt by lia. rewrite Nat.sub_diag.
  rewrite <- app_assoc. f_equal.
  rewrite length_app. cbn [length app].
  destruct (lookup_lt_is_Some_2 l (length ws) Hlt) as [x Hx].
  rewrite (drop_S l x (length ws) Hx). cbn [insert list_insert].
  f_equal. f_equal. lia.
Qed.

(** What [psim_get_command] does once the loop has stored something:
    it closes the last word and the line, and empties the command when the
    count has reached the size of the buffer. *)
Lemma psim_get_command_stored (buf stdin : list Z) :
  Z.of_nat (length buf) < 2 ^ 64 ->
  let sq := squeeze isspace (line_of stdin) true in
  let stored := take (Z.to_nat (Z.of_nat (length buf) - 2)) sq in
  let ending :=
    if ends_in_space isspace (line_of stdin) true then [0] else [0; 0] in
  stored <> [] ->
  psim_get_command isspace buf stdin
  = if Z.of_nat (length buf)
       <=? u64 (Z.of_nat (length sq) + Z.of_nat (length ending))
    then Some (<[1%nat := 0]>
                 (<[0%nat := 0]> (overwrite buf 0 (stored ++ ending))),
               after_line stdin)
    else Some (overwrite buf 0 (stored ++ ending), after_line stdin).
Proof.
  intros Hsize sq stored ending Hstored.
  unfold psim_get_command.
  rewrite get_command_loop_spec by first [ exact Hsize | left; reflexivity | lia ].
  cbv zeta. rewrite !Z.add_0_l, Z.sub_0_r.
  change (Z.to_nat 0) with 0%nat. fold sq. fold stored.
  assert (Hls : (length stored <= Z.to_nat (Z.of_nat (length buf) - 2))%nat)
    by (unfold stored; rewrite length_take; lia).
  assert (Hpos : (0 < length stored)%nat)
    by (destruct stored; [ congruence | cbn; lia ]).
  assert (Hroom : (length stored + 2 <= length buf)%nat) by lia.
  destruct (Z.eqb_spec (Z.of_nat (length stored)) 0); [ lia | ].
  assert (Hlen0 : length (overwrite buf 0 stored) = length buf)
    by (apply overwrite_length; lia).
  assert (Hset : forall ws : list Z,
            (length ws < length buf)%nat ->
            array_set (overwrite buf 0 ws) (Z.of_nat (length ws)) 0
            = Some (overwrite buf 0 (ws ++ [0]))).
  { intros ws Hws. unfold array_set.
    rewrite overwrite_length by lia.
    destruct (Z.leb_spec 0 (Z.of_nat (length ws))); [ | lia ].
    destruct (Z.ltb_spec (Z.of_nat (length ws)) (Z.of_nat (length buf)));
      [ | lia ].
    cbn [andb]. rewrite Nat2Z.id, overwrite_snoc by lia. reflexivity. }
  assert (Hclear : forall b : list Z,
            length b = length buf ->
            (b' ← array_set b 0 0; b'' ← array_set b' 1 0;
             Some (b'', after_line stdin))
            = Some (<[1%nat := 0]> (<[0%nat := 0]> b), after_line stdin)).
  { intros b Hb. unfold array_set. rewrite Hb.
    destruct (Z.ltb_spec 0 (Z.of_nat (length buf))); [ | lia ].
    change ((0 <=? 0) && true) with true.
    change ((if true then Some (<[Z.to_nat 0:=0]> b) else None) ≫= ?f)
      with (f (<[0%nat := 0]> b)).
    cbv beta. rewrite length_insert, Hb.
    destruct (Z.ltb_spec 1 (Z.of_nat (length buf))); [ | lia ].
    reflexivity. }
  unfold ending.
  destruct (ends_in_space isspace (line_of stdin) true);
    cbn [negb mbind option_bind length].
  - rewrite Hset by lia. cbn [mbind option_bind].
    rewrite overwrite_length by (rewrite length_app; cbn; lia).
    rewrite u64_u64_add.
    change (Z.of_nat 1) with 1.
    destruct (Z.leb_spec (Z.of_nat (length buf))
                (u64 (Z.of_nat (length sq) + 1))).
    + apply Hclear. apply overwrite_length. rewrite length_app. cbn. lia.
    + reflexivity.
  - rewrite Hset by lia. cbn [mbind option_bind].
    assert (Hu : u64 (Z.of_nat (length stored) + 1)
                 = Z.of_nat (length (stored ++ [0]))).
    { rewrite length_app. cbn [length]. unfold u64.
      rewrite Z.mod_small by lia. lia. }
    rewrite Hu, Hset by (rewrite length_app; cbn; lia).
    cbn [mbind option_bind]. rewrite <- app_assoc. cbn [app].
    rewrite overwrite_length by (rewrite length_app; cbn; lia).
    rewrite u64_u64_add, <- Z.add_assoc, u64_u64_add.
    change (1 + 1) with (Z.of_nat 2).
    destruct (Z.leb_spec (Z.of_nat (length buf))
                (u64 (Z.of_nat (length sq) + Z.of_nat 2))).
    + apply Hclear. apply overwrite_length. rewrite length_app. cbn. lia.
    + reflexivity.
Qed.

End GetCommand.

Section CommandLine.

Variable isspace : Z -> bool.

Lemma line_of_app (line tail : list Z) :
  Forall (fun c => c <> 10) line ->
  tail = [] \/ head tail = Some 10 ->
  line_of (line ++ tail) = line /\ after_line (line ++ tail) = drop 1 tail.
Proof.
  intros Hline Htail.
  induction Hline as [ | c line Hc _ IH ]; cbn [app line_of after_line].
  - destruct Htail as [ -> | Htail ]; [ split; reflexivity | ].
    destruct tail as [ | c tail ]; [ discriminate Htail | ].
    injection Htail as ->. split; reflexivity.
  - destruct (Z.eqb_spec c 10); [ contradiction | ].
    destruct IH as [-> ->]. split; reflexivity.
Qed.

Lemma squeeze_blanks (blanks rest : list Z) (last_is_space : bool) :
  Forall (blank isspace) blanks ->
  squeeze isspace (blanks ++ rest) last_is_space
  = (if last_is_space then []
     else match blanks with [] => [] | _ :: _ => [0] end)
    ++ squeeze isspace rest
         (match blanks with [] => last_is_space | _ :: _ => true end).
Proof.
  intros Hblanks. revert last_is_space.
  induction Hblanks as [ | c blanks [Hc _] _ IH ]; intros last.
  - destruct last; reflexivity.
  - cbn [app squeeze]. rewrite Hc.
    destruct last; rewrite IH; cbn [app]; destruct blanks; reflexivity.
Qed.

Lemma squeeze_word (w rest : list Z) (last_is_space : bool) :
  Forall (fun c => isspace c = false /\ c <> 10 /\ 0 <= c < 256) w ->
  squeeze isspace (w ++ rest) last_is_space
  = w ++ squeeze isspace rest
           (match w with [] => last_is_space | _ :: _ => false end).
Proof.
  intros Hw. revert last_is_space.
  induction Hw as [ | c w (Hc & _ & Hbyte) _ IH ]; intros last.
  - reflexivity.
  - cbn [app squeeze]. rewrite Hc, IH. unfold u8.
    rewrite Z.mod_small by lia. destruct w; reflexivity.
Qed.

Lemma ends_in_space_app (a b : list Z) (last_is_space : bool) :
  ends_in_space isspace (a ++ b) last_is_space
  = ends_in_space isspace b (ends_in_space isspace a last_is_space).
Proof.
  revert last_is_space. induction a as [ | c a IH ]; intros last;
    [ reflexivity | ].
  cbn [app ends_in_space]. apply IH.
Qed.

Lemma ends_in_space_blanks (blanks : list Z) (last_is_space : bool) :
  Forall (blank isspace) blanks ->
  ends_in_space isspace blanks last_is_space
  = match blanks with [] => last_is_space | _ :: _ => true end.
Proof.
  intros Hblanks. revert last_is_space.
  induction Hblanks as [ | c blanks [Hc _] Hrest IH ]; intros last;
    [ reflexivity | ].
  cbn [ends_in_space]. rewrite IH, Hc. destruct blanks; reflexivity.
Qed.

Lemma ends_in_space_word (w : list Z) (last_is_space : bool) :
  word isspace w -> ends_in_space isspace w last_is_space = false.
Proof.
  intros [Hne Hw]. revert last_is_space.
  induction Hw as [ | c w (Hc & _) Hrest IH ]; intros last;
    [ congruence | ].
  cbn [ends_in_space]. destruct w as [ | c' w ]; [ exact Hc | ].
  apply IH. discriminate.
Qed.

Lemma squeeze_items (items : list (list Z * list Z)) (rest : list Z) :
  Forall (spaced isspace) items ->
  forall last_is_space : bool,
    squeeze isspace
      (concat (map (fun item => item.1 ++ item.2) items) ++ rest)
      last_is_space
    = concat (map (fun item => item.1 ++ [0]) items)
      ++ squeeze isspace rest
           (match items with [] => last_is_space | _ :: _ => true end).
Proof.
  intros Hitems.
  induction Hitems as [ | [w sep] items ([Hne Hw] & Hsep & Hblank) _ IH ];
    intros last; [ reflexivity | ].
  cbn [map concat fst snd] in *. rewrite <- !List.app_assoc.
  rewrite squeeze_word by exact Hw.
  destruct w as [ | c w ]; [ congruence | ].
  rewrite squeeze_blanks by exact Hblank.
  destruct sep as [ | s sep ]; [ congruence | ].
  rewrite IH. cbn [app]. rewrite <- ?List.app_assoc. cbn [app].
  destruct items; reflexivity.
Qed.

Lemma command_line_no_newline
    (lead : list Z) (items : list (list Z * list Z)) (w_last trail : list Z) :
  Forall (blank isspace) lead -> Forall (spaced isspace) items ->
  word isspace w_last -> Forall (blank isspace) trail ->
  Forall (fun c => c <> 10) (command_line lead items w_last trail).
Proof.
  intros Hlead Hitems [_ Hlast] Htrail. unfold command_line.
  assert (Hb : forall l, Forall (blank isspace) l ->
                         Forall (fun c => c <> 10) l).
  { intros l Hl. eapply Forall_impl; [ exact Hl | ].
    intros c [_ Hc]. exact Hc. }
  assert (Hw : forall l,
            Forall (fun c => isspace c = false /\ c <> 10 /\ 0 <= c < 256) l
            -> Forall (fun c => c <> 10) l).
  { intros l Hl. eapply Forall_impl; [ exact Hl | ].
    intros c (_ & Hc & _). exact Hc. }
  repeat apply Forall_app_2; auto.
  induction Hitems as [ | [w sep] items ([_ Hw1] & _ & Hsep) _ IH ];
    [ constructor | ].
  cbn [map concat fst snd] in *. repeat apply Forall_app_2; auto.
Qed.

(** The squeezed form of a line with at least one word. *)
Lemma squeeze_command_line
    (lead : list Z) (items : list (list Z * list Z)) (w_last trail : list Z) :
  Forall (blank isspace) lead -> Forall (spaced isspace) items ->
  word isspace w_last -> Forall (blank isspace) trail ->
  let line := command_line lead items w_last trail in
  squeeze isspace line true
  ++ (if ends_in_space isspace line true then [0] else [0; 0])
  = command_words items w_last
  /\ squeeze isspace line true <> [].
Proof.
  intros Hlead Hitems Hlast Htrail line. subst line.
  unfold command_line, command_words.
  rewrite !ends_in_space_app.
  rewrite (ends_in_space_blanks trail) by exact Htrail.
  rewrite (ends_in_space_word w_last) by exact Hlast.
  rewrite squeeze_blanks by exact Hlead. cbn [app].
  rewrite squeeze_items by exact Hitems.
  destruct Hlast as [Hne Hlast].
  rewrite squeeze_word by exact Hlast.
  destruct w_last as [ | c w_last ]; [ congruence | ].
  rewrite <- (List.app_nil_r trail) at 1.
  rewrite squeeze_blanks by exact Htrail. cbn [squeeze].
  rewrite List.app_nil_r. split.
  - rewrite <- !List.app_assoc. destruct trail; reflexivity.
  - destruct items as [ | [[ | c' w] sep] items ]; discriminate.
Qed.

End CommandLine.

Section CommandBuffer.

Variable isspace : Z -> bool.

Lemma psim_get_command_nothing_stored (buf stdin : list Z) :
  Z.of_nat (length buf) < 2 ^ 64 ->
  take (Z.to_nat (Z.of_nat (length buf) - 2))
    (squeeze isspace (line_of stdin) true) = [] ->
  psim_get_command isspace buf stdin = Some (buf, after_line stdin).
Proof.
  intros Hsize Hstored. unfold psim_get_command.
  rewrite get_command_loop_spec
    by first [ exact Hsize | left; reflexivity | lia ].
  cbv zeta. rewrite Z.sub_0_r, Hstored. cbn [length].
  change (0 + Z.of_nat 0 =? 0) with true. cbv iota.
  rewrite overwrite_nil. reflexivity.
Qed.

(** X22. A command line is stored as its words: for a line with at least
    one word, whatever the spaces before, between and after the words, and
    whether it ends with a newline or with the end of the input,
    [psim_get_command] leaves in the command buffer the words one after
    the other, each followed by a NUL, and one more NUL, provided that
    these bytes are fewer than the buffer has; the bytes of the buffer
    after them are as before, and the input is consumed up to and
    including the newline. *)
Theorem command_line_is_split_into_words
    (buf lead : list Z) (items : list (list Z * list Z))
    (w_last trail tail : list Z) :
  Forall (blank isspace) lead -> Forall (spaced isspace) items ->
  word isspace w_last -> Forall (blank isspace) trail ->
  tail = [] \/ head tail = Some 10 ->
  Z.of_nat (length (command_words items w_last)) < Z.of_nat (length buf) ->
  Z.of_nat (length buf) < 2 ^ 64 ->
  psim_get_command isspace buf (command_line lead items w_last trail ++ tail)
  = Some (overwrite buf 0 (command_words items w_last), drop 1 tail).
Proof.
  intros Hlead Hitems Hlast Htrail Htail Hfits Hsize.
  pose proof (command_line_no_newline isspace lead items w_last trail
                Hlead Hitems Hlast Htrail) as Hline.
  destruct (line_of_app _ tail Hline Htail) as [Hl Ha].
  destruct (squeeze_command_line isspace lead items w_last trail
              Hlead Hitems Hlast Htrail) as [Hwords Hne].
  cbv zeta in Hwords.
  pose proof (psim_get_command_stored isspace buf
                (command_line lead items w_last trail ++ tail) Hsize)
    as Hrun.
  cbv zeta in Hrun. rewrite Hl, Ha in Hrun.
  set (sq := squeeze isspace (command_line lead items w_last trail) true)
    in *.
  set (ending :=
         if ends_in_space isspace (command_line lead items w_last trail) true
         then [0] else [0; 0]) in *.
  assert (Hlen : Z.of_nat (length sq) + Z.of_nat (length ending)
                 = Z.of_nat (length (command_words items w_last)))
    by (rewrite <- Hwords, length_app; lia).
  assert (Hend : (1 <= length ending)%nat)
    by (unfold ending; destruct (ends_in_space _ _ _); cbn; lia).
  rewrite take_ge in Hrun by lia.
  rewrite Hrun by exact Hne.
  rewrite Hlen, Hwords. unfold u64. rewrite Z.mod_small by lia.
  destruct (Z.leb_spec (Z.of_nat (length buf))
              (Z.of_nat (length (command_words items w_last))));
    [ lia | reflexivity ].
Qed.

(** X23. [psim_get_command] never writes outside the command buffer:
    whatever the input and the size of the buffer, every write is inside
    it; the buffer keeps its size and the input is consumed up to and
    including the first newline. *)
Theorem command_line_never_overflows (buf stdin : list Z) :
  Z.of_nat (length buf) < 2 ^ 64 ->
  exists buf' : list Z,
    psim_get_command isspace buf stdin = Some (buf', after_line stdin)
    /\ length buf' = length buf.
Proof.
  intros Hsize.
  destruct (take (Z.to_nat (Z.of_nat (length buf) - 2))
              (squeeze isspace (line_of stdin) true)) as [ | x stored ]
    eqn:Hstored.
  - exists buf. split; [ | reflexivity ].
    apply psim_get_command_nothing_stored; assumption.
  - pose proof (psim_get_command_stored isspace buf stdin Hsize) as Hrun.
    cbv zeta in Hrun. rewrite Hstored in Hrun.
    rewrite Hrun by discriminate.
    assert (Hls : (length (x :: stored)
                   <= Z.to_nat (Z.of_nat (length buf) - 2))%nat)
      by (rewrite <- Hstored, length_take; lia).
    cbn [length] in Hls.
    assert (Hfit : (0 + length ((x :: stored)
                     ++ (if ends_in_space isspace (line_of stdin) true
                         then [0%Z] else [0%Z; 0%Z]))
                    <= length buf)%nat).
    { rewrite length_app. cbn [length].
      destruct (ends_in_space _ _ _); cbn [length]; lia. }
    destruct (Z.leb_spec (Z.of_nat (length buf))
                (u64 (Z.of_nat (length (squeeze isspace (line_of stdin)
                                          true))
                      + Z.of_nat (length (if ends_in_space isspace
                                               (line_of stdin) true
                                          then [0] else [0; 0])))));
      eexists; (split; [ reflexivity | ]);
      rewrite ?length_insert; apply overwrite_length; exact Hfit.
Qed.

(** X24. A command line that does not fit is not run in part: for a line
    with at least one word whose words, with the NUL after each of them
    and the NUL at the end, need as many bytes as the buffer has or more,
    [psim_get_command] leaves a buffer that starts with two NULs, that is
    an empty command without words, whatever was stored before. *)
Theorem long_command_line_is_emptied
    (buf lead : list Z) (items : list (list Z * list Z))
    (w_last trail tail : list Z) :
  Forall (blank isspace) lead -> Forall (spaced isspace) items ->
  word isspace w_last -> Forall (blank isspace) trail ->
  tail = [] \/ head tail = Some 10 ->
  3 <= Z.of_nat (length buf)
    <= Z.of_nat (length (command_words items w_last)) ->
  Z.of_nat (length (command_words items w_last)) < 2 ^ 64 ->
  exists buf' : list Z,
    psim_get_command isspace buf
      (command_line lead items w_last trail ++ tail)
    = Some (buf', drop 1 tail)
    /\ length buf' = length buf
    /\ buf' !! 0%nat = Some 0 /\ buf' !! 1%nat = Some 0.
Proof.
  intros Hlead Hitems Hlast Htrail Htail Hlong Hwrap.
  pose proof (command_line_no_newline isspace lead items w_last trail
                Hlead Hitems Hlast Htrail) as Hline.
  destruct (line_of_app _ tail Hline Htail) as [Hl Ha].
  destruct (squeeze_command_line isspace lead items w_last trail
              Hlead Hitems Hlast Htrail) as [Hwords Hne].
  cbv zeta in Hwords.
  pose proof (psim_get_command_stored isspace buf
                (command_line lead items w_last trail ++ tail)
                ltac:(lia)) as Hrun.
  cbv zeta in Hrun. rewrite Hl, Ha in Hrun.
  set (sq := squeeze isspace (command_line lead items w_last trail) true)
    in *.
  set (ending :=
         if ends_in_space isspace (command_line lead items w_last trail) true
         then [0] else [0; 0]) in *.
  assert (Hlen : Z.of_nat (length sq) + Z.of_nat (length ending)
                 = Z.of_nat (length (command_words items w_last)))
    by (rewrite <- Hwords, length_app; lia).
  assert (Hend : (1 <= length ending <= 2)%nat)
    by (unfold ending; destruct (ends_in_space _ _ _); cbn; lia).
  set (stored := take (Z.to_nat (Z.of_nat (length buf) - 2)) sq) in *.
  assert (Hstored : stored <> []).
  { unfold stored. destruct sq as [ | x sq ]; [ congruence | ].
    replace (Z.to_nat (Z.of_nat (length buf) - 2))
      with (S (Z.to_nat (Z.of_nat (length buf) - 3))) by lia.
    discriminate. }
  rewrite Hrun by exact Hstored.
  rewrite Hlen. unfold u64. rewrite Z.mod_small by lia.
  destruct (Z.leb_spec (Z.of_nat (length buf))
              (Z.of_nat (length (command_words items w_last))));
    [ | lia ].
  assert (Hfit : length (overwrite buf 0 (stored ++ ending)) = length buf).
  { apply overwrite_length. rewrite length_app. unfold stored.
    rewrite length_take. lia. }
  eexists. split; [ reflexivity | ].
  split; [ rewrite !length_insert; exact Hfit | ].
  split.
  - rewrite list_lookup_insert_ne by lia.
    apply list_lookup_insert_eq. lia.
  - apply list_lookup_insert_eq. rewrite length_insert. lia.
Qed.

(** X25. A line without a word runs the previous command again: when the
    line is empty or has only spaces, [psim_get_command] leaves the
    command buffer as it is. *)
Theorem blank_line_keeps_the_command (buf blanks tail : list Z) :
  Forall (blank isspace) blanks ->
  tail = [] \/ head tail = Some 10 ->
  Z.of_nat (length buf) < 2 ^ 64 ->
  psim_get_command isspace buf (blanks ++ tail) = Some (buf, drop 1 tail).
Proof.
  intros Hblanks Htail Hsize.
  assert (Hline : Forall (fun c => c <> 10) blanks).
  { eapply Forall_impl; [ exact Hblanks | ]. intros c [_ Hc]. exact Hc. }
  destruct (line_of_app blanks tail Hline Htail) as [Hl Ha].
  rewrite <- Ha. apply psim_get_command_nothing_stored; [ exact Hsize | ].
  rewrite Hl. rewrite <- (List.app_nil_r blanks).
  rewrite squeeze_blanks by exact Hblanks. cbn [app squeeze].
  apply take_nil.
Qed.

End CommandBuffer.

Lemma command_line_is_split_into_words_witness :
  psim_get_command c_isspace sample_cmd_buf sample_stdin
  = Some ([98; 112; 0; 45; 116; 0; 51; 0; 0; 7; 7; 7], [99]).
Proof.
  refine (command_line_is_split_into_words c_isspace sample_cmd_buf
            [32] [([98; 112], [32; 32]); ([45; 116], [9])] [51] [32]
            [10; 99] _ _ _ _ _ _ _).
  - repeat constructor; discriminate.
  - repeat constructor; first [ discriminate | lia ].
  - repeat constructor; first [ discriminate | lia ].
  - repeat constructor; discriminate.
  - right. reflexivity.
  - vm_compute. reflexivity.
  - vm_compute. reflexivity.
Defined.

Lemma command_line_never_overflows_witness :
  exists buf' : list Z,
    psim_get_command c_isspace [7; 7; 7; 7] sample_stdin = Some (buf', [99])
    /\ length buf' = 4%nat.
Proof.
  apply (command_line_never_overflows c_isspace [7; 7; 7; 7] sample_stdin).
  vm_compute. reflexivity.
Defined.

Lemma long_command_line_is_emptied_witness :
  exists buf' : list Z,
    psim_get_command c_isspace [99; 0; 0; 7; 7; 7; 7; 7; 7] sample_stdin
    = Some (buf', [99])
    /\ length buf' = 9%nat
    /\ buf' !! 0%nat = Some 0 /\ buf' !! 1%nat = Some 0.
Proof.
  refine (long_command_line_is_emptied c_isspace
            [99; 0; 0; 7; 7; 7; 7; 7; 7]
            [32] [([98; 112], [32; 32]); ([45; 116], [9])] [51] [32]
            [10; 99] _ _ _ _ _ _ _).
  - repeat constructor; discriminate.
  - repeat constructor; first [ discriminate | lia ].
  - repeat constructor; first [ discriminate | lia ].
  - repeat constructor; discriminate.
  - right. reflexivity.
  - vm_compute. split; discriminate.
  - vm_compute. reflexivity.
Defined.

Lemma blank_line_keeps_the_command_witness :
  psim_get_command c_isspace sample_cmd_buf [32; 9; 10; 99]
  = Some (sample_cmd_buf, [99]).
Proof.
  refine (blank_line_keeps_the_command c_isspace sample_cmd_buf [32; 9]
            [10; 99] _ _ _).
  - repeat constructor; discriminate.
  - right. reflexivity.
  - vm_compute. reflexivity.
Defined.
